(* ===== verification/_CoqProject ===== *)
-Q . S2P
Prelude.v
JsString.v
Store.v
Gateway.v
Token.v
Relay.v
History.v
Account.v
Otp.v
Caretaker.v
Games.v
Routing.v
GameScreens.v
Profiles.v
Client.v
CaretakerChat.v
CaretakerSettings.v
LoginPages.v
Routes.v
Assistant.v
CallCaretaker.v
Contact.v
Layout.v
