(* ===== verification/Prelude.v ===== *)
(** * MindMate: a verification development of the chat relay, its accounts and its screens

    MindMate ([src/Backend], an Express + Socket.IO + mongoose server, and
    [src/Frontend], a React application) lets users chat in real time with
    caretakers and an AI assistant, play brain games for points, and follow
    their progress; caretakers chat with their users, track them and manage
    their own settings.  The parts modelled here, and how they interact:

    - server: the message store ([models/Chat.model.js]); the Socket.IO
      handshake and the REST [auth] middleware (JWT to identity); the relay
      ([server.js] ["send_message"]), which persists a message and emits it
      to the receiver's and the sender's rooms; the REST history and
      directory routes ([chat.controller.js], [caretaker.chatRoutes.js]);
      the account handlers ([auth.controller.js]: register, login, Google
      sign-up, profile, the OTP flows, [updateBasicProfile], [getSettings]
      and [updateSettings]); the caretaker
      handlers ([caretaker.controller.js]); the games and the points of a
      play ([games.controller.js]); the contact route and the daily
      reminder job and the assistant route ([server.js]); the route
      tables ([routes/*.js]);
    - browser: [localStorage] as the session, the route table of [App.jsx]
      with its two guards, and [api.js]; the user and caretaker chat
      screens ([Pages/Chat.jsx], [Adminpages/CaretakerChat.jsx]); the game
      list and play screens; the three progress screens; the caretaker
      settings screen and the theme provider; the three sign-in pages
      ([Login.jsx], [Register.jsx], [CaretakerLogin.jsx]); the caretaker
      directory ([Callcaretaker.jsx]); the contact page ([Contact.jsx]).

    A screen's request or emit is an output of its step function; the
    server handler it reaches is a function of the model, and the
    composition theorems chain the two (a caretaker's message from
    [handleSend] to [Chat.create] and the profile counter; a settings save
    to [updateBasicProfile]; a logout to the route guards; a sign-up
    form to [register], a sign-in form to [login] and the stored session;
    the directory's message button to the chat screen's conversation;
    the contact form to the contact route and its mails).

    ** Files (in dependency order)

    - [Prelude.v] (this file): the [result] error type and its bind
      notation in [mm_scope]; JavaScript's [findIndex] and the move-to-front
      update of the contact lists ([find_index], [bump]); the tactics
      [invc] and [concrete]; the hint databases [mm] and [mm_rw]; generic
      lemmas on lists, [find] and [filter].
    - [JsString.v]: [trim], [toLowerCase]/[toUpperCase], truthiness,
      [String(x)], [ObjectId.isValid], [startsWith], [split].
    - [Store.v]: the schema ([Chat], [validate_chat]); the store as the
      classes [MessageStore]/[MessageStoreLaws], against which the relay and
      the routes are proved; the in-memory [MemStore] with its invariant.
    - [Gateway.v]: [jwt_verify] behind the [JwtLib] class, [gateway_auth]
      ([io.use]), [auth_middleware]; [Demo] is a token table for examples.
    - [Token.v]: [jwt.sign] as the class [JwtSigner] and a concrete codec.
    - [Relay.v]: the server state, its events and [server_step]; the
      ["send_message"] handler split at its [await] so that events
      interleave; [reachable] states and the invariant [server_inv].
    - [History.v]: [getMessages], the REST write, counters, partner lists.
    - [Account.v]: the users collection ([AccDb]) and the account handlers,
      each [AccDb -> ... -> AccDb * result (nat * string) A]; [Bcrypt].
    - [Otp.v]: the OTP handlers; the reset split at its [await]s
      ([reset_begin]/[reset_finish]); the e-mail pattern as a scanner.
    - [Caretaker.v]: the caretakers collection, its handlers and the step
      relation [ct_step] of the routes that write it.
    - [Games.v]: the catalogue and [playGame] on exact rationals.
    - [Routing.v]: [Storage], the route table, [ProtectedRoute] and
      [PublicRoute], [navigate] (redirects followed with fuel), [api.js].
    - [GameScreens.v]: [Games.jsx] (modules [GamesList]) and
      [GamePlay.jsx] ([Play]: one post per visit, beacon on tab close).
    - [Profiles.v]: badges, levels, progress, today's counters, paged feeds,
      achievements and the ranking of the three progress screens.
    - [Client.v]: [Chat.jsx]'s state hooks as a record, its socket and
      history effects, every handler as [Client -> Client * list Output].
    - [CaretakerChat.v]: [CaretakerChat.jsx] the same way ([CtClient],
      [cc_step]): one socket for the screen's lifetime.
    - [CaretakerSettings.v]: [CaretakerSettings.jsx] ([SettingsScreen],
      [sp_step], each request split into a request and an answer event),
      [ThemeContext.jsx] ([ThemeCtx], [theme_effect]), [JSON] of the stored
      account as the class [JsonCodec], [updateBasicProfile]; the
      server's [getSettings]/[updateSettings] ([get_settings],
      [update_settings]) with the caller id as input.
    - [LoginPages.v]: the form state of the three sign-in pages ([Form],
      [SignPage]) and their handlers ([login_step], [register_step],
      [caretaker_step]), each request an output and its answer an event.
    - [Routes.v]: the route tables of [routes/*.js] and the layers of
      [server.js] ([app_layers]), Express's first-match [dispatch] with
      the guards run on the way and the 404 of an unmatched path.
    - [Assistant.v]: the assistant route [POST /api/chat] ([ai_chat]),
      its answer as the chat screen reads it, and the chat screen's HTTP
      requests ([http_request]) followed through [dispatch].
    - [CallCaretaker.v]: the directory page ([CallPage], [call_step]),
      [isAvailable] on the JSON of a caretaker document ([Card],
      [card_of]) and the cards as drawn.
    - [Contact.v]: [POST /api/contact] ([contact]) over [sendBrevoEmail]
      ([send_brevo_email], the delivery a parameter), the daily reminder
      job ([daily_reminders]) and the page [Contact.jsx] ([contact_step]).
    - [Layout.v]: the links of the user layout ([Layout.jsx]) and where
      the route guards send them.

    ** What is proved (claim ids of PROJECT.json)

    - Relay and history (C1-C7): a valid send is persisted once and
      delivered to every socket of the receiver and the sender; blank sends
      are dropped; every socket passed the handshake and every emitted
      event carries a stored document, by induction over reachable states;
      the history query is exact and a relayed message is last in every
      later fetch.
    - Caretaker screens (C10-C14, C30): a caretaker's message is stored
      with the caretaker as sender and counted by the profile update; a
      profile change from a caretaker session reports success and persists
      nothing; logout keeps [userType] so a Google sign-up is routed as a
      caretaker; the settings save and load answer 500 for a caretaker;
      one socket per screen lifetime; the privacy forms only send what the
      server's checks accept.
    - Sign-in pages (C15, C16): a sign-up on the Register page with a
      fresh e-mail is accepted and sends the user to [/login], and a
      sign-in there with the same credentials is accepted, stores a
      session and renders [/home]; on the caretaker page an accepted login
      stores the caretaker session and renders [/caretaker/home], a
      rejected one keeps the storage and shows an error toast.
    - Caretaker directory (C17, C18): a voice call opens the dialer only
      for an available caretaker and logs the call to a path no router
      mounts; the message button opens that caretaker's conversation in
      the chat screen.
    - Server routing (C19): a request reaching a handler that reads the
      caller has passed [auth] or [verifyToken], whatever its path.
    - Contact and reminders (C20, C21): the contact form reaches the
      route with the stored account's name and e-mail, both mails are
      attempted and the page reports success whether or not they were
      delivered; the daily job mails exactly the users with e-mail
      notifications on and never pushes (the schema has no [pushToken]).
    - Assistant and chat requests (C22, C23): every HTTP request of the
      user chat screen reaches its handler after [auth], the counter
      update by case-insensitive matching; the assistant's answer shown is
      Gemini's text, the server's apology when Gemini fails, or the
      screen's own message for a 401 or a 501.
    - Accounts and tokens (C24-C29): Google sign-up takes over any account
      by e-mail; the profile is whatever the client sends; the account
      invariant is preserved; the middleware's resolution order; no
      secret, no authentication; an OTP is single-use only for sequential
      requests.
    - Games (C9, C31, C32, C35, C38): at most one post per visit; the
      client chooses the difficulty that scores; an honest client posts the
      catalogue's; going back always leaves the screen; posted bodies are
      well typed.
    - Routing (C8, C33, C34): a Google sign-up on the Register page loops
      forever; well-formed sessions render after at most one redirect;
      protected pages require the session's type.
    - Progress screens (C36, C37): plain-text caretaker passwords; the
      caretaker achievement is unreachable (no route writes
      [totalSessions]).
    - User chat screen (C39, C40): messages from anyone show in the open
      conversation; a message from a caretaker of the list tears the
      socket down and opens a new one.
    - Not claims, but proved: in [Store.v], the store invariant is
      preserved by every store operation ([store_wf_preserved]); in
      [Otp.v], the reset handler is its two halves in a row
      ([reset_refines_begin_finish]); in [Profiles.v], the progress bar
      stays within 0 and 100 ([progress_bounds]); in
      [CaretakerSettings.v], a user's settings save is what the next load
      returns ([settings_saved_then_loaded]); in
      [LoginPages.v], a bad Google credential gets a toast on the Login page
      and nothing on the Register page ([google_bad_credential]); in
      [Gateway.v], the handshake's cases ([gateway_auth_cases]); in
      [Account.v], login tokens authenticate for a day
      ([login_token_authenticates]); in [CaretakerChat.v], the caretaker
      screen shows a message from anyone in the open conversation
      ([caretaker_receive_shown_in_any_conversation]); an e-mail change
      and an OTP password reset from a caretaker session report success
      and change nothing ([caretaker_email_change_not_persisted],
      [Otp.reset_by_non_user_changes_no_password]); in [Contact.v], a
      page without a stored account gets the route's 400, and an answer
      restores the name the form had when it was sent; in [Routes.v], no
      route is shadowed ([every_route_reachable]) and unmatched paths end
      in a 404 after the mount's guards ([route_edge_cases]); in
      [CallCaretaker.v], [GET /caretaker] hands every caretaker's stored
      password to any signed-in caller, which the login answer blanks
      ([directory_exposes_passwords]); in [Layout.v], every link of the
      user layout renders its page for a user session and the caretaker
      home for a caretaker session ([layout_links_render]).

    Every theorem with hypotheses has a witness applying it to concrete
    data built by running the model (the [...Witness] modules).

    ** Modelling choices, bounds and fuel

    - Strings are Stdlib [string] (8-bit characters); [trim] removes the
      ASCII white space of ECMAScript; Unicode is not modelled.
    - A JWT verifies iff signed with the configured key and not expired.
    - Time is a natural-number clock advanced by explicit events; numbers
      of [playGame] are exact rationals, points and counters are [Z].
    - Effects of React components are outputs; the answer of a request is
      an event of its own, so that any interleaving is a list of events.
    - [navigate] is the only definition with fuel: redirects of the guards
      settle in at most two steps for a well-formed session (C33), and the
      witnesses use fuel 1 to 3; the loop of C8 is proved for all fuel,
      as an infinite redirect sequence.  Everything else is structurally
      recursive.

    ** Not modelled

    The mail and push services themselves (a delivery is a parameter whose
    result only reaches the console) and the cron trigger of the daily job
    (the job is a function of the collections when it runs);
    [routes/utils/emailService.js], which no module imports; the Gemini
    model itself (its text or failure is the parameter [generate]);
    the presentational pages (static content and animation: the home
    page's search box only logs its query, the hero sections toggle a
    local text size);
    the [verifyToken] middleware of the settings routes, which is
    not under [src/] (the caller id it resolves is an input of
    [get_settings] and [update_settings]); the theme provider's
    initial read of [localStorage]; the mobile resize listeners (the width
    is a parameter); the Google sign-in widget (its credential is an
    event, its decoding a parameter). *)

From Stdlib Require Import Ascii String.
From stdpp Require Import base list strings.

(** ** Notation scope of the development *)

Declare Scope mm_scope.
Delimit Scope mm_scope with mm.
Open Scope mm_scope.

(** ** Results of fallible operations

    A handler of the program either succeeds with a value or fails with an
    error value (a rejected event, an HTTP error status, a database
    error).  [result E A] keeps the error as data so that every error path
    of the code is a value that theorems can talk about. *)

Inductive result (E A : Type) : Type :=
| Ok (a : A)
| Err (e : E).
Arguments Ok {E A} a.
Arguments Err {E A} e.

Definition result_bind {E A B} (r : result E A) (k : A -> result E B) : result E B :=
  match r with Ok a => k a | Err e => Err e end.

Notation "x <-? r ;; k" := (result_bind r (fun x => k))
  (at level 100, r at next level, right associativity) : mm_scope.

Definition of_option {E A} (e : E) (o : option A) : result E A :=
  match o with Some a => Ok a | None => Err e end.

(** ** [findIndex] and the move-to-front update of the React lists

    Both chat screens update their contact lists with the same idiom:
<<
      const idx = prev.findIndex(pred);
      if (idx === -1) return prev;
      const updated = { ...prev[idx], ... };
      return [updated, ...prev.slice(0, idx), ...prev.slice(idx + 1)];
>>
    [find_index] is [Array.prototype.findIndex] (with [None] for [-1]) and
    [bump p f l] is the whole idiom. *)

Fixpoint find_index {A} (p : A -> bool) (l : list A) : option nat :=
  match l with
  | [] => None
  | x :: l' => if p x then Some 0 else S <$> find_index p l'
  end.

Definition bump {A} (p : A -> bool) (f : A -> A) (l : list A) : list A :=
  match find_index p l with
  | None => l
  | Some i =>
      match l !! i with
      | Some x => f x :: take i l ++ drop (S i) l
      | None => l
      end
  end.

(** ** Automation *)

Create HintDb mm discriminated.
Create Rewrite HintDb mm_rw.

(** Invert a hypothesis and clean up. *)
Ltac invc H := inversion H; subst; clear H.

(** Close a side condition about concrete data by evaluation: an equation
    by [vm_compute], a decidable proposition by deciding it, a disequation
    by computing both sides. *)
Ltac concrete :=
  first [ reflexivity
        | vm_compute; reflexivity
        | match goal with |- ?P => apply (bool_decide_eq_true_1 P) end; vm_compute; reflexivity
        | vm_compute; congruence
        | lia ].

(** ** Generic lemmas on [find_index] and [bump] *)

Section Bump.
Context {A : Type}.
Implicit Types (p : A -> bool) (f : A -> A) (l : list A).

Lemma find_index_None p l :
  find_index p l = None <-> Forall (fun x => p x = false) l.
Proof.
  induction l as [|x l IH]; simpl; [split; auto|].
  rewrite Forall_cons. destruct (p x) eqn:Hx; [split; [discriminate|intros [? _]; congruence]|].
  destruct (find_index p l); simpl; rewrite <- IH; intuition congruence.
Qed.

Lemma find_index_Some p l i :
  find_index p l = Some i ->
  exists x, l !! i = Some x /\ p x = true /\
            Forall (fun y => p y = false) (take i l).
Proof.
  revert i. induction l as [|y l IH]; intros i; simpl; [discriminate|].
  destruct (p y) eqn:Hy.
  - intros [= <-]. exists y. simpl. auto.
  - destruct (find_index p l) as [j|] eqn:Hj; simpl; [|discriminate].
    intros [= <-]. destruct (IH j eq_refl) as (x & Hl & Hp & Hpre).
    exists x. simpl. rewrite Forall_cons. auto.
Qed.

Lemma bump_not_found p f l :
  Forall (fun x => p x = false) l -> bump p f l = l.
Proof. intros H. unfold bump. by rewrite (proj2 (find_index_None p l) H). Qed.

(** The two cases of the idiom: nothing matches and the list is returned
    as it is, or the list splits at the first match and [bump] puts its
    update in front of the rest. *)
Lemma bump_cases p f l :
  (Forall (fun x => p x = false) l /\ bump p f l = l) \/
  exists pre x post, l = pre ++ x :: post /\
    Forall (fun y => p y = false) pre /\ p x = true /\
    bump p f l = f x :: pre ++ post.
Proof.
  unfold bump. destruct (find_index p l) as [i|] eqn:Hi.
  - destruct (find_index_Some p l i Hi) as (x & Hl & Hp & Hpre).
    right. rewrite Hl. exists (take i l), x, (drop (S i) l).
    split_and!; auto. symmetry. by apply take_drop_middle.
  - left. split; [by apply find_index_None|done].
Qed.

Lemma bump_found p f l x :
  x ∈ l -> p x = true ->
  exists pre y post, l = pre ++ y :: post /\
    Forall (fun z => p z = false) pre /\ p y = true /\
    bump p f l = f y :: pre ++ post.
Proof.
  intros Hin Hx. destruct (bump_cases p f l) as [[Hno _]|?]; [|done].
  rewrite Forall_forall in Hno. specialize (Hno x Hin). congruence.
Qed.

Lemma bump_length p f l : length (bump p f l) = length l.
Proof.
  destruct (bump_cases p f l) as [[_ ->]|(pre & x & post & -> & _ & _ & ->)]; [done|].
  simpl. rewrite !length_app. simpl. lia.
Qed.

(** [bump] permutes the list up to the update of one element: a key that
    [f] preserves is permuted. *)
Lemma bump_keys {K} (key : A -> K) p f l :
  (forall x, key (f x) = key x) ->
  map key (bump p f l) ≡ₚ map key l.
Proof.
  intros Hk.
  destruct (bump_cases p f l) as [[_ ->]|(pre & x & post & -> & _ & _ & ->)]; [done|].
  simpl. rewrite !map_app. simpl. rewrite Hk. by rewrite <- Permutation_middle.
Qed.
End Bump.

(** ** Keys of a filtered association list *)

Section OmapKeys.
Context {K V W : Type} (g : K * V -> option (K * W)).
Hypothesis g_key : forall k v k' w, g (k, v) = Some (k', w) -> k' = k.

Lemma omap_keys_subset (l : list (K * V)) x : x ∈ (omap g l).*1 -> x ∈ l.*1.
Proof.
  induction l as [|[k v] l IH]; simpl; [done|].
  destruct (g (k, v)) as [[k' w]|] eqn:E; simpl.
  - rewrite !elem_of_cons. apply g_key in E as ->. naive_solver.
  - rewrite elem_of_cons. naive_solver.
Qed.

Lemma omap_keys_NoDup (l : list (K * V)) : NoDup l.*1 -> NoDup (omap g l).*1.
Proof.
  induction l as [|[k v] l IH]; simpl; [done|]. rewrite NoDup_cons. intros [Hk Hl].
  destruct (g (k, v)) as [[k' w]|] eqn:E; simpl; [|auto].
  apply g_key in E as ->. constructor; [|auto]. intros Hin%omap_keys_subset. done.
Qed.
End OmapKeys.

Lemma filter_none {A} (P : A -> Prop) `{!forall x, Decision (P x)} (l : list A) :
  Forall (fun x => ~ P x) l -> filter P l = [].
Proof. induction 1; [done|]. rewrite filter_cons. by rewrite decide_False. Qed.

Lemma filter_all {A} (P : A -> Prop) `{!forall x, Decision (P x)} (l : list A) :
  Forall P l -> filter P l = l.
Proof. induction 1; [done|]. rewrite filter_cons, decide_True by done. by f_equal. Qed.

(** In an association list with distinct keys, the entries with a given
    key are the one entry it has. *)
Lemma filter_key_unique {K V} `{EqDecision K} (l : list (K * V)) k v :
  NoDup l.*1 -> (k, v) ∈ l -> filter (fun d => d.1 = k) l = [(k, v)].
Proof.
  induction l as [|[k' v'] l IH]; simpl; [by rewrite elem_of_nil|].
  rewrite NoDup_cons, elem_of_cons. intros [Hk Hl] Hin. rewrite filter_cons. simpl.
  destruct Hin as [[= <- <-]|Hin].
  - rewrite decide_True by done. f_equal. apply filter_none.
    apply Forall_forall. intros [k'' v''] Hx Heq. simpl in Heq. subst k''.
    apply Hk, list_elem_of_fmap. eexists (_, v''). split; [reflexivity|done].
  - rewrite decide_False; [by apply IH|]. intros ->. apply Hk, list_elem_of_fmap.
    eexists (_, _). split; [|exact Hin]. reflexivity.
Qed.

(** A duplicate-free list included in another is no longer. *)
Lemma NoDup_subset_length {A} (l1 l2 : list A) :
  NoDup l1 -> (forall x, x ∈ l1 -> x ∈ l2) -> length l1 <= length l2.
Proof.
  intros Hnd Hsub. apply NoDup_incl_length.
  - by apply NoDup_ListNoDup.
  - intros x Hx. apply list_elem_of_In, Hsub, list_elem_of_In, Hx.
Qed.


(** ** [Array.prototype.find] / [findOne] on lists *)

Section Find.
Context {A : Type} (f : A -> bool).

Lemma find_app l1 l2 :
  List.find f (l1 ++ l2) = match List.find f l1 with Some x => Some x | None => List.find f l2 end.
Proof. induction l1 as [|x l1 IH]; simpl; [done|]. by destruct (f x). Qed.

Lemma find_Some_elem l x : List.find f l = Some x -> x ∈ l /\ f x = true.
Proof. intros H. apply List.find_some in H as [Hin Hf]. by rewrite list_elem_of_In. Qed.

Lemma find_None_Forall l : List.find f l = None -> Forall (fun x => f x = false) l.
Proof.
  intros H. apply Forall_forall. intros x Hx. apply list_elem_of_In in Hx.
  exact (List.find_none f l H x Hx).
Qed.

Lemma find_Forall_None l : Forall (fun x => f x = false) l -> List.find f l = None.
Proof. induction 1 as [|x l Hx _ IH]; simpl; [done|]. by rewrite Hx. Qed.

(** With a key that identifies elements, [find] returns the one element
    of that key. *)
Lemma find_key_unique {K} (key : A -> K) l x :
  NoDup (key <$> l) -> x ∈ l -> (forall y, f y = true <-> key y = key x) -> List.find f l = Some x.
Proof.
  intros Hnd Hx Hf. induction l as [|y l IH]; [by apply elem_of_nil in Hx|].
  simpl. rewrite fmap_cons, NoDup_cons in Hnd. destruct Hnd as [Hy Hnd].
  apply elem_of_cons in Hx as [<-|Hx].
  - by rewrite (proj2 (Hf x) eq_refl).
  - destruct (f y) eqn:Efy; [|by apply IH].
    exfalso. apply Hy. apply Hf in Efy. rewrite Efy. by apply list_elem_of_fmap_2.
Qed.

End Find.

Lemma forallb_Forall {A} (f : A -> bool) l : forallb f l = true <-> Forall (fun x => f x = true) l.
Proof. rewrite forallb_forall, Forall_forall. by setoid_rewrite list_elem_of_In. Qed.

(** Two elements of a list with distinct keys that share a key are equal. *)
Lemma NoDup_fmap_key_eq {A K} (key : A -> K) l x y :
  NoDup (key <$> l) -> x ∈ l -> y ∈ l -> key x = key y -> x = y.
Proof.
  induction l as [|z l IH]; intros Hnd Hx Hy Hk; [by apply elem_of_nil in Hx|].
  rewrite fmap_cons, NoDup_cons in Hnd. destruct Hnd as [Hz Hnd].
  apply elem_of_cons in Hx as [->|Hx]; apply elem_of_cons in Hy as [->|Hy]; try done.
  - exfalso. apply Hz. rewrite Hk. by apply list_elem_of_fmap_2.
  - exfalso. apply Hz. rewrite <- Hk. by apply list_elem_of_fmap_2.
  - by apply IH.
Qed.

#[export] Hint Resolve bump_not_found : mm.
