(* ===== verification/JsString.v ===== *)
(** * JavaScript string operations used by the relay

    The handlers test and transform strings with a handful of JavaScript
    and library operations: [String.prototype.trim] (the relay's
    [message?.trim()] guard, the client's [newMessage.trim()]),
    [String.prototype.toLowerCase] (the relay's [receiverType]
    normalisation), truthiness of a string ([!receiver]), [String(x)] of a
    possibly undefined identity (the room names), and
    [mongoose.Types.ObjectId.isValid] (the relay's receiver check).

    Strings are [string] of Stdlib (lists of 8-bit [ascii]); the model of
    [trim] recognises the ASCII white space of ECMAScript (TAB, LF, VT, FF,
    CR, SPACE).  Non-ASCII white space (NBSP and the Unicode space
    separators) is outside this alphabet. *)

From Stdlib Require Import Ascii String.
From stdpp Require Import base list strings.
From S2P Require Import Prelude.

(** ** [trim] *)

(** ECMAScript [WhiteSpace] and [LineTerminator] code points below 128. *)
Definition is_js_space (c : ascii) : bool :=
  let n := nat_of_ascii c in (Nat.leb 9 n && Nat.leb n 13) || Nat.eqb n 32.

Fixpoint drop_spaces (l : list ascii) : list ascii :=
  match l with
  | [] => []
  | c :: l' => if is_js_space c then drop_spaces l' else l
  end.

(** [s.trim()]: drop white space at both ends. *)
Definition js_trim (s : string) : string :=
  string_of_list_ascii
    (rev (drop_spaces (rev (drop_spaces (list_ascii_of_string s))))).

(** Truthiness of a string value: only [""] is falsy. *)
Definition js_truthy (s : string) : bool :=
  match s with EmptyString => false | _ => true end.

(** Truthiness of a possibly undefined string ([undefined] is falsy). *)
Definition js_truthy_opt (o : option string) : bool :=
  match o with Some s => js_truthy s | None => false end.

(** [x || y] on two possibly undefined strings. *)
Definition js_or (x y : option string) : option string :=
  if js_truthy_opt x then x else y.

(** [String(x)] of a possibly undefined string. *)
Definition js_String (o : option string) : string :=
  match o with Some s => s | None => "undefined" end.

(** ** [toLowerCase] *)

Definition ascii_lower (c : ascii) : ascii :=
  let n := nat_of_ascii c in
  if Nat.leb 65 n && Nat.leb n 90 then ascii_of_nat (n + 32) else c.

Fixpoint js_to_lower (s : string) : string :=
  match s with
  | EmptyString => EmptyString
  | String c s' => String (ascii_lower c) (js_to_lower s')
  end.

(** [toUpperCase] on ASCII. *)
Definition ascii_upper (c : ascii) : ascii :=
  let n := nat_of_ascii c in
  if Nat.leb 97 n && Nat.leb n 122 then ascii_of_nat (n - 32) else c.

Fixpoint js_to_upper (s : string) : string :=
  match s with
  | EmptyString => EmptyString
  | String c s' => String (ascii_upper c) (js_to_upper s')
  end.

(** ** [ObjectId.isValid]

    mongoose 8 delegates to bson 6, whose [ObjectId.isValid(id)] holds of a
    string exactly when it is 24 hexadecimal digits (either case). *)

Definition is_hex_digit (c : ascii) : bool :=
  let n := nat_of_ascii c in
  (Nat.leb 48 n && Nat.leb n 57) || (Nat.leb 97 n && Nat.leb n 102) ||
  (Nat.leb 65 n && Nat.leb n 70).

Definition object_id_valid (s : string) : bool :=
  Nat.eqb (String.length s) 24 && forallb is_hex_digit (list_ascii_of_string s).

(** Casting a string to an ObjectId and printing it back gives the
    lower-case hexadecimal form (the stored [sender]/[receiver] fields). *)
Definition cast_object_id (s : string) : option string :=
  if object_id_valid s then Some (js_to_lower s) else None.

(** ** [startsWith] and [split] *)

(** [s.startsWith(p)]. *)
Definition js_starts_with (p s : string) : bool := String.prefix p s.

(** [s.split(sep)] for a one-character separator: the pieces between the
    separators, empty pieces included. *)
Fixpoint js_split_aux (sep : ascii) (s : string) (cur : string) : list string :=
  match s with
  | EmptyString => [cur]
  | String c s' =>
      if Ascii.eqb c sep then cur :: js_split_aux sep s' EmptyString
      else js_split_aux sep s' (cur ++ String c EmptyString)
  end.

Definition js_split (sep : ascii) (s : string) : list string := js_split_aux sep s EmptyString.

(** ** Lemmas *)

Lemma drop_spaces_nil_iff l :
  drop_spaces l = [] <-> Forall (fun c => is_js_space c = true) l.
Proof.
  induction l as [|c l IH]; simpl; [split; auto|].
  rewrite Forall_cons. destruct (is_js_space c) eqn:E.
  - rewrite IH. tauto.
  - split; [discriminate|intros [? _]; congruence].
Qed.

Lemma drop_spaces_all_spaces l :
  Forall (fun c => is_js_space c = true) (drop_spaces l) -> drop_spaces l = [].
Proof.
  induction l as [|c l IH]; simpl; [done|].
  destruct (is_js_space c) eqn:E; [done|]. rewrite Forall_cons. intros [? _]; congruence.
Qed.

Lemma string_of_list_ascii_nil_iff l :
  string_of_list_ascii l = ""%string <-> l = [].
Proof. destruct l; simpl; split; congruence. Qed.

(** A string trims to [""] exactly when it is all white space: the
    [!message?.trim()] guard of the relay rejects exactly those bodies. *)
Lemma js_trim_empty_iff s :
  js_trim s = ""%string <->
  Forall (fun c => is_js_space c = true) (list_ascii_of_string s).
Proof.
  unfold js_trim. rewrite string_of_list_ascii_nil_iff.
  set (l := list_ascii_of_string s).
  split.
  - intros H. apply (f_equal (@rev ascii)) in H. rewrite rev_involutive in H.
    apply drop_spaces_nil_iff, Forall_rev in H. rewrite rev_involutive in H.
    by apply drop_spaces_nil_iff, drop_spaces_all_spaces.
  - intros H. apply drop_spaces_nil_iff in H. by rewrite H.
Qed.

Lemma ascii_lower_idem c : ascii_lower (ascii_lower c) = ascii_lower c.
Proof. by destruct c as [[] [] [] [] [] [] [] []]. Qed.

Lemma js_to_lower_idem s : js_to_lower (js_to_lower s) = js_to_lower s.
Proof. induction s; simpl; [done|]. by rewrite ascii_lower_idem, IHs. Qed.

Lemma js_to_lower_length s : String.length (js_to_lower s) = String.length s.
Proof. induction s; simpl; congruence. Qed.

Lemma is_hex_digit_lower c : is_hex_digit (ascii_lower c) = is_hex_digit c.
Proof. by destruct c as [[] [] [] [] [] [] [] []]. Qed.

Lemma object_id_valid_lower s : object_id_valid (js_to_lower s) = object_id_valid s.
Proof.
  unfold object_id_valid. rewrite js_to_lower_length. f_equal.
  induction s; simpl; [done|]. by rewrite is_hex_digit_lower, IHs.
Qed.

Lemma cast_object_id_Some s i :
  cast_object_id s = Some i -> object_id_valid i = true /\ js_to_lower i = i.
Proof.
  unfold cast_object_id. destruct (object_id_valid s) eqn:E; [|discriminate].
  intros [= <-]. by rewrite object_id_valid_lower, js_to_lower_idem.
Qed.

Lemma cast_object_id_canonical i :
  object_id_valid i = true -> js_to_lower i = i -> cast_object_id i = Some i.
Proof. intros Hv Hl. unfold cast_object_id. by rewrite Hv, Hl. Qed.

Lemma js_truthy_opt_Some o : js_truthy_opt o = true -> exists s, o = Some s /\ s <> ""%string.
Proof. destruct o as [[|]|]; simpl; try discriminate; eauto. Qed.

Lemma object_id_valid_truthy s : object_id_valid s = true -> js_truthy s = true.
Proof. by destruct s. Qed.

Lemma js_trim_nonempty s : js_trim s <> ""%string -> s <> ""%string.
Proof. by intros H ->. Qed.

(** A value whose trimmed text is truthy is truthy itself. *)
Lemma js_truthy_opt_trim o : js_truthy_opt (js_trim <$> o) = true -> js_truthy_opt o = true.
Proof. destruct o as [[|]|]; simpl; by try discriminate. Qed.

(** A trimmed string has no white space left at its ends: trimming it
    again empties it only if it was empty. *)
Lemma js_trim_trim_empty s : js_trim (js_trim s) = ""%string -> js_trim s = ""%string.
Proof.
  rewrite js_trim_empty_iff. unfold js_trim at 1. rewrite list_ascii_of_string_of_list_ascii.
  intros H%Forall_rev. rewrite rev_involutive in H. unfold js_trim. by rewrite (drop_spaces_all_spaces _ H).
Qed.

(** Stdpp makes [String.append] opaque to [simpl]; these two equations
    are proved by conversion. *)
Lemma string_app_assoc (a b c : string) : ((a ++ b) ++ c = a ++ (b ++ c))%string.
Proof. induction a as [|ch a IH]; [reflexivity|]. exact (f_equal (String ch) IH). Qed.

Lemma string_app_nil_r (a : string) : (a ++ "")%string = a.
Proof. induction a as [|ch a IH]; [reflexivity|]. exact (f_equal (String ch) IH). Qed.

(** A common prefix does not change string equality, and a string starts
    with itself. *)
Lemma string_eqb_app_l (v a b : string) : String.eqb (v ++ a) (v ++ b) = String.eqb a b.
Proof.
  induction v as [|ch v IH]; [reflexivity|].
  change (String.eqb (String ch (v ++ a)) (String ch (v ++ b)) = String.eqb a b).
  cbn [String.eqb]. by rewrite Ascii.eqb_refl.
Qed.

Lemma js_starts_with_app (v a : string) : js_starts_with v (v ++ a) = true.
Proof.
  unfold js_starts_with. induction v as [|ch v IH]; [by destruct a|].
  change (String.prefix (String ch v) (String ch (v ++ a)) = true). cbn [String.prefix].
  destruct (ascii_dec ch ch); [exact IH|done].
Qed.

(** Splitting a string with no separator in it leaves it whole. *)
Lemma js_split_aux_nosep sep s cur :
  Forall (fun ch => ch <> sep) (list_ascii_of_string s) ->
  js_split_aux sep s cur = [(cur ++ s)%string].
Proof.
  revert cur. induction s as [|ch s IH]; intros cur Hs; simpl.
  - by rewrite string_app_nil_r.
  - simpl in Hs. apply Forall_cons in Hs as [Hch Hs].
    destruct (Ascii.eqb_spec ch sep); [done|].
    rewrite IH by done. by rewrite string_app_assoc.
Qed.

#[export] Hint Resolve object_id_valid_truthy js_trim_nonempty : mm.
#[export] Hint Resolve js_to_lower_idem object_id_valid_lower : mm.
#[export] Hint Rewrite js_to_lower_idem object_id_valid_lower : mm_rw.
