(* ===== verification/Store.v ===== *)
(** * The Message Store: [Chat.model.js] and [Chat.create]

    The relay ([server.js]) and the REST routes ([chat.controller.js],
    [chat.route.js], [caretaker.chatRoutes.js]) share one mutable
    resource, the [chats] collection of MongoDB behind the mongoose model
    of [models/Chat.model.js].  This file holds

    - the document type [Chat] (the schema's fields with the store-assigned
      [_id] and [createdAt] of [{ timestamps: true }]);
    - the schema's validation ([validate_chat]): required fields, ObjectId
      casts of [sender]/[receiver], the [receiverType] enum;
    - the interface [MessageStore] (a class) that the relay and the history
      routes are proved against, with its laws [MessageStoreLaws];
    - an in-memory implementation [MemStore] (documents in insertion order,
      a counter for [_id], a clock for [createdAt], an availability flag
      for the database being reachable), its invariant [store_wf], and the
      instance that discharges the laws. *)

From Stdlib Require Import Ascii String Sorting.Sorted.
From stdpp Require Import base list strings.
From S2P Require Import Prelude JsString.

(** ** Documents *)

(** [receiverType: { enum: ["user", "caretaker", "ai", "User", "Caretaker", "AI"] }] *)
Definition receiver_type_enum : list string :=
  ["user"; "caretaker"; "ai"; "User"; "Caretaker"; "AI"]%string.

Record Chat := mkChat {
  chat_id : nat;
  sender : string;
  receiver : string;
  receiverType : string;
  message : string;
  createdAt : nat;
}.

(** The object passed to [Chat.create]; [None] is a missing/undefined field. *)
Record ChatInput := mkChatInput {
  in_sender : option string;
  in_receiver : option string;
  in_receiverType : option string;
  in_message : option string;
}.

Inductive StoreError :=
| EValidation (path : string)   (** mongoose [ValidationError] / [CastError] on a path *)
| EUnavailable.                 (** the database rejected or did not answer the write *)

(** ** Schema validation

    One field after the other in schema order.  A missing required field
    and a failed cast both make [save] fail with a [ValidationError]; the
    model reports the first failing path. *)

Definition validate_oid (path : string) (o : option string) : result StoreError string :=
  match o with
  | None => Err (EValidation path)
  | Some s => of_option (EValidation path) (cast_object_id s)
  end.

Definition validate_chat (i : ChatInput) : result StoreError (string * string * string * string) :=
  s <-? validate_oid "sender" (in_sender i) ;;
  r <-? validate_oid "receiver" (in_receiver i) ;;
  t <-? (match in_receiverType i with
         | Some t => if decide (t ∈ receiver_type_enum) then Ok t
                     else Err (EValidation "receiverType")
         | None => Err (EValidation "receiverType")
         end) ;;
  m <-? (match in_message i with
         | Some m => if js_truthy m then Ok m else Err (EValidation "message")
         | None => Err (EValidation "message")
         end) ;;
  Ok (s, r, t, m).

(** A stored document satisfies the schema. *)
Definition chat_valid (c : Chat) : Prop :=
  object_id_valid (sender c) = true /\ js_to_lower (sender c) = sender c /\
  object_id_valid (receiver c) = true /\ js_to_lower (receiver c) = receiver c /\
  receiverType c ∈ receiver_type_enum /\ message c <> ""%string.

(** ** The store interface *)

Class MessageStore (S : Type) := {
  ms_create : S -> ChatInput -> S * result StoreError Chat;
  ms_docs : S -> list Chat;
}.

(** What a client of the store may rely on: the store has an invariant
    [ms_wf] that [create] preserves; from a well-formed store, a successful
    [create] appends exactly one document, built from the validated input,
    with an [_id] no other document has; a failed [create] leaves the
    documents as they were. *)
Class MessageStoreLaws (S : Type) `{MessageStore S} := {
  ms_wf : S -> Prop;
  ms_create_wf s i s' r : ms_wf s -> ms_create s i = (s', r) -> ms_wf s';
  ms_create_ok s i s' c :
    ms_wf s -> ms_create s i = (s', Ok c) ->
    ms_docs s' = ms_docs s ++ [c] /\
    validate_chat i = Ok (sender c, receiver c, receiverType c, message c) /\
    chat_id c ∉ chat_id <$> ms_docs s;
  ms_create_err s i s' e :
    ms_create s i = (s', Err e) -> ms_docs s' = ms_docs s;
}.

(** ** The in-memory implementation *)

Record MemStore := mkMemStore {
  chats : list Chat;
  next_id : nat;
  clock : nat;
  up : bool;
}.

(** [Chat.create(doc)]: validate, then insert with a fresh [_id] and the
    current time as [createdAt]. *)
Definition chat_create (st : MemStore) (i : ChatInput) : MemStore * result StoreError Chat :=
  match validate_chat i with
  | Err e => (st, Err e)
  | Ok (s, r, t, m) =>
      if up st then
        let c := mkChat (next_id st) s r t m (clock st) in
        (mkMemStore (chats st ++ [c]) (S (next_id st)) (clock st) (up st), Ok c)
      else (st, Err EUnavailable)
  end.

(** Time passes. *)
Definition tick (st : MemStore) : MemStore :=
  mkMemStore (chats st) (next_id st) (S (clock st)) (up st).

(** The database goes down or comes back. *)
Definition set_up (b : bool) (st : MemStore) : MemStore :=
  mkMemStore (chats st) (next_id st) (clock st) b.

#[export] Instance mem_message_store : MessageStore MemStore := {
  ms_create := chat_create;
  ms_docs := chats;
}.

(** ** Invariant of the in-memory store *)

Definition store_wf (st : MemStore) : Prop :=
  NoDup (chat_id <$> chats st) /\
  Forall (fun c => chat_id c < next_id st /\ createdAt c <= clock st /\ chat_valid c) (chats st) /\
  Sorted le (createdAt <$> chats st).

Definition empty_store : MemStore := mkMemStore [] 0 0 true.

(** ** Lemmas *)

Lemma validate_oid_Ok p o s :
  validate_oid p o = Ok s -> exists raw, o = Some raw /\ cast_object_id raw = Some s.
Proof. destruct o as [raw|]; simpl; [|discriminate]. destruct (cast_object_id raw) eqn:E; simpl; [|discriminate]. intros [= <-]. eauto. Qed.

Lemma validate_chat_Ok i s r t m :
  validate_chat i = Ok (s, r, t, m) ->
  (exists rs, in_sender i = Some rs /\ cast_object_id rs = Some s) /\
  (exists rr, in_receiver i = Some rr /\ cast_object_id rr = Some r) /\
  in_receiverType i = Some t /\ t ∈ receiver_type_enum /\
  in_message i = Some m /\ m <> ""%string.
Proof.
  unfold validate_chat.
  destruct (validate_oid "sender" _) as [s'|] eqn:Hs; simpl; [|discriminate].
  destruct (validate_oid "receiver" _) as [r'|] eqn:Hr; simpl; [|discriminate].
  destruct (in_receiverType i) as [t'|]; simpl; [|discriminate].
  case_decide; simpl; [|discriminate].
  destruct (in_message i) as [[|a m']|]; simpl; try discriminate.
  intros [= <- <- <- <-]. apply validate_oid_Ok in Hs, Hr.
  split_and!; eauto; discriminate.
Qed.

Lemma validate_chat_valid i c :
  validate_chat i = Ok (sender c, receiver c, receiverType c, message c) -> chat_valid c.
Proof.
  intros H. apply validate_chat_Ok in H as ((rs & _ & Hs) & (rr & _ & Hr) & _ & Ht & _ & Hm).
  apply cast_object_id_Some in Hs as [? ?], Hr as [? ?]. by split_and!.
Qed.

Lemma chat_create_inv st i st' r :
  chat_create st i = (st', r) ->
  (exists e, r = Err e /\ st' = st) \/
  (exists c, r = Ok c /\ up st = true /\
     validate_chat i = Ok (sender c, receiver c, receiverType c, message c) /\
     chat_id c = next_id st /\ createdAt c = clock st /\
     st' = mkMemStore (chats st ++ [c]) (S (next_id st)) (clock st) (up st)).
Proof.
  unfold chat_create. destruct (validate_chat i) as [[[[s rc] t] m]|e] eqn:Hv.
  - destruct (up st) eqn:Hup; intros [= <- <-]; [right|left; eauto].
    eexists. split_and!; eauto.
  - intros [= <- <-]. left. eauto.
Qed.

Lemma Forall_chat_id_notin (l : list Chat) n :
  Forall (fun c => chat_id c < n) l -> n ∉ chat_id <$> l.
Proof.
  intros H Hin. apply list_elem_of_fmap in Hin as (c & -> & Hc).
  rewrite Forall_forall in H. specialize (H c Hc). lia.
Qed.

Lemma Sorted_le_snoc (l : list nat) x :
  Sorted le l -> Forall (fun y => y <= x) l -> Sorted le (l ++ [x]).
Proof.
  intros Hs Hle. apply Sorted_StronglySorted in Hs; [|intros ???; lia].
  apply StronglySorted_Sorted. induction Hs as [|y l _ IH Hy]; simpl.
  - by repeat constructor.
  - apply Forall_cons in Hle as [? ?]. constructor; [by apply IH|].
    apply Forall_app. split; [done|by constructor].
Qed.

Lemma receiver_type_enum_truthy t : t ∈ receiver_type_enum -> js_truthy t = true.
Proof.
  intros Ht. repeat (apply elem_of_cons in Ht as [->|Ht]; [done|]). by apply elem_of_nil in Ht.
Qed.

(** The schema accepts the document the relay builds for a valid send. *)
Lemma validate_chat_accept u r t m :
  object_id_valid u = true -> object_id_valid r = true ->
  t ∈ receiver_type_enum -> m <> ""%string ->
  validate_chat (mkChatInput (Some u) (Some r) (Some t) (Some m)) =
    Ok (js_to_lower u, js_to_lower r, t, m).
Proof.
  intros Hu Hr Ht Hm. unfold validate_chat; simpl. unfold cast_object_id.
  rewrite Hu, Hr. simpl. rewrite decide_True by done. by destruct m.
Qed.

#[export] Hint Resolve validate_chat_valid : mm.

(** ** Behaviour of [Chat.create] on the in-memory store *)

Lemma store_wf_empty : store_wf empty_store.
Proof. split_and!; constructor. Qed.

Lemma chat_create_wf st i st' r : store_wf st -> chat_create st i = (st', r) -> store_wf st'.
Proof.
  intros (Hnd & Hall & Hsort) Hc.
  destruct (chat_create_inv _ _ _ _ Hc) as [(e & -> & ->)|(c & -> & _ & Hv & Hid & Ht & ->)];
    [split_and!; done|].
  unfold store_wf; simpl. rewrite !fmap_app. simpl. split_and!.
  - apply NoDup_app. split_and!; [done| |apply NoDup_singleton].
    intros x Hx Hin. apply list_elem_of_singleton in Hin. subst x. rewrite Hid in Hx. revert Hx.
    apply Forall_chat_id_notin. eapply Forall_impl; [done|]. naive_solver.
  - apply Forall_app. split.
    + eapply Forall_impl; [done|]. simpl. intros ? (? & ? & ?). split_and!; auto; lia.
    + constructor; [|done]. split_and!; [lia|lia|by eapply validate_chat_valid].
  - apply Sorted_le_snoc; [done|]. rewrite Ht. apply Forall_fmap.
    eapply Forall_impl; [done|]. naive_solver.
Qed.

Lemma tick_wf st : store_wf st -> store_wf (tick st).
Proof.
  intros (Hnd & Hall & Hsort). split_and!; [done| |done].
  eapply Forall_impl; [done|]. simpl. intros ? (? & ? & ?). split_and!; auto; lia.
Qed.

Lemma set_up_wf b st : store_wf st -> store_wf (set_up b st).
Proof. intros (Hnd & Hall & Hsort). by split_and!. Qed.

(** The store invariant (unique [_id]s below the counter, timestamps
    not in the future, every document valid for the schema, documents in
    the order of their timestamps) holds initially and is preserved by
    [create], by the clock and by outages. *)
Theorem store_wf_preserved :
  store_wf empty_store /\
  (forall st i st' r, store_wf st -> chat_create st i = (st', r) -> store_wf st') /\
  (forall st, store_wf st -> store_wf (tick st)) /\
  (forall b st, store_wf st -> store_wf (set_up b st)).
Proof.
  split_and!; [apply store_wf_empty|apply chat_create_wf|apply tick_wf|apply set_up_wf].
Qed.

Lemma mem_create_ok s i s' c :
  store_wf s -> chat_create s i = (s', Ok c) ->
  chats s' = chats s ++ [c] /\
  validate_chat i = Ok (sender c, receiver c, receiverType c, message c) /\
  chat_id c ∉ chat_id <$> chats s.
Proof.
  intros Hwf Hc.
  destruct (chat_create_inv _ _ _ _ Hc) as [(e & ? & _)|(c' & [= <-] & _ & Hv & Hid & _ & ->)];
    [discriminate|].
  split_and!; [done|done|]. rewrite Hid. apply Forall_chat_id_notin.
  destruct Hwf as (_ & Hall & _). eapply Forall_impl; [done|]. naive_solver.
Qed.

Lemma mem_create_err s i s' e : chat_create s i = (s', Err e) -> chats s' = chats s.
Proof.
  intros Hc. destruct (chat_create_inv _ _ _ _ Hc) as [(e' & _ & ->)|(c & ? & _)]; [done|discriminate].
Qed.

#[export] Instance mem_message_store_laws : MessageStoreLaws MemStore := {|
  ms_wf := store_wf;
  ms_create_wf := chat_create_wf;
  ms_create_ok := mem_create_ok;
  ms_create_err := mem_create_err;
|}.
