(* ===== verification/Gateway.v ===== *)
(** * Connection Gateway and request authentication

    Two places of the backend turn a bearer token into an identity:

    - the Socket.IO middleware [io.use(...)] of [server.js] (lines 69-80),
      which accepts a persistent connection and sets [socket.userId], after
      which the [connection] handler joins the socket to the room named
      [String(socket.userId)] (line 84);
    - the Express middleware [auth] of [middleware/auth.js], which guards
      every REST route of the chat, resolving the token's [id] first among
      users, then among caretakers.

    Both call [jwt.verify] of the [jsonwebtoken] library, modelled here
    from its documentation: a token verifies when it was signed with the
    configured secret and its [exp] claim is still in the future
    ([now < exp]); when [process.env.JWT_SECRET] is undefined, [verify]
    throws for every token.  Token strings are decoded by [JwtLib], the
    library boundary: [jwt_decode] gives the claims and the key a token was
    signed with (an HMAC is modelled as unforgeable: a token verifies only
    under the key it was signed with). *)

From Stdlib Require Import Ascii String.
From stdpp Require Import base list strings.
From S2P Require Import Prelude JsString.

(** ** JSON Web Tokens *)

Record Claims := mkClaims {
  cl_id : option string;     (** [decoded.id] *)
  cl__id : option string;    (** [decoded._id] *)
  cl_exp : option nat;       (** [decoded.exp] *)
}.

Class JwtLib := {
  jwt_decode : string -> option (Claims * string);
}.

Section Jwt.
Context `{JwtLib}.

(** [jwt.verify(token, secret)]: [None] is a thrown error. *)
Definition jwt_verify (secret : option string) (now : nat) (tok : string) : option Claims :=
  match secret, jwt_decode tok with
  | Some k, Some (c, k') =>
      if String.eqb k k' then
        match cl_exp c with
        | Some e => if Nat.ltb now e then Some c else None
        | None => Some c
        end
      else None
  | _, _ => None
  end.

(** ** The Socket.IO handshake middleware ([server.js] 69-80) *)

Inductive GatewayError := NoTokenProvided | InvalidToken.

(** [socket.handshake.auth?.token]: absent, or a string. *)
Definition gateway_auth (secret : option string) (now : nat) (token : option string)
  : result GatewayError (option string) :=
  if negb (js_truthy_opt token) then Err NoTokenProvided
  else match token with
       | None => Err NoTokenProvided
       | Some t =>
           match jwt_verify secret now t with
           | None => Err InvalidToken
           | Some c => Ok (js_or (cl_id c) (cl__id c))
           end
       end.

(** The room a socket joins in the [connection] handler:
    [socket.join(String(socket.userId))]. *)
Definition user_room (uid : option string) : string := js_String uid.

(** ** The REST middleware [auth] ([middleware/auth.js]) *)

Inductive Principal := PUser (id : string) | PCaretaker (id : string).

Definition principal_id (p : Principal) : string :=
  match p with PUser i => i | PCaretaker i => i end.

Inductive AuthError :=
| Auth401NoToken        (** "No token provided" *)
| Auth401NotFound       (** "User or Caretaker not found" *)
| Auth401Invalid.       (** "Invalid or expired token" (anything thrown) *)

(** The identities of the two collections [User] and [Caretaker], in
    their canonical (lower-case ObjectId) form. *)
Record Accounts := mkAccounts {
  acc_users : list string;
  acc_caretakers : list string;
}.

(** [Model.findById(id)]: [Err] is a thrown [CastError]; [Ok None] is
    [null]; [findById(undefined)] is [null]. *)
Definition find_by_id (ids : list string) (id : option string) : result unit (option string) :=
  match id with
  | None => Ok None
  | Some s =>
      match cast_object_id s with
      | None => Err tt
      | Some i => Ok (if decide (i ∈ ids) then Some i else None)
      end
  end.

Definition auth_middleware (acc : Accounts) (secret : option string) (now : nat)
    (authorization : option string) : result AuthError Principal :=
  match authorization with
  | Some h =>
      if js_starts_with "Bearer " h then
        match js_split " "%char h !! 1 with
        | None => Err Auth401Invalid
        | Some tok =>
            match jwt_verify secret now tok with
            | None => Err Auth401Invalid
            | Some c =>
                match find_by_id (acc_users acc) (cl_id c) with
                | Err _ => Err Auth401Invalid
                | Ok (Some u) => Ok (PUser u)
                | Ok None =>
                    match find_by_id (acc_caretakers acc) (cl_id c) with
                    | Err _ => Err Auth401Invalid
                    | Ok (Some u) => Ok (PCaretaker u)
                    | Ok None => Err Auth401NotFound
                    end
                end
            end
        end
      else Err Auth401NoToken
  | None => Err Auth401NoToken
  end.

(** The keys the backend signs tokens with: [auth.controller.js] line 8
    falls back to ["mysecretdevkey"], [Caretaker.model.js] line 76 to
    ["changeme"], when [JWT_SECRET] is undefined. *)
Definition user_signing_key (secret : option string) : string :=
  match secret with Some k => k | None => "mysecretdevkey" end.

Definition caretaker_signing_key (secret : option string) : string :=
  match secret with Some k => k | None => "changeme" end.

(** ** Lemmas *)

Lemma jwt_verify_Some secret now tok c :
  jwt_verify secret now tok = Some c ->
  exists k, secret = Some k /\ jwt_decode tok = Some (c, k) /\
            match cl_exp c with Some e => now < e | None => True end.
Proof.
  unfold jwt_verify. destruct secret as [k|]; [|done].
  destruct (jwt_decode tok) as [[c' k']|]; [|done].
  destruct (String.eqb_spec k k'); [subst k'|done].
  destruct (cl_exp c') as [e|] eqn:He; [destruct (Nat.ltb_spec now e)|]; intros; simplify_eq.
  all: exists k; rewrite ?He; auto.
Qed.

Lemma gateway_auth_Ok secret now token uid :
  gateway_auth secret now token = Ok uid ->
  exists t c, token = Some t /\ t <> ""%string /\ jwt_verify secret now t = Some c /\
              uid = js_or (cl_id c) (cl__id c).
Proof.
  unfold gateway_auth. destruct token as [t|]; simpl; [|done].
  destruct t as [|a t']; simpl; [done|].
  destruct (jwt_verify _ _ _) as [c|] eqn:Hv; [|done]. intros [= <-]. by eexists _, c.
Qed.

(** ** Theorems *)

(** The handshake rejects every token that is absent, empty,
    unreadable, signed with another key, or expired ([exp <= now]), and
    accepts a token signed with the secret and not expired, with the
    identity [decoded.id || decoded._id]. *)
Theorem gateway_auth_cases secret now token :
  match token with
  | None => gateway_auth secret now token = Err NoTokenProvided
  | Some t =>
      (t = ""%string -> gateway_auth secret now token = Err NoTokenProvided) /\
      (t <> ""%string ->
       match jwt_decode t with
       | None => gateway_auth secret now token = Err InvalidToken
       | Some (c, k) =>
           (secret <> Some k -> gateway_auth secret now token = Err InvalidToken) /\
           (forall e, cl_exp c = Some e -> e <= now ->
              gateway_auth secret now token = Err InvalidToken) /\
           (secret = Some k ->
            match cl_exp c with Some e => now < e | None => True end ->
            gateway_auth secret now token = Ok (js_or (cl_id c) (cl__id c)))
       end)
  end.
Proof.
  destruct token as [t|]; [|done]. split; [by intros ->|]. intros Hne.
  unfold gateway_auth, jwt_verify. destruct t as [|a t']; [done|]. simpl.
  destruct (jwt_decode _) as [[c k]|]; [|by destruct secret].
  split_and!.
  - intros Hk. destruct secret as [k'|]; [|done].
    destruct (String.eqb_spec k' k); [congruence|done].
  - intros e He Hle. destruct secret as [k'|]; [|done].
    destruct (String.eqb k' k); [|done]. rewrite He.
    by destruct (Nat.ltb_spec now e); [lia|].
  - intros -> Hexp. rewrite String.eqb_refl.
    destruct (cl_exp c) as [e|]; [|done]. by destruct (Nat.ltb_spec now e); [|lia].
Qed.

(** C28: with [JWT_SECRET] undefined, no connection is ever accepted and
    every authenticated REST call fails with 401 — while the login routes
    keep issuing tokens, signed with their fallback keys
    (["mysecretdevkey"] for users, ["changeme"] for caretakers), which
    therefore never verify. *)
Theorem jwt_secret_unset_rejects_all acc now token header :
  (exists e, gateway_auth None now token = Err e) /\
  (exists e, auth_middleware acc None now header = Err e) /\
  user_signing_key None = "mysecretdevkey"%string /\
  caretaker_signing_key None = "changeme"%string.
Proof.
  split_and!; [|  |done|done].
  - unfold gateway_auth. destruct (negb (js_truthy_opt token)); [eauto|].
    destruct token; eauto.
  - unfold auth_middleware. destruct header as [h|]; [|eauto].
    destruct (js_starts_with _ _); [|eauto]. destruct (_ !! 1); eauto.
Qed.

(** The middleware on a ["Bearer " + token] header whose token has no
    space in it. *)
Lemma auth_middleware_bearer acc secret now tok c :
  jwt_verify secret now tok = Some c ->
  Forall (fun ch => ch <> " "%char) (list_ascii_of_string tok) ->
  auth_middleware acc secret now (Some ("Bearer " ++ tok)%string) =
    match cl_id c with
    | None => Err Auth401NotFound
    | Some raw =>
        match cast_object_id raw with
        | None => Err Auth401Invalid
        | Some i =>
            if decide (i ∈ acc_users acc) then Ok (PUser i)
            else if decide (i ∈ acc_caretakers acc) then Ok (PCaretaker i)
            else Err Auth401NotFound
        end
    end.
Proof.
  intros Hv Hns. unfold auth_middleware, js_starts_with, js_split.
  cbv [String.append]. simpl.
  replace (String.prefix "" tok) with true by (destruct tok; reflexivity).
  rewrite js_split_aux_nosep by done. simpl. change (("" ++ tok)%string) with tok. rewrite Hv.
  unfold find_by_id. destruct (cl_id c) as [raw|]; [|done].
  destruct (cast_object_id raw) as [i|]; [|done].
  by destruct (decide (i ∈ acc_users acc)), (decide (i ∈ acc_caretakers acc)).
Qed.

(** C27: the REST middleware resolves the token's [id] among users
    first, then among caretakers, and answers 401 when it is in neither;
    it never reads [_id] (the socket gateway does, so a token carrying
    only [_id] opens a socket but no REST route). *)
Theorem auth_middleware_resolution acc secret now tok c :
  jwt_verify secret now tok = Some c ->
  Forall (fun ch => ch <> " "%char) (list_ascii_of_string tok) ->
  auth_middleware acc secret now (Some ("Bearer " ++ tok)%string) =
    match cl_id c with
    | None => Err Auth401NotFound
    | Some raw =>
        match cast_object_id raw with
        | None => Err Auth401Invalid
        | Some i =>
            if decide (i ∈ acc_users acc) then Ok (PUser i)
            else if decide (i ∈ acc_caretakers acc) then Ok (PCaretaker i)
            else Err Auth401NotFound
        end
    end.
Proof. apply auth_middleware_bearer. Qed.
End Jwt.


(** ** Concrete identities and tokens for the witnesses

    Three users with ObjectId identities and a token table standing for
    the signed tokens the login routes issue (["tokA"], ["tokB"] under the
    configured secret, ["tokExp"] already expired at time 5, ["tokForged"]
    signed with another key, ["tokNoId"] carrying no identity). *)
Module Demo.
Definition uA : string := "64b7f0c2a1b2c3d4e5f60718".
Definition uB : string := "64b7f0c2a1b2c3d4e5f60719".
Definition uC : string := "64b7f0c2a1b2c3d4e5f6071a".
Definition demo_key : string := "s3cret".
Definition demo_secret : option string := Some demo_key.

Definition demo_decode (t : string) : option (Claims * string) :=
  if String.eqb t "tokA" then Some (mkClaims (Some uA) None (Some 1000), demo_key)
  else if String.eqb t "tokB" then Some (mkClaims (Some uB) None (Some 1000), demo_key)
  else if String.eqb t "tokC" then Some (mkClaims None (Some uC) (Some 1000), demo_key)
  else if String.eqb t "tokExp" then Some (mkClaims (Some uA) None (Some 5), demo_key)
  else if String.eqb t "tokForged" then Some (mkClaims (Some uA) None None, "guess")
  else if String.eqb t "tokNoId" then Some (mkClaims None None None, demo_key)
  else None.

#[export] Instance demo_jwt : JwtLib := {| jwt_decode := demo_decode |}.
End Demo.

Module GatewayWitness.
Import Demo.

(** ["tokExp"] (expires at 5) is accepted at time 3 and refused at 7. *)
Lemma gateway_auth_cases_witness :
  gateway_auth demo_secret 3 (Some "tokExp") = Ok (Some uA) /\
  gateway_auth demo_secret 7 (Some "tokExp") = Err InvalidToken.
Proof.
  pose proof (gateway_auth_cases demo_secret 3 (Some "tokExp")) as [_ H3].
  pose proof (gateway_auth_cases demo_secret 7 (Some "tokExp")) as [_ H7].
  split.
  - apply (H3 ltac:(concrete)); concrete.
  - apply (H7 ltac:(concrete)) with 5; concrete.
Defined.

Lemma auth_middleware_resolution_witness :
  auth_middleware (mkAccounts [uB] [uA]) demo_secret 0 (Some ("Bearer " ++ "tokA")%string) =
    Ok (PCaretaker uA).
Proof.
  rewrite (auth_middleware_resolution (mkAccounts [uB] [uA]) demo_secret 0 "tokA"
             (mkClaims (Some uA) None (Some 1000))); [concrete|concrete|].
  repeat constructor; concrete.
Defined.
End GatewayWitness.
