(* ===== verification/Token.v ===== *)
(** * Token issuing: [jwt.sign] and a concrete token codec

    The login routes ([auth.controller.js] [login] and [googleRegister],
    [Caretaker.model.js] [generateAuthToken]) issue tokens with
    [jwt.sign(payload, secret, { expiresIn })].  The contract the rest of
    the development needs from the library is the class [JwtSigner]: what
    [jwt_sign] produces decodes ([jwt_decode] of [Gateway.JwtLib]) to the
    claims and the key it was signed with, and is written in the base64url
    alphabet (no white space), so that it survives the
    ["Bearer " + token] header, and is not empty (a JWT has three
    segments), so that the pages' [if (res.data.token)] tests pass.

    [Codec] is a concrete implementation of both classes: each character
    of a field is written as two lower-case hex digits, fields end with
    ["."], optional fields are tagged ["n"]/["s"], and the expiry is the
    binary expansion of a [positive].  It lets the cross-component
    theorems be run on concrete accounts. *)

From Stdlib Require Import Ascii String NArith.
From stdpp Require Import base list strings.
From S2P Require Import Prelude JsString Gateway.

Class JwtSigner `{JwtLib} := {
  jwt_sign : Claims -> string -> string;
  jwt_sign_decode c k : jwt_decode (jwt_sign c k) = Some (c, k);
  jwt_sign_no_space c k : Forall (fun ch => is_js_space ch = false) (list_ascii_of_string (jwt_sign c k));
  jwt_sign_truthy c k : js_truthy (jwt_sign c k) = true;
}.

(** The payload [{ id: user._id }] with the [exp] that [expiresIn] adds:
    [exp = iat + seconds]. *)
Definition id_claims (id : string) (now seconds : nat) : Claims :=
  mkClaims (Some id) None (Some (now + seconds)).

(** ["1d"] and ["7d"], in seconds. *)
Definition one_day : nat := 86400.
Definition seven_days : nat := 604800.

Section Signed.
Context `{JwtSigner}.

Lemma jwt_verify_signed secret k c now :
  secret = Some k ->
  (match cl_exp c with Some e => now < e | None => True end) ->
  jwt_verify secret now (jwt_sign c k) = Some c.
Proof.
  intros -> He. unfold jwt_verify. rewrite jwt_sign_decode, String.eqb_refl.
  destruct (cl_exp c) as [e|]; [|done]. by rewrite (proj2 (Nat.ltb_lt now e) He).
Qed.

Lemma jwt_verify_signed_other secret k c now :
  secret <> Some k -> jwt_verify secret now (jwt_sign c k) = None.
Proof.
  intros Hk. unfold jwt_verify. rewrite jwt_sign_decode.
  destruct secret as [k'|]; [|done]. destruct (String.eqb_spec k' k); [congruence|done].
Qed.

Lemma jwt_sign_no_sep c k : Forall (fun ch => ch <> " "%char) (list_ascii_of_string (jwt_sign c k)).
Proof.
  eapply Forall_impl; [apply jwt_sign_no_space|]. intros ch Hch ->. discriminate Hch.
Qed.

End Signed.

(** ** A concrete codec *)

Module Codec.

Definition hexc (a b c d : bool) : ascii :=
  match a, b, c, d with
  | false, false, false, false => "0" | false, false, false, true => "1"
  | false, false, true, false => "2" | false, false, true, true => "3"
  | false, true, false, false => "4" | false, true, false, true => "5"
  | false, true, true, false => "6" | false, true, true, true => "7"
  | true, false, false, false => "8" | true, false, false, true => "9"
  | true, false, true, false => "a" | true, false, true, true => "b"
  | true, true, false, false => "c" | true, true, false, true => "d"
  | true, true, true, false => "e" | true, true, true, true => "f"
  end%char.

Definition unhexc (ch : ascii) : option (bool * bool * bool * bool) :=
  match ch with
  | "0" => Some (false, false, false, false) | "1" => Some (false, false, false, true)
  | "2" => Some (false, false, true, false) | "3" => Some (false, false, true, true)
  | "4" => Some (false, true, false, false) | "5" => Some (false, true, false, true)
  | "6" => Some (false, true, true, false) | "7" => Some (false, true, true, true)
  | "8" => Some (true, false, false, false) | "9" => Some (true, false, false, true)
  | "a" => Some (true, false, true, false) | "b" => Some (true, false, true, true)
  | "c" => Some (true, true, false, false) | "d" => Some (true, true, false, true)
  | "e" => Some (true, true, true, false) | "f" => Some (true, true, true, true)
  | _ => None
  end%char.

Definition enc_char (ch : ascii) : list ascii :=
  match ch with Ascii b0 b1 b2 b3 b4 b5 b6 b7 => [hexc b7 b6 b5 b4; hexc b3 b2 b1 b0] end.

Definition enc_str (s : list ascii) : list ascii := (s ≫= enc_char) ++ ["."%char].

Fixpoint dec_str (l : list ascii) : option (list ascii * list ascii) :=
  match l with
  | "."%char :: r => Some ([], r)
  | h :: l' :: r =>
      match unhexc h, unhexc l' with
      | Some (b7, b6, b5, b4), Some (b3, b2, b1, b0) =>
          '(s, rest) ← dec_str r; Some (Ascii b0 b1 b2 b3 b4 b5 b6 b7 :: s, rest)
      | _, _ => None
      end
  | _ => None
  end.

Definition enc_opt_str (o : option string) : list ascii :=
  match o with None => ["n"%char] | Some s => "s"%char :: enc_str (list_ascii_of_string s) end.

Definition dec_opt_str (l : list ascii) : option (option string * list ascii) :=
  match l with
  | "n"%char :: r => Some (None, r)
  | "s"%char :: r => '(s, rest) ← dec_str r; Some (Some (string_of_list_ascii s), rest)
  | _ => None
  end.

Fixpoint enc_pos (p : positive) : list ascii :=
  match p with xI p => "1"%char :: enc_pos p | xO p => "0"%char :: enc_pos p | xH => ["h"%char] end.

Fixpoint dec_pos (l : list ascii) : option (positive * list ascii) :=
  match l with
  | "1"%char :: r => '(p, rest) ← dec_pos r; Some (xI p, rest)
  | "0"%char :: r => '(p, rest) ← dec_pos r; Some (xO p, rest)
  | "h"%char :: r => Some (xH, r)
  | _ => None
  end.

Definition enc_opt_nat (o : option nat) : list ascii :=
  match o with
  | None => ["n"%char]
  | Some n => match N.of_nat n with N0 => ["z"%char] | Npos p => "p"%char :: enc_pos p end
  end.

Definition dec_opt_nat (l : list ascii) : option (option nat * list ascii) :=
  match l with
  | "n"%char :: r => Some (None, r)
  | "z"%char :: r => Some (Some 0, r)
  | "p"%char :: r => '(p, rest) ← dec_pos r; Some (Some (Pos.to_nat p), rest)
  | _ => None
  end.

Definition encode (c : Claims) (k : string) : string :=
  string_of_list_ascii
    (enc_opt_str (cl_id c) ++ enc_opt_str (cl__id c) ++ enc_opt_nat (cl_exp c) ++ enc_str (list_ascii_of_string k)).

Definition decode (t : string) : option (Claims * string) :=
  '(i, r1) ← dec_opt_str (list_ascii_of_string t);
  '(i', r2) ← dec_opt_str r1;
  '(e, r3) ← dec_opt_nat r2;
  '(k, r4) ← dec_str r3;
  match r4 with [] => Some (mkClaims i i' e, string_of_list_ascii k) | _ => None end.

Lemma unhexc_hexc a b c d : unhexc (hexc a b c d) = Some (a, b, c, d).
Proof. by destruct a, b, c, d. Qed.

Lemma dec_str_hex b0 b1 b2 b3 b4 b5 b6 b7 r :
  dec_str (hexc b7 b6 b5 b4 :: hexc b3 b2 b1 b0 :: r) =
  '(s, rest) ← dec_str r; Some (Ascii b0 b1 b2 b3 b4 b5 b6 b7 :: s, rest).
Proof. by destruct b0, b1, b2, b3, b4, b5, b6, b7. Qed.

Lemma dec_enc_str s r : dec_str (enc_str s ++ r) = Some (s, r).
Proof.
  induction s as [|[b0 b1 b2 b3 b4 b5 b6 b7] s IH]; [done|].
  unfold enc_str in *. rewrite <- app_assoc in IH. rewrite <- app_assoc. cbn -[dec_str hexc].
  rewrite dec_str_hex. simpl in IH. rewrite IH. done.
Qed.

Lemma dec_enc_opt_str o r : dec_opt_str (enc_opt_str o ++ r) = Some (o, r).
Proof.
  destruct o as [s|]; [|done]. simpl. rewrite dec_enc_str. simpl.
  by rewrite string_of_list_ascii_of_string.
Qed.

Lemma dec_enc_pos p r : dec_pos (enc_pos p ++ r) = Some (p, r).
Proof. induction p; simpl; rewrite ?IHp; done. Qed.

Lemma dec_enc_opt_nat o r : dec_opt_nat (enc_opt_nat o ++ r) = Some (o, r).
Proof.
  destruct o as [n|]; [|done]. unfold enc_opt_nat.
  destruct (N.of_nat n) as [|p] eqn:E; simpl.
  - by destruct n.
  - rewrite dec_enc_pos. simpl. f_equal. f_equal. f_equal.
    rewrite <- (Nat2N.id n), E. done.
Qed.

Lemma decode_encode c k : decode (encode c k) = Some (c, k).
Proof.
  unfold decode, encode. rewrite list_ascii_of_string_of_list_ascii.
  rewrite dec_enc_opt_str. simpl. rewrite dec_enc_opt_str. simpl.
  rewrite dec_enc_opt_nat. simpl. rewrite <- (app_nil_r (enc_str _)), dec_enc_str. simpl.
  rewrite string_of_list_ascii_of_string. by destruct c.
Qed.

Lemma hexc_not_space a b c d : is_js_space (hexc a b c d) = false.
Proof. by destruct a, b, c, d. Qed.

Lemma enc_str_no_space s : Forall (fun ch => is_js_space ch = false) (enc_str s).
Proof.
  unfold enc_str. apply Forall_app. split; [|by repeat constructor].
  induction s as [|[] s IH]; [done|]. rewrite bind_cons.
  apply Forall_app. split; [|done]. repeat constructor; apply hexc_not_space.
Qed.

Lemma enc_pos_no_space p : Forall (fun ch => is_js_space ch = false) (enc_pos p).
Proof. induction p; simpl; constructor; done. Qed.

Lemma enc_opt_str_no_space o : Forall (fun ch => is_js_space ch = false) (enc_opt_str o).
Proof. destruct o; simpl; [constructor; [done|apply enc_str_no_space]|by constructor]. Qed.

Lemma enc_opt_nat_no_space o : Forall (fun ch => is_js_space ch = false) (enc_opt_nat o).
Proof.
  destruct o as [n|]; simpl; [|by constructor].
  destruct (N.of_nat n); [by constructor|]. constructor; [done|apply enc_pos_no_space].
Qed.

Lemma encode_no_space c k :
  Forall (fun ch => is_js_space ch = false) (list_ascii_of_string (encode c k)).
Proof.
  unfold encode. rewrite list_ascii_of_string_of_list_ascii.
  rewrite !Forall_app. split_and!;
    auto using enc_opt_str_no_space, enc_opt_nat_no_space, enc_str_no_space.
Qed.

#[export] Instance codec_jwt : JwtLib := {| jwt_decode := decode |}.

Lemma encode_truthy c k : js_truthy (encode c k) = true.
Proof. unfold encode. by destruct (cl_id c). Qed.

#[export] Instance codec_signer : JwtSigner := {|
  jwt_sign := encode;
  jwt_sign_decode := decode_encode;
  jwt_sign_no_space := encode_no_space;
  jwt_sign_truthy c k := encode_truthy c k;
|}.

End Codec.
