(* ===== verification/Relay.v ===== *)
(** * The Relay Core: the Socket.IO server of [server.js]

    State of the process ([Server]): the accepted sockets, keyed by a
    socket id (Socket.IO's [socket.id]), each with the identity
    [socket.userId] its handshake set, the rooms it joined and the
    handshake it presented; the clock; the Message Store; the
    [Chat.create] calls that have been issued and not yet answered
    ([inflight]); and the log of every [receive_message] event emitted,
    as (socket id, document) pairs in emission order ([outbox]).

    Events ([Event]) are what the event loop runs:
    - [EvConnect token]: a handshake; [io.use] then [io.on("connection")]
      (lines 69-84) — [on_connect];
    - [EvDisconnect sid]: the ["disconnect"] handler (110-112), after
      which Socket.IO forgets the socket and its rooms — [on_disconnect];
    - [EvSend sid payload]: the synchronous part of the ["send_message"]
      handler (86-101): the guards, then the call [Chat.create(...)] whose
      promise the handler awaits — [on_send_message];
    - [EvCreateDone k]: the [k]-th pending [Chat.create] settles, and the
      handler resumes after its [await] (96-107): on success two
      [io.to(room).emit("receive_message", chat)], on failure the [catch]
      — [on_create_done];
    - [EvTick]: time passes.

    Splitting the handler at its [await] is what lets other events
    interleave with a send, as they do on the event loop: sockets connect
    and disconnect while a write is pending, and two pending writes can
    settle in either order.  [send_message_atomic] is the handler run with
    no interleaving.

    The store is any [MessageStore] obeying [MessageStoreLaws]; the
    theorems of the first sections are proved against that interface. *)

From Stdlib Require Import Ascii String.
From stdpp Require Import base list strings gmap.
From S2P Require Import Prelude JsString Store Gateway.

(** ** State *)

(** The payload of a ["send_message"] event:
    [{ receiver, receiverType, message }]. *)
Record Payload := mkPayload {
  pl_receiver : option string;
  pl_receiverType : option string;
  pl_message : option string;
}.

Record Socket := mkSocket {
  sock_user : option string;      (** [socket.userId] *)
  sock_rooms : list string;       (** rooms joined with [socket.join] *)
  sock_token : option string;     (** [socket.handshake.auth.token] *)
  sock_time : nat;                (** [socket.handshake.time] *)
}.

(** A [Chat.create] call awaiting its result, with what the handler's
    closure still holds: the socket, its [userId] and the raw [receiver]. *)
Record Pending := mkPending {
  pd_sid : nat;
  pd_user : option string;
  pd_receiver : string;
  pd_input : ChatInput;
}.

Record Server (St : Type) := mkServer {
  sockets : gmap nat Socket;
  next_sid : nat;
  now : nat;
  store : St;
  inflight : list Pending;
  outbox : list (nat * Chat);
}.
Arguments mkServer {St}.
Arguments sockets {St}. Arguments next_sid {St}. Arguments now {St}.
Arguments store {St}. Arguments inflight {St}. Arguments outbox {St}.

Inductive Reject :=
| RejectNoSocket          (** no accepted socket: no handler is registered *)
| RejectMissing           (** [!receiver || !message?.trim()] *)
| RejectInvalidReceiver.  (** [!mongoose.Types.ObjectId.isValid(receiver)] *)

Inductive Event :=
| EvConnect (token : option string)
| EvDisconnect (sid : nat)
| EvSend (sid : nat) (p : Payload)
| EvCreateDone (k : nat)
| EvTick.

(** [io.to(room).emit("receive_message", c)]: one event for every socket
    currently in the room. *)
Definition emit (socks : gmap nat Socket) (room : string) (c : Chat) : list (nat * Chat) :=
  omap (fun '(sid, s) => if decide (room ∈ sock_rooms s) then Some (sid, c) else None)
       (map_to_list socks).

Section Relay.
Context `{JwtLib} {St : Type} `{MessageStore St}.

(** [process.env.JWT_SECRET], fixed when the process starts. *)
Variable secret : option string.

Implicit Types (srv : Server St).

(** ** Handlers *)

(** [io.use(...)] then [io.on("connection", ...)]: a rejected handshake
    changes nothing; an accepted socket is registered with its identity
    and joined to the room [String(socket.userId)]. *)
Definition on_connect srv (token : option string) : Server St * result GatewayError nat :=
  match gateway_auth secret (now srv) token with
  | Err e => (srv, Err e)
  | Ok uid =>
      let sid := next_sid srv in
      let sock := mkSocket uid [user_room uid] token (now srv) in
      (mkServer (<[sid := sock]> (sockets srv)) (S sid) (now srv) (store srv)
                (inflight srv) (outbox srv), Ok sid)
  end.

Definition on_disconnect srv (sid : nat) : Server St :=
  mkServer (delete sid (sockets srv)) (next_sid srv) (now srv) (store srv)
           (inflight srv) (outbox srv).

(** The ["send_message"] handler up to its [await]. *)
Definition on_send_message srv (sid : nat) (p : Payload) : Server St * result Reject unit :=
  match sockets srv !! sid with
  | None => (srv, Err RejectNoSocket)
  | Some sock =>
      if negb (js_truthy_opt (pl_receiver p)) || negb (js_truthy_opt (js_trim <$> pl_message p))
      then (srv, Err RejectMissing)
      else match pl_receiver p with
           | None => (srv, Err RejectMissing)
           | Some r =>
               if negb (object_id_valid r) then (srv, Err RejectInvalidReceiver)
               else
                 let normalizedType := js_to_lower <$> pl_receiverType p in
                 let input := mkChatInput (sock_user sock) (Some r) normalizedType (pl_message p) in
                 (mkServer (sockets srv) (next_sid srv) (now srv) (store srv)
                           (inflight srv ++ [mkPending sid (sock_user sock) r input])
                           (outbox srv), Ok tt)
           end
  end.

(** The two emits after a successful [Chat.create]: first the
    receiver's room, then the sender's. *)
Definition deliveries (socks : gmap nat Socket) (pd : Pending) (c : Chat) : list (nat * Chat) :=
  emit socks (pd_receiver pd) c ++ emit socks (js_String (pd_user pd)) c.

(** The handler resumed after the [k]-th pending [Chat.create] settles. *)
Definition on_create_done srv (k : nat) : Server St * option (result StoreError Chat) :=
  match inflight srv !! k with
  | None => (srv, None)
  | Some pd =>
      let rest := delete k (inflight srv) in
      match ms_create (store srv) (pd_input pd) with
      | (st', Err e) =>
          (mkServer (sockets srv) (next_sid srv) (now srv) st' rest (outbox srv), Some (Err e))
      | (st', Ok c) =>
          (mkServer (sockets srv) (next_sid srv) (now srv) st' rest
                    (outbox srv ++ deliveries (sockets srv) pd c), Some (Ok c))
      end
  end.

Definition on_tick srv : Server St :=
  mkServer (sockets srv) (next_sid srv) (S (now srv)) (store srv) (inflight srv) (outbox srv).

Definition server_step srv (ev : Event) : Server St :=
  match ev with
  | EvConnect t => fst (on_connect srv t)
  | EvDisconnect sid => on_disconnect srv sid
  | EvSend sid p => fst (on_send_message srv sid p)
  | EvCreateDone k => fst (on_create_done srv k)
  | EvTick => on_tick srv
  end.

Definition run srv (evs : list Event) : Server St := foldl server_step srv evs.

(** The whole ["send_message"] handler with nothing interleaved: the
    write it issues is the last one pending, and it settles at once. *)
Definition send_message_atomic srv (sid : nat) (p : Payload)
  : Server St * result Reject (result StoreError Chat) :=
  match on_send_message srv sid p with
  | (srv', Err e) => (srv', Err e)
  | (srv', Ok _) =>
      match on_create_done srv' (length (inflight srv)) with
      | (srv'', Some r) => (srv'', Ok r)
      | (srv'', None) => (srv'', Err RejectNoSocket)
      end
  end.

(** ** Reachable states *)

Definition init_server (st0 : St) : Server St := mkServer ∅ 0 0 st0 [] [].

Inductive reachable (st0 : St) : Server St -> Prop :=
| reach_init : reachable st0 (init_server st0)
| reach_step srv ev : reachable st0 srv -> reachable st0 (server_step srv ev).

(** ** Lemmas *)

Lemma elem_of_emit socks room c sid c' :
  (sid, c') ∈ emit socks room c <->
  c' = c /\ exists s, socks !! sid = Some s /\ room ∈ sock_rooms s.
Proof.
  unfold emit. rewrite list_elem_of_omap. split.
  - intros ([sid' s] & Hin%elem_of_map_to_list & Hf).
    case_decide; simplify_eq. eauto.
  - intros (-> & s & Hs & Hr). exists (sid, s).
    rewrite elem_of_map_to_list. by rewrite decide_True.
Qed.

Lemma emit_nil socks room c :
  (forall sid s, socks !! sid = Some s -> room ∉ sock_rooms s) -> emit socks room c = [].
Proof.
  intros Hno. destruct (emit socks room c) as [|[sid c'] l] eqn:E; [done|].
  assert ((sid, c') ∈ emit socks room c) as Hin by (rewrite E; left).
  apply elem_of_emit in Hin as (_ & s & Hs & Hr). by destruct (Hno sid s Hs).
Qed.

Lemma reachable_run st0 evs : reachable st0 (run (init_server st0) evs).
Proof.
  unfold run. generalize (init_server st0) (reach_init st0).
  induction evs as [|ev evs IH]; simpl; [done|]. intros srv Hr. apply IH. by constructor.
Qed.

(** ** The relay invariant *)

Context `{!MessageStoreLaws St}.

(** A pending write carries a receiver that passed [ObjectId.isValid], a
    body that is not blank, and the identity of the socket that sent it. *)
Definition pending_ok (pd : Pending) : Prop :=
  object_id_valid (pd_receiver pd) = true /\
  in_sender (pd_input pd) = pd_user pd /\
  in_receiver (pd_input pd) = Some (pd_receiver pd) /\
  exists m, in_message (pd_input pd) = Some m /\ js_trim m <> ""%string.

(** Every accepted socket was accepted by the gateway: its handshake
    token verified at the handshake's time, to the identity it carries,
    and it is in exactly the room of that identity. *)
Definition socket_ok srv (sid : nat) (sock : Socket) : Prop :=
  sid < next_sid srv /\ sock_time sock <= now srv /\
  gateway_auth secret (sock_time sock) (sock_token sock) = Ok (sock_user sock) /\
  sock_rooms sock = [user_room (sock_user sock)].

Definition server_inv srv : Prop :=
  map_Forall (socket_ok srv) (sockets srv) /\
  ms_wf (store srv) /\
  Forall (fun d => d.2 ∈ ms_docs (store srv)) (outbox srv) /\
  Forall pending_ok (inflight srv).

Lemma on_send_message_inv srv sid p srv' r :
  server_inv srv -> on_send_message srv sid p = (srv', r) -> server_inv srv'.
Proof.
  intros Hinv. unfold on_send_message.
  destruct (sockets srv !! sid) as [sock|]; [|by intros [= <- _]].
  destruct (negb _ || negb _) eqn:Hg; [by intros [= <- _]|].
  destruct (pl_receiver p) as [rc|] eqn:Hr; [|by intros [= <- _]].
  destruct (object_id_valid rc) eqn:Hv; simpl; [|by intros [= <- _]].
  intros [= <- _]. destruct Hinv as (Hs & Hst & Ho & Hp).
  split_and!; [done|done|done|]. apply Forall_app. split; [done|].
  apply Forall_singleton. split_and!; [done|done|done|].
  apply orb_false_iff in Hg as [_ Hm]. apply negb_false_iff in Hm.
  destruct (pl_message p) as [m|]; simpl in Hm; [|done].
  exists m. split; [done|]. destruct (js_trim m); [done|discriminate].
Qed.

Lemma on_create_done_inv srv k srv' r :
  server_inv srv -> on_create_done srv k = (srv', r) -> server_inv srv'.
Proof.
  intros (Hs & Hst & Ho & Hp). unfold on_create_done.
  destruct (inflight srv !! k) as [pd|] eqn:Hk; [|intros [= <- _]; by split_and!].
  destruct (ms_create (store srv) (pd_input pd)) as [st' [c|e]] eqn:Hc;
    intros [= <- _]; pose proof (ms_create_wf _ _ _ _ Hst Hc) as Hwf'.
  - destruct (ms_create_ok _ _ _ _ Hst Hc) as (Hdocs & _ & _).
    split_and!; simpl; [done|done| |by apply Forall_delete].
    apply Forall_app. split.
    + eapply Forall_impl; [done|]. intros d Hd. rewrite Hdocs. set_solver.
    + apply Forall_forall. intros [sid c'] Hin. unfold deliveries in Hin.
      rewrite elem_of_app, !elem_of_emit in Hin. rewrite Hdocs. set_solver.
  - pose proof (ms_create_err _ _ _ _ Hc) as Hdocs.
    split_and!; simpl; [done|done| |by apply Forall_delete]. by rewrite Hdocs.
Qed.

Lemma on_connect_inv srv t srv' r :
  server_inv srv -> on_connect srv t = (srv', r) -> server_inv srv'.
Proof.
  intros (Hs & Hst & Ho & Hp). unfold on_connect.
  destruct (gateway_auth secret (now srv) t) as [uid|e] eqn:Hg; [|by intros [= <- _]].
  intros [= <- _]. split_and!; [|done|done|done].
  apply map_Forall_insert_2.
  - unfold socket_ok; simpl. split_and!; auto.
  - eapply map_Forall_impl; [done|]. intros sid sock (? & ? & ? & ?).
    unfold socket_ok; simpl. split_and!; auto.
Qed.

Theorem server_inv_step srv ev :
  server_inv srv -> server_inv (server_step srv ev).
Proof.
  intros Hinv. destruct ev as [t|sid|sid p|k|]; simpl.
  - destruct (on_connect srv t) eqn:E. by eapply on_connect_inv.
  - destruct Hinv as (Hs & ? & ? & ?). unfold server_inv; simpl. split_and!; [|done..].
    by apply map_Forall_delete.
  - destruct (on_send_message srv sid p) eqn:E. by eapply on_send_message_inv.
  - destruct (on_create_done srv k) eqn:E. by eapply on_create_done_inv.
  - destruct Hinv as (Hs & ? & ? & ?). unfold server_inv; simpl. split_and!; [|done..].
    eapply map_Forall_impl; [done|]. intros sid sock (? & ? & ? & ?).
    unfold socket_ok; simpl. split_and!; auto.
Qed.

Lemma server_inv_init st0 : ms_wf st0 -> server_inv (init_server st0).
Proof. intros Hwf. split_and!; [apply map_Forall_empty|done|constructor|constructor]. Qed.

Lemma server_inv_reachable st0 srv :
  ms_wf st0 -> reachable st0 srv -> server_inv srv.
Proof.
  intros Hwf Hr. induction Hr; [by apply server_inv_init|by apply server_inv_step].
Qed.

(** ** The send handler *)

(** An event that passes the guards queues one pending [Chat.create]
    of [{ sender: socket.userId, receiver, receiverType: normalizedType,
    message }] and changes nothing else. *)
Lemma on_send_message_accepted srv sid p sock r :
  sockets srv !! sid = Some sock ->
  pl_receiver p = Some r -> js_truthy r = true ->
  js_truthy_opt (js_trim <$> pl_message p) = true ->
  object_id_valid r = true ->
  on_send_message srv sid p =
    (mkServer (sockets srv) (next_sid srv) (now srv) (store srv)
       (inflight srv ++ [mkPending sid (sock_user sock) r
                          (mkChatInput (sock_user sock) (Some r) (js_to_lower <$> pl_receiverType p) (pl_message p))])
       (outbox srv), Ok tt).
Proof.
  intros Hs Hr Htr Hm Hv. pose proof (js_truthy_opt_trim _ Hm) as Hm'.
  unfold on_send_message. rewrite Hs, Hr. cbn [js_truthy_opt]. by rewrite Htr, ?Hm, ?Hm', Hv.
Qed.

(** A pending create that succeeds is removed and followed by its
    deliveries. *)
Lemma on_create_done_ok srv k pd st' c :
  inflight srv !! k = Some pd -> ms_create (store srv) (pd_input pd) = (st', Ok c) ->
  on_create_done srv k =
    (mkServer (sockets srv) (next_sid srv) (now srv) st' (delete k (inflight srv))
       (outbox srv ++ deliveries (sockets srv) pd c), Some (Ok c)).
Proof. intros Hk Hc. unfold on_create_done. by rewrite Hk, Hc. Qed.

(** An event that passes the guards, run with nothing interleaved, is
    one [Chat.create] followed, on success, by the two emits and, on
    failure, by nothing. *)
Lemma send_message_atomic_accepted srv sid p sock r :
  sockets srv !! sid = Some sock ->
  pl_receiver p = Some r -> js_truthy r = true ->
  js_truthy_opt (js_trim <$> pl_message p) = true ->
  object_id_valid r = true ->
  let input := mkChatInput (sock_user sock) (Some r) (js_to_lower <$> pl_receiverType p) (pl_message p) in
  send_message_atomic srv sid p =
    match ms_create (store srv) input with
    | (st', Err e) =>
        (mkServer (sockets srv) (next_sid srv) (now srv) st' (inflight srv) (outbox srv), Ok (Err e))
    | (st', Ok c) =>
        (mkServer (sockets srv) (next_sid srv) (now srv) st' (inflight srv)
           (outbox srv ++ deliveries (sockets srv) (mkPending sid (sock_user sock) r input) c), Ok (Ok c))
    end.
Proof.
  intros Hs Hr Htr Hm Hv input. unfold send_message_atomic.
  rewrite (on_send_message_accepted srv sid p sock r) by done. unfold on_create_done; simpl.
  rewrite list_lookup_middle by done; simpl. rewrite (delete_middle _ []), app_nil_r.
  subst input. by destruct (ms_create _ _) as [st' [c|e]].
Qed.

(** The two outcomes of the handler: dropped by a guard with no effect,
    or accepted and then as [send_message_atomic_accepted] describes. *)
Lemma send_message_atomic_cases srv sid p :
  (exists e, send_message_atomic srv sid p = (srv, Err e)) \/
  exists sock r, sockets srv !! sid = Some sock /\ pl_receiver p = Some r /\
    let input := mkChatInput (sock_user sock) (Some r) (js_to_lower <$> pl_receiverType p) (pl_message p) in
    send_message_atomic srv sid p =
      match ms_create (store srv) input with
      | (st', Err e) =>
          (mkServer (sockets srv) (next_sid srv) (now srv) st' (inflight srv) (outbox srv), Ok (Err e))
      | (st', Ok c) =>
          (mkServer (sockets srv) (next_sid srv) (now srv) st' (inflight srv)
             (outbox srv ++ deliveries (sockets srv) (mkPending sid (sock_user sock) r input) c), Ok (Ok c))
      end.
Proof.
  destruct (sockets srv !! sid) as [sock|] eqn:Hsock.
  2: { left. exists RejectNoSocket. unfold send_message_atomic, on_send_message. by rewrite Hsock. }
  destruct (pl_receiver p) as [r|] eqn:Hr.
  2: { left. exists RejectMissing. unfold send_message_atomic, on_send_message. by rewrite Hsock, Hr. }
  destruct (js_truthy r && js_truthy_opt (js_trim <$> pl_message p) && object_id_valid r) eqn:Hok.
  - right. exists sock, r. split_and!; [done|done|]. intros input.
    apply andb_true_iff in Hok as [[Htr Hm]%andb_true_iff Hv].
    by apply send_message_atomic_accepted.
  - left. unfold send_message_atomic, on_send_message. rewrite Hsock, Hr. simpl.
    destruct (js_truthy r), (js_truthy_opt _), (object_id_valid r); simpl in *;
      try discriminate; eauto.
Qed.

(** Every guard that drops the event drops it with no effect at all:
    nothing is written, nothing is emitted, nothing is left pending. *)
Lemma on_send_message_Err srv sid p srv' e :
  on_send_message srv sid p = (srv', Err e) -> srv' = srv.
Proof.
  unfold on_send_message.
  destruct (sockets srv !! sid); [|by intros [= <-]].
  destruct (negb _ || negb _); [by intros [= <-]|].
  destruct (pl_receiver p); [|by intros [= <-]].
  by destruct (object_id_valid _); intros [=].
Qed.

(** The events of one [emit] go to distinct sockets, one each. *)
Lemma emit_NoDup socks room c : NoDup (emit socks room c).*1.
Proof.
  apply omap_keys_NoDup; [|apply NoDup_fst_map_to_list].
  intros k v k' w. by case_decide; intros [=].
Qed.

(** A send that ends in a persisted document went through the guards,
    wrote exactly that document, and emitted it to the two rooms. *)
Lemma send_message_atomic_Ok srv sid p srv' c :
  send_message_atomic srv sid p = (srv', Ok (Ok c)) ->
  exists sock r input,
    sockets srv !! sid = Some sock /\ pl_receiver p = Some r /\
    sockets srv' = sockets srv /\
    ms_create (store srv) input = (store srv', Ok c) /\
    outbox srv' = outbox srv ++ deliveries (sockets srv) (mkPending sid (sock_user sock) r input) c.
Proof.
  unfold send_message_atomic. destruct (on_send_message srv sid p) as [srv1 [[]|e]] eqn:Hs; [|intros [=]].
  unfold on_send_message in Hs.
  destruct (sockets srv !! sid) as [sock|] eqn:Hsock; [|discriminate].
  destruct (_ || _); [discriminate|].
  destruct (pl_receiver p) as [r|] eqn:Hr; [|discriminate].
  destruct (negb (object_id_valid r)); [discriminate|]. injection Hs as <-.
  unfold on_create_done; simpl. rewrite list_lookup_middle by done; simpl.
  rewrite (delete_middle _ []), app_nil_r.
  destruct (ms_create _ _) as [st' [c'|e]] eqn:Hc; intros [= <- <-].
  eexists _, _, _. split_and!; [done|done|done|exact Hc|done].
Qed.

(** C4: fan-out.  When a send is persisted as [c], every socket then
    connected whose identity is the receiver named in the event, or the
    sender's identity, is sent [c] — every tab of either side, not one of
    them.  (Proved for every reachable state, from the invariant: a
    socket is in exactly the room of its identity.) *)
Theorem send_message_fanout st0 srv sid p srv' c sock sid' sock' :
  ms_wf st0 -> reachable st0 srv ->
  sockets srv !! sid = Some sock ->
  send_message_atomic srv sid p = (srv', Ok (Ok c)) ->
  sockets srv !! sid' = Some sock' ->
  sock_user sock' = pl_receiver p \/ sock_user sock' = sock_user sock ->
  (sid', c) ∈ outbox srv'.
Proof.
  intros Hwf Hreach Hsock Hsend Hsock' Hwho.
  destruct (server_inv_reachable st0 srv Hwf Hreach) as (Hsocks & _).
  destruct (Hsocks sid' sock' Hsock') as (_ & _ & _ & Hrooms).
  destruct (send_message_atomic_Ok _ _ _ _ _ Hsend)
    as (sock0 & r & input & Hs0 & Hr & _ & _ & ->).
  rewrite Hsock in Hs0. injection Hs0 as <-.
  rewrite elem_of_app. right. unfold deliveries. rewrite elem_of_app, !elem_of_emit.
  rewrite Hr in Hwho. simpl.
  destruct Hwho as [Hw|Hw]; [left|right]; (split; [done|]); exists sock';
    (split; [done|]); rewrite Hrooms; unfold user_room; rewrite Hw;
    by apply list_elem_of_singleton.
Qed.

(** A message to oneself is delivered twice to every socket of the
    sender: the receiver's room and the sender's room are the same room,
    and the handler emits to it once for each name. *)
Theorem send_to_self_delivered_twice srv sid p srv' c sock u sid' sock' :
  sockets srv !! sid = Some sock -> sock_user sock = Some u -> pl_receiver p = Some u ->
  send_message_atomic srv sid p = (srv', Ok (Ok c)) ->
  sockets srv !! sid' = Some sock' -> u ∈ sock_rooms sock' ->
  filter (fun d => d.1 = sid') (outbox srv') =
    filter (fun d => d.1 = sid') (outbox srv) ++ [(sid', c); (sid', c)].
Proof.
  intros Hsock Hu Hr Hsend Hsock' Hroom.
  destruct (send_message_atomic_Ok _ _ _ _ _ Hsend)
    as (sock0 & r & input & Hs0 & Hr0 & _ & _ & ->).
  rewrite Hsock in Hs0. injection Hs0 as <-. rewrite Hr in Hr0. injection Hr0 as <-.
  unfold deliveries; simpl. rewrite Hu. simpl.
  rewrite !filter_app, (filter_key_unique (emit (sockets srv) u c) sid' c);
    [done|apply emit_NoDup|]. apply elem_of_emit. eauto.
Qed.

(** C5: nothing is delivered that is not persisted: in every reachable
    state, every [receive_message] event ever emitted carries a document
    of the store. *)
Theorem delivered_only_if_persisted st0 srv :
  ms_wf st0 -> reachable st0 srv ->
  Forall (fun d => d.2 ∈ ms_docs (store srv)) (outbox srv).
Proof. intros Hwf Hr. by destruct (server_inv_reachable st0 srv Hwf Hr) as (_ & _ & ? & _). Qed.

(** C3: only authenticated connections subscribe.  In every reachable
    state, each accepted socket presented a non-empty token that
    verified, at its handshake, under the configured secret, and the
    socket is in one room only: the one named by the identity that token
    carries ([id], or else [_id]). *)
Theorem sockets_authenticated st0 srv sid sock :
  ms_wf st0 -> reachable st0 srv -> sockets srv !! sid = Some sock ->
  exists t c, sock_token sock = Some t /\ t <> ""%string /\
    jwt_verify secret (sock_time sock) t = Some c /\
    sock_user sock = js_or (cl_id c) (cl__id c) /\
    sock_rooms sock = [js_String (js_or (cl_id c) (cl__id c))].
Proof.
  intros Hwf Hr Hs.
  destruct (server_inv_reachable st0 srv Hwf Hr) as (Hsocks & _).
  destruct (Hsocks sid sock Hs) as (_ & _ & Hg & Hrooms).
  destruct (gateway_auth_Ok _ _ _ _ Hg) as (t & c & Ht & Hne & Hv & Hu).
  exists t, c. rewrite Hrooms, Hu. by split_and!.
Qed.

(** C2: a ["send_message"] event with no receiver, an empty receiver, no
    message, or a message of white space only, from an accepted socket,
    is dropped: the server is exactly as it was — nothing is written,
    nothing emitted, nothing pending, and nothing tells the sender. *)
Theorem send_message_blank_dropped srv sid p sock :
  sockets srv !! sid = Some sock ->
  (pl_receiver p = None \/ pl_receiver p = Some ""%string \/ pl_message p = None \/
   exists m, pl_message p = Some m /\
             Forall (fun c => is_js_space c = true) (list_ascii_of_string m)) ->
  send_message_atomic srv sid p = (srv, Err RejectMissing).
Proof.
  intros Hs Hblank. unfold send_message_atomic, on_send_message. rewrite Hs.
  assert (Hg : negb (js_truthy_opt (pl_receiver p)) ||
               negb (js_truthy_opt (js_trim <$> pl_message p)) = true).
  { destruct Hblank as [->|[->|[->|(m & -> & Hm)]]]; simpl; rewrite ?orb_true_r; [done..|].
    apply js_trim_empty_iff in Hm. rewrite Hm. apply orb_true_r. }
  by rewrite Hg.
Qed.

(** A receiver that is not an ObjectId ([ObjectId.isValid] fails)
    drops the event with no effect, after the blank checks pass. *)
Theorem send_message_invalid_receiver_dropped srv sid p sock r m :
  sockets srv !! sid = Some sock ->
  pl_receiver p = Some r -> r <> ""%string ->
  pl_message p = Some m -> js_trim m <> ""%string ->
  object_id_valid r = false ->
  send_message_atomic srv sid p = (srv, Err RejectInvalidReceiver).
Proof.
  intros Hs Hr Hne Hm Htm Hv. unfold send_message_atomic, on_send_message.
  rewrite Hs, Hr, Hm. simpl. rewrite Hv.
  destruct r; [done|]. by destruct (js_trim m).
Qed.
End Relay.

#[export] Hint Resolve reach_init reach_step : mm.

(** ** The relay over the in-memory store *)

Section RelayMem.
Context `{JwtLib}.
Variable secret : option string.
Implicit Types (srv : Server MemStore).

(** The accepting path of [send_message], shared by the theorems
    about senders: [Chat.create] stores one document and the handler
    queues its [deliveries]. *)
Lemma send_message_valid_atomic srv sid sock p u r t m :
  sockets srv !! sid = Some sock -> sock_user sock = Some u -> object_id_valid u = true ->
  pl_receiver p = Some r -> object_id_valid r = true ->
  pl_message p = Some m -> js_trim m <> ""%string ->
  pl_receiverType p = Some t -> js_to_lower t ∈ receiver_type_enum ->
  up (store srv) = true ->
  let c := mkChat (next_id (store srv)) (js_to_lower u) (js_to_lower r) (js_to_lower t) m
                  (clock (store srv)) in
  send_message_atomic srv sid p =
    (mkServer (sockets srv) (next_sid srv) (now srv)
       (mkMemStore (chats (store srv) ++ [c]) (S (next_id (store srv))) (clock (store srv)) true)
       (inflight srv)
       (outbox srv ++ deliveries (sockets srv)
          (mkPending sid (Some u) r (mkChatInput (Some u) (Some r) (Some (js_to_lower t)) (Some m))) c),
     Ok (Ok c)).
Proof.
  intros Hs Hu Hvu Hr Hvr Hm Htm Ht Henum Hup c.
  assert (Htr : js_truthy r = true) by auto with mm.
  assert (Hmt : js_truthy_opt (js_trim <$> pl_message p) = true)
    by (rewrite Hm; simpl; by destruct (js_trim m)).
  assert (Hc : chat_create (store srv) (mkChatInput (Some u) (Some r) (Some (js_to_lower t)) (Some m)) =
                 (mkMemStore (chats (store srv) ++ [c]) (S (next_id (store srv))) (clock (store srv)) true, Ok c)).
  { unfold chat_create. rewrite validate_chat_accept by eauto with mm. by rewrite Hup. }
  unfold send_message_atomic. rewrite (on_send_message_accepted srv sid p sock r) by done.
  erewrite (on_create_done_ok _ _ _
             (mkMemStore (chats (store srv) ++ [c]) (S (next_id (store srv))) (clock (store srv)) true) c);
    [|simpl; by rewrite list_lookup_middle|].
  - simpl. by rewrite (delete_middle _ []), app_nil_r, Hu.
  - simpl. rewrite Hu, Ht, Hm. cbn [fmap option_fmap option_map]. change ms_create with chat_create. by rewrite Hc.
Qed.

(** The reply of a valid send: the stored document. *)
Lemma send_message_valid_result srv sid sock p u r t m :
  sockets srv !! sid = Some sock -> sock_user sock = Some u -> object_id_valid u = true ->
  pl_receiver p = Some r -> object_id_valid r = true ->
  pl_message p = Some m -> js_trim m <> ""%string ->
  pl_receiverType p = Some t -> js_to_lower t ∈ receiver_type_enum ->
  up (store srv) = true ->
  (send_message_atomic srv sid p).2 =
    Ok (Ok (mkChat (next_id (store srv)) (js_to_lower u) (js_to_lower r) (js_to_lower t) m (clock (store srv)))).
Proof. intros. by erewrite send_message_valid_atomic. Qed.

(** The same path with the two emits written out. *)
Lemma send_message_valid_persists srv sid sock p u r t m :
  sockets srv !! sid = Some sock -> sock_user sock = Some u -> object_id_valid u = true ->
  pl_receiver p = Some r -> object_id_valid r = true ->
  pl_message p = Some m -> js_trim m <> ""%string ->
  pl_receiverType p = Some t -> js_to_lower t ∈ receiver_type_enum ->
  up (store srv) = true ->
  let c := mkChat (next_id (store srv)) (js_to_lower u) (js_to_lower r) (js_to_lower t) m
                  (clock (store srv)) in
  send_message_atomic srv sid p =
    (mkServer (sockets srv) (next_sid srv) (now srv)
       (mkMemStore (chats (store srv) ++ [c]) (S (next_id (store srv))) (clock (store srv)) true)
       (inflight srv)
       (outbox srv ++ emit (sockets srv) r c ++ emit (sockets srv) u c), Ok (Ok c)).
Proof. intros. by erewrite send_message_valid_atomic. Qed.


(** C1: a valid send is persisted and delivered.  From an accepted
    socket of identity [u], an event with a receiver [r] that is an
    ObjectId, a message [m] that is not blank, and a [receiverType] that
    is in the schema's enum once lower-cased, while the database is up:
    the handler stores exactly one new document — [sender] and
    [receiver] in canonical (lower-case) form, [receiverType]
    lower-cased, the message as sent (untrimmed), the next [_id] and the
    current time — and emits it to the sockets in room [r], then to those
    in room [u]. *)
Theorem send_message_persists_and_delivers srv sid sock p u r t m :
  sockets srv !! sid = Some sock -> sock_user sock = Some u -> object_id_valid u = true ->
  pl_receiver p = Some r -> object_id_valid r = true ->
  pl_message p = Some m -> js_trim m <> ""%string ->
  pl_receiverType p = Some t -> js_to_lower t ∈ receiver_type_enum ->
  up (store srv) = true ->
  let c := mkChat (next_id (store srv)) (js_to_lower u) (js_to_lower r) (js_to_lower t) m
                  (clock (store srv)) in
  send_message_atomic srv sid p =
    (mkServer (sockets srv) (next_sid srv) (now srv)
       (mkMemStore (chats (store srv) ++ [c]) (S (next_id (store srv))) (clock (store srv)) true)
       (inflight srv)
       (outbox srv ++ emit (sockets srv) r c ++ emit (sockets srv) u c), Ok (Ok c)).
Proof. intros. by eapply send_message_valid_persists. Qed.

(** Persistence failure is silent.  When the database is down, a
    send that passes the guards leaves the server exactly as it was (the
    [catch] only logs): no document, no event, nothing pending. *)
Theorem send_message_store_down_silent srv sid sock p r :
  sockets srv !! sid = Some sock ->
  pl_receiver p = Some r -> object_id_valid r = true ->
  js_truthy_opt (js_trim <$> pl_message p) = true ->
  up (store srv) = false ->
  send_message_atomic srv sid p = (srv, Ok (Err EUnavailable)) \/
  exists e, send_message_atomic srv sid p = (srv, Ok (Err (EValidation e))).
Proof.
  intros Hs Hr Hv Hm Hup.
  rewrite (send_message_atomic_accepted srv sid p sock r) by auto with mm.
  simpl. unfold chat_create.
  destruct (validate_chat _) as [[[[? ?] ?] ?]|[e|]]; rewrite ?Hup; destruct srv; simpl;
    [left|right; eauto|left]; done.
Qed.

(** A socket without identity never gets a message stored: the guards
    drop the event, or [Chat.create] rejects the missing [sender]; either
    way the server is unchanged. *)
Lemma send_message_atomic_no_user srv sid sock p :
  sockets srv !! sid = Some sock -> sock_user sock = None ->
  exists r, send_message_atomic srv sid p = (srv, r) /\ forall d, r <> Ok (Ok d).
Proof.
  intros Hs Hu. destruct (send_message_atomic_cases srv sid p) as [(e & ->)|(sock' & r & Hs' & _ & ->)].
  - by eexists.
  - rewrite Hs in Hs'. injection Hs' as <-. simpl. unfold chat_create, validate_chat.
    rewrite Hu. simpl. destruct srv. by eexists.
Qed.

(** A token that verifies but carries neither [id] nor [_id] is
    accepted: [socket.userId] is [undefined] and the socket joins the
    room ["undefined"]; every message it sends is then lost, since
    [Chat.create] rejects a document without [sender] — the server is
    left as it was, and the sender is not told. *)
Theorem anonymous_socket_sends_lost srv t c p :
  jwt_verify secret (now srv) t = Some c -> t <> ""%string ->
  cl_id c = None -> cl__id c = None ->
  exists srv1, on_connect secret srv (Some t) = (srv1, Ok (next_sid srv)) /\
    sockets srv1 !! next_sid srv = Some (mkSocket None ["undefined"%string] (Some t) (now srv)) /\
    exists r, send_message_atomic srv1 (next_sid srv) p = (srv1, r) /\ forall d, r <> Ok (Ok d).
Proof.
  intros Hv Hne Hid H_id. unfold on_connect, gateway_auth.
  destruct t as [|a t']; [done|]. simpl. rewrite Hv. unfold js_or. rewrite Hid, H_id. simpl.
  eexists. split; [done|].
  assert (Hs : <[next_sid srv:=mkSocket None ["undefined"%string] (Some (String a t')) (now srv)]>
                 (sockets srv) !! next_sid srv =
               Some (mkSocket None ["undefined"%string] (Some (String a t')) (now srv)))
    by apply lookup_insert_eq.
  split; [exact Hs|]. by eapply send_message_atomic_no_user.
Qed.
End RelayMem.

(** ** Witnesses *)

Module RelayWitness.
Import Demo.

(** [uA] connects once, [uB] twice (two tabs). *)
Definition w_srv : Server MemStore :=
  run demo_secret (init_server empty_store)
    [EvConnect (Some "tokA"); EvConnect (Some "tokB"); EvConnect (Some "tokB")].

Definition w_sockA : Socket := mkSocket (Some uA) [uA] (Some "tokA") 0.
Definition w_sockB : Socket := mkSocket (Some uB) [uB] (Some "tokB") 0.
Definition w_hello : Payload := mkPayload (Some uB) (Some "User") (Some " hello ").

Lemma send_message_persists_and_delivers_witness :
  let c := mkChat (next_id (store w_srv)) (js_to_lower uA) (js_to_lower uB) (js_to_lower "User")
                  " hello " (clock (store w_srv)) in
  send_message_atomic w_srv 0 w_hello =
    (mkServer (sockets w_srv) (next_sid w_srv) (now w_srv)
       (mkMemStore (chats (store w_srv) ++ [c]) (S (next_id (store w_srv))) (clock (store w_srv)) true)
       (inflight w_srv)
       (outbox w_srv ++ emit (sockets w_srv) uB c ++ emit (sockets w_srv) uA c), Ok (Ok c)).
Proof.
  refine (send_message_persists_and_delivers w_srv 0 w_sockA w_hello uA uB "User" " hello "
            _ _ _ _ _ _ _ _ _ _); concrete.
Defined.

Lemma send_message_blank_dropped_witness :
  send_message_atomic w_srv 0 (mkPayload (Some uB) (Some "user") (Some " 	 ")) =
    (w_srv, Err RejectMissing).
Proof.
  apply (send_message_blank_dropped w_srv 0 _ w_sockA); [concrete|].
  right; right; right. exists " 	 "%string. split; [done|]. repeat constructor.
Defined.

Lemma send_message_invalid_receiver_dropped_witness :
  send_message_atomic w_srv 0 (mkPayload (Some "u2") (Some "user") (Some "hi")) =
    (w_srv, Err RejectInvalidReceiver).
Proof.
  apply (send_message_invalid_receiver_dropped w_srv 0 _ w_sockA "u2" "hi"); concrete.
Defined.

Lemma send_message_store_down_silent_witness :
  let srv := mkServer (sockets w_srv) (next_sid w_srv) (now w_srv)
               (set_up false (store w_srv)) (inflight w_srv) (outbox w_srv) in
  send_message_atomic srv 0 w_hello = (srv, Ok (Err EUnavailable)) \/
  exists e, send_message_atomic srv 0 w_hello = (srv, Ok (Err (EValidation e))).
Proof.
  intros srv. apply (send_message_store_down_silent srv 0 w_sockA w_hello uB); concrete.
Defined.

(** After [uA] sends to [uB], both tabs of [uB] (sockets 1 and 2) have
    the document. *)
Definition w_after : Server MemStore := fst (send_message_atomic w_srv 0 w_hello).
Definition w_chat : Chat := mkChat 0 uA uB "user" " hello " 0.

Lemma send_message_fanout_witness : (2, w_chat) ∈ outbox w_after.
Proof.
  apply (send_message_fanout demo_secret empty_store w_srv 0 w_hello w_after w_chat w_sockA 2 w_sockB).
  - apply store_wf_empty.
  - apply reachable_run.
  - concrete.
  - concrete.
  - concrete.
  - left. concrete.
Defined.

Lemma send_to_self_delivered_twice_witness :
  let p := mkPayload (Some uA) (Some "user") (Some "note to self") in
  filter (fun d => d.1 = 0) (outbox (fst (send_message_atomic w_srv 0 p))) =
    filter (fun d => d.1 = 0) (outbox w_srv) ++
    [(0, mkChat 0 uA uA "user" "note to self" 0); (0, mkChat 0 uA uA "user" "note to self" 0)].
Proof.
  intros p. apply (send_to_self_delivered_twice w_srv 0 p _ _ w_sockA uA 0 w_sockA); concrete.
Defined.

Lemma delivered_only_if_persisted_witness :
  Forall (fun d => d.2 ∈ ms_docs (store w_after)) (outbox w_after).
Proof.
  apply (delivered_only_if_persisted demo_secret empty_store w_after).
  - apply store_wf_empty.
  - change w_after with (run demo_secret (init_server empty_store)
      [EvConnect (Some "tokA"); EvConnect (Some "tokB"); EvConnect (Some "tokB");
       EvSend 0 w_hello; EvCreateDone 0]).
    apply reachable_run.
Defined.

Lemma sockets_authenticated_witness :
  exists t c, sock_token w_sockB = Some t /\ t <> ""%string /\
    jwt_verify demo_secret (sock_time w_sockB) t = Some c /\
    sock_user w_sockB = js_or (cl_id c) (cl__id c) /\
    sock_rooms w_sockB = [js_String (js_or (cl_id c) (cl__id c))].
Proof.
  apply (sockets_authenticated demo_secret empty_store w_srv 2 w_sockB).
  - apply store_wf_empty.
  - apply reachable_run.
  - concrete.
Defined.

Lemma anonymous_socket_sends_lost_witness :
  exists srv1, on_connect demo_secret w_srv (Some "tokNoId") = (srv1, Ok (next_sid w_srv)) /\
    sockets srv1 !! next_sid w_srv =
      Some (mkSocket None ["undefined"%string] (Some "tokNoId"%string) (now w_srv)) /\
    exists r, send_message_atomic srv1 (next_sid w_srv) w_hello = (srv1, r) /\
              forall d, r <> Ok (Ok d).
Proof.
  apply (anonymous_socket_sends_lost demo_secret w_srv "tokNoId" (mkClaims None None None) w_hello);
    concrete.
Defined.
End RelayWitness.
