(* ===== verification/History.v ===== *)
(** * REST History/Directory Service

    The synchronous reads and the fallback write of the chat, behind the
    [auth] middleware:

    - [controllers/chat.controller.js]: [getUsers] (every user but the
      caller), [getMessages] (the conversation with one counterpart),
      [sendMessage] (the REST write);
    - [routes/chat.route.js]: [GET /interactions] (messages involving the
      caller, in total and since local midnight);
    - [routes/caretaker.chatRoutes.js]: [GET /interactions] and
      [/interactions/today] (distinct chat partners, by a [$match],
      [$project] of "the other side", [$group] pipeline),
      [/interactions/today/users] (their identities) and
      [/messages/count] (messages the caretaker sent).

    Every read is a pure function of the documents of the Message Store
    ([ms_docs], in insertion order, which is MongoDB's natural order for
    an unsorted [find]); the REST write goes through the store interface.
    An error of the store surfaces as HTTP 500. *)

From Stdlib Require Import Ascii String.
From stdpp Require Import base list strings gmap.
From S2P Require Import Prelude JsString Store Gateway Relay.

Inductive HttpError :=
| Http400 (msg : string)
| Http500 (msg : string).

(** ** Directory: [getUsers] *)

(** A user document as [User.find(...).select("-password")] returns it
    (the fields the chat screens read). *)
Record UserDoc := mkUserDoc {
  u_id : string;
  u_name : string;
  u_email : string;
}.

(** [User.find({ _id: { $ne: excludeId } })]. *)
Definition get_users (users : list UserDoc) (me : string) : list UserDoc :=
  filter (fun u => u_id u <> me) users.

(** ** Conversation history: [getMessages] *)

(** [{ sender: a, receiver: b }] or [{ sender: b, receiver: a }]. *)
Definition in_conversation (a b : string) (c : Chat) : bool :=
  (String.eqb (sender c) a && String.eqb (receiver c) b) ||
  (String.eqb (sender c) b && String.eqb (receiver c) a).

(** [Chats.find({ $or: [...] })] with [receiverId] from the URL: an id
    that does not cast to an ObjectId makes the query throw. *)
Definition get_messages (docs : list Chat) (me receiverId : string) : result HttpError (list Chat) :=
  match cast_object_id receiverId with
  | None => Err (Http500 "Cast to ObjectId failed")
  | Some r => Ok (filter (fun c => in_conversation me r c = true) docs)
  end.

(** ** Counters *)

(** [{ $or: [{ sender: userId }, { receiver: userId }] }] *)
Definition involves (x : string) (c : Chat) : bool :=
  String.eqb (sender c) x || String.eqb (receiver c) x.

(** [today.setHours(0, 0, 0, 0)]: the start of the local calendar day that
    contains [now], for a day of [day] ticks and a time-zone offset [tz]. *)
Definition start_of_day (day tz now : nat) : nat := now - (now + tz) mod day.

(** [GET /api/chat/interactions]: [countDocuments] of the messages that
    involve the caller, in total and with [createdAt >= today]. *)
Definition interactions_total (docs : list Chat) (me : string) : nat :=
  length (filter (fun c => involves me c = true) docs).

Definition interactions_today (docs : list Chat) (me : string) (since : nat) : nat :=
  length (filter (fun c => involves me c = true /\ since <= createdAt c) docs).

(** The [$project] stage: [$cond: [{ $eq: ["$sender", me] }, "$receiver", "$sender"]]. *)
Definition other_side (me : string) (c : Chat) : string :=
  if String.eqb (sender c) me then receiver c else sender c.

(** [$match] then [$project] then [$group: { _id: "$user" }]: the distinct
    partners (the order of [$group]'s output is unspecified; the model
    keeps the order of first occurrence). *)
Definition chat_partners (docs : list Chat) (me : string) : list string :=
  remove_dups (other_side me <$> filter (fun c => involves me c = true) docs).

Definition chat_partners_since (docs : list Chat) (me : string) (since : nat) : list string :=
  remove_dups (other_side me <$> filter (fun c => involves me c = true /\ since <= createdAt c) docs).

(** [GET /api/caretaker/chat/interactions] and [/interactions/today]:
    [{ count: uniqueUsers.length }]; [/interactions/today/users]: the ids. *)
Definition caretaker_interactions (docs : list Chat) (me : string) : nat :=
  length (chat_partners docs me).

Definition caretaker_interactions_today (docs : list Chat) (me : string) (since : nat) : nat :=
  length (chat_partners_since docs me since).

(** [GET /api/caretaker/chat/messages/count]: [countDocuments({ sender: caretakerId })]. *)
Definition caretaker_messages_count (docs : list Chat) (me : string) : nat :=
  length (filter (fun c => sender c = me) docs).

(** ** The REST write: [sendMessage] *)

Record SendBody := mkSendBody {
  b_receiverId : option string;
  b_message : option string;
  b_receiverType : option string;
}.

Section Rest.
Context {St : Type} `{MessageStore St}.

(** [if (!receiverId || !message || !receiverType) 400]; then
    [Chats.create({ sender, receiver, receiverType, message })] as sent:
    no trimming, no lower-casing. *)
Definition rest_send_message (st : St) (me : string) (b : SendBody)
  : St * result HttpError Chat :=
  if negb (js_truthy_opt (b_receiverId b)) || negb (js_truthy_opt (b_message b)) ||
     negb (js_truthy_opt (b_receiverType b))
  then (st, Err (Http400 "receiverId, message, and receiverType are required"))
  else
    match ms_create st (mkChatInput (Some me) (b_receiverId b) (b_receiverType b) (b_message b)) with
    | (st', Err _) => (st', Err (Http500 "error.message"))
    | (st', Ok c) => (st', Ok c)
    end.
End Rest.

(** ** Lemmas *)

Lemma in_conversation_iff a b c :
  in_conversation a b c = true <->
  (sender c = a /\ receiver c = b) \/ (sender c = b /\ receiver c = a).
Proof.
  unfold in_conversation.
  rewrite orb_true_iff, !andb_true_iff, !String.eqb_eq. done.
Qed.

Lemma involves_other_side x c :
  involves x c = true ->
  (sender c = x /\ receiver c = other_side x c) \/ (receiver c = x /\ sender c = other_side x c).
Proof.
  unfold involves, other_side. rewrite orb_true_iff, !String.eqb_eq.
  destruct (String.eqb_spec (sender c) x); naive_solver.
Qed.

Lemma elem_of_chat_partners_gen (P : Chat -> Prop) `{!forall c, Decision (P c)} docs x y :
  y ∈ remove_dups (other_side x <$> filter (fun c => involves x c = true /\ P c) docs) <->
  exists c, c ∈ docs /\ P c /\
    ((sender c = x /\ receiver c = y) \/ (receiver c = x /\ sender c = y)).
Proof.
  rewrite elem_of_remove_dups, list_elem_of_fmap. split.
  - intros (c & -> & Hc). apply list_elem_of_filter in Hc as [[Hinv HP] Hc].
    exists c. split_and!; [done|done|]. by apply involves_other_side.
  - intros (c & Hc & HP & Hxy). exists c. split.
    + unfold other_side. destruct Hxy as [[-> ->]|[-> ->]]; [by rewrite String.eqb_refl|].
      destruct (String.eqb_spec y x); congruence.
    + apply list_elem_of_filter. split; [|done]. split; [|done].
      unfold involves. apply orb_true_iff. rewrite !String.eqb_eq. tauto.
Qed.

(** ** Theorems *)

(** C6: a history fetch between the caller [me] and a counterpart
    returns exactly the stored messages whose [{sender, receiver}] is
    [{me, counterpart}] in either direction — all of them, nothing else —
    in the store's order. *)
Theorem get_messages_exact docs me rid r :
  cast_object_id rid = Some r ->
  exists l, get_messages docs me rid = Ok l /\ l `sublist_of` docs /\
    forall c, c ∈ l <-> c ∈ docs /\
      ((sender c = me /\ receiver c = r) \/ (sender c = r /\ receiver c = me)).
Proof.
  intros Hr. unfold get_messages. rewrite Hr. eexists. split_and!; [done|apply sublist_filter|].
  intros c. rewrite list_elem_of_filter, in_conversation_iff. tauto.
Qed.

(** The caretaker counters count distinct partners: [chat_partners
    docs x] lists, once each, exactly the identities [y] such that some
    stored message has [{sender, receiver} = {x, y}]; the "today" list is
    the same restricted to messages created since [since]. *)
Theorem chat_partners_spec docs x since y :
  NoDup (chat_partners docs x) /\ NoDup (chat_partners_since docs x since) /\
  (y ∈ chat_partners docs x <->
     exists c, c ∈ docs /\
       ((sender c = x /\ receiver c = y) \/ (receiver c = x /\ sender c = y))) /\
  (y ∈ chat_partners_since docs x since <->
     exists c, c ∈ docs /\ since <= createdAt c /\
       ((sender c = x /\ receiver c = y) \/ (receiver c = x /\ sender c = y))).
Proof.
  split_and!; [apply NoDup_remove_dups|apply NoDup_remove_dups| |].
  - unfold chat_partners.
    rewrite (list_filter_iff _ (fun c => involves x c = true /\ True)) by tauto.
    rewrite (elem_of_chat_partners_gen (fun _ => True)). naive_solver.
  - apply (elem_of_chat_partners_gen (fun c => since <= createdAt c)).
Qed.

Lemma chat_partners_since_subset docs x since y :
  y ∈ chat_partners_since docs x since -> y ∈ chat_partners docs x.
Proof.
  unfold chat_partners, chat_partners_since. rewrite !elem_of_remove_dups, !list_elem_of_fmap.
  intros (c & -> & Hc). exists c. split; [done|]. apply list_elem_of_filter in Hc as [[? _] ?].
  by apply list_elem_of_filter.
Qed.

Lemma length_remove_dups_le {A} `{EqDecision A} (l : list A) : length (remove_dups l) <= length l.
Proof. apply NoDup_subset_length; [apply NoDup_remove_dups|]. intros x. by rewrite elem_of_remove_dups. Qed.

Lemma length_filter_mono {A} (P Q : A -> Prop) `{!forall x, Decision (P x)} `{!forall x, Decision (Q x)}
    (l : list A) :
  (forall x, P x -> Q x) -> length (filter P l) <= length (filter Q l).
Proof.
  intros HPQ. induction l as [|x l IH]; [done|]. rewrite !filter_cons.
  destruct (decide (P x)), (decide (Q x)); simpl; naive_solver lia.
Qed.

(** Appending an element already present does not change the number of
    distinct elements. *)
Lemma length_remove_dups_snoc_in {A} `{EqDecision A} (l : list A) y :
  y ∈ remove_dups l -> length (remove_dups (l ++ [y])) = length (remove_dups l).
Proof.
  intros Hy. apply Permutation_length, NoDup_Permutation; [apply NoDup_remove_dups..|].
  intros z. rewrite !elem_of_remove_dups, elem_of_app, list_elem_of_singleton.
  rewrite elem_of_remove_dups in Hy. naive_solver.
Qed.

(** The counters are consistent: the day's count never exceeds the
    total, for the message count of [/api/chat/interactions] and the
    partner count of [/api/caretaker/chat/interactions]; and there are
    never more distinct partners than messages. *)
Theorem interaction_counts_bounds docs x since :
  interactions_today docs x since <= interactions_total docs x /\
  caretaker_interactions_today docs x since <= caretaker_interactions docs x /\
  caretaker_interactions docs x <= interactions_total docs x.
Proof.
  split_and!.
  - apply length_filter_mono. tauto.
  - apply NoDup_subset_length; [apply NoDup_remove_dups|]. apply chat_partners_since_subset.
  - unfold caretaker_interactions, interactions_total, chat_partners.
    etrans; [apply length_remove_dups_le|]. by rewrite length_fmap.
Qed.

(** [/api/chat/interactions] counts messages, not people (its comment
    says "Count unique interactions (people this user has chatted with)"):
    one more message with someone [x] has already talked to raises
    [totalInteractions] by one and leaves the number of partners as it was. *)
Theorem interactions_total_counts_messages docs x c :
  involves x c = true -> other_side x c ∈ chat_partners docs x ->
  interactions_total (docs ++ [c]) x = S (interactions_total docs x) /\
  caretaker_interactions (docs ++ [c]) x = caretaker_interactions docs x.
Proof.
  intros Hc Hold. unfold interactions_total, caretaker_interactions, chat_partners.
  rewrite !filter_app, filter_cons_True, filter_nil by done. split.
  - rewrite length_app. simpl. lia.
  - rewrite fmap_app. simpl. apply length_remove_dups_snoc_in. exact Hold.
Qed.

Section WithStore.
Context {St : Type} `{MessageStoreLaws St}.

(** C7: a message the relay persisted is in every later history fetch
    of the conversation, from either side, at the end: the fetch
    returns what it returned before, followed by the new document. *)
Theorem sent_message_in_history srv sid p srv' c :
  ms_wf (store srv) ->
  send_message_atomic srv sid p = (srv', Ok (Ok c)) ->
  forall a b, (a = sender c /\ b = receiver c) \/ (a = receiver c /\ b = sender c) ->
  exists l, get_messages (ms_docs (store srv)) a b = Ok l /\
            get_messages (ms_docs (store srv')) a b = Ok (l ++ [c]).
Proof.
  intros Hwf Hsend a b Hab.
  destruct (send_message_atomic_Ok _ _ _ _ _ Hsend) as (sock & r & input & _ & _ & _ & Hc & _).
  destruct (ms_create_ok _ _ _ _ Hwf Hc) as (Hdocs & Hv & _).
  pose proof (validate_chat_valid _ _ Hv) as (_ & _ & Hrv & Hrl & _).
  pose proof (validate_chat_valid _ _ Hv) as (Hsv & Hsl & _).
  unfold get_messages. rewrite Hdocs.
  destruct Hab as [[-> ->]|[-> ->]];
    rewrite cast_object_id_canonical by done;
    eexists; (split; [done|]); rewrite filter_app, filter_cons_True, filter_nil;
    try done; apply in_conversation_iff; tauto.
Qed.

(** The REST write stores the body and the [receiverType] exactly
    as sent: a message of white space only passes its [!message] check
    and is persisted, and ["User"] is stored as ["User"] — unlike the
    relay, which drops blank messages and lower-cases the type. *)
Theorem rest_send_message_stores_as_sent (st : MemStore) me r t m :
  up st = true -> object_id_valid me = true -> js_to_lower me = me ->
  object_id_valid r = true -> t ∈ receiver_type_enum -> m <> ""%string ->
  rest_send_message st me (mkSendBody (Some r) (Some m) (Some t)) =
    (mkMemStore (chats st ++ [mkChat (next_id st) me (js_to_lower r) t m (clock st)])
                (S (next_id st)) (clock st) (up st),
     Ok (mkChat (next_id st) me (js_to_lower r) t m (clock st))).
Proof.
  intros Hup Hme Hml Hr Ht Hm. unfold rest_send_message; simpl.
  rewrite (object_id_valid_truthy r Hr).
  rewrite (receiver_type_enum_truthy t Ht). destruct m as [|a m']; [done|]. simpl.
  unfold chat_create. rewrite validate_chat_accept by done. rewrite Hml, Hup. done.
Qed.
End WithStore.

(** ** Witnesses *)

Module HistoryWitness.
Import Demo RelayWitness.

Definition w_docs : list Chat :=
  [mkChat 0 uA uB "user" "hi" 0; mkChat 1 uB uA "user" "hey" 1;
   mkChat 2 uA uC "user" "other" 2; mkChat 3 uB uA "user" "bye" 3].

Lemma get_messages_exact_witness :
  exists l, get_messages w_docs uA uB = Ok l /\ l `sublist_of` w_docs /\
    forall c, c ∈ l <-> c ∈ w_docs /\
      ((sender c = uA /\ receiver c = uB) \/ (sender c = uB /\ receiver c = uA)).
Proof. apply (get_messages_exact w_docs uA uB uB). concrete. Defined.

Lemma sent_message_in_history_witness :
  exists l, get_messages (ms_docs (store w_srv)) uB uA = Ok l /\
            get_messages (ms_docs (store w_after)) uB uA = Ok (l ++ [w_chat]).
Proof.
  apply (sent_message_in_history w_srv 0 w_hello w_after w_chat).
  - apply store_wf_empty.
  - concrete.
  - right. split; concrete.
Defined.

(** A fourth message between [uB] and [uA]: three messages with [uB],
    one with [uC] become four, still two partners. *)
Lemma interactions_total_counts_messages_witness :
  interactions_total (w_docs ++ [mkChat 4 uA uB "user" "again" 4]) uA =
    S (interactions_total w_docs uA) /\
  caretaker_interactions (w_docs ++ [mkChat 4 uA uB "user" "again" 4]) uA =
    caretaker_interactions w_docs uA.
Proof. apply interactions_total_counts_messages; concrete. Defined.

(** A message of three spaces, typed ["User"], is stored as it is. *)
Lemma rest_send_message_stores_as_sent_witness :
  rest_send_message empty_store uA (mkSendBody (Some uB) (Some "   ") (Some "User")) =
    (mkMemStore (chats empty_store ++ [mkChat (next_id empty_store) uA (js_to_lower uB) "User" "   "
                                              (clock empty_store)])
                (S (next_id empty_store)) (clock empty_store) (up empty_store),
     Ok (mkChat (next_id empty_store) uA (js_to_lower uB) "User" "   " (clock empty_store))).
Proof. apply rest_send_message_stores_as_sent; concrete. Defined.
End HistoryWitness.
