(* ===== verification/Account.v ===== *)
(** * The Account Store: [auth.controller.js] and the profile counters

    The [users] collection ([models/User.model.js]) and the handlers of
    [controllers/auth.controller.js] that read and write it: [register],
    [googleRegister], [login], [changePassword], [changeUserName],
    [getProfile]/[updateProfile] (the whole profile
    replaced by the request body), and the counter update of
    [chat.controller.js] [updateProfile] (one point per chat message).
    [updateBasicProfile] is modelled with its client in
    [CaretakerSettings.v], the OTP handlers in [Otp.v].

    State ([AccDb]): the user documents in insertion order (MongoDB's
    natural order, which [findOne] returns the first of), the counter
    from which fresh ObjectIds are drawn, the clock in seconds, and the
    log of e-mails sent (used by the OTP flows of [Otp.v]).  Each handler
    is a function [AccDb -> ... -> AccDb * result (nat * string) A]: an
    [Err (status, message)] is the JSON error response.

    Password hashing is the class [Bcrypt] ([bcryptjs]): a hash verifies
    exactly the passwords that agree with the hashed one on their first
    72 bytes (bcrypt ignores the rest), and starts with the library's
    version tag. *)

From Stdlib Require Import Ascii String ZArith NArith List.
From stdpp Require Import base list strings.
From S2P Require Import Prelude JsString Gateway Token.

(** ** bcrypt *)

(** bcrypt reads at most 72 bytes of the password. *)
Definition bcrypt_trunc (s : string) : string := substring 0 72 s.

Class Bcrypt := {
  bcrypt_version : string;                     (** ["$2a$"] or ["$2b$"] *)
  bcrypt_hash : nat -> string -> string;       (** salt, password *)
  bcrypt_compare : string -> string -> bool;   (** candidate, stored hash *)
  bcrypt_compare_hash s pw cand :
    bcrypt_compare cand (bcrypt_hash s pw) = String.eqb (bcrypt_trunc cand) (bcrypt_trunc pw);
  bcrypt_hash_version s pw : js_starts_with bcrypt_version (bcrypt_hash s pw) = true;
}.

(** ** Documents *)

Record Activity := mkActivity {
  act_type : string;
  act_title : string;
  act_time : nat;
  act_points : option Z;
}.

(** [profile] of [userSchema] (the counters and the activity log;
    [achievements] and [skills] are only ever written by the client). *)
Record UProfile := mkUProfile {
  pr_points : Z;
  pr_totalLogins : Z;
  pr_gamesPlayed : Z;
  pr_chatMessages : Z;
  pr_activities : list Activity;
}.

Definition default_profile : UProfile := mkUProfile 0 0 0 0 [].

Record UserRec := mkUser {
  u_id : string;
  u_name : string;
  u_email : string;
  u_password : option string;
  u_photo : option string;
  u_profile : UProfile;
}.

Record Mail := mkMail { mail_to : string; mail_subject : string; mail_text : string }.

Inductive OtpType := OtpPassword | OtpEmailChange.

#[export] Instance OtpType_eq_dec : EqDecision OtpType.
Proof. solve_decision. Defined.

(** A document of [models/Otp.model.js]. *)
Record OtpRec := mkOtp {
  o_id : nat;
  o_user : string;
  o_type : OtpType;
  o_code : string;
  o_newEmail : option string;   (** [data.newEmail] *)
  o_used : bool;
  o_expiresAt : nat;
  o_createdAt : nat;
}.

Record AccDb := mkAccDb {
  users : list UserRec;
  next_oid : nat;
  clock : nat;                  (** seconds *)
  otps : list OtpRec;
  next_otp : nat;
  mails : list Mail;
}.

Definition HttpResult A := result (nat * string) A.

(** ** Fresh ObjectIds: 24 lower-case hex digits of a counter *)

Definition hex_digit (n : nat) : ascii :=
  match n with
  | 0 => "0" | 1 => "1" | 2 => "2" | 3 => "3" | 4 => "4" | 5 => "5" | 6 => "6" | 7 => "7"
  | 8 => "8" | 9 => "9" | 10 => "a" | 11 => "b" | 12 => "c" | 13 => "d" | 14 => "e" | _ => "f"
  end%char.

(** [hex_value] reads a digit back. *)
Definition hex_value (c : ascii) : nat :=
  match c with
  | "0" => 0 | "1" => 1 | "2" => 2 | "3" => 3 | "4" => 4 | "5" => 5 | "6" => 6 | "7" => 7
  | "8" => 8 | "9" => 9 | "a" => 10 | "b" => 11 | "c" => 12 | "d" => 13 | "e" => 14 | _ => 15
  end%char.

(** The [k] low hex digits of [n], most significant first. *)
Fixpoint hex_digits (k n : nat) : list ascii :=
  match k with
  | 0 => []
  | S k => hex_digits k (n / 16) ++ [hex_digit (n mod 16)]
  end.

(** ObjectIds drawn so far stay below [16^24] (as [N], to stay cheap). *)
Definition oid_space : N := 16 ^ 24.

Definition oid_of (n : nat) : string := string_of_list_ascii (hex_digits 24 n).

(** ** Queries and updates *)

(** [User.findOne({ email })]: the first document with that exact e-mail
    (the schema has no [lowercase] option). *)
Definition find_by_email (e : string) (l : list UserRec) : option UserRec :=
  find (fun u => String.eqb (u_email u) e) l.

(** [User.findById(id)]. *)
Definition find_user (id : string) (l : list UserRec) : option UserRec :=
  find (fun u => String.eqb (u_id u) id) l.

(** [User.findByIdAndUpdate(id, update)]. *)
Definition update_user (id : string) (f : UserRec -> UserRec) (l : list UserRec) : list UserRec :=
  map (fun u => if String.eqb (u_id u) id then f u else u) l.

Definition set_profile (p : UProfile) (u : UserRec) : UserRec :=
  mkUser (u_id u) (u_name u) (u_email u) (u_password u) (u_photo u) p.

Definition set_password (h : string) (u : UserRec) : UserRec :=
  mkUser (u_id u) (u_name u) (u_email u) (Some h) (u_photo u) (u_profile u).

Definition set_name (n : string) (u : UserRec) : UserRec :=
  mkUser (u_id u) n (u_email u) (u_password u) (u_photo u) (u_profile u).

Definition set_email (e : string) (u : UserRec) : UserRec :=
  mkUser (u_id u) (u_name u) e (u_password u) (u_photo u) (u_profile u).

Definition set_users (l : list UserRec) (db : AccDb) : AccDb :=
  mkAccDb l (next_oid db) (clock db) (otps db) (next_otp db) (mails db).

(** [{ $inc: {...}, $push: { "profile.activities": a } }]. *)
Definition bump_profile (dpoints dlogins dgames dchats : Z) (a : Activity) (p : UProfile) : UProfile :=
  mkUProfile (pr_points p + dpoints) (pr_totalLogins p + dlogins) (pr_gamesPlayed p + dgames)
             (pr_chatMessages p + dchats) (pr_activities p ++ [a]).

(** [User.create(doc)]: a fresh [_id], the schema's defaults. *)
Definition create_user (name email : string) (pw : option string) (db : AccDb) : AccDb * UserRec :=
  let u := mkUser (oid_of (next_oid db)) name email pw None default_profile in
  (mkAccDb (users db ++ [u]) (S (next_oid db)) (clock db) (otps db) (next_otp db) (mails db), u).

(** [.select("-password")]. *)
Definition without_password (u : UserRec) : UserRec :=
  mkUser (u_id u) (u_name u) (u_email u) None (u_photo u) (u_profile u).

(** [logout] (lines 86-95): a constant reply; no token is revoked, and no
    route of [auth.route.js] mounts it. *)
Definition logout (db : AccDb) : AccDb * HttpResult string := (db, Ok "Logged out successfully").

Section Handlers.
Context `{Bcrypt} `{JwtSigner}.

(** [process.env.JWT_SECRET]. *)
Variable secret : option string.

(** [register] (lines 11-30); [salt] is the salt [bcrypt.hash] draws. *)
Definition register (db : AccDb) (name email password : option string) (salt : nat)
    : AccDb * HttpResult (nat * string) :=
  match name, email, password with
  | Some n, Some e, Some p =>
      if negb (js_truthy n && js_truthy e && js_truthy p) then (db, Err (400, "Email and password are required"))
      else match find_by_email e (users db) with
           | Some _ => (db, Err (400, "User already exists"))
           | None => ((create_user n e (Some (bcrypt_hash salt p)) db).1, Ok (201, "Registered successfully"))
           end
  | _, _, _ => (db, Err (400, "Email and password are required"))
  end.

(** [googleRegister] (lines 32-49): the account with that e-mail, created
    if there is none, and a token for it valid seven days. *)
Definition google_register (db : AccDb) (email : option string) : AccDb * HttpResult (string * UserRec) :=
  match email with
  | Some e =>
      if negb (js_truthy e) then (db, Err (400, "Email is required"))
      else
        let '(db', u) := match find_by_email e (users db) with
                         | Some u => (db, u)
                         | None => create_user "User" e None db
                         end in
        (db', Ok (jwt_sign (id_claims (u_id u) (clock db) seven_days) (user_signing_key secret), u))
  | None => (db, Err (400, "Email is required"))
  end.

Definition login_activity (now : nat) : Activity := mkActivity "login" "Successful login" now (Some 2%Z).

(** [{ $inc: { "profile.totalLogins": 1, "profile.points": 2 },
       $push: { "profile.activities": {...} } }]. *)
Definition login_update (now : nat) (v : UserRec) : UserRec :=
  set_profile (bump_profile 2 1 0 0 (login_activity now) (u_profile v)) v.

(** [login] (lines 51-85).  [bcrypt.compare] throws on an account with no
    password (created by [googleRegister]): the outer [catch] answers 500. *)
Definition login (db : AccDb) (email password : option string) : AccDb * HttpResult (string * UserRec) :=
  match email, password with
  | Some e, Some p =>
      if negb (js_truthy e && js_truthy p) then (db, Err (400, "Email and password are required"))
      else match find_by_email e (users db) with
           | None => (db, Err (400, "Invalid credentials (user not found)"))
           | Some u =>
               match u_password u with
               | None => (db, Err (500, "Server error during login"))
               | Some h =>
                   if negb (bcrypt_compare p h) then (db, Err (400, "Invalid credentials (wrong password)"))
                   else
                     let f := login_update (clock db) in
                     let db' := set_users (update_user (u_id u) f (users db)) db in
                     (db', Ok (jwt_sign (id_claims (u_id u) (clock db) one_day) (user_signing_key secret),
                               without_password (f u)))
               end
           end
  | _, _ => (db, Err (400, "Email and password are required"))
  end.

End Handlers.

(** The caller's account as the REST middleware sees it: the user ids
    and the caretaker ids [cts]. *)
Definition accounts_of (db : AccDb) (cts : list string) : Accounts :=
  mkAccounts (u_id <$> users db) cts.

(** [changePassword] (lines 98-117), for the caller [uid] ([req.user.id]).
    [bcrypt.compare] and [bcrypt.hash] throw on a missing argument. *)
Definition change_password `{Bcrypt} (db : AccDb) (uid : string) (cur new : option string) (salt : nat)
    : AccDb * HttpResult string :=
  match find_user uid (users db) with
  | None => (db, Err (404, "User not found"))
  | Some u =>
      match cur, u_password u with
      | Some c, Some h =>
          if negb (bcrypt_compare c h) then (db, Err (400, "Incorrect current password"))
          else match new with
               | Some n => (set_users (update_user uid (set_password (bcrypt_hash salt n)) (users db)) db,
                            Ok "Password changed Successfully")
               | None => (db, Err (500, "Failed to change password"))
               end
      | _, _ => (db, Err (500, "Failed to change password"))
      end
  end.

(** [changeUserName] (lines 169-179): no check that the user exists. *)
Definition change_user_name (db : AccDb) (uid newName : string) : AccDb * HttpResult string :=
  (set_users (update_user uid (set_name newName) (users db)) db, Ok "Username changed successfully").

(** [getProfile] (lines 181-189): [user.profile] of [null] throws. *)
Definition get_profile (db : AccDb) (uid : string) : HttpResult UProfile :=
  match find_user uid (users db) with
  | Some u => Ok (u_profile u)
  | None => Err (500, "Error fetching profile")
  end.

(** [updateProfile] (lines 191-199): [{ profile: req.body }]. *)
Definition update_profile (db : AccDb) (uid : string) (body : UProfile) : AccDb * HttpResult UProfile :=
  match find_user uid (users db) with
  | Some _ => (set_users (update_user uid (set_profile body) (users db)) db, Ok body)
  | None => (db, Err (500, "Error updating profile"))
  end.

Definition message_activity (now : nat) : Activity := mkActivity "message_sent" "Message sent" now None.

(** [chat.controller.js] [updateProfile] (lines 58-79), called by the chat
    screen after each send: one point and a ["message_sent"] activity;
    [res.json(null)] when the caller is not a user. *)
Definition chat_update_profile (db : AccDb) (uid : string) : AccDb * option UserRec :=
  let f u := set_profile (bump_profile 1 0 0 0 (message_activity (clock db)) (u_profile u)) u in
  (set_users (update_user uid f (users db)) db, f <$> find_user uid (users db)).

(** ** The invariant of the collection *)

(** Distinct [_id]s, all drawn from the counter; distinct e-mails (the
    [unique] index of [userSchema]). *)
Definition acc_wf (db : AccDb) : Prop :=
  NoDup (u_id <$> users db) /\ NoDup (u_email <$> users db) /\
  Forall (fun u => exists k, k < next_oid db /\ u_id u = oid_of k) (users db).

(** ** Lemmas on ObjectIds *)

Lemma hex_value_digit d : d < 16 -> hex_value (hex_digit d) = d.
Proof. intros Hd. do 16 (destruct d as [|d]; [reflexivity|]). lia. Qed.

Lemma hex_digit_hex d : is_hex_digit (hex_digit d) = true /\ ascii_lower (hex_digit d) = hex_digit d.
Proof. do 15 (destruct d as [|d]; [split; reflexivity|]). split; reflexivity. Qed.

Lemma hex_digits_length k n : length (hex_digits k n) = k.
Proof. revert n. induction k; intros n; simpl; [done|]. rewrite length_app, IHk. simpl. lia. Qed.

Lemma hex_digits_inj k n m : hex_digits k n = hex_digits k m -> n mod 16 ^ k = m mod 16 ^ k.
Proof.
  revert n m. induction k as [|k IH]; intros n m Heq; [done|].
  cbn [hex_digits] in Heq. apply app_inj_tail in Heq as [Hk Hd].
  apply (f_equal hex_value) in Hd. rewrite !hex_value_digit in Hd by (apply Nat.mod_upper_bound; discriminate).
  rewrite Nat.pow_succ_r', !Nat.Div0.mod_mul_r. rewrite (IH _ _ Hk), Hd. done.
Qed.

Lemma string_of_list_ascii_inj l1 l2 : string_of_list_ascii l1 = string_of_list_ascii l2 -> l1 = l2.
Proof.
  intros H. apply (f_equal list_ascii_of_string) in H.
  by rewrite !list_ascii_of_string_of_list_ascii in H.
Qed.

Lemma lt_oid_space n : (N.of_nat n < oid_space)%N -> n < 16 ^ 24.
Proof.
  intros H. unfold oid_space in H. change (16 ^ 24)%N with (N.of_nat 16 ^ N.of_nat 24)%N in H.
  rewrite <- Nat2N.inj_pow in H. apply Nat.compare_lt_iff. rewrite Nat2N.inj_compare. exact H.
Qed.

Lemma oid_of_inj n m : (N.of_nat n < oid_space)%N -> (N.of_nat m < oid_space)%N -> oid_of n = oid_of m -> n = m.
Proof.
  intros Hn%lt_oid_space Hm%lt_oid_space H%string_of_list_ascii_inj%hex_digits_inj.
  by rewrite !Nat.mod_small in H.
Qed.

Lemma js_to_lower_string_of_list l :
  js_to_lower (string_of_list_ascii l) = string_of_list_ascii (ascii_lower <$> l).
Proof. induction l; simpl; [done|]. by rewrite IHl. Qed.

Lemma hex_digits_lower k n : ascii_lower <$> hex_digits k n = hex_digits k n.
Proof.
  revert n. induction k; intros n; simpl; [done|].
  rewrite fmap_app, IHk. simpl. by rewrite (proj2 (hex_digit_hex _)).
Qed.

Lemma length_string_of_list_ascii l : String.length (string_of_list_ascii l) = length l.
Proof. induction l; simpl; auto. Qed.

Lemma hex_digits_hex k n : forallb is_hex_digit (hex_digits k n) = true.
Proof.
  revert n. induction k; intros n; simpl; [done|].
  rewrite forallb_app, IHk. simpl. by rewrite (proj1 (hex_digit_hex _)).
Qed.

(** A drawn [_id] is a valid ObjectId in canonical form. *)
Lemma cast_object_id_oid n : cast_object_id (oid_of n) = Some (oid_of n).
Proof.
  unfold cast_object_id, object_id_valid, oid_of.
  rewrite length_string_of_list_ascii, hex_digits_length, list_ascii_of_string_of_list_ascii, hex_digits_hex.
  cbn [Nat.eqb andb]. by rewrite js_to_lower_string_of_list, hex_digits_lower.
Qed.

(** ** Lemmas on queries *)

Lemma find_by_email_Some e l u : find_by_email e l = Some u -> u ∈ l /\ u_email u = e.
Proof. intros (Hin & Hf)%find_Some_elem. by apply String.eqb_eq in Hf. Qed.

Lemma find_by_email_None e l : find_by_email e l = None -> Forall (fun u => u_email u <> e) l.
Proof.
  intros H%find_None_Forall. eapply Forall_impl; [exact H|].
  intros u Hu. by apply String.eqb_neq.
Qed.

Lemma find_user_Some id l u : find_user id l = Some u -> u ∈ l /\ u_id u = id.
Proof. intros (Hin & Hf)%find_Some_elem. by apply String.eqb_eq in Hf. Qed.

Lemma find_user_absent id l : id ∉ u_id <$> l -> find_user id l = None.
Proof.
  intros Hn. apply find_Forall_None, Forall_forall. intros u Hu.
  apply String.eqb_neq. intros <-. apply Hn, list_elem_of_fmap. by exists u.
Qed.

Lemma find_by_email_unique l u :
  NoDup (u_email <$> l) -> u ∈ l -> find_by_email (u_email u) l = Some u.
Proof.
  intros Hnd Hu. apply (find_key_unique _ u_email); [done|done|].
  intros y. apply String.eqb_eq.
Qed.

Lemma find_user_unique l u :
  NoDup (u_id <$> l) -> u ∈ l -> find_user (u_id u) l = Some u.
Proof.
  intros Hnd Hu. apply (find_key_unique _ u_id); [done|done|].
  intros y. apply String.eqb_eq.
Qed.

Lemma update_user_keys {K} (key : UserRec -> K) id f l :
  (forall u, key (f u) = key u) -> key <$> update_user id f l = key <$> l.
Proof.
  intros Hf. induction l as [|u l IH]; [done|].
  change (update_user id f (u :: l)) with ((if String.eqb (u_id u) id then f u else u) :: update_user id f l).
  rewrite !fmap_cons, IH. destruct (String.eqb _ _); [by rewrite Hf|done].
Qed.

Lemma elem_of_update_user id f l u :
  u ∈ l -> (if String.eqb (u_id u) id then f u else u) ∈ update_user id f l.
Proof.
  intros Hu. unfold update_user. apply list_elem_of_In.
  apply (in_map (fun u => if String.eqb (u_id u) id then f u else u)). by apply list_elem_of_In.
Qed.

(** ** Preservation lemmas *)

Section Wf.
Implicit Types (db : AccDb).

Lemma update_user_wf db id f :
  (forall u, u_id (f u) = u_id u) -> (forall u, u_email (f u) = u_email u) ->
  acc_wf db -> acc_wf (set_users (update_user id f (users db)) db).
Proof.
  intros Hi He (Hid & Hem & Hk). unfold acc_wf. simpl.
  rewrite !update_user_keys by done. split_and!; [done|done|].
  apply Forall_forall. intros v Hv. apply list_elem_of_In, in_map_iff in Hv as (u & <- & Hu).
  apply list_elem_of_In in Hu. rewrite Forall_forall in Hk. destruct (Hk u Hu) as (k & Hlt & Hid').
  exists k. destruct (String.eqb _ _); rewrite ?Hi; done.
Qed.

Lemma create_user_wf db n e pw :
  (N.of_nat (next_oid db) < oid_space)%N -> Forall (fun u => u_email u <> e) (users db) ->
  acc_wf db -> acc_wf (create_user n e pw db).1.
Proof.
  intros Hsp He (Hid & Hem & Hk). unfold acc_wf, create_user. simpl.
  rewrite !fmap_app. simpl. split_and!.
  - apply NoDup_app. split_and!; [done| |by apply NoDup_singleton].
    intros x (u & -> & Hu)%list_elem_of_fmap Hx%list_elem_of_singleton.
    rewrite Forall_forall in Hk. destruct (Hk u Hu) as (k & Hlt & Heq).
    rewrite Heq in Hx. apply oid_of_inj in Hx; lia.
  - apply NoDup_app. split_and!; [done| |by apply NoDup_singleton].
    intros x (u & -> & Hu)%list_elem_of_fmap Hx%list_elem_of_singleton.
    rewrite Forall_forall in He. by apply (He u Hu).
  - apply Forall_app. split.
    + eapply Forall_impl; [exact Hk|]. intros u (k & ? & ?). exists k. split; [lia|done].
    + constructor; [|done]. exists (next_oid db). split; [lia|done].
Qed.

End Wf.

(** ** Handlers: lemmas *)

Section HandlerLemmas.
Context `{Bcrypt} `{JwtSigner}.
Variable secret : option string.
Implicit Types (db : AccDb).

Lemma register_Ok db n e p salt db' r :
  register db (Some n) (Some e) (Some p) salt = (db', Ok r) ->
  js_truthy n && js_truthy e && js_truthy p = true /\ find_by_email e (users db) = None /\
  db' = (create_user n e (Some (bcrypt_hash salt p)) db).1.
Proof.
  unfold register. destruct (js_truthy n && js_truthy e && js_truthy p); [|by intros [= _ _]].
  simpl. destruct (find_by_email e (users db)); [by intros [= _ _]|]. by intros [= <- _].
Qed.

Lemma login_Ok db e p db' tok u :
  login secret db (Some e) (Some p) = (db', Ok (tok, u)) ->
  exists u0 h, find_by_email e (users db) = Some u0 /\ u_password u0 = Some h /\
    bcrypt_compare p h = true /\ u = without_password (login_update (clock db) u0) /\
    tok = jwt_sign (id_claims (u_id u0) (clock db) one_day) (user_signing_key secret) /\
    db' = set_users (update_user (u_id u0) (login_update (clock db)) (users db)) db.
Proof.
  unfold login. destruct (js_truthy e && js_truthy p); [|by intros [= _ _]]. simpl.
  destruct (find_by_email e (users db)) as [u0|]; [|by intros [= _ _]].
  destruct (u_password u0) as [h|] eqn:Hh; [|by intros [= _ _]].
  destruct (bcrypt_compare p h) eqn:Hc; [|by intros [= _ _]].
  intros [= <- <- <-]. by exists u0, h.
Qed.

Lemma register_wf db n e p salt : (N.of_nat (next_oid db) < oid_space)%N -> acc_wf db -> acc_wf (register db n e p salt).1.
Proof.
  intros Hsp Hwf. unfold register.
  destruct n, e, p; try done. destruct (negb _); [done|].
  destruct (find_by_email _ _) eqn:Hf; [done|]. apply create_user_wf; [done| |done].
  by apply find_by_email_None.
Qed.

Lemma google_register_wf db e : (N.of_nat (next_oid db) < oid_space)%N -> acc_wf db -> acc_wf (google_register secret db e).1.
Proof.
  intros Hsp Hwf. unfold google_register. destruct e as [e|]; [|done]. destruct (negb _); [done|].
  destruct (find_by_email e (users db)) eqn:Hf; [done|].
  simpl. apply create_user_wf; [done| |done]. by apply find_by_email_None.
Qed.

Lemma login_wf db e p : acc_wf db -> acc_wf (login secret db e p).1.
Proof.
  intros Hwf. unfold login. destruct e, p; try done. destruct (negb _); [done|].
  destruct (find_by_email _ _); [|done]. destruct (u_password _); [|done].
  destruct (negb _); [done|]. simpl. by apply update_user_wf.
Qed.

Lemma change_password_wf db uid c n salt : acc_wf db -> acc_wf (change_password db uid c n salt).1.
Proof.
  intros Hwf. unfold change_password. destruct (find_user uid (users db)) as [u|]; [|done].
  destruct c, (u_password u); try done. destruct (negb _); [done|].
  destruct n; [|done]. by apply update_user_wf.
Qed.

Lemma change_user_name_wf db uid nm : acc_wf db -> acc_wf (change_user_name db uid nm).1.
Proof. intros Hwf. by apply update_user_wf. Qed.

Lemma update_profile_wf db uid b : acc_wf db -> acc_wf (update_profile db uid b).1.
Proof. intros Hwf. unfold update_profile. destruct (find_user _ _); [|done]. by apply update_user_wf. Qed.

Lemma chat_update_profile_wf db uid : acc_wf db -> acc_wf (chat_update_profile db uid).1.
Proof. intros Hwf. by apply update_user_wf. Qed.

(** A token signed for an account of the collection passes the REST
    middleware as that user while it has not expired. *)
Lemma signed_token_authenticates db cts u k now t0 dur :
  acc_wf db -> u ∈ users db -> secret = Some k -> now < t0 + dur ->
  auth_middleware (accounts_of db cts) secret now
    (Some ("Bearer " ++ jwt_sign (id_claims (u_id u) t0 dur) (user_signing_key secret))%string) =
  Ok (PUser (u_id u)).
Proof.
  intros (_ & _ & Hk) Hu Hs Hnow.
  rewrite (auth_middleware_bearer _ _ _ _ (id_claims (u_id u) t0 dur)).
  - simpl. rewrite Forall_forall in Hk. destruct (Hk u Hu) as (j & _ & Hj).
    rewrite Hj, cast_object_id_oid, decide_True; [done|].
    unfold accounts_of. simpl. rewrite <- Hj. by apply list_elem_of_fmap_2.
  - rewrite Hs. apply jwt_verify_signed; [done|simpl; lia].
  - apply jwt_sign_no_sep.
Qed.

End HandlerLemmas.

(** ** Theorems *)

Section Theorems.
Context `{Bcrypt} `{JwtSigner}.
Variable secret : option string.
Implicit Types (db : AccDb).

(** C26: the account collection keeps distinct [_id]s drawn from the
    counter and distinct e-mails under every handler of
    [auth.controller.js] that writes it and under the chat screen's point
    update, as long as fewer than [16^24] ids have been drawn. *)
Theorem acc_wf_preserved db :
  acc_wf db -> (N.of_nat (next_oid db) < oid_space)%N ->
  (forall n e p salt, acc_wf (register db n e p salt).1) /\
  (forall e, acc_wf (google_register secret db e).1) /\
  (forall e p, acc_wf (login secret db e p).1) /\
  (forall uid c n salt, acc_wf (change_password db uid c n salt).1) /\
  (forall uid nm, acc_wf (change_user_name db uid nm).1) /\
  (forall uid b, acc_wf (update_profile db uid b).1) /\
  (forall uid, acc_wf (chat_update_profile db uid).1).
Proof.
  intros Hwf Hsp. split_and!; intros;
    eauto using register_wf, google_register_wf, login_wf, change_password_wf,
      change_user_name_wf, update_profile_wf, chat_update_profile_wf.
Qed.

(** Registration followed by login, shared by the theorems about the
    sign-up pages. *)
Lemma register_login_ok db n e p salt db1 r :
  register db (Some n) (Some e) (Some p) salt = (db1, Ok r) ->
  exists db2 tok u, login secret db1 (Some e) (Some p) = (db2, Ok (tok, u)) /\
    u_id u = oid_of (next_oid db) /\ u_name u = n /\ u_email u = e /\
    u_profile u = mkUProfile 2 1 0 0 [login_activity (clock db)].
Proof.
  intros (Ht & Hnone & ->)%register_Ok.
  apply andb_prop in Ht as [(Hn & He)%andb_prop Hp].
  unfold login. rewrite He, Hp. simpl.
  unfold find_by_email. rewrite find_app. fold (find_by_email e (users db)). rewrite Hnone.
  simpl. rewrite String.eqb_refl. simpl. rewrite bcrypt_compare_hash, String.eqb_refl. simpl.
  by do 3 eexists.
Qed.

(** Registration then login: after a successful [register] with a
    name, an e-mail and a password, [login] with that e-mail and password
    succeeds for the new account — the fresh [_id], the name and e-mail
    given — whose profile then counts one login and two points. *)
Theorem register_then_login db n e p salt db1 r :
  register db (Some n) (Some e) (Some p) salt = (db1, Ok r) ->
  exists db2 tok u, login secret db1 (Some e) (Some p) = (db2, Ok (tok, u)) /\
    u_id u = oid_of (next_oid db) /\ u_name u = n /\ u_email u = e /\
    u_profile u = mkUProfile 2 1 0 0 [login_activity (clock db)].
Proof. intros. by eapply register_login_ok. Qed.

(** A token issued by [login] is accepted by the REST middleware
    [auth], as the user who logged in, for one day — when [JWT_SECRET] is
    configured (with it unset the two disagree, see
    [Gateway.jwt_secret_unset_rejects_all]). *)
Theorem login_token_authenticates db cts e p db' tok u k now :
  acc_wf db -> login secret db (Some e) (Some p) = (db', Ok (tok, u)) ->
  secret = Some k -> now < clock db + one_day ->
  auth_middleware (accounts_of db' cts) secret now (Some ("Bearer " ++ tok)%string) = Ok (PUser (u_id u)).
Proof.
  intros Hwf Hl Hs Hnow. pose proof (login_wf secret db (Some e) (Some p) Hwf) as Hwf'.
  rewrite Hl in Hwf'. simpl in Hwf'.
  destruct (login_Ok _ _ _ _ _ _ _ Hl) as (u0 & h & Hf & _ & _ & -> & -> & ->).
  apply find_by_email_Some in Hf as [Hu0 _].
  change (u_id (without_password (login_update (clock db) u0))) with (u_id (login_update (clock db) u0)).
  change (u_id u0) with (u_id (login_update (clock db) u0)).
  apply signed_token_authenticates with k; [exact Hwf'| |done|done].
  pose proof (elem_of_update_user (u_id u0) (login_update (clock db)) _ _ Hu0) as Hin.
  rewrite String.eqb_refl in Hin. exact Hin.
Qed.

(** C24: [googleRegister] hands out a token for an existing account to
    anyone who names its e-mail: no Google credential and no password is
    checked, and the token authenticates as that user for seven days. *)
Theorem google_register_takeover db cts u k now :
  acc_wf db -> u ∈ users db -> js_truthy (u_email u) = true ->
  secret = Some k -> now < clock db + seven_days ->
  exists tok, google_register secret db (Some (u_email u)) = (db, Ok (tok, u)) /\
    auth_middleware (accounts_of db cts) secret now (Some ("Bearer " ++ tok)%string) = Ok (PUser (u_id u)).
Proof.
  intros Hwf Hu He Hs Hnow. unfold google_register. rewrite He. simpl.
  destruct Hwf as (Hid & Hem & Hk) eqn:Hwf'.
  rewrite (find_by_email_unique _ _ Hem Hu). eexists. split; [reflexivity|].
  by apply signed_token_authenticates with k.
Qed.

(** An account created by [googleRegister] has no password, and
    [login] on it fails with a 500 for every password ([bcrypt.compare]
    throws on the missing hash) instead of a 400. *)
Theorem google_account_login_500 db e tok u db1 p :
  find_by_email e (users db) = None ->
  google_register secret db (Some e) = (db1, Ok (tok, u)) -> js_truthy p = true ->
  login secret db1 (Some e) (Some p) = (db1, Err (500, "Server error during login")).
Proof.
  intros Hnone. unfold google_register. destruct (js_truthy e) eqn:He; [|by intros [= _ _]].
  simpl. rewrite Hnone. intros [= <- _ _] Hp. unfold login. rewrite He, Hp. simpl.
  unfold find_by_email. rewrite find_app. fold (find_by_email e (users db)). rewrite Hnone.
  simpl. by rewrite String.eqb_refl.
Qed.

(** C25: [PUT /api/auth/profile] stores whatever profile the client sends:
    any points, logins, games and activities become the account's
    profile, which [GET /api/auth/profile] then returns. *)
Theorem update_profile_client_controlled db uid body :
  acc_wf db -> (exists u, find_user uid (users db) = Some u) ->
  update_profile db uid body = ((update_profile db uid body).1, Ok body) /\
  get_profile (update_profile db uid body).1 uid = Ok body.
Proof.
  intros Hwf (u & Hu). unfold update_profile. rewrite Hu. split; [done|].
  apply find_user_Some in Hu as [Hin <-]. unfold get_profile. simpl.
  assert (Hf : find_user (u_id (set_profile body u)) (update_user (u_id u) (set_profile body) (users db))
               = Some (set_profile body u)).
  { apply find_user_unique.
    - rewrite update_user_keys by done. apply Hwf.
    - pose proof (elem_of_update_user (u_id u) (set_profile body) _ _ Hin) as Hin'.
      by rewrite String.eqb_refl in Hin'. }
  cbn [u_id set_profile] in Hf. by rewrite Hf.
Qed.

End Theorems.

(** ** Witnesses

    A bcrypt whose hash is its version tag followed by the (truncated)
    password, the token codec of [Token.Codec], the secret ["s3cret"],
    and an empty collection in which Alice registers. *)
Module AccountWitness.
Import Codec.

Definition demo_bcrypt (v : string) : Bcrypt := {|
  bcrypt_version := v;
  bcrypt_hash _ pw := (v ++ bcrypt_trunc pw)%string;
  bcrypt_compare c h := String.eqb (v ++ bcrypt_trunc c) h;
  bcrypt_compare_hash _ pw c := string_eqb_app_l v (bcrypt_trunc c) (bcrypt_trunc pw);
  bcrypt_hash_version _ pw := js_starts_with_app v (bcrypt_trunc pw);
|}.

#[local] Instance bcrypt_2a : Bcrypt := demo_bcrypt "$2a$".

Definition w_key : string := "s3cret".
Definition w_email : string := "alice@example.org".
Definition w_pw : string := "hunter22".
Definition w_db0 : AccDb := mkAccDb [] 0 100 [] 0 [].
Definition w_db1 : AccDb := (register w_db0 (Some "Alice") (Some w_email) (Some w_pw) 7).1.
Definition w_alice : UserRec := mkUser (oid_of 0) "Alice" w_email (Some ("$2a$" ++ w_pw)%string) None default_profile.
Definition w_login := login (Some w_key) w_db1 (Some w_email) (Some w_pw).
Definition w_tok : string := match w_login.2 with Ok (t, _) => t | Err _ => "" end.
Definition w_user : UserRec := match w_login.2 with Ok (_, u) => u | Err _ => w_alice end.

Lemma w_db1_wf : acc_wf w_db1.
Proof.
  vm_compute. split_and!; [apply NoDup_singleton..|].
  constructor; [|constructor]. exists 0. split; [lia|reflexivity].
Qed.

Lemma acc_wf_preserved_witness : acc_wf (register w_db0 (Some "Alice") (Some w_email) (Some w_pw) 7).1.
Proof.
  refine (proj1 (acc_wf_preserved (Some w_key) w_db0 _ _) _ _ _ _).
  - split_and!; constructor.
  - vm_compute. reflexivity.
Defined.

Lemma register_then_login_witness :
  exists db2 tok u, login (Some w_key) w_db1 (Some w_email) (Some w_pw) = (db2, Ok (tok, u)) /\
    u_id u = oid_of 0 /\ u_name u = "Alice" /\ u_email u = w_email /\
    u_profile u = mkUProfile 2 1 0 0 [login_activity 100].
Proof.
  refine (register_then_login (Some w_key) w_db0 "Alice" w_email w_pw 7 w_db1 (201, "Registered successfully") _).
  reflexivity.
Defined.

Lemma login_token_authenticates_witness :
  auth_middleware (accounts_of w_login.1 []) (Some w_key) 5000 (Some ("Bearer " ++ w_tok)%string) =
  Ok (PUser (u_id w_user)).
Proof.
  refine (login_token_authenticates (Some w_key) w_db1 [] w_email w_pw w_login.1 w_tok w_user w_key 5000
            _ _ _ _).
  - exact w_db1_wf.
  - vm_compute. reflexivity.
  - reflexivity.
  - apply Nat.ltb_lt. vm_compute. reflexivity.
Defined.

Lemma google_register_takeover_witness :
  exists tok, google_register (Some w_key) w_db1 (Some w_email) = (w_db1, Ok (tok, w_alice)) /\
    auth_middleware (accounts_of w_db1 []) (Some w_key) 5000 (Some ("Bearer " ++ tok)%string) =
    Ok (PUser (oid_of 0)).
Proof.
  refine (google_register_takeover (Some w_key) w_db1 [] w_alice w_key 5000 _ _ _ _ _).
  - exact w_db1_wf.
  - vm_compute. left.
  - reflexivity.
  - reflexivity.
  - apply Nat.ltb_lt. vm_compute. reflexivity.
Defined.

Lemma google_account_login_500_witness :
  login (Some w_key) (google_register (Some w_key) w_db0 (Some "bob@example.org")).1
    (Some "bob@example.org") (Some "anything") =
  ((google_register (Some w_key) w_db0 (Some "bob@example.org")).1, Err (500, "Server error during login")).
Proof.
  refine (google_account_login_500 (Some w_key) w_db0 "bob@example.org"
            (jwt_sign (id_claims (oid_of 0) 100 seven_days) w_key)
            (mkUser (oid_of 0) "User" "bob@example.org" None None default_profile) _ "anything" _ _ _);
    reflexivity.
Defined.

Lemma update_profile_client_controlled_witness :
  get_profile (update_profile w_db1 (oid_of 0) (mkUProfile 1000000 0 0 0 [])).1 (oid_of 0) =
  Ok (mkUProfile 1000000 0 0 0 []).
Proof.
  refine (proj2 (update_profile_client_controlled w_db1 (oid_of 0) _ _ _)).
  - exact w_db1_wf.
  - eexists. reflexivity.
Defined.

End AccountWitness.
