(* ===== verification/Otp.v ===== *)
(** * One-time passwords: the privacy endpoints of [auth.controller.js]

    [requestPasswordOtp], [resetPasswordWithOtp], [requestEmailChangeOtp]
    and [confirmEmailChange] (lines 203-309) over the [otps] collection of
    [models/Otp.model.js] and the [users] collection of [Account.v].

    - [generate_otp]: [Math.floor(100000 + Math.random() * 900000).toString()]
      for the integer [r = floor(random * 900000)]; its six decimal digits.
    - [email_regex]: the test [/^\S+@\S+\.\S+$/], as a scanner, proved
      equal to its reading as a pattern ([email_shape]).
    - The caller is [req.user] as the [auth] middleware loaded it: an
      identity and an e-mail, of a user or of a caretaker.
    - [otp_find]: [Otp.findOne({ user, otp, type, used: false })
      .sort({ createdAt: -1 })]; among records created at the same second
      MongoDB's order is unspecified, the model takes the last inserted.
    - [ttl_sweep]: the TTL index ([expireAfterSeconds: 0]) removes expired
      records in the background, at times of the server's choosing.
    - The reset handler awaits between finding the record and marking it
      used; [reset_begin]/[reset_finish] are its two halves, so that two
      requests can interleave; [reset_password_with_otp] is the handler run
      without interleaving, and is proved to be the two halves in a row. *)

From Stdlib Require Import Ascii String ZArith NArith List.
From stdpp Require Import base list strings.
From S2P Require Import Prelude JsString Gateway Token Account.

(** ** Codes *)

Open Scope N_scope.

Definition dec_digit (d : N) : ascii := ascii_of_N (48 + d).

(** The [k] low decimal digits of [n], most significant first. *)
Fixpoint dec_digits (k : nat) (n : N) : list ascii :=
  match k with
  | O => []
  | S k => dec_digits k (n / 10) ++ [dec_digit (n mod 10)]
  end.

(** [Math.floor(100000 + r').toString()] with [r = floor(r')]: a number in
    [100000, 999999] prints as its six digits. *)
Definition generate_otp (r : N) : string := string_of_list_ascii (dec_digits 6 (100000 + r)).

(** Reading a string of decimal digits back. *)
Fixpoint dec_value_acc (acc : N) (l : list ascii) : N :=
  match l with
  | [] => acc
  | c :: l => dec_value_acc (10 * acc + (N_of_ascii c - 48)) l
  end.

Definition dec_value (s : string) : N := dec_value_acc 0 (list_ascii_of_string s).

Close Scope N_scope.

(** ** The e-mail test [/^\S+@\S+\.\S+$/] *)

(** [\S+\.\S+] after a first non-empty run: a ['.'] with something after it. *)
Fixpoint dot_after (r : list ascii) : bool :=
  match r with
  | [] => false
  | y :: c => (Ascii.eqb y "." && negb (bool_decide (c = []))) || dot_after c
  end.

(** [\S+\.\S+]. *)
Definition dot_part (l : list ascii) : bool :=
  match l with [] => false | _ :: r => dot_after r end.

(** [@\S+\.\S+] after a first non-empty run. *)
Fixpoint at_after (r : list ascii) : bool :=
  match r with
  | [] => false
  | y :: c => (Ascii.eqb y "@" && dot_part c) || at_after c
  end.

Definition email_regex (s : string) : bool :=
  let l := list_ascii_of_string s in
  forallb (fun ch => negb (is_js_space ch)) l && match l with [] => false | _ :: r => at_after r end.

(** The pattern read as a shape: non-space characters, [a@b.c] with
    [a], [b], [c] non-empty ([\S] also matches ['@'] and ['.']). *)
Definition email_shape (s : string) : Prop :=
  Forall (fun ch => is_js_space ch = false) (list_ascii_of_string s) /\
  exists a b c, a <> [] /\ b <> [] /\ c <> [] /\
    list_ascii_of_string s = a ++ "@"%char :: b ++ "."%char :: c.

(** ** Records *)

(** [req.user]: identity and e-mail of the authenticated caller. *)
Record Caller := mkCaller { caller_id : string; caller_email : string }.

Definition otp_matches (uid code : string) (ty : OtpType) (o : OtpRec) : bool :=
  String.eqb (o_user o) uid && String.eqb (o_code o) code && bool_decide (o_type o = ty) && negb (o_used o).

Definition otp_find (uid code : string) (ty : OtpType) (l : list OtpRec) : option OtpRec :=
  last (filter (fun o => otp_matches uid code ty o = true) l).

(** [record.used = true; await record.save()]. *)
Definition mark_used (id : nat) (l : list OtpRec) : list OtpRec :=
  map (fun o => if Nat.eqb (o_id o) id
                then mkOtp (o_id o) (o_user o) (o_type o) (o_code o) (o_newEmail o) true (o_expiresAt o) (o_createdAt o)
                else o) l.

Definition fifteen_minutes : nat := 900.

Definition set_otps (l : list OtpRec) (next : nat) (db : AccDb) : AccDb :=
  mkAccDb (users db) (next_oid db) (clock db) l next (mails db).

Definition add_mail (m : Mail) (db : AccDb) : AccDb :=
  mkAccDb (users db) (next_oid db) (clock db) (otps db) (next_otp db) (mails db ++ [m]).

(** [Otp.create({...})]. *)
Definition create_otp (uid : string) (ty : OtpType) (code : string) (ne : option string) (db : AccDb) : AccDb :=
  let o := mkOtp (next_otp db) uid ty code ne false (clock db + fifteen_minutes) (clock db) in
  set_otps (otps db ++ [o]) (S (next_otp db)) db.

(** [sendMail]: [ok = false] is a failure of the mail service, which the
    handler's [catch] turns into a 500 after the record was created. *)
Definition send_mail (ok : bool) (m : Mail) (db : AccDb) (msg : string) : AccDb * HttpResult string :=
  if ok then (add_mail m db, Ok msg) else (db, Err (500, "Failed to send OTP")).

(** ** Handlers *)

Section Otp.
Context `{Bcrypt}.
Implicit Types (db : AccDb).

(** [requestPasswordOtp] (lines 207-226). *)
Definition request_password_otp db (caller : option Caller) (r : N) (mail_ok : bool) : AccDb * HttpResult string :=
  match caller with
  | None => (db, Err (401, "Unauthorized"))
  | Some u =>
      let code := generate_otp r in
      let db1 := create_otp (caller_id u) OtpPassword code None db in
      send_mail mail_ok
        (mkMail (caller_email u) "Your password change OTP"
           ("Your OTP for password change is: " ++ code ++
            ". It expires in 15 minutes. If you didn't request this, ignore this email.")) db1
        "OTP sent to your email."
  end.

(** What [resetPasswordWithOtp] holds across its [await]s once the record
    is found: the caller, the record, the new password and its salt. *)
Record ResetPending := mkResetPending {
  rp_user : string;
  rp_record : nat;
  rp_password : string;
  rp_salt : nat;
}.

(** [resetPasswordWithOtp] up to the expiry check (lines 229-239). *)
Definition reset_begin db (caller : option Caller) (otp newPassword : option string) (salt : nat)
    : HttpResult ResetPending :=
  match caller with
  | None => Err (401, "Unauthorized")
  | Some u =>
      match otp, newPassword with
      | Some c, Some p =>
          if negb (js_truthy c && js_truthy p) then Err (400, "OTP and newPassword required")
          else if Nat.ltb (String.length p) 6 then Err (400, "Password must be at least 6 characters")
          else match otp_find (caller_id u) c OtpPassword (otps db) with
               | None => Err (400, "Invalid or expired OTP")
               | Some o =>
                   if Nat.ltb (o_expiresAt o) (clock db) then Err (400, "OTP has expired")
                   else Ok (mkResetPending (caller_id u) (o_id o) p salt)
               end
      | _, _ => Err (400, "OTP and newPassword required")
      end
  end.

(** The rest of the handler (lines 241-247): [User.findByIdAndUpdate]
    with the new hash (a no-op when the caller is not a user), then the
    record is marked used. *)
Definition reset_finish db (pd : ResetPending) : AccDb * HttpResult string :=
  let db1 := set_users (update_user (rp_user pd) (set_password (bcrypt_hash (rp_salt pd) (rp_password pd))) (users db)) db in
  (set_otps (mark_used (rp_record pd) (otps db1)) (next_otp db1) db1, Ok "Password changed successfully.").

Definition reset_password_with_otp db (caller : option Caller) (otp newPassword : option string) (salt : nat)
    : AccDb * HttpResult string :=
  match caller with
  | None => (db, Err (401, "Unauthorized"))
  | Some u =>
      match otp, newPassword with
      | Some c, Some p =>
          if negb (js_truthy c && js_truthy p) then (db, Err (400, "OTP and newPassword required"))
          else if Nat.ltb (String.length p) 6 then (db, Err (400, "Password must be at least 6 characters"))
          else match otp_find (caller_id u) c OtpPassword (otps db) with
               | None => (db, Err (400, "Invalid or expired OTP"))
               | Some o =>
                   if Nat.ltb (o_expiresAt o) (clock db) then (db, Err (400, "OTP has expired"))
                   else
                     let db1 := set_users (update_user (caller_id u)
                                  (set_password (bcrypt_hash salt p)) (users db)) db in
                     (set_otps (mark_used (o_id o) (otps db1)) (next_otp db1) db1,
                      Ok "Password changed successfully.")
               end
      | _, _ => (db, Err (400, "OTP and newPassword required"))
      end
  end.

End Otp.

(** [requestEmailChangeOtp] (lines 255-279): the new address, lower-cased,
    rides on the record; the code goes to the current address. *)
Definition request_email_change (db : AccDb) (caller : option Caller) (newEmail : option string)
    (r : N) (mail_ok : bool) : AccDb * HttpResult string :=
  match caller with
  | None => (db, Err (401, "Unauthorized"))
  | Some u =>
      match newEmail with
      | Some ne =>
          if negb (js_truthy ne && email_regex ne) then (db, Err (400, "Enter a valid new email address."))
          else match find_by_email (js_to_lower ne) (users db) with
               | Some _ => (db, Err (400, "Email already in use"))
               | None =>
                   let code := generate_otp r in
                   let db1 := create_otp (caller_id u) OtpEmailChange code (Some (js_to_lower ne)) db in
                   send_mail mail_ok
                     (mkMail (caller_email u) "Confirm your email change - OTP"
                        ("You requested to change your account email to " ++ ne ++
                         ". Use this OTP to confirm the change: " ++ code ++ ". Expires in 15 minutes.")) db1
                     "OTP sent to your current email."
               end
      | None => (db, Err (400, "Enter a valid new email address."))
      end
  end.

(** [confirmEmailChange] (lines 282-309). *)
Definition confirm_email_change (db : AccDb) (caller : option Caller) (otp : option string)
    : AccDb * HttpResult string :=
  match caller with
  | None => (db, Err (401, "Unauthorized"))
  | Some u =>
      match otp with
      | Some c =>
          if negb (js_truthy c) then (db, Err (400, "OTP required"))
          else match otp_find (caller_id u) c OtpEmailChange (otps db) with
               | None => (db, Err (400, "Invalid or expired OTP"))
               | Some o =>
                   if Nat.ltb (o_expiresAt o) (clock db) then (db, Err (400, "OTP has expired"))
                   else match o_newEmail o with
                        | None => (db, Err (400, "No new email attached to OTP"))
                        | Some ne =>
                            if negb (js_truthy ne) then (db, Err (400, "No new email attached to OTP"))
                            else match find_by_email ne (users db) with
                                 | Some _ => (db, Err (400, "Email already in use"))
                                 | None =>
                                     let db1 := set_users (update_user (caller_id u) (set_email ne) (users db)) db in
                                     (set_otps (mark_used (o_id o) (otps db1)) (next_otp db1) db1, Ok ne)
                                 end
                        end
               end
      | None => (db, Err (400, "OTP required"))
      end
  end.

(** The TTL monitor: records whose [expiresAt] has passed are deleted. *)
Definition ttl_sweep (db : AccDb) : AccDb :=
  set_otps (filter (fun o => clock db <= o_expiresAt o) (otps db)) (next_otp db) db.

(** Time passes. *)
Definition acc_tick (s : nat) (db : AccDb) : AccDb :=
  mkAccDb (users db) (next_oid db) (clock db + s) (otps db) (next_otp db) (mails db).

(** ** Lemmas on codes *)

Lemma dec_value_acc_app acc l c :
  dec_value_acc acc (l ++ [c]) = (10 * dec_value_acc acc l + (N_of_ascii c - 48))%N.
Proof. revert acc. induction l as [|x l IH]; intros acc; simpl; [done|]. apply IH. Qed.

Lemma dec_digit_value d : (d < 10)%N -> (N_of_ascii (dec_digit d) - 48)%N = d.
Proof. intros Hd. unfold dec_digit. rewrite N_ascii_embedding by lia. lia. Qed.

Lemma dec_value_acc_digits k n acc :
  dec_value_acc acc (dec_digits k n) = (acc * 10 ^ N.of_nat k + n mod 10 ^ N.of_nat k)%N.
Proof.
  revert n acc. induction k as [|k IH]; intros n acc.
  - simpl. rewrite N.mod_1_r. lia.
  - cbn [dec_digits]. rewrite dec_value_acc_app, IH, dec_digit_value by (apply N.mod_lt; discriminate).
    rewrite Nat2N.inj_succ, N.pow_succ_r', N.Div0.mod_mul_r. lia.
Qed.

Lemma dec_digits_length k n : length (dec_digits k n) = k.
Proof. revert n. induction k; intros n; simpl; [done|]. rewrite length_app, IHk. simpl. lia. Qed.

(** ** Lemmas on the e-mail test *)

Lemma dot_after_spec r :
  dot_after r = true <-> exists b c, c <> [] /\ r = b ++ "."%char :: c.
Proof.
  induction r as [|y r IH]; simpl.
  - split; [done|]. intros (b & c & _ & H). by destruct b.
  - rewrite orb_true_iff, andb_true_iff, Ascii.eqb_eq, negb_true_iff, bool_decide_eq_false, IH.
    split.
    + intros [[-> Hc]|(b & c & Hc & ->)]; [by exists [], r|by exists (y :: b), c].
    + intros ([|x b] & c & Hc & Heq); simpl in Heq; injection Heq as -> ->; [by left|].
      right. eauto.
Qed.

Lemma dot_part_spec l :
  dot_part l = true <-> exists b c, b <> [] /\ c <> [] /\ l = b ++ "."%char :: c.
Proof.
  destruct l as [|x r]; simpl.
  - split; [done|]. intros (b & c & Hb & _ & H). by destruct b.
  - rewrite dot_after_spec. split.
    + intros (b & c & Hc & ->). by exists (x :: b), c.
    + intros ([|y b] & c & Hb & Hc & Heq); [done|]. injection Heq as -> ->. eauto.
Qed.

Lemma at_after_spec r :
  at_after r = true <-> exists a b c, b <> [] /\ c <> [] /\ r = a ++ "@"%char :: b ++ "."%char :: c.
Proof.
  induction r as [|y r IH]; simpl.
  - split; [done|]. intros (a & b & c & _ & _ & H). by destruct a.
  - rewrite orb_true_iff, andb_true_iff, Ascii.eqb_eq, dot_part_spec, IH. split.
    + intros [[-> (b & c & Hb & Hc & ->)]|(a & b & c & Hb & Hc & ->)].
      * by exists [], b, c.
      * by exists (y :: a), b, c.
    + intros ([|x a] & b & c & Hb & Hc & Heq); simpl in Heq; injection Heq as -> Heq.
      * left. split; [done|]. by exists b, c.
      * right. by exists a, b, c.
Qed.

(** ** Lemmas on the OTP collection *)

Lemma otp_find_Some uid code ty l o :
  otp_find uid code ty l = Some o -> o ∈ l /\ otp_matches uid code ty o = true.
Proof.
  unfold otp_find. intros H%last_Some_elem_of. by apply list_elem_of_filter in H as [? ?].
Qed.

(** After [mark_used i], no record with id [i] matches a lookup. *)
Lemma otp_matches_mark_used uid code ty i l :
  filter (fun o => otp_matches uid code ty o = true) (mark_used i l) =
  filter (fun o => otp_matches uid code ty o = true /\ o_id o <> i) l.
Proof.
  induction l as [|o l IH]; [done|]. cbn [mark_used map]. fold (mark_used i l).
  rewrite !filter_cons, IH.
  destruct (Nat.eqb_spec (o_id o) i) as [Hi|Hi]; cbn iota.
  - rewrite decide_False by (unfold otp_matches; simpl; by rewrite andb_false_r).
    by rewrite decide_False by tauto.
  - by destruct (decide (otp_matches uid code ty o = true));
      [rewrite decide_True by tauto|rewrite decide_False by tauto].
Qed.

Lemma update_user_absent id f l : id ∉ u_id <$> l -> update_user id f l = l.
Proof.
  induction l as [|u l IH]; intros Hn; [done|]. rewrite fmap_cons, not_elem_of_cons in Hn.
  destruct Hn as [Hu Hn]. cbn [update_user map]. fold (update_user id f l). rewrite IH by done.
  by destruct (String.eqb_spec (u_id u) id).
Qed.

Lemma js_truthy_length s : 1 <= String.length s -> js_truthy s = true.
Proof. destruct s; simpl; [lia|done]. Qed.


(** ** Theorems *)

Section OtpTheorems.
Context `{Bcrypt}.
Implicit Types (db : AccDb).

(** A generated code is six decimal digits that read back as
    [100000 + r]: every [r] drawn below 900000 gives a distinct code of
    exactly six characters. *)
Theorem generate_otp_six_digits r :
  (r < 900000)%N ->
  length (list_ascii_of_string (generate_otp r)) = 6 /\ dec_value (generate_otp r) = (100000 + r)%N.
Proof.
  intros Hr. unfold generate_otp, dec_value. rewrite list_ascii_of_string_of_list_ascii.
  split; [apply dec_digits_length|]. rewrite dec_value_acc_digits. simpl.
  rewrite N.mod_small by lia. lia.
Qed.

(** The scanner [email_regex] accepts exactly the strings of the
    pattern [/^\S+@\S+\.\S+$/]: no white space, and some non-empty [a],
    [b], [c] with [s = a + "@" + b + "." + c]. *)
Theorem email_regex_spec s : email_regex s = true <-> email_shape s.
Proof.
  unfold email_regex, email_shape. rewrite andb_true_iff, forallb_Forall.
  assert (Hsp : Forall (fun ch => negb (is_js_space ch) = true) (list_ascii_of_string s) <->
                Forall (fun ch => is_js_space ch = false) (list_ascii_of_string s)).
  { apply Forall_iff. intros ch. apply negb_true_iff. }
  rewrite Hsp. apply and_iff_compat_l.
  destruct (list_ascii_of_string s) as [|x r].
  - split; [done|]. intros (a & b & c & Ha & _ & _ & Heq). by destruct a.
  - rewrite at_after_spec. split.
    + intros (a & b & c & Hb & Hc & ->). exists (x :: a), b, c. done.
    + intros ([|y a] & b & c & Ha & Hb & Hc & Heq); [done|]. injection Heq as -> ->.
      by exists a, b, c.
Qed.

(** The reset handler is its two halves run back to back: the
    checks up to the expiry test ([reset_begin]), then the password update
    and the marking of the record ([reset_finish]). *)
Theorem reset_refines_begin_finish db caller otp p salt :
  reset_password_with_otp db caller otp p salt =
  match reset_begin db caller otp p salt with
  | Ok pd => reset_finish db pd
  | Err e => (db, Err e)
  end.
Proof.
  unfold reset_password_with_otp, reset_begin.
  destruct caller as [u|]; [|done]. destruct otp as [c|], p as [p|]; try done.
  destruct (negb _); [done|]. destruct (Nat.ltb _ _); [done|].
  destruct (otp_find _ _ _ _) as [o|]; [|done]. by destruct (Nat.ltb _ _).
Qed.

(** C29: a code is single-use only when requests do not overlap.  With
    one unused, unexpired record for the code, a reset succeeds and a
    second reset with the same code then fails; but two resets that both
    pass the lookup before either marks the record used both succeed,
    changing the password twice with one code. *)
Theorem otp_single_use_only_sequential db u c p1 p2 s1 s2 o :
  filter (fun o => otp_matches (caller_id u) c OtpPassword o = true) (otps db) = [o] ->
  clock db <= o_expiresAt o -> js_truthy c = true ->
  6 <= String.length p1 -> 6 <= String.length p2 ->
  (reset_password_with_otp db (Some u) (Some c) (Some p1) s1).2 = Ok "Password changed successfully." /\
  (reset_password_with_otp (reset_password_with_otp db (Some u) (Some c) (Some p1) s1).1
     (Some u) (Some c) (Some p2) s2).2 = Err (400, "Invalid or expired OTP") /\
  exists pd1 pd2,
    reset_begin db (Some u) (Some c) (Some p1) s1 = Ok pd1 /\
    reset_begin db (Some u) (Some c) (Some p2) s2 = Ok pd2 /\
    (reset_finish db pd1).2 = Ok "Password changed successfully." /\
    (reset_finish (reset_finish db pd1).1 pd2).2 = Ok "Password changed successfully.".
Proof.
  intros Hf Hexp Hc Hp1 Hp2.
  assert (Hfind : otp_find (caller_id u) c OtpPassword (otps db) = Some o) by (unfold otp_find; by rewrite Hf).
  assert (Hlt : Nat.ltb (o_expiresAt o) (clock db) = false) by (apply Nat.ltb_ge; lia).
  assert (Hl1 : Nat.ltb (String.length p1) 6 = false) by (apply Nat.ltb_ge; lia).
  assert (Hl2 : Nat.ltb (String.length p2) 6 = false) by (apply Nat.ltb_ge; lia).
  assert (Ht1 : js_truthy p1 = true) by (apply js_truthy_length; lia).
  assert (Ht2 : js_truthy p2 = true) by (apply js_truthy_length; lia).
  unfold reset_password_with_otp, reset_begin. rewrite Hc, Ht1, Ht2. simpl.
  rewrite Hl1, Hl2, Hfind, Hlt. simpl.
  split_and!; [done| |by do 2 eexists].
  unfold otp_find.
  rewrite otp_matches_mark_used.
  rewrite (list_filter_iff _ (fun x => o_id x <> o_id o /\ otp_matches (caller_id u) c OtpPassword x = true))
    by tauto.
  rewrite <- list_filter_filter, Hf, filter_cons, decide_False by tauto. done.
Qed.

End OtpTheorems.

(** the reset of a caller that is not in the [users] collection (a
    caretaker: [auth] puts the caretaker document in [req.user]) changes
    no password, whatever it answers: on success it reports
    "Password changed successfully." all the same. *)
Theorem reset_by_non_user_changes_no_password `{Bcrypt} db u c p s :
  caller_id u ∉ u_id <$> users db ->
  users (reset_password_with_otp db (Some u) (Some c) (Some p) s).1 = users db.
Proof.
  intros Hn. unfold reset_password_with_otp.
  repeat case_match; simpl; try done. by apply update_user_absent.
Qed.

(** ** Witnesses: Alice (of [Account.AccountWitness]) asks for a code. *)
Module OtpWitness.
Import AccountWitness.

#[local] Instance bcrypt_2a' : Bcrypt := demo_bcrypt "$2a$".

Definition w_caller : Caller := mkCaller (oid_of 0) w_email.
Definition w_otp_db : AccDb := (request_password_otp w_db1 (Some w_caller) 42 true).1.
Definition w_record : OtpRec := mkOtp 0 (oid_of 0) OtpPassword (generate_otp 42) None false 1000 100.

Lemma generate_otp_six_digits_witness :
  length (list_ascii_of_string (generate_otp 42)) = 6 /\ dec_value (generate_otp 42) = 100042%N.
Proof. apply generate_otp_six_digits. reflexivity. Defined.

Lemma otp_single_use_only_sequential_witness :
  (reset_password_with_otp w_otp_db (Some w_caller) (Some (generate_otp 42)) (Some "newpass1") 1).2 =
    Ok "Password changed successfully." /\
  (reset_password_with_otp (reset_password_with_otp w_otp_db (Some w_caller) (Some (generate_otp 42)) (Some "newpass1") 1).1
     (Some w_caller) (Some (generate_otp 42)) (Some "newpass2") 2).2 = Err (400, "Invalid or expired OTP") /\
  exists pd1 pd2,
    reset_begin w_otp_db (Some w_caller) (Some (generate_otp 42)) (Some "newpass1") 1 = Ok pd1 /\
    reset_begin w_otp_db (Some w_caller) (Some (generate_otp 42)) (Some "newpass2") 2 = Ok pd2 /\
    (reset_finish w_otp_db pd1).2 = Ok "Password changed successfully." /\
    (reset_finish (reset_finish w_otp_db pd1).1 pd2).2 = Ok "Password changed successfully.".
Proof.
  refine (otp_single_use_only_sequential w_otp_db w_caller (generate_otp 42) "newpass1" "newpass2" 1 2 w_record
            _ _ _ _ _).
  - vm_compute. reflexivity.
  - apply Nat.leb_le. vm_compute. reflexivity.
  - reflexivity.
  - apply Nat.leb_le. reflexivity.
  - apply Nat.leb_le. reflexivity.
Defined.

Definition w_carer : Caller := mkCaller "64b7f0c2a1b2c3d4e5f6071a" "carl@example.org".

Lemma reset_by_non_user_changes_no_password_witness :
  users (reset_password_with_otp w_otp_db (Some w_carer) (Some "123456") (Some "newpass1") 1).1 = users w_otp_db.
Proof. apply reset_by_non_user_changes_no_password. concrete. Defined.

End OtpWitness.
