(* ===== verification/Caretaker.v ===== *)
(** * The caretaker directory: [caretaker.controller.js] and [Caretaker.model.js]

    The [caretakers] collection and the handlers of
    [controllers/caretaker.controller.js]: [getCaretakers] and
    [getPatients] (patients populated from the users collection),
    [assignPatient], [caretakerLogin] with the model's [comparePassword]
    and [generateAuthToken], [getCaretakerProfile], the settings pair and
    the chat counter [updateProfile]; [getUsers], which no route mounts,
    and the model's [pre("save")] hashing hook ([pre_save]).  The only
    [save()] of the controller, in [assignPatient], changes the patients
    and not the password, so the hook leaves the document as it is.

    Stored passwords are strings: the [pre("save")] hook hashes a password
    when it is set, but documents inserted otherwise (seeding) may hold a
    plain password, which is why [comparePassword] compares in plain text
    when the stored value does not start with ["$2a$"]. *)

From Stdlib Require Import Ascii String ZArith List.
From stdpp Require Import base list strings.
From S2P Require Import Prelude JsString Gateway Token Account.

(** ** Documents *)

Record CtProfile := mkCtProfile {
  cp_totalLogins : Z;
  cp_totalUsers : Z;
  cp_totalSessions : Z;
  cp_chatMessages : Z;
  cp_activities : list Activity;
}.

(** [settings] of the schema (and of [userSchema]), with its defaults. *)
Record Settings := mkSettings {
  st_theme : string;
  st_color : string;
  st_font : string;
  st_largeText : bool;
  st_email : bool;
  st_sms : bool;
  st_push : bool;
}.

Definition default_settings : Settings := mkSettings "light" "blue" "default" false true false false.

Record CaretakerRec := mkCaretaker {
  cr_id : string;
  cr_name : string;
  cr_email : string;
  cr_password : string;
  cr_patients : list string;
  cr_profile : CtProfile;
  cr_settings : Settings;
}.

(** A patient as [populate("patients", "name email photo")] shows it. *)
Record PatientView := mkPatientView { pv_id : string; pv_name : string; pv_email : string; pv_photo : option string }.

(** ** Queries *)

Definition find_caretaker (id : string) (l : list CaretakerRec) : option CaretakerRec :=
  find (fun c => String.eqb (cr_id c) id) l.

Definition find_caretaker_by_email (e : string) (l : list CaretakerRec) : option CaretakerRec :=
  find (fun c => String.eqb (cr_email c) e) l.

Definition update_caretaker (id : string) (f : CaretakerRec -> CaretakerRec) (l : list CaretakerRec) :=
  map (fun c => if String.eqb (cr_id c) id then f c else c) l.

(** [populate]: the referenced users that exist, in the array's order. *)
Definition populate (us : list UserRec) (ids : list string) : list PatientView :=
  omap (fun i => (fun u => mkPatientView (u_id u) (u_name u) (u_email u) (u_photo u)) <$> find_user i us) ids.

(** ** Password and token (the model's methods) *)

Section Methods.
Context `{Bcrypt} `{JwtSigner}.

(** [comparePassword(candidatePassword)] (model lines 60-67): a stored
    value without the ["$2a$"] prefix is compared as plain text;
    [bcrypt.compare] throws ([None]) on an undefined candidate. *)
Definition compare_password (stored : string) (cand : option string) : option bool :=
  if negb (js_starts_with "$2a$" stored) then
    Some (match cand with Some c => String.eqb c stored | None => false end)
  else match cand with Some c => Some (bcrypt_compare c stored) | None => None end.

(** [generateAuthToken()] (model lines 74-78). *)
Definition generate_auth_token (secret : option string) (now : nat) (c : CaretakerRec) : string :=
  jwt_sign (id_claims (cr_id c) now seven_days) (caretaker_signing_key secret).

End Methods.

(** ** Handlers *)

Definition set_patients (ps : list string) (c : CaretakerRec) : CaretakerRec :=
  mkCaretaker (cr_id c) (cr_name c) (cr_email c) (cr_password c) ps (cr_profile c) (cr_settings c).

Definition set_ct_profile (p : CtProfile) (c : CaretakerRec) : CaretakerRec :=
  mkCaretaker (cr_id c) (cr_name c) (cr_email c) (cr_password c) (cr_patients c) p (cr_settings c).

Definition set_settings (s : Settings) (c : CaretakerRec) : CaretakerRec :=
  mkCaretaker (cr_id c) (cr_name c) (cr_email c) (cr_password c) (cr_patients c) (cr_profile c) s.

(** [{ $inc: {...}, $push: { "profile.activities": a } }]. *)
Definition bump_ct_profile (dlogins dchats : Z) (a : Activity) (p : CtProfile) : CtProfile :=
  mkCtProfile (cp_totalLogins p + dlogins) (cp_totalUsers p) (cp_totalSessions p)
              (cp_chatMessages p + dchats) (cp_activities p ++ [a]).

(** [getCaretakers] (lines 5-15). *)
Definition get_caretakers (us : list UserRec) (cs : list CaretakerRec) : list (CaretakerRec * list PatientView) :=
  (fun c => (c, populate us (cr_patients c))) <$> cs.

(** [getPatients] (lines 31-43). *)
Definition get_patients (us : list UserRec) (cs : list CaretakerRec) (id : string) : HttpResult (list PatientView) :=
  match cast_object_id id with
  | None => Err (500, "Error fetching patients")
  | Some i =>
      match find_caretaker i cs with
      | None => Err (404, "Caretaker not found")
      | Some c => Ok (populate us (cr_patients c))
      end
  end.

(** [assignPatient] (lines 46-61): [patients.includes] and [push] cast the
    id to an ObjectId (a [CastError] is a 500); no check of who asks, nor
    that the patient exists. *)
Definition assign_patient (cs : list CaretakerRec) (caretakerId patientId : string)
    : list CaretakerRec * HttpResult string :=
  match cast_object_id caretakerId with
  | None => (cs, Err (500, "Error assigning patient"))
  | Some ci =>
      match find_caretaker ci cs with
      | None => (cs, Err (404, "Caretaker not found"))
      | Some c =>
          match cast_object_id patientId with
          | None => (cs, Err (500, "Error assigning patient"))
          | Some pi =>
              if bool_decide (pi ∈ cr_patients c) then (cs, Ok "Patient assigned successfully")
              else (update_caretaker ci (set_patients (cr_patients c ++ [pi])) cs, Ok "Patient assigned successfully")
          end
      end
  end.

Definition ct_login_activity (now : nat) : Activity := mkActivity "login" "Successful login" now None.

Section Login.
Context `{Bcrypt} `{JwtSigner}.
Variable secret : option string.

(** [caretakerLogin] (lines 63-90): the answer carries the document as
    read before the counter update, without its password. *)
Definition caretaker_login (cs : list CaretakerRec) (now : nat) (email : string) (password : option string)
    : list CaretakerRec * HttpResult (string * CaretakerRec) :=
  match find_caretaker_by_email email cs with
  | None => (cs, Err (401, "Invalid email or password"))
  | Some c =>
      match compare_password (cr_password c) password with
      | None => (cs, Err (500, "Error during login"))
      | Some false => (cs, Err (401, "Invalid email or password"))
      | Some true =>
          let cs' := update_caretaker (cr_id c)
                       (fun d => set_ct_profile (bump_ct_profile 1 0 (ct_login_activity now) (cr_profile d)) d) cs in
          (cs', Ok (generate_auth_token secret now c,
                    mkCaretaker (cr_id c) (cr_name c) (cr_email c) "" (cr_patients c) (cr_profile c) (cr_settings c)))
      end
  end.

End Login.

(** [getCaretakerProfile] (lines 92-105), for [req.user._id]. *)
Definition get_caretaker_profile (us : list UserRec) (cs : list CaretakerRec) (uid : string)
    : HttpResult (CaretakerRec * list PatientView) :=
  match find_caretaker uid cs with
  | None => Err (404, "Caretaker not found")
  | Some c => Ok (c, populate us (cr_patients c))
  end.

(** [getCaretakerSettings] (lines 106-122). *)
Definition get_caretaker_settings (cs : list CaretakerRec) (uid : option string) : HttpResult Settings :=
  match uid with
  | None => Err (401, "Unauthorized - No user in request")
  | Some u =>
      match find_caretaker u cs with
      | None => Err (404, "Caretaker not found")
      | Some c => Ok (cr_settings c)
      end
  end.

(** [putCaretakerSettings] (lines 125-160): [$set: { settings }]. *)
Definition put_caretaker_settings (cs : list CaretakerRec) (uid : option string) (body : option Settings)
    : list CaretakerRec * HttpResult Settings :=
  match uid with
  | None => (cs, Err (401, "Unauthorized"))
  | Some u =>
      match body with
      | None => (cs, Err (400, "Settings missing in body"))
      | Some s =>
          match find_caretaker u cs with
          | None => (cs, Err (404, "Caretaker not found"))
          | Some _ => (update_caretaker u (set_settings s) cs, Ok s)
          end
      end
  end.

Definition ct_chat_activity (now : nat) : Activity := mkActivity "chat" "Chat message sent" now None.

(** [updateProfile] (lines 162-183): one more chat message;
    [res.json(null)] when the caller is not a caretaker. *)
Definition ct_update_profile (cs : list CaretakerRec) (now : nat) (uid : string)
    : list CaretakerRec * option CaretakerRec :=
  let f c := set_ct_profile (bump_ct_profile 0 1 (ct_chat_activity now) (cr_profile c)) c in
  (update_caretaker uid f cs, f <$> find_caretaker uid cs).

(** [getUsers] (lines 17-28), which no route mounts: every user but
    the caller, without password. *)
Definition ct_get_users (us : list UserRec) (caller : string) : list UserRec :=
  without_password <$> List.filter (fun u => negb (String.eqb (u_id u) caller)) us.

Definition set_ct_password (pw : string) (c : CaretakerRec) : CaretakerRec :=
  mkCaretaker (cr_id c) (cr_name c) (cr_email c) pw (cr_patients c) (cr_profile c) (cr_settings c).

(** The [pre("save")] hook (model lines 48-57): [isModified("password")]
    is [modified]; the salt is [genSalt(10)]'s. *)
Definition pre_save `{Bcrypt} (modified : bool) (salt : nat) (c : CaretakerRec) : CaretakerRec :=
  if modified then set_ct_password (bcrypt_hash salt (cr_password c)) c else c.

(** ** The routed handlers that write the collection, as one step
    relation ([caretaker.route.js] lines 9-16) *)

Section Steps.
Context `{Bcrypt} `{JwtSigner}.
Variable secret : option string.

Inductive ct_step : list CaretakerRec -> list CaretakerRec -> Prop :=
| CtAssign cs ci pi : ct_step cs (assign_patient cs ci pi).1
| CtLogin cs now e p : ct_step cs (caretaker_login secret cs now e p).1
| CtPutSettings cs u b : ct_step cs (put_caretaker_settings cs u b).1
| CtChat cs now u : ct_step cs (ct_update_profile cs now u).1.

End Steps.

(** ** Invariant: each caretaker's patients are distinct canonical ids *)

Definition ct_wf (cs : list CaretakerRec) : Prop :=
  NoDup (cr_id <$> cs) /\
  Forall (fun c => NoDup (cr_patients c) /\ Forall (fun p => cast_object_id p = Some p) (cr_patients c)) cs.

(** ** Lemmas *)

Lemma update_caretaker_keys {K} (key : CaretakerRec -> K) id f l :
  (forall c, key (f c) = key c) -> key <$> update_caretaker id f l = key <$> l.
Proof.
  intros Hf. induction l as [|c l IH]; [done|].
  change (update_caretaker id f (c :: l)) with ((if String.eqb (cr_id c) id then f c else c) :: update_caretaker id f l).
  rewrite !fmap_cons, IH. destruct (String.eqb _ _); [by rewrite Hf|done].
Qed.

Lemma find_caretaker_Some id l c : find_caretaker id l = Some c -> c ∈ l /\ cr_id c = id.
Proof. intros (Hin & Hf)%find_Some_elem. by apply String.eqb_eq in Hf. Qed.

Lemma find_caretaker_unique l c : NoDup (cr_id <$> l) -> c ∈ l -> find_caretaker (cr_id c) l = Some c.
Proof. intros Hnd Hc. apply (find_key_unique _ cr_id); [done|done|]. intros y. apply String.eqb_eq. Qed.

Lemma elem_of_update_caretaker id f l c :
  c ∈ update_caretaker id f l -> exists d, d ∈ l /\ c = if String.eqb (cr_id d) id then f d else d.
Proof.
  intros Hc. apply list_elem_of_In, in_map_iff in Hc as (d & <- & Hd).
  exists d. by rewrite list_elem_of_In.
Qed.

Lemma update_caretaker_elem id f l c :
  c ∈ l -> (if String.eqb (cr_id c) id then f c else c) ∈ update_caretaker id f l.
Proof.
  intros Hc. apply list_elem_of_In.
  apply (in_map (fun c => if String.eqb (cr_id c) id then f c else c)). by apply list_elem_of_In.
Qed.

(** Looking up the caretaker an update targets finds the updated
    document. *)
Lemma find_caretaker_update id f cs :
  (forall c, cr_id (f c) = cr_id c) -> find_caretaker id (update_caretaker id f cs) = f <$> find_caretaker id cs.
Proof.
  intros Hf. induction cs as [|c cs IH]; [done|].
  unfold find_caretaker, update_caretaker in *. simpl.
  destruct (String.eqb (cr_id c) id) eqn:E; simpl; rewrite ?Hf, ?E; [done|exact IH].
Qed.

(** An update that keeps a caretaker's id and patients keeps [ct_wf]. *)
Lemma update_caretaker_wf id f cs :
  (forall c, cr_id (f c) = cr_id c) ->
  (forall c, NoDup (cr_patients c) /\ Forall (fun p => cast_object_id p = Some p) (cr_patients c) ->
             NoDup (cr_patients (f c)) /\ Forall (fun p => cast_object_id p = Some p) (cr_patients (f c))) ->
  ct_wf cs -> ct_wf (update_caretaker id f cs).
Proof.
  intros Hid Hp (Hnd & Hall). split; [by rewrite update_caretaker_keys|].
  apply Forall_forall. intros c (d & Hd & ->)%elem_of_update_caretaker.
  rewrite Forall_forall in Hall. destruct (String.eqb _ _); auto.
Qed.

Lemma assign_patient_cases cs ci pi r :
  assign_patient cs ci pi = r ->
  r.1 = cs \/
  (exists c i p, cast_object_id ci = Some i /\ find_caretaker i cs = Some c /\ cast_object_id pi = Some p /\
    (p ∉ cr_patients c) /\ r.1 = update_caretaker i (set_patients (cr_patients c ++ [p])) cs).
Proof.
  unfold assign_patient. intros <-.
  destruct (cast_object_id ci) as [i|] eqn:Hi; [|by left].
  destruct (find_caretaker i cs) as [c|] eqn:Hc; [|by left].
  destruct (cast_object_id pi) as [p|] eqn:Hp; [|by left].
  case_bool_decide; [by left|]. right. by exists c, i, p.
Qed.

(** ** Theorems *)

(** Assigning patients keeps every caretaker's patient list free of
    duplicates and made of canonical ObjectIds; so do logins, settings
    updates and chat counters. *)
Theorem ct_wf_preserved `{Bcrypt} `{JwtSigner} secret cs :
  ct_wf cs ->
  (forall ci pi, ct_wf (assign_patient cs ci pi).1) /\
  (forall now e p, ct_wf (caretaker_login secret cs now e p).1) /\
  (forall u s, ct_wf (put_caretaker_settings cs u s).1) /\
  (forall now u, ct_wf (ct_update_profile cs now u).1).
Proof.
  intros Hwf. split_and!.
  - intros ci pi. destruct (assign_patient_cases cs ci pi _ eq_refl)
      as [->|(c & i & p & Hi & Hc & Hp & Hn & ->)]; [done|].
    destruct Hwf as [Hnd Hall]. split; [by rewrite update_caretaker_keys|].
    apply Forall_forall. intros d (e & He & ->)%elem_of_update_caretaker.
    rewrite Forall_forall in Hall. destruct (String.eqb_spec (cr_id e) i) as [Heq|]; [|auto].
    apply find_caretaker_Some in Hc as [Hc Hci].
    assert (e = c) as -> by (apply (NoDup_fmap_key_eq cr_id cs); [done|done|done|congruence]).
    destruct (Hall c Hc) as [Hn1 Hc1]. simpl. split.
    + apply NoDup_app. split_and!; [done| |apply NoDup_singleton].
      by intros x Hx ->%list_elem_of_singleton.
    + apply Forall_app. split; [done|]. constructor; [|done].
      apply cast_object_id_Some in Hp as [Hv Hl]. by apply cast_object_id_canonical.
  - intros now e p. unfold caretaker_login.
    destruct (find_caretaker_by_email _ _); [|done].
    destruct (compare_password _ _) as [[]|]; try done. by apply update_caretaker_wf.
  - intros u s. unfold put_caretaker_settings.
    destruct u, s; try done. destruct (find_caretaker _ _); [|done]. by apply update_caretaker_wf.
  - intros now u. by apply update_caretaker_wf.
Qed.

Lemma find_caretaker_by_email_unique l c :
  NoDup (cr_email <$> l) -> c ∈ l -> find_caretaker_by_email (cr_email c) l = Some c.
Proof. intros Hnd Hc. apply (find_key_unique _ cr_email); [done|done|]. intros y. apply String.eqb_eq. Qed.

Section LoginTheorems.
Context `{Bcrypt} `{JwtSigner}.
Variable secret : option string.

(** C36: when the bcrypt library writes hashes with another version tag
    than ["$2a$"] (bcryptjs 3 writes ["$2b$"]), [comparePassword] takes the
    stored hash for a plain-text password: the hash string itself logs the
    caretaker in, and the real password is refused. *)
Theorem caretaker_hash_is_the_password cs now c s pw :
  js_starts_with "$2a$" (bcrypt_hash s pw) = false ->
  NoDup (cr_email <$> cs) -> c ∈ cs -> cr_password c = bcrypt_hash s pw ->
  (exists cs' tok c', caretaker_login secret cs now (cr_email c) (Some (bcrypt_hash s pw)) = (cs', Ok (tok, c'))) /\
  (pw <> bcrypt_hash s pw ->
   caretaker_login secret cs now (cr_email c) (Some pw) = (cs, Err (401, "Invalid email or password"))).
Proof.
  intros Hv Hnd Hc Hpw. unfold caretaker_login, compare_password.
  rewrite (find_caretaker_by_email_unique _ _ Hnd Hc), Hpw, Hv. simpl. split.
  - rewrite String.eqb_refl. by do 3 eexists.
  - intros Hne. by rewrite (proj2 (String.eqb_neq _ _) Hne).
Qed.

(** The login answer shows the profile as it was before this login's
    counter update, while the stored one counts the login. *)
Theorem caretaker_login_answer_stale cs now e p cs' tok c' :
  NoDup (cr_id <$> cs) ->
  caretaker_login secret cs now e p = (cs', Ok (tok, c')) ->
  exists c, c ∈ cs /\ cr_profile c' = cr_profile c /\
    find_caretaker (cr_id c) cs' = Some (set_ct_profile (bump_ct_profile 1 0 (ct_login_activity now) (cr_profile c)) c).
Proof.
  intros Hnd. unfold caretaker_login.
  destruct (find_caretaker_by_email e cs) as [c|] eqn:Hf; [|by intros [= _ _]].
  apply find_Some_elem in Hf as [Hc _].
  destruct (compare_password _ _) as [[]|]; try by intros [= _ _].
  intros [= <- <- <-]. exists c. split_and!; [done|done|].
  set (f := fun d => set_ct_profile (bump_ct_profile 1 0 (ct_login_activity now) (cr_profile d)) d).
  change (set_ct_profile _ c) with (f c).
  assert (Hfc : find_caretaker (cr_id (f c)) (update_caretaker (cr_id c) f cs) = Some (f c)).
  { apply find_caretaker_unique; [by rewrite update_caretaker_keys|].
    pose proof (update_caretaker_elem (cr_id c) f cs c Hc) as Hin. by rewrite String.eqb_refl in Hin. }
  exact Hfc.
Qed.

End LoginTheorems.

(** A password set on a document and saved is hashed by the hook, and
    [comparePassword] accepts it afterwards exactly when the library
    writes ["$2a$"] hashes, the only prefix [comparePassword] reads as a
    hash. *)
Lemma pre_save_password_checks `{Bcrypt} s c pw :
  bcrypt_version = "$2a$" ->
  compare_password (cr_password (pre_save true s (set_ct_password pw c))) (Some pw) = Some true.
Proof.
  intros Hv. unfold compare_password, pre_save. simpl.
  pose proof (bcrypt_hash_version s pw) as Hp. rewrite Hv in Hp. rewrite Hp. simpl.
  by rewrite bcrypt_compare_hash, String.eqb_refl.
Qed.

(** [getUsers] never returns the caller nor a password. *)
Lemma ct_get_users_elem us caller u :
  u ∈ ct_get_users us caller -> u_password u = None /\ u_id u <> caller.
Proof.
  unfold ct_get_users. rewrite list_elem_of_fmap. intros (v & -> & Hv).
  apply list_elem_of_In, filter_In in Hv as [_ Hv]. simpl. split; [done|].
  intros Heq. by rewrite Heq, String.eqb_refl in Hv.
Qed.

(** Assigning the same patient twice changes nothing the second time. *)
Theorem assign_patient_idempotent cs ci pi :
  ct_wf cs ->
  assign_patient (assign_patient cs ci pi).1 ci pi = ((assign_patient cs ci pi).1, (assign_patient cs ci pi).2).
Proof.
  intros [Hnd _]. destruct (assign_patient_cases cs ci pi _ eq_refl) as [Heq|(c & i & p & Hi & Hc & Hp & Hn & Heq)].
  - rewrite Heq at 1. by destruct (assign_patient cs ci pi).
  - rewrite Heq. unfold assign_patient at 1. rewrite Hi.
    apply find_caretaker_Some in Hc as [Hc <-].
    assert (Hf : find_caretaker (cr_id (set_patients (cr_patients c ++ [p]) c))
                   (update_caretaker (cr_id c) (set_patients (cr_patients c ++ [p])) cs) =
                 Some (set_patients (cr_patients c ++ [p]) c)).
    { apply find_caretaker_unique; [by rewrite update_caretaker_keys|].
      pose proof (update_caretaker_elem (cr_id c) (set_patients (cr_patients c ++ [p])) cs c Hc) as Hin.
      by rewrite String.eqb_refl in Hin. }
    simpl in Hf. rewrite Hf, Hp. simpl. rewrite bool_decide_true by (apply elem_of_app; right; by left).
    rewrite <- Heq. unfold assign_patient. rewrite Hi.
    rewrite (find_caretaker_unique _ _ Hnd Hc), Hp. by rewrite bool_decide_false.
Qed.

(** ** Witnesses: Carl's password hashed by a ["$2b$"] bcrypt *)
Module CaretakerWitness.
Import Codec AccountWitness.

#[local] Instance bcrypt_2b : Bcrypt := demo_bcrypt "$2b$".

Definition w_carl : CaretakerRec :=
  mkCaretaker "64b7f0c2a1b2c3d4e5f6071a" "Carl" "carl@example.org" (bcrypt_hash 0 "carlpass") []
    (mkCtProfile 0 0 0 0 []) default_settings.

Lemma caretaker_hash_is_the_password_witness :
  (exists cs' tok c', caretaker_login (Some w_key) [w_carl] 10 "carl@example.org" (Some (bcrypt_hash 0 "carlpass")) =
     (cs', Ok (tok, c'))) /\
  ("carlpass" <> bcrypt_hash 0 "carlpass" ->
   caretaker_login (Some w_key) [w_carl] 10 "carl@example.org" (Some "carlpass") =
     ([w_carl], Err (401, "Invalid email or password"))).
Proof.
  refine (caretaker_hash_is_the_password (Some w_key) [w_carl] 10 w_carl 0 "carlpass" _ _ _ _).
  - reflexivity.
  - apply NoDup_singleton.
  - by apply list_elem_of_singleton.
  - reflexivity.
Defined.

End CaretakerWitness.
