(* ===== verification/Games.v ===== *)
(** * Games and points: [games.controller.js] and the difficulty parser

    The game catalogue ([models/games.model.js], [getAllGames],
    [getGameById]) and the recording of a play ([playGame]), which awards
    [Math.round(difficulty * minutes)] points to the player's profile.

    Numbers are JavaScript numbers, modelled as rationals [Q]: the
    arithmetic of the handler (clamping, product, [Math.floor],
    [Math.round]) is exact on them, which agrees with IEEE doubles when the
    difficulty is an integer (products stay below 2^53 for realistic
    minutes); a decimal difficulty such as ["6.5"] is read exactly.
    Request bodies are JSON values ([JVal]).  [Number(s)] of a string is
    the parameter [js_number] of the sections: the engine's string-to-number
    conversion, [None] standing for [NaN]; the regular expression
    [/(\d+(\.\d+)?)/] used on difficulty strings is modelled exactly
    ([first_decimal]). *)

From Stdlib Require Import Ascii String ZArith QArith Qround Qminmax Lqa List.
From stdpp Require Import base list strings.
From S2P Require Import Prelude JsString Gateway Token Account.

(** ** JSON values and [Number(v)] *)

Inductive JVal :=
| JNum (q : Q)
| JStr (s : string)
| JBool (b : bool)
| JNull
| JUndef
| JObj.

Section Number.
Variable js_number : string -> option Q.

(** [Number(v)]; [None] is [NaN]. *)
Definition number_of (v : JVal) : option Q :=
  match v with
  | JNum q => Some q
  | JStr s => js_number s
  | JBool b => Some (if b then 1 else 0)%Q
  | JNull => Some 0%Q
  | JUndef | JObj => None
  end.

End Number.

(** [v != null]. *)
Definition jnot_nullish (v : JVal) : bool :=
  match v with JNull | JUndef => false | _ => true end.

(** ** [/(\d+(\.\d+)?)/] *)

Definition is_digit (c : ascii) : bool := Nat.leb 48 (nat_of_ascii c) && Nat.leb (nat_of_ascii c) 57.

Fixpoint digits_span (l : list ascii) : list ascii * list ascii :=
  match l with
  | c :: r => if is_digit c then let '(ds, rest) := digits_span r in (c :: ds, rest) else ([], l)
  | [] => ([], [])
  end.

Fixpoint digits_value_acc (acc : Z) (ds : list ascii) : Z :=
  match ds with
  | [] => acc
  | c :: r => digits_value_acc (10 * acc + (Z.of_nat (nat_of_ascii c) - 48)) r
  end.

Definition pow10 (k : nat) : positive := Nat.iter k (Pos.mul 10) 1%positive.

(** [Number(m[1])] of the matched literal [ds] or [ds.fs]. *)
Definition decimal_value (ds fs : list ascii) : Q :=
  Qmake (digits_value_acc 0 (ds ++ fs)) (pow10 (length fs)).

(** The leftmost match, greedy: the first run of digits, and a fraction
    when a ['.'] follows with at least one digit after it. *)
Fixpoint first_decimal (l : list ascii) : option Q :=
  match l with
  | [] => None
  | c :: r =>
      if is_digit c then
        let '(ds, rest) := digits_span l in
        match rest with
        | "."%char :: r' =>
            let '(fs, _) := digits_span r' in
            Some (decimal_value ds fs)
        | _ => Some (decimal_value ds [])
        end
      else first_decimal r
  end.

(** The branch of [playGame] (lines 56-64) that reads a difficulty from
    the game document, and [parseDifficulty] of [GamePlay.jsx] (lines
    6-14): [null] gives no value on the server (then 1) and 1 on the
    client; a number is itself; a string gives its first decimal, or 1. *)
Definition difficulty_of_raw (raw : option JVal) : option Q :=
  match raw with
  | None | Some JNull | Some JUndef => None
  | Some (JNum q) => Some q
  | Some (JStr s) => Some (match first_decimal (list_ascii_of_string s) with Some q => q | None => 1%Q end)
  | Some _ => None
  end.

Definition parse_difficulty (d : option JVal) : Q :=
  match d with
  | None | Some JNull | Some JUndef => 1%Q
  | Some (JNum q) => q
  | Some (JStr s) => match first_decimal (list_ascii_of_string s) with Some q => q | None => 1%Q end
  | Some _ => 1%Q
  end.

(** ** The catalogue *)

Record Game := mkGame {
  g_oid : string;
  g_id : Z;                 (** [id: Number, unique] *)
  g_title : string;
  g_rating : Q;
  g_description : string;
  g_link : string;
  g_category : string;
  g_duration : string;      (** default ["10-15 mins"] *)
  g_difficulty : string;    (** default ["Medium,"] *)
  g_imageUrl : string;
  g_howTo : option string;
}.

Definition default_difficulty : string := "Medium,".

Definition find_game_oid (i : string) (gs : list Game) : option Game :=
  find (fun g => String.eqb (g_oid g) i) gs.

Definition find_game_num (q : Q) (gs : list Game) : option Game :=
  find (fun g => Qeq_bool (inject_Z (g_id g)) q) gs.

Section Catalogue.
Variable js_number : string -> option Q.

(** [isValid(id) ? findById(id) : findOne({ id })]; casting a string
    that is [NaN] to the [Number] field [id] throws ([Err]). *)
Definition lookup_game (gs : list Game) (id : string) : result unit (option Game) :=
  if object_id_valid id then Ok (find_game_oid (js_to_lower id) gs)
  else match js_number id with
       | None => Err tt
       | Some q => Ok (find_game_num q gs)
       end.

(** [getGameById] (lines 22-38): [findById], and when it finds nothing,
    [findOne({ id })] — even for a valid ObjectId, whose cast to a number
    fails. *)
Definition get_game_by_id (gs : list Game) (id : string) : HttpResult Game :=
  let second :=
    match js_number id with
    | None => Err (500, "Server error fetching game by ID")
    | Some q => match find_game_num q gs with
                | Some g => Ok g
                | None => Err (404, "Game not found")
                end
    end in
  if object_id_valid id then
    match find_game_oid (js_to_lower id) gs with Some g => Ok g | None => second end
  else second.

End Catalogue.

(** [getAllGames]. *)
Definition get_all_games (gs : list Game) : list Game := gs.

(** ** Recording a play *)

(** The body of [POST /games/:id/play]; [title] is a string or absent
    (other JSON types are not modelled). *)
Record PlayBody := mkPlayBody { pb_minutes : JVal; pb_difficulty : JVal; pb_title : option string }.

(** [Math.max(0, Math.min(1000, d))]. *)
Definition clamp_difficulty (d : Q) : Q := Qmax 0 (Qmin 1000 d).

(** [Math.round(x)]. *)
Definition js_round (x : Q) : Z := Qfloor (x + (1 # 2)).

(** [Math.max(0, Math.floor(Number(minutes) || 0))]. *)
Definition minutes_of (js_number : string -> option Q) (v : JVal) : Z :=
  match number_of js_number v with
  | Some q => Z.max 0 (Qfloor q)
  | None => 0%Z
  end.

Definition computed_points (d : Q) (minutes : Z) : Z := js_round (clamp_difficulty d * inject_Z minutes).

Definition game_activity (title : string) (now : nat) (pts : Z) : Activity := mkActivity "game" title now (Some pts).

Section Play.
Variable js_number : string -> option Q.

(** The difficulty [playGame] uses (lines 52-66): the client's when it is
    not nullish and a number, else the game document's. *)
Definition play_difficulty (gs : list Game) (gameId : string) (body : PlayBody) : result unit Q :=
  let d := pb_difficulty body in
  match (if jnot_nullish d then number_of js_number d else None) with
  | Some q => Ok q
  | None =>
      match lookup_game js_number gs gameId with
      | Err e => Err e
      | Ok g => Ok (match difficulty_of_raw ((fun g => JStr (g_difficulty g)) <$> g) with
                    | Some q => q
                    | None => 1%Q
                    end)
      end
  end.

(** [playGame] (lines 42-98), for the caller [uid] ([req.user._id]). *)
Definition play_game (db : AccDb) (gs : list Game) (uid : option string) (gameId : string) (body : PlayBody)
    : AccDb * HttpResult (UProfile * Z) :=
  match uid with
  | None => (db, Err (401, "Unauthorized"))
  | Some u =>
      let minutes := minutes_of js_number (pb_minutes body) in
      match play_difficulty gs gameId body with
      | Err _ => (db, Err (500, "Server error recording play"))
      | Ok d =>
          let pts := computed_points d minutes in
          let title := match pb_title body with
                       | Some s => if js_truthy s then s else ("Played game " ++ gameId)%string
                       | None => ("Played game " ++ gameId)%string
                       end in
          let f v := set_profile (bump_profile pts 0 1 0 (game_activity title (clock db) pts) (u_profile v)) v in
          match find_user u (users db) with
          | None => (db, Err (404, "User not found"))
          | Some v => (set_users (update_user u f (users db)) db, Ok (u_profile (f v), pts))
          end
      end
  end.

End Play.

(** ** Lemmas on the arithmetic *)

Section QArith.
Local Open Scope Q_scope.

Lemma clamp_difficulty_bounds d : 0 <= clamp_difficulty d /\ clamp_difficulty d <= 1000.
Proof.
  unfold clamp_difficulty. split; [apply Q.le_max_l|].
  apply Q.max_lub; [lra|apply Q.le_min_l].
Qed.

Lemma js_round_bounds x k : 0 <= x -> x <= inject_Z k -> (0 <= js_round x <= k)%Z.
Proof.
  intros H0 Hk. split.
  - change 0%Z with (Qfloor (1 # 2)). apply Qfloor_resp_le. lra.
  - pose proof (Qfloor_le (x + (1 # 2))) as Hf.
    assert (Hlt : inject_Z (js_round x) < inject_Z (k + 1)) by (rewrite inject_Z_plus; change (inject_Z 1) with 1; unfold js_round; lra).
    rewrite <- Zlt_Qlt in Hlt. lia.
Qed.

Lemma js_round_Z z : js_round (inject_Z z) = z.
Proof.
  unfold js_round. pose proof (Qfloor_le (inject_Z z + (1 # 2))) as Hle.
  pose proof (Qlt_floor (inject_Z z + (1 # 2))) as Hlt.
  assert (H1 : inject_Z (Qfloor (inject_Z z + (1 # 2))) < inject_Z (z + 1)) by (rewrite inject_Z_plus; change (inject_Z 1) with 1; lra).
  assert (H2 : inject_Z z < inject_Z (Qfloor (inject_Z z + (1 # 2)) + 1)) by lra.
  rewrite <- Zlt_Qlt in H1, H2. lia.
Qed.

Lemma clamp_difficulty_id d : 0 <= d -> d <= 1000 -> clamp_difficulty d == d.
Proof.
  intros H0 H1. unfold clamp_difficulty. rewrite Q.min_r by lra. rewrite Q.max_r by lra. reflexivity.
Qed.

Lemma find_game_oid_Some i gs g : find_game_oid i gs = Some g -> g ∈ gs /\ g_oid g = i.
Proof. intros (Hin & Hf)%find_Some_elem. by apply String.eqb_eq in Hf. Qed.

Lemma computed_points_range d m : (0 <= m)%Z -> (0 <= computed_points d m <= 1000 * m)%Z.
Proof.
  intros Hm. unfold computed_points. destruct (clamp_difficulty_bounds d) as [Hc0 Hc1].
  apply js_round_bounds.
  - apply Qmult_le_0_compat; [done|]. change 0 with (inject_Z 0). by rewrite <- Zle_Qle.
  - rewrite inject_Z_mult. apply Qmult_le_compat_r; [exact Hc1|]. change 0 with (inject_Z 0). by rewrite <- Zle_Qle.
Qed.

(** Every play awards between 0 and [1000 * minutes] points, whatever
    difficulty the client sends or the game carries. *)
Theorem computed_points_bounds d m : (0 <= m)%Z -> (0 <= computed_points d m <= 1000 * m)%Z.
Proof.
  apply computed_points_range.
Qed.

(** With an integer difficulty in [0, 1000] the award is exactly
    [difficulty * minutes]: the rounding does nothing. *)
Theorem computed_points_integer d m :
  (0 <= d <= 1000)%Z -> computed_points (inject_Z d) m = (d * m)%Z.
Proof.
  intros Hd. unfold computed_points.
  assert (Hq : clamp_difficulty (inject_Z d) * inject_Z m == inject_Z (d * m)).
  { rewrite clamp_difficulty_id.
    - by rewrite inject_Z_mult.
    - change 0 with (inject_Z 0). rewrite <- Zle_Qle. lia.
    - change 1000 with (inject_Z 1000). rewrite <- Zle_Qle. lia. }
  unfold js_round. rewrite Hq. apply js_round_Z.
Qed.

End QArith.

(** ** Theorems about plays *)

Section PlayTheorems.
Variable js_number : string -> option Q.

(** C31: A play with a numeric difficulty in its body is scored with that
    difficulty: the game's own difficulty is not read, so the client
    chooses the award (up to [1000] points a minute, for as many minutes as
    it claims). *)
Theorem play_game_uses_client_difficulty db gs uid gid m q t v :
  find_user uid (users db) = Some v -> (0 <= m)%Z ->
  exists db', play_game js_number db gs (Some uid) gid (mkPlayBody (JNum (inject_Z m)) (JNum q) t) =
    (db', Ok (u_profile (set_profile (bump_profile (computed_points q m) 0 1 0
                (game_activity (match t with Some s => if js_truthy s then s else ("Played game " ++ gid)%string
                                             | None => ("Played game " ++ gid)%string end)
                   (clock db) (computed_points q m)) (u_profile v)) v), computed_points q m)).
Proof.
  intros Hv Hm. unfold play_game.
  replace (minutes_of js_number (pb_minutes _)) with m
    by (unfold minutes_of; cbn [number_of pb_minutes]; rewrite Qfloor_Z; lia).
  unfold play_difficulty. cbn [pb_difficulty pb_title jnot_nullish number_of]. rewrite Hv. by eexists.
Qed.

(** A successful play adds the awarded points, one game and one
    activity to the caller's profile. *)
Lemma play_game_Ok db gs u gid body db' p pts :
  play_game js_number db gs (Some u) gid body = (db', Ok (p, pts)) ->
  exists d v act, find_user u (users db) = Some v /\
    pts = computed_points d (minutes_of js_number (pb_minutes body)) /\
    p = bump_profile pts 0 1 0 act (u_profile v).
Proof.
  unfold play_game. destruct (play_difficulty _ _ _) as [d|]; [|done].
  destruct (find_user u (users db)) as [v|] eqn:Hv; [|done]. intros [= _ <- <-]. by eexists d, v, _.
Qed.

(** [GET /games/:id] with a valid ObjectId that names no game answers
    500, not 404: the fallback [findOne({ id })] cannot cast the id to a
    number. *)
Theorem get_game_unknown_oid_500 gs id :
  object_id_valid id = true -> find_game_oid (js_to_lower id) gs = None -> js_number id = None ->
  get_game_by_id js_number gs id = Err (500, "Server error fetching game by ID").
Proof. intros Hv Hf Hn. unfold get_game_by_id. by rewrite Hv, Hf, Hn. Qed.

(** A play changes only the caller's profile: the collection keeps its
    ids and e-mails unique. *)
Lemma play_game_wf db gs uid gid body : acc_wf db -> acc_wf (play_game js_number db gs uid gid body).1.
Proof.
  intros Hwf. unfold play_game.
  destruct uid as [u|]; [|done]. destruct (play_difficulty _ _ _) as [d|]; [|done].
  destruct (find_user u (users db)); [|done]. by apply update_user_wf.
Qed.

Lemma play_game_unauthenticated db gs gid body :
  play_game js_number db gs None gid body = (db, Err (401, "Unauthorized")).
Proof. done. Qed.

End PlayTheorems.

(** ** Concrete inputs

    [js_number_dec] is [Number(s)] on the strings made of digits with an
    optional fraction (after [trim]; the empty string is [0]), and [NaN]
    on the others; it is the engine's conversion on every string the
    witnesses use. *)
Module GamesWitness.
Import AccountWitness.

Definition js_number_dec (s : string) : option Q :=
  match list_ascii_of_string (js_trim s) with
  | [] => Some 0%Q
  | l =>
      match digits_span l with
      | ((_ :: _) as ds, []) => Some (decimal_value ds [])
      | ((_ :: _) as ds, "."%char :: r) =>
          match digits_span r with
          | ((_ :: _) as fs, []) => Some (decimal_value ds fs)
          | _ => None
          end
      | _ => None
      end
  end.

Definition w_game : Game :=
  mkGame "65a1b2c3d4e5f60718293a4b" 1 "Memory Match" 4.5 "Match the pairs" "/games/memory"
         "Memory" "10-15 mins" "6/10" "/img/memory.png" None.

Lemma play_game_uses_client_difficulty_witness :
  exists db', play_game js_number_dec w_db1 [w_game] (Some (oid_of 0)) "1"
                (mkPlayBody (JNum (inject_Z 60)) (JNum (inject_Z 1000)) None) =
    (db', Ok (u_profile (set_profile (bump_profile (computed_points (inject_Z 1000) 60) 0 1 0
                (game_activity ("Played game " ++ "1")%string (clock w_db1)
                   (computed_points (inject_Z 1000) 60)) (u_profile w_alice)) w_alice),
              computed_points (inject_Z 1000) 60)).
Proof.
  refine (play_game_uses_client_difficulty js_number_dec w_db1 [w_game] (oid_of 0) "1" 60
            (inject_Z 1000) None w_alice _ _).
  - vm_compute. reflexivity.
  - lia.
Defined.

Lemma get_game_unknown_oid_500_witness :
  get_game_by_id js_number_dec [] "65a1b2c3d4e5f60718293a4b" = Err (500, "Server error fetching game by ID").
Proof.
  apply get_game_unknown_oid_500; vm_compute; reflexivity.
Defined.

Lemma computed_points_bounds_witness : (0 <= computed_points (inject_Z 5000) 30 <= 1000 * 30)%Z.
Proof. apply computed_points_bounds. lia. Defined.

End GamesWitness.
