(* ===== verification/Routing.v ===== *)
(** * The front end's session and routes: [App.jsx], the route guards, [api.js]

    The browser keeps the session in [localStorage] under the keys
    ["token"], ["user"] and ["userType"]; [Storage] is that store, a
    finite map from keys to strings.  The login pages write it
    ([Login.jsx] [handleLogin] and its Google button, [Register.jsx]'s
    Google button, [CaretakerLogin.jsx] [handleLogin]); [api.js] reads the
    token for the [Authorization] header and clears the session on a 401
    or 403.

    [App.jsx] maps a path to a page behind one of two guards:
    [ProtectedRoute] renders its page only with a token and the route's
    [userType], and [PublicRoute] sends a logged-in visitor to their home
    page.  A guard that does not render answers [<Navigate replace>],
    which the router follows: [nav_step] is that redirect relation,
    [navigate] follows it with fuel.

    Matching follows [react-router]: static paths first, then the
    dynamic [/play/:gameId], then ["*"]; paths compare without case and
    without a trailing slash.  URL decoding of the parameter is not
    modelled. *)

From Stdlib Require Import Ascii String.
From stdpp Require Import base list gmap strings.
From S2P Require Import Prelude JsString.

(** ** [localStorage] *)

Definition Storage := gmap string string.

Definition get_item (k : string) (st : Storage) : option string := st !! k.
Definition set_item (k v : string) (st : Storage) : Storage := <[k := v]> st.
Definition remove_item (k : string) (st : Storage) : Storage := delete k st.

(** ** Pages and routes of [App.jsx] *)

Inductive Page :=
| HomePage | LoginPage | RegisterPage | GamesPage | ChatPage | CallCaretakerPage
| ContactPage | SettingsPage | ProfilePage | GamePlayPage (gameId : string)
| CaretakerLoginPage | CarehomePage | CarechatPage | CarecontactPage | CareprofilePage
| CaresettingsPage | CareTrackprogressPage | NotFoundPage.

#[export] Instance Page_eq_dec : EqDecision Page.
Proof. solve_decision. Defined.

(** The wrapper of a route: [<PublicRoute type>], [<ProtectedRoute type>]
    or none (["*"]). *)
Inductive Guard := GPublic (type : string) | GProtected (type : string) | GOpen.

Definition static_routes : list (string * (Guard * Page)) := [
  ("/", (GPublic "user", HomePage));
  ("/login", (GPublic "user", LoginPage));
  ("/register", (GPublic "user", RegisterPage));
  ("/home", (GProtected "user", HomePage));
  ("/games", (GProtected "user", GamesPage));
  ("/chat", (GProtected "user", ChatPage));
  ("/call", (GProtected "user", CallCaretakerPage));
  ("/contact", (GProtected "user", ContactPage));
  ("/settings", (GProtected "user", SettingsPage));
  ("/profile", (GProtected "user", ProfilePage));
  ("/caretaker-login", (GPublic "caretaker", CaretakerLoginPage));
  ("/caretaker/home", (GProtected "caretaker", CarehomePage));
  ("/caretaker/chat", (GProtected "caretaker", CarechatPage));
  ("/caretaker/contact", (GProtected "caretaker", CarecontactPage));
  ("/caretaker/profile", (GProtected "caretaker", CareprofilePage));
  ("/caretaker/settings", (GProtected "caretaker", CaresettingsPage));
  ("/caretaker/trackprogress", (GProtected "caretaker", CareTrackprogressPage))
]%string.

(** A trailing ['/'] is ignored, except in ["/"] itself. *)
Definition strip_slash (path : string) : string :=
  match rev (list_ascii_of_string path) with
  | c :: ((_ :: _) as r) => if Ascii.eqb c "/" then string_of_list_ascii (rev r) else path
  | _ => path
  end.

Definition no_slash (s : string) : bool :=
  forallb (fun c => negb (Ascii.eqb c "/")) (list_ascii_of_string s).

(** [/play/:gameId]: one non-empty segment after ["/play/"]. *)
Definition play_param (path : string) : option string :=
  let p := strip_slash path in
  if js_starts_with "/play/" (js_to_lower p) then
    let id := String.substring 6 (String.length p - 6) p in
    if js_truthy id && no_slash id then Some id else None
  else None.

Definition match_route (path : string) : Guard * Page :=
  let p := js_to_lower (strip_slash path) in
  match List.find (fun r => String.eqb r.1 p) static_routes with
  | Some r => r.2
  | None =>
      match play_param path with
      | Some id => (GProtected "user", GamePlayPage id)
      | None => (GOpen, NotFoundPage)
      end
  end.

(** ** The guards *)

(** [v === s] for a value read with [getItem] ([null] when absent). *)
Definition item_is (v : option string) (s : string) : bool :=
  match v with Some t => String.eqb t s | None => false end.

(** [ProtectedRoute] (lines 3-29): [None] renders the children, [Some to]
    is [<Navigate to replace />]. *)
Definition protected_route (type : string) (st : Storage) : option string :=
  let token := get_item "token" st in
  let userType := get_item "userType" st in
  if negb (js_truthy_opt token) then
    Some (if String.eqb type "caretaker" then "/caretaker-login" else "/login")%string
  else if negb (item_is userType type) then
    Some (if item_is userType "caretaker"%string then "/caretaker/home" else "/home")%string
  else None.

(** [PublicRoute] (lines 3-17); its [type] is not read. *)
Definition public_route (st : Storage) : option string :=
  let token := get_item "token" st in
  let userType := get_item "userType" st in
  if js_truthy_opt token && js_truthy_opt userType then
    if item_is userType "caretaker"%string then Some "/caretaker/home"%string
    else if item_is userType "user"%string then Some "/home"%string
    else None
  else None.

Definition guard_result (g : Guard) (st : Storage) : option string :=
  match g with
  | GPublic _ => public_route st
  | GProtected t => protected_route t st
  | GOpen => None
  end.

Inductive Outcome := Show (p : Page) | Redirect (to : string).

(** What [<Routes>] renders for [path]. *)
Definition resolve (st : Storage) (path : string) : Outcome :=
  let '(g, pg) := match_route path in
  match guard_result g st with
  | Some to => Redirect to
  | None => Show pg
  end.

(** Following [<Navigate replace>]: the redirect relation, and with fuel
    the page finally shown ([None]: the fuel ran out). *)
Definition nav_step (st : Storage) (p q : string) : Prop := resolve st p = Redirect q.

Fixpoint navigate (fuel : nat) (st : Storage) (path : string) : option Page :=
  match fuel with
  | O => None
  | S n => match resolve st path with Show pg => Some pg | Redirect to => navigate n st to end
  end.

(** ** Writers of the session *)

(** [Login.jsx] [handleLogin] (lines 31-47) and its Google button
    (lines 169-185) on success. *)
Definition login_page_success (token user : string) (st : Storage) : Storage :=
  set_item "userType" "user" (set_item "user" user (set_item "token" token st)).

(** [Register.jsx]'s Google button (lines 148-161) on success: no
    [userType] is written. *)
Definition register_page_google (token user : string) (st : Storage) : Storage :=
  set_item "user" user (set_item "token" token st).

(** [CaretakerLogin.jsx] [handleLogin] (lines 27-54) on success. *)
Definition caretaker_login_success (token caretaker : string) (st : Storage) : Storage :=
  set_item "userType" "caretaker" (set_item "user" caretaker (set_item "token" token
    (remove_item "userType" (remove_item "user" (remove_item "token" st))))).

(** The mount effects of [Login.jsx]/[Register.jsx] (lines 24-27 and
    21-24) and of [CaretakerLogin.jsx] (lines 21-25): where they navigate. *)
Definition login_page_effect (st : Storage) : option string :=
  if js_truthy_opt (get_item "token" st) then Some "/home"%string else None.

Definition caretaker_login_page_effect (st : Storage) : option string :=
  if js_truthy_opt (get_item "token" st) && item_is (get_item "userType" st) "caretaker"%string
  then Some "/caretaker/home"%string else None.

(** ** [api.js] *)

(** The request interceptor (lines 9-28): the [Authorization] header it
    attaches. *)
Definition api_auth_header (method url : string) (st : Storage) : option string :=
  if String.eqb (js_to_lower method) "get" && (String.eqb url "/games/all" || js_starts_with "/games/" url)
  then None
  else match get_item "token" st with
       | Some t => if js_truthy t then Some ("Bearer " ++ t)%string else None
       | None => None
       end.

(** The response interceptor (lines 32-43): on 401 or 403 the token and
    the user are removed and the page goes to ["/login"]. *)
Definition api_on_error (status : nat) (st : Storage) : Storage * option string :=
  if (Nat.eqb status 401 || Nat.eqb status 403)%bool
  then (remove_item "user" (remove_item "token" st), Some "/login"%string)
  else (st, None).

(** ** The session shapes the guards know

    A session is well formed when it has no token, or its [userType] is
    one of the two the guards test. *)
Definition session_ok (st : Storage) : bool :=
  negb (js_truthy_opt (get_item "token" st)) ||
  item_is (get_item "userType" st) "user" || item_is (get_item "userType" st) "caretaker".

(** The guard of the routes that lead to a page, when all of them are
    [ProtectedRoute]s of one [type]. *)
Definition page_guard (pg : Page) : option string :=
  match pg with
  | GamesPage | ChatPage | CallCaretakerPage | ContactPage | SettingsPage | ProfilePage
  | GamePlayPage _ => Some "user"%string
  | CarehomePage | CarechatPage | CarecontactPage | CareprofilePage | CaresettingsPage
  | CareTrackprogressPage => Some "caretaker"%string
  | _ => None
  end.

(** ** Lemmas *)

Lemma get_set_same k v st : get_item k (set_item k v st) = Some v.
Proof. apply lookup_insert_eq. Qed.

Lemma get_set_other k k' v st : k <> k' -> get_item k (set_item k' v st) = get_item k st.
Proof. intros Hk. apply lookup_insert_ne. congruence. Qed.

Lemma get_remove_same k st : get_item k (remove_item k st) = None.
Proof. apply lookup_delete_eq. Qed.

Lemma get_remove_other k k' st : k <> k' -> get_item k (remove_item k' st) = get_item k st.
Proof. intros Hk. apply lookup_delete_ne. congruence. Qed.

#[export] Hint Rewrite get_set_same get_remove_same : mm_rw.

(** Rewrite [getItem] through the writes of a session, the keys being
    distinct literals. *)
Ltac storage_simpl :=
  repeat first [ rewrite get_set_same | rewrite get_remove_same
               | rewrite get_set_other by discriminate | rewrite get_remove_other by discriminate ].

(** Evaluate the route of a literal path. *)
Ltac route_compute :=
  match goal with
  | |- context [match_route ?q] => let r := eval vm_compute in (match_route q) in change (match_route q) with r
  end.

Lemma guard_targets g st q :
  guard_result g st = Some q ->
  q = "/login"%string \/ q = "/caretaker-login"%string \/ q = "/home"%string \/ q = "/caretaker/home"%string.
Proof.
  destruct g as [t|t|]; simpl; [unfold public_route|unfold protected_route|done];
    repeat case_match; intros ?; simplify_eq; tauto.
Qed.

Lemma resolve_targets st p q :
  resolve st p = Redirect q ->
  q = "/login"%string \/ q = "/caretaker-login"%string \/ q = "/home"%string \/ q = "/caretaker/home"%string.
Proof.
  unfold resolve. destruct (match_route p) as [g pg].
  destruct (guard_result g st) eqn:E; [intros [=<-]; by eapply guard_targets|done].
Qed.

(** The guards in the three kinds of well-formed session, and in the
    others. *)
Definition home_of (u : string) : string :=
  if String.eqb u "caretaker" then "/caretaker/home" else "/home".

Lemma guards_no_token st :
  js_truthy_opt (get_item "token" st) = false ->
  public_route st = None /\
  forall t, protected_route t st = Some (if String.eqb t "caretaker" then "/caretaker-login" else "/login")%string.
Proof. unfold public_route, protected_route. intros ->. done. Qed.

Lemma guards_typed st u :
  js_truthy_opt (get_item "token" st) = true -> get_item "userType" st = Some u ->
  u = "user"%string \/ u = "caretaker"%string ->
  public_route st = Some (home_of u) /\
  forall t, protected_route t st = if String.eqb u t then None else Some (home_of u).
Proof.
  unfold public_route, protected_route. intros -> -> Hu. split.
  - by destruct Hu as [-> | ->].
  - intros t. cbn [item_is negb andb]. destruct (String.eqb u t); [done|].
    by destruct Hu as [-> | ->].
Qed.

Lemma guards_untyped st :
  js_truthy_opt (get_item "token" st) = true ->
  item_is (get_item "userType" st) "user" = false -> item_is (get_item "userType" st) "caretaker" = false ->
  public_route st = None /\ protected_route "user" st = Some "/home"%string /\
  protected_route "caretaker" st = Some "/home"%string.
Proof.
  unfold public_route, protected_route. intros -> Hu Hc. rewrite Hu, Hc.
  destruct (js_truthy_opt (get_item "userType" st)); done.
Qed.

Lemma session_ok_cases st :
  session_ok st = true ->
  js_truthy_opt (get_item "token" st) = false \/
  (js_truthy_opt (get_item "token" st) = true /\
   exists u, get_item "userType" st = Some u /\ (u = "user"%string \/ u = "caretaker"%string)).
Proof.
  unfold session_ok. destruct (js_truthy_opt (get_item "token" st)); [|by left].
  intros Hok. right. split; [done|].
  destruct (get_item "userType" st) as [u|]; [|done]. simpl in Hok.
  destruct (String.eqb_spec u "user"), (String.eqb_spec u "caretaker"); eauto; done.
Qed.

Lemma navigate_Some n st p pg : navigate n st p = Some pg -> exists q, resolve st q = Show pg.
Proof.
  revert p. induction n as [|n IH]; intros p; simpl; [done|].
  destruct (resolve st p) eqn:E; [intros [=<-]; by exists p|apply IH].
Qed.

(** Every route of the table, the dynamic one and the fallback. *)
Lemma match_route_cases p g pg :
  match_route p = (g, pg) ->
  (g, pg) ∈ static_routes.*2 \/ (exists id, (g, pg) = (GProtected "user", GamePlayPage id)) \/
  (g, pg) = (GOpen, NotFoundPage).
Proof.
  unfold match_route. destruct (List.find _ _) as [r|] eqn:Hf.
  - apply find_Some_elem in Hf as [Hin _]. intros <-. left. by apply list_elem_of_fmap_2.
  - destruct (play_param p); intros <-; eauto.
Qed.

(** Enumerate the cases of [match_route_cases]. *)
Ltac route_cases H :=
  apply match_route_cases in H as [H | [[? H] | H]];
  [cbn in H; repeat (apply elem_of_cons in H as [H | H]; [simplify_eq|]); try by apply elem_of_nil in H
  | simplify_eq | simplify_eq].

Lemma match_route_page_guard p g pg t :
  match_route p = (g, pg) -> page_guard pg = Some t -> g = GProtected t.
Proof. intros Hm Hpg. route_cases Hm; simpl in Hpg; congruence. Qed.

Lemma match_route_protected_types p t pg :
  match_route p = (GProtected t, pg) -> t = "user"%string \/ t = "caretaker"%string.
Proof. intros Hm. route_cases Hm; auto. Qed.

Lemma item_is_Some v s : item_is v s = true -> v = Some s.
Proof. destruct v; simpl; [by intros ->%String.eqb_eq|done]. Qed.

(** Where a redirect leads renders at once in a well-formed session. *)
Lemma redirect_settles st p q :
  session_ok st = true -> resolve st p = Redirect q -> exists pg, resolve st q = Show pg.
Proof.
  intros Hok Hp. unfold resolve in Hp. destruct (match_route p) as [g pg].
  destruct (guard_result g st) as [q'|] eqn:Hg; [injection Hp as ->|done].
  apply session_ok_cases in Hok as [Ht | [Ht (u & Hu & Hu')]].
  - destruct (guards_no_token st Ht) as [Hpub Hprot].
    destruct g as [t|t|]; simpl in Hg; [congruence| |done]. rewrite Hprot in Hg. injection Hg as <-.
    destruct (String.eqb t "caretaker"); unfold resolve; route_compute; simpl; rewrite Hpub; by eexists.
  - destruct (guards_typed st u Ht Hu Hu') as [Hpub Hprot].
    assert (q = home_of u) as ->.
    { destruct g as [t|t|]; simpl in Hg; [|rewrite Hprot in Hg; destruct (String.eqb u t)|]; congruence. }
    destruct Hu' as [-> | ->]; unfold resolve; simpl home_of; route_compute; cbn [guard_result];
      rewrite Hprot; by eexists.
Qed.

Lemma navigate_home_loops st :
  resolve st "/home" = Redirect "/home" -> forall n, navigate n st "/home" = None.
Proof. intros Hl n. induction n as [|n IH]; simpl; [done|]. by rewrite Hl. Qed.

(** ** Infinite redirect sequences, as in [Sequences.v] of the CompCert
    lectures: a set of states closed under taking a step. *)
Section Sequences.
Context {A : Type} (R : A -> A -> Prop).

Definition infseq (a : A) : Prop :=
  exists X : A -> Prop, X a /\ forall a1, X a1 -> exists a2, R a1 a2 /\ X a2.

Lemma cycle_infseq a b : R a b -> R b b -> infseq a.
Proof.
  intros Hab Hbb. exists (fun x => x = a \/ x = b). split; [by left|].
  intros x [-> | ->]; exists b; auto.
Qed.

End Sequences.

(** An ill-formed session sends every protected page to ["/home"], which
    redirects to itself. *)
Lemma protected_route_loops st p t pg :
  session_ok st = false -> match_route p = (GProtected t, pg) ->
  infseq (nav_step st) p /\ forall n, navigate n st p = None.
Proof.
  unfold session_ok. intros Hbad Hm.
  destruct (js_truthy_opt (get_item "token" st)) eqn:Ht; [|done].
  apply orb_false_iff in Hbad as [[_ Hu]%orb_false_iff Hc].
  destruct (guards_untyped st Ht Hu Hc) as (_ & Hpu & Hpc).
  assert (Hhome : resolve st "/home" = Redirect "/home").
  { unfold resolve. route_compute. simpl. by rewrite Hpu. }
  assert (Hp : resolve st p = Redirect "/home").
  { unfold resolve. rewrite Hm. simpl.
    by destruct (match_route_protected_types p t pg Hm) as [-> | ->]; [rewrite Hpu|rewrite Hpc]. }
  split; [by apply (cycle_infseq _ p "/home")|].
  intros [|n]; simpl; [done|]. rewrite Hp. by apply navigate_home_loops.
Qed.

(** ** Theorems *)

(** C33: In a well-formed session (no token, or a [userType] of
    ["user"] or ["caretaker"]) every path settles on a rendered page after
    at most one redirect. *)
Theorem navigate_settles st p :
  session_ok st = true -> exists pg, navigate 2 st p = Some pg.
Proof.
  intros Hok. simpl. destruct (resolve st p) as [pg|q] eqn:E; [by eexists|].
  destruct (redirect_settles st p q Hok E) as [pg Hq]. rewrite Hq. by eexists.
Qed.

(** C8: After a Google sign-up from the Register page in a browser
    without a stored [userType], the page it navigates to, ["/home"], and
    every other protected page redirect forever: [Register.jsx] stores the
    token but no [userType], and [ProtectedRoute] then sends every
    protected path to ["/home"], itself protected. *)
Theorem register_google_loops st tok user p t pg :
  get_item "userType" st = None -> tok <> ""%string -> match_route p = (GProtected t, pg) ->
  infseq (nav_step (register_page_google tok user st)) p /\
  forall n, navigate n (register_page_google tok user st) p = None.
Proof.
  intros Hu Htok Hm. apply (protected_route_loops _ p t pg); [|done].
  unfold session_ok, register_page_google. storage_simpl. rewrite Hu.
  by destruct tok.
Qed.

(** C34: A page routed only behind [ProtectedRoute type] is shown only
    when the session holds a token and that [userType]. *)
Theorem protected_page_requires_session n st p pg t :
  navigate n st p = Some pg -> page_guard pg = Some t ->
  js_truthy_opt (get_item "token" st) = true /\ get_item "userType" st = Some t.
Proof.
  intros (q & Hq)%navigate_Some Hpg. unfold resolve in Hq.
  destruct (match_route q) as [g pg'] eqn:Hm.
  destruct (guard_result g st) eqn:Hg; [done|]. injection Hq as ->.
  rewrite (match_route_page_guard q g pg t Hm Hpg) in Hg. simpl in Hg. unfold protected_route in Hg.
  destruct (js_truthy_opt (get_item "token" st)); [|done].
  destruct (item_is (get_item "userType" st) t) eqn:Hi; [|done]. split; [done|]. by apply item_is_Some.
Qed.

(** After a successful login on the Login page, ["/home"] renders at
    once and every request but the public game reads carries the token
    as [Bearer]. *)
Theorem login_session_works st tok user :
  tok <> ""%string ->
  navigate 1 (login_page_success tok user st) "/home" = Some HomePage /\
  forall m url, String.eqb (js_to_lower m) "get" = false ->
    api_auth_header m url (login_page_success tok user st) = Some ("Bearer " ++ tok)%string.
Proof.
  intros Htok. unfold login_page_success. split.
  - simpl. unfold resolve. route_compute. cbn [guard_result]. unfold protected_route.
    storage_simpl. by destruct tok.
  - intros m url Hm. unfold api_auth_header. rewrite Hm. simpl. storage_simpl. by destruct tok.
Qed.

(** A 401 or 403 from any request clears the token and the user
    copy, keeps [userType], and lands on the user Login page, whatever the
    session was (a caretaker's included). *)
Theorem api_unauthorized_lands_on_login st status :
  status = 401 \/ status = 403 ->
  (api_on_error status st).2 = Some "/login"%string /\
  get_item "token" (api_on_error status st).1 = None /\
  get_item "userType" (api_on_error status st).1 = get_item "userType" st /\
  navigate 1 (api_on_error status st).1 "/login" = Some LoginPage.
Proof.
  intros Hs. assert (Hb : (Nat.eqb status 401 || Nat.eqb status 403)%bool = true)
    by (destruct Hs as [-> | ->]; reflexivity).
  unfold api_on_error. rewrite Hb. simpl. storage_simpl. split_and!; try done.
  unfold resolve. route_compute. cbn [guard_result]. unfold public_route. by storage_simpl.
Qed.

(** ** Concrete sessions *)

Module RoutingWitness.

Definition w_user_session : Storage := login_page_success "tok" "{}" ∅.
Definition w_google_session : Storage := register_page_google "tok" "{}" ∅.

Lemma navigate_settles_witness : session_ok w_user_session = true /\ exists pg, navigate 2 w_user_session "/games" = Some pg.
Proof. split; [reflexivity|]. apply navigate_settles. reflexivity. Defined.

Lemma register_google_loops_witness :
  infseq (nav_step w_google_session) "/games" /\ forall n, navigate n w_google_session "/games" = None.
Proof. apply (register_google_loops ∅ "tok" "{}" "/games" "user" GamesPage); [reflexivity|discriminate|reflexivity]. Defined.

Lemma protected_page_requires_session_witness :
  js_truthy_opt (get_item "token" w_user_session) = true /\ get_item "userType" w_user_session = Some "user"%string.
Proof. apply (protected_page_requires_session 2 w_user_session "/games" GamesPage); reflexivity. Defined.

Lemma login_session_works_witness :
  navigate 1 w_user_session "/home" = Some HomePage /\
  api_auth_header "post" "/games/1/play" w_user_session = Some "Bearer tok"%string.
Proof.
  destruct (login_session_works ∅ "tok" "{}") as [H1 H2]; [discriminate|].
  split; [exact H1|]. apply H2. reflexivity.
Defined.

Lemma api_unauthorized_lands_on_login_witness :
  navigate 1 (api_on_error 401 w_user_session).1 "/login" = Some LoginPage.
Proof. apply (api_unauthorized_lands_on_login w_user_session 401). by left. Defined.

End RoutingWitness.
