(* ===== verification/GameScreens.v ===== *)
(** * The game screens: [Games.jsx], [GamePlay.jsx] and the play route

    [Games.jsx] lists the catalogue ([GET /games/all]), filters it by a
    search term and a category, and links a selected game to
    [/play/:id] with the game document as the route's state.
    [GamePlay.jsx] shows the game and reports one play when the player
    leaves: [sendPlay] posts [{ minutes, difficulty, title }] through
    [api.js] at most once ([didSendRef]), from the back button or the
    unmount cleanup; closing the tab sends a [navigator.sendBeacon]
    instead.

    [serve_play] is the route [POST /api/games/:id/play]
    ([games.route.js] line 9): the [auth] middleware, then [playGame].
    The theorems compose the three: what the shipped client sends, what
    the server awards for it, and what becomes of the beacon. *)

From Stdlib Require Import Ascii String ZArith QArith Qround List.
From stdpp Require Import base list gmap strings.
From S2P Require Import Prelude JsString Gateway Token Account Games Routing.

(** ** String helpers of the screens *)

(** [s.includes(sub)]. *)
Fixpoint js_includes (s sub : string) : bool :=
  String.prefix sub s ||
  match s with EmptyString => false | String _ s' => js_includes s' sub end.

(** [Array.from(new Set(l))]: the first occurrence of each value, in
    order. *)
Fixpoint js_set_aux (seen : list string) (l : list string) : list string :=
  match l with
  | [] => []
  | x :: r => if bool_decide (x ∈ seen) then js_set_aux seen r else x :: js_set_aux (x :: seen) r
  end.

Definition js_set (l : list string) : list string := js_set_aux [] l.

(** [String(n)] of an integer number: its decimal digits. *)
Fixpoint pos_digits (fuel : nat) (p : positive) (acc : list ascii) : list ascii :=
  match fuel with
  | O => acc
  | S f =>
      let acc' := ascii_of_nat (48 + N.to_nat (N.modulo (Npos p) 10)) :: acc in
      match N.div (Npos p) 10 with N0 => acc' | Npos q => pos_digits f q acc' end
  end.

Definition js_int_string (z : Z) : string :=
  match z with
  | Z0 => "0"
  | Zpos p => string_of_list_ascii (pos_digits (Pos.size_nat p) p [])
  | Zneg p => string_of_list_ascii ("-"%char :: pos_digits (Pos.size_nat p) p [])
  end.

(** ** [Games.jsx] *)

Module GamesList.

Record GamesScreen := mkGamesScreen {
  games : list Game;
  loading : bool;
  error : option string;
  searchTerm : string;
  selectedCategory : string;
  showDetails : bool;
  activeGame : option Game;
  showHowTo : bool;
}.

(** The state hooks (lines 9-16). *)
Definition initial : GamesScreen := mkGamesScreen [] true None "" "All" false None false.

Definition set_games (gs : list Game) (s : GamesScreen) : GamesScreen :=
  mkGamesScreen gs (loading s) (error s) (searchTerm s) (selectedCategory s) (showDetails s) (activeGame s) (showHowTo s).
Definition set_games_loading (b : bool) (s : GamesScreen) : GamesScreen :=
  mkGamesScreen (games s) b (error s) (searchTerm s) (selectedCategory s) (showDetails s) (activeGame s) (showHowTo s).
Definition set_error (e : option string) (s : GamesScreen) : GamesScreen :=
  mkGamesScreen (games s) (loading s) e (searchTerm s) (selectedCategory s) (showDetails s) (activeGame s) (showHowTo s).
Definition set_search (t : string) (s : GamesScreen) : GamesScreen :=
  mkGamesScreen (games s) (loading s) (error s) t (selectedCategory s) (showDetails s) (activeGame s) (showHowTo s).
Definition set_category (c : string) (s : GamesScreen) : GamesScreen :=
  mkGamesScreen (games s) (loading s) (error s) (searchTerm s) c (showDetails s) (activeGame s) (showHowTo s).
Definition set_details (b : bool) (a : option Game) (h : bool) (s : GamesScreen) : GamesScreen :=
  mkGamesScreen (games s) (loading s) (error s) (searchTerm s) (selectedCategory s) b a h.

(** [fetchGames] (lines 37-50): the start, and the answer of
    [GET /games/all] ([Ok None]: a body that is not an array). *)
Definition fetch_start (s : GamesScreen) : GamesScreen := set_error None (set_games_loading true s).

Definition on_games (r : result unit (option (list Game))) (s : GamesScreen) : GamesScreen :=
  set_games_loading false
    (match r with
     | Ok (Some gs) => set_games gs s
     | Ok None => set_games [] s
     | Err _ => set_games [] (set_error (Some "Unable to load games from server.") s)
     end).

(** [categories] (line 54). *)
Definition categories (gs : list Game) : list string :=
  "All"%string :: js_set (filter (fun c => js_truthy c = true) (g_category <$> gs)).

(** [filteredGames] (lines 63-71); [title] and [description] are
    required strings of the schema. *)
Definition matches (term category : string) (g : Game) : bool :=
  let t := js_to_lower (js_trim term) in
  (negb (js_truthy t) ||
   (js_truthy (g_title g) && js_includes (js_to_lower (g_title g)) t) ||
   (js_truthy (g_description g) && js_includes (js_to_lower (g_description g)) t)) &&
  (String.eqb category "All" || String.eqb (g_category g) category).

Definition filtered_games (s : GamesScreen) : list Game :=
  filter (fun g => matches (searchTerm s) (selectedCategory s) g = true) (games s).

(** [parseSteps] (lines 73-79). *)
Definition parse_steps (text : option string) : list string :=
  if js_truthy_opt text then
    filter (fun x => js_truthy x = true) (js_trim <$> js_split "." (default "" text))
  else [].

(** [handleShow] and [handleClose] (lines 56-61), the how-to toggle
    (line 342). *)
Definition handle_show (g : Game) (s : GamesScreen) : GamesScreen := set_details true (Some g) false s.
Definition handle_close (s : GamesScreen) : GamesScreen := set_details false (activeGame s) (showHowTo s) s.
Definition toggle_how_to (s : GamesScreen) : GamesScreen := set_details (showDetails s) (activeGame s) (negb (showHowTo s)) s.

(** The Play link (lines 377-381): [/play/${activeGame.id ?? activeGame._id}];
    [id] is a required number of the schema. *)
Definition play_link (g : Game) : string := ("/play/" ++ js_int_string (g_id g))%string.

End GamesList.

(** ** The play route: [auth] then [playGame] *)

(** The answers of [auth.js] (lines 9, 21 and 29). *)
Definition auth_response (e : AuthError) : nat * string :=
  match e with
  | Auth401NoToken => (401, "No token provided")
  | Auth401NotFound => (401, "User or Caretaker not found")
  | Auth401Invalid => (401, "Invalid or expired token")
  end%string.

Section Route.
Context `{JwtLib}.
Variable js_number : string -> option Q.

(** [gamesrouter.post("/:id/play", auth, gamesController.playGame)]:
    [req.user] is the user or the caretaker the token names. *)
Definition serve_play (acc : Accounts) (secret : option string) (now : nat) (db : AccDb) (gs : list Game)
    (authorization : option string) (id : string) (body : PlayBody) : AccDb * HttpResult (UProfile * Z) :=
  match auth_middleware acc secret now authorization with
  | Err e => (db, Err (auth_response e))
  | Ok p => play_game js_number db gs (Some (principal_id p)) id body
  end.

End Route.

(** ** [GamePlay.jsx] *)

Module Play.

(** The route state [gameInfo] as [Games.jsx] builds it (line 380): the
    game document with a [startTime]. *)
Record GameInfo := mkGameInfo {
  gi_id : option string;         (** [String(gameInfo.id)] *)
  gi__id : option string;
  gi_difficulty : option JVal;
  gi_title : option string;
  gi_startTime : option Z;       (** milliseconds *)
}.

(** The refs [startRef] and [didSendRef] (lines 23-26), and whether
    [handleGoBack] waits for its post before [navigate(-1)]. *)
Record PlayScreen := mkPlayScreen { start : Z; didSend : bool; backPending : bool }.

Inductive PlayEvent :=
| GoBack (now : Z)            (** the Go Back button *)
| Unmount (now : Z)           (** the effect's cleanup *)
| BeforeUnload (now : Z)      (** the tab closes *)
| PlayAnswer (profile : option UProfile)
| PlayFailed.

Inductive PlayOutput :=
| OPost (url : string) (body : PlayBody)
| OBeacon (url : string) (body : PlayBody) (token : option string)
| OStoreProfile (p : UProfile)
| OBack.

Section Handlers.
Variable params_gameId : option string.
Variable gameInfo : option GameInfo.
Variable storage : Storage.
(** [import.meta.env.VITE_API_BASE_URL || "http://localhost:3000/api"]. *)
Variable api_base : string.

(** [params.gameId || gameInfo?.id || gameInfo?._id] (line 21). *)
Definition gameId : option string :=
  js_or params_gameId (js_or (gameInfo ≫= gi_id) (gameInfo ≫= gi__id)).

(** The refs at mount (lines 23-26). *)
Definition mount (now : Z) : PlayScreen :=
  mkPlayScreen (match gameInfo ≫= gi_startTime with Some t => t | None => now end) false false.

(** [Math.max(1, Math.ceil(ms / 60000))] (lines 60-61, 69-70, 97-98). *)
Definition minutes_played (now : Z) (s : PlayScreen) : Z :=
  Z.max 1 (- ((- (now - start s)) / 60000)).

(** The payload (lines 33-38 and 77-82). *)
Definition payload (minutes : Z) : PlayBody :=
  mkPlayBody (JNum (inject_Z minutes)) (JNum (parse_difficulty (gameInfo ≫= gi_difficulty)))
    (Some (default "" (js_or (gameInfo ≫= gi_title) (Some ("Played " ++ default "undefined" gameId)%string)))).

Definition play_url (id : string) : string := ("/games/" ++ id ++ "/play")%string.

(** [sendPlay] (lines 29-57) up to its [await]. *)
Definition send_play (minutesPlayed : Z) (s : PlayScreen) : PlayScreen * list PlayOutput :=
  match gameId with
  | Some id =>
      if js_truthy id && negb (didSend s) then
        (mkPlayScreen (start s) true (backPending s), [OPost (play_url id) (payload (Z.max 0 minutesPlayed))])
      else (s, [])
  | None => (s, [])
  end.

(** [onBeforeUnload] (lines 68-92): a beacon carrying the token in its
    body, with no [Authorization] header. *)
Definition before_unload (now : Z) (s : PlayScreen) : list PlayOutput :=
  [OBeacon (api_base ++ play_url (default "undefined" gameId))%string
     (payload (minutes_played now s)) (get_item "token" storage)].

Definition play_step (s : PlayScreen) (e : PlayEvent) : PlayScreen * list PlayOutput :=
  match e with
  | GoBack now =>
      let '(s', out) := send_play (minutes_played now s) s in
      match out with
      | [] => (s', [OBack])
      | _ => (mkPlayScreen (start s') (didSend s') true, out)
      end
  | Unmount now => send_play (minutes_played now s) s
  | BeforeUnload now => (s, before_unload now s)
  | PlayAnswer p =>
      (* [JSON.parse(getItem("user") || "null")] is falsy for these texts *)
      let stored := match get_item "user" storage with
                    | Some u => negb (String.eqb u "" || String.eqb u "null" || String.eqb u "false" || String.eqb u "0")
                    | None => false end in
      (mkPlayScreen (start s) (didSend s) false,
       (match p with Some pr => if stored then [OStoreProfile pr] else [] | None => [] end) ++
       (if backPending s then [OBack] else []))
  | PlayFailed => (mkPlayScreen (start s) (didSend s) false, if backPending s then [OBack] else [])
  end.

Fixpoint play_run (s : PlayScreen) (es : list PlayEvent) : PlayScreen * list PlayOutput :=
  match es with
  | [] => (s, [])
  | e :: es' => let '(s1, o1) := play_step s e in let '(s2, o2) := play_run s1 es' in (s2, o1 ++ o2)
  end.

End Handlers.

Definition is_post (o : PlayOutput) : bool := match o with OPost _ _ => true | _ => false end.

Definition posts (os : list PlayOutput) : nat := length (filter (fun o => is_post o = true) os).

End Play.

(** ** Lemmas *)

Section JsSet.

Lemma js_set_aux_spec seen l x :
  x ∈ js_set_aux seen l <-> x ∈ l /\ x ∉ seen.
Proof.
  revert seen. induction l as [|y l IH]; intros seen; simpl.
  - split; [by intros ?%elem_of_nil|intros [?%elem_of_nil _]; done].
  - case_bool_decide as Hy.
    + rewrite IH, elem_of_cons. split; [tauto|]. intros [[-> | ?] ?]; [done|tauto].
    + rewrite elem_of_cons, IH, elem_of_cons, elem_of_cons. split.
      * intros [-> | [? Hn]]; [tauto|]. split; [tauto|]. intros ?. apply Hn. by right.
      * intros [[-> | ?] ?]; [by left|]. destruct (decide (x = y)) as [->|]; [by left|]. right. split; [done|].
        intros [-> | ?]; done.
Qed.

Lemma js_set_aux_NoDup seen l : NoDup (js_set_aux seen l).
Proof.
  revert seen. induction l as [|y l IH]; intros seen; simpl; [constructor|].
  case_bool_decide; [apply IH|]. constructor; [|apply IH].
  rewrite js_set_aux_spec, elem_of_cons. tauto.
Qed.

End JsSet.

Lemma list_ascii_of_string_app' (a b : string) :
  list_ascii_of_string (a ++ b) = list_ascii_of_string a ++ list_ascii_of_string b.
Proof. induction a as [|c a IH]; simpl; [done|]. by rewrite IH. Qed.

(** The pieces of [split] hold no separator. *)
Lemma js_split_aux_no_sep sep s cur x :
  Forall (fun ch => ch <> sep) (list_ascii_of_string cur) ->
  x ∈ js_split_aux sep s cur -> Forall (fun ch => ch <> sep) (list_ascii_of_string x).
Proof.
  revert cur. induction s as [|ch s IH]; intros cur Hcur Hx; simpl in Hx.
  - by apply list_elem_of_singleton in Hx as ->.
  - destruct (Ascii.eqb_spec ch sep).
    + apply elem_of_cons in Hx as [-> | Hx]; [done|]. by apply (IH "" ).
    + apply (IH (cur ++ String ch "")%string); [|done].
      rewrite list_ascii_of_string_app'. apply Forall_app. split; [done|]. by repeat constructor.
Qed.

Lemma drop_spaces_Forall (P : ascii -> Prop) l : Forall P l -> Forall P (drop_spaces l).
Proof. induction 1 as [|c l Hc Hl IH]; simpl; [constructor|]. by destruct (is_js_space c); [|constructor]. Qed.

(** [trim] keeps a sub-list of the characters. *)
Lemma js_trim_Forall (P : ascii -> Prop) s :
  Forall P (list_ascii_of_string s) -> Forall P (list_ascii_of_string (js_trim s)).
Proof.
  intros Hs. unfold js_trim. rewrite list_ascii_of_string_of_list_ascii.
  apply Forall_rev, drop_spaces_Forall, Forall_rev, drop_spaces_Forall, Hs.
Qed.

(** ** The play link reaches the [/play/:gameId] route *)

Lemma js_to_lower_app a b : js_to_lower (a ++ b) = (js_to_lower a ++ js_to_lower b)%string.
Proof.
  induction a as [|c a IH]; [done|].
  change (String c a ++ b)%string with (String c (a ++ b)). cbn [js_to_lower]. by rewrite IH.
Qed.

Lemma substring_app a b : String.substring (String.length a) (String.length b) (a ++ b) = b.
Proof.
  induction a as [|c a IH]; [change (String.substring 0 (String.length b) b = b)|exact IH].
  induction b as [|c b IH]; cbn; [done|]. by rewrite IH.
Qed.

(** The characters of [String(n)]: digits and a sign. *)
Definition id_char (c : ascii) : bool := is_digit c || Ascii.eqb c "-".

Lemma digit_char r : r < 10 -> id_char (ascii_of_nat (48 + r)) = true /\ ascii_of_nat (48 + r) <> "/"%char /\
  ascii_lower (ascii_of_nat (48 + r)) = ascii_of_nat (48 + r).
Proof. intros Hr. do 10 (destruct r as [|r]; [split_and!; [reflexivity|discriminate|reflexivity]|]). lia. Qed.

Lemma pos_digits_chars f p acc :
  Forall (fun c => id_char c = true /\ c <> "/"%char /\ ascii_lower c = c) acc ->
  Forall (fun c => id_char c = true /\ c <> "/"%char /\ ascii_lower c = c) (pos_digits f p acc).
Proof.
  revert p acc. induction f as [|f IH]; intros p acc Hacc; simpl; [done|].
  assert (Hd : Forall (fun c => id_char c = true /\ c <> "/"%char /\ ascii_lower c = c)
                 (ascii_of_nat (48 + N.to_nat (N.modulo (N.pos p) 10)) :: acc)).
  { constructor; [|done]. apply digit_char.
    pose proof (N.mod_lt (N.pos p) 10 ltac:(discriminate)) as Hlt. lia. }
  destruct (N.div (N.pos p) 10); [done|]. by apply IH.
Qed.

Lemma pos_digits_nonempty f p acc : pos_digits (S f) p acc <> [].
Proof.
  revert p acc. induction f as [|f IH]; intros p acc; simpl;
    destruct (N.div (N.pos p) 10); try discriminate. apply IH.
Qed.

Lemma js_int_string_chars z :
  Forall (fun c => id_char c = true /\ c <> "/"%char /\ ascii_lower c = c) (list_ascii_of_string (js_int_string z)) /\
  js_int_string z <> ""%string.
Proof.
  destruct z as [|p|p]; cbn [js_int_string].
  - split; [repeat constructor; discriminate|discriminate].
  - rewrite list_ascii_of_string_of_list_ascii. split; [by apply pos_digits_chars|].
    intros H%string_of_list_ascii_nil_iff. destruct p; cbn [Pos.size_nat] in H; by eapply pos_digits_nonempty.
  - rewrite list_ascii_of_string_of_list_ascii. split.
    + constructor; [split_and!; [reflexivity|discriminate|reflexivity]|]. by apply pos_digits_chars.
    + discriminate.
Qed.

Lemma strip_slash_keep s :
  (forall c r, rev (list_ascii_of_string s) = c :: r -> c <> "/"%char) -> strip_slash s = s.
Proof.
  intros Hl. unfold strip_slash.
  destruct (rev (list_ascii_of_string s)) as [|c [|c' r]] eqn:E; [done|done|].
  destruct (Ascii.eqb_spec c "/"); [|done]. exfalso. by eapply Hl.
Qed.

Lemma js_to_lower_id s : Forall (fun c => ascii_lower c = c) (list_ascii_of_string s) -> js_to_lower s = s.
Proof. induction s as [|c s IH]; intros Hs; simpl in *; [done|]. inversion Hs. f_equal; auto. Qed.

(** The Play link of the games list, [/play/<id>], is routed to
    [GamePlay] behind the user guard, with the game's number as
    [gameId]. *)
Theorem play_link_route g :
  match_route (GamesList.play_link g) = (GProtected "user", GamePlayPage (js_int_string (g_id g))).
Proof.
  destruct (js_int_string_chars (g_id g)) as [Hc Hne].
  unfold GamesList.play_link. generalize dependent (js_int_string (g_id g)). intros d Hc Hne.
  assert (Hs : strip_slash ("/play/" ++ d) = ("/play/" ++ d)%string).
  { apply strip_slash_keep. intros c r. change ("/play/" ++ d)%string with (String "/" (String "p" (String "l"
      (String "a" (String "y" (String "/" d)))))). cbn [list_ascii_of_string rev].
    destruct (rev (list_ascii_of_string d)) as [|c' r'] eqn:E.
    - apply (f_equal (@rev ascii)) in E. rewrite rev_involutive in E. destruct d; [done|discriminate].
    - rewrite <- !app_assoc. intros [= -> _].
      assert (Hin : c ∈ list_ascii_of_string d) by (apply list_elem_of_In, in_rev; rewrite E; by left).
      by eapply Forall_forall in Hc as (_ & ? & _). }
  assert (Hl : js_to_lower d = d).
  { apply js_to_lower_id. eapply Forall_impl; [exact Hc|]. by intros ? (_ & _ & ?). }
  unfold match_route, play_param. rewrite Hs, js_to_lower_app, Hl.
  replace (List.find _ static_routes) with (@None (string * (Guard * Page))) by (vm_compute; reflexivity).
  rewrite js_starts_with_app.
  change (String.length ("/play/" ++ d) - 6) with (6 + String.length d - 6).
  rewrite Nat.add_comm, Nat.add_sub. change 6 with (String.length "/play/"). rewrite substring_app.
  replace (js_truthy d) with true by (by destruct d).
  replace (no_slash d) with true; [done|].
  symmetry. apply forallb_Forall. eapply Forall_impl; [exact Hc|]. intros c (_ & Hc' & _).
  by destruct (Ascii.eqb_spec c "/").
Qed.

(** ** Theorems of [GamePlay.jsx] *)

Module PlayTheorems.
Import Play.

(** The route state of a game opened from the list (Games.jsx line 380). *)
Definition game_info (g : Game) (t : Z) : GameInfo :=
  mkGameInfo (Some (js_int_string (g_id g))) (Some (g_oid g)) (Some (JStr (g_difficulty g))) (Some (g_title g)) (Some t).

(** The difficulty [playGame] reads from the catalogue (lines 56-66). *)
Definition catalogue_difficulty (g : Game) : Q :=
  match difficulty_of_raw (Some (JStr (g_difficulty g))) with Some q => q | None => 1%Q end.

Lemma posts_app os1 os2 : posts (os1 ++ os2) = posts os1 + posts os2.
Proof. unfold posts. by rewrite filter_app, length_app. Qed.

Lemma parse_difficulty_agrees d :
  parse_difficulty d = match difficulty_of_raw d with Some q => q | None => 1%Q end.
Proof. by destruct d as [[]|]. Qed.

Section Budget.
Variables (gid : option string) (gi : option GameInfo) (storage : Storage) (base : string).

Definition budget (s : PlayScreen) : nat := if didSend s then 0 else 1.

Lemma send_play_posts m s :
  posts (send_play gid gi m s).2 + budget (send_play gid gi m s).1 <= budget s.
Proof.
  unfold send_play, budget, posts.
  destruct s as [st [] bp]; (destruct (gameId gid gi) as [id|]; [destruct (js_truthy id)|]); simpl; lia.
Qed.

Lemma step_posts s e :
  posts (play_step gid gi storage base s e).2 + budget (play_step gid gi storage base s e).1 <= budget s.
Proof.
  destruct e as [now|now|now|p|]; simpl.
  - pose proof (send_play_posts (minutes_played now s) s) as H.
    destruct (send_play _ _ _ _) as [s' out]. unfold budget in *.
    destruct s' as [st' [] bp'], s as [st [] bp], out; simpl in *; lia.
  - apply send_play_posts.
  - destruct s as [st [] bp]; unfold budget, posts; simpl; lia.
  - destruct s as [st [] []]; unfold budget, posts; simpl; repeat case_match; simpl; lia.
  - destruct s as [st [] []]; unfold budget, posts; simpl; lia.
Qed.

Lemma run_posts s es : posts (play_run gid gi storage base s es).2 <= budget s.
Proof.
  revert s. induction es as [|e es IH]; intros s; simpl; [unfold posts; simpl; lia|].
  pose proof (step_posts s e) as H. destruct (play_step _ _ _ _ s e) as [s1 o1].
  specialize (IH s1). destruct (play_run _ _ _ _ s1 es) as [s2 o2]. simpl in *. rewrite posts_app. lia.
Qed.

Lemma minutes_played_pos now s : (1 <= minutes_played now s)%Z.
Proof. unfold minutes_played. lia. Qed.

End Budget.

(** C9: Whatever the player does (going back, leaving the route,
    closing the tab, in any order and any number of times), the game
    screen posts at most one play. *)
Theorem at_most_one_post gid gi storage base now0 es :
  posts (play_run gid gi storage base (mount gi now0) es).2 <= 1.
Proof. apply (run_posts gid gi storage base (mount gi now0) es). Qed.

(** C32: For a game opened from the list, the difficulty the client posts
    is the one [playGame] would read from the catalogue: the client's
    [parseDifficulty] and the server's parse agree, so the shipped client
    is scored as the catalogue says. *)
Theorem honest_play_catalogue_difficulty (js_number : string -> option Q) gs g t0 now0 now storage base :
  find_game_num (inject_Z (g_id g)) gs = Some g ->
  js_number (js_int_string (g_id g)) = Some (inject_Z (g_id g)) ->
  object_id_valid (js_int_string (g_id g)) = false ->
  exists body,
    (play_step (Some (js_int_string (g_id g))) (Some (game_info g t0)) storage base
       (mount (Some (game_info g t0)) now0) (GoBack now)).2 = [OPost (play_url (js_int_string (g_id g))) body] /\
    play_difficulty js_number gs (js_int_string (g_id g)) body = Ok (catalogue_difficulty g) /\
    play_difficulty js_number gs (js_int_string (g_id g)) (mkPlayBody (pb_minutes body) JUndef (pb_title body))
      = Ok (catalogue_difficulty g).
Proof.
  intros Hg Hn Hv. destruct (js_int_string_chars (g_id g)) as [_ Hne].
  unfold play_step, send_play, gameId, js_or at 1. cbn [js_truthy_opt].
  destruct (js_int_string (g_id g)) as [|c d] eqn:Ed; [done|]. cbn [js_truthy negb andb didSend mount].
  eexists. split; [reflexivity|]. unfold play_difficulty, payload. cbn [pb_difficulty jnot_nullish number_of].
  rewrite parse_difficulty_agrees. split; [done|].
  unfold lookup_game. rewrite Hv, Hn, Hg. done.
Qed.

(** The shape of a body the screen posts. *)
Definition body_well_typed (b : PlayBody) : Prop :=
  exists m q t, b = mkPlayBody (JNum (inject_Z m)) (JNum q) (Some t) /\ (0 <= m)%Z /\ js_truthy t = true.

Lemma payload_well_typed gid gi m : (0 <= m)%Z -> body_well_typed (payload gid gi m).
Proof.
  intros Hm. unfold payload, js_or. eexists m, _, _. split; [reflexivity|]. split; [done|].
  destruct (js_truthy_opt (gi ≫= gi_title)) eqn:Ht; simpl.
  - destruct (gi ≫= gi_title) as [t|]; [|done]. done.
  - done.
Qed.

Lemma play_step_bodies gid gi storage base s e url b :
  OPost url b ∈ (play_step gid gi storage base s e).2 -> body_well_typed b.
Proof.
  assert (Hsend : forall m s, OPost url b ∈ (send_play gid gi m s).2 -> body_well_typed b).
  { intros m s'. unfold send_play. destruct (gameId gid gi) as [id|]; [|by intros ?%elem_of_nil].
    destruct (_ && _); simpl; [|by intros ?%elem_of_nil].
    intros [[= _ ->]|?%elem_of_nil]%elem_of_cons; [|done]. apply payload_well_typed. lia. }
  destruct e as [now|now|now|p|]; simpl.
  - pose proof (Hsend (minutes_played now s) s) as H. destruct (send_play _ _ _ _) as [s' out].
    destruct out; simpl in *; [by intros [?|?%elem_of_nil]%elem_of_cons|auto].
  - apply Hsend.
  - by intros [?|?%elem_of_nil]%elem_of_cons.
  - intros [Hin|Hin]%elem_of_app; repeat case_match; set_solver.
  - intros Hin. case_match; set_solver.
Qed.

(** C38: Every body the screen posts is what [playGame] expects: a
    non-negative integer number of minutes, a numeric difficulty (never
    [NaN] or [null]) and a non-empty title. *)
Theorem posted_bodies_well_typed gid gi storage base s es url b :
  OPost url b ∈ (play_run gid gi storage base s es).2 -> body_well_typed b.
Proof.
  revert s. induction es as [|e es IH]; intros s; simpl; [by intros ?%elem_of_nil|].
  pose proof (play_step_bodies gid gi storage base s e url b) as Hs.
  destruct (play_step _ _ _ _ s e) as [s1 o1]. specialize (IH s1).
  destruct (play_run _ _ _ _ s1 es) as [s2 o2]. simpl in *. intros [?|?]%elem_of_app; auto.
Qed.

(** C35: The Go Back button always leaves the screen: on a fresh screen
    it posts the play and navigates back once the answer (or the error)
    comes; once a play was sent it navigates back at once. *)
Theorem go_back_eventually_leaves gid gi storage base now0 now r :
  (exists p, r = PlayAnswer p) \/ r = PlayFailed ->
  OBack ∈ (play_run gid gi storage base (mount gi now0) [GoBack now; r]).2 /\
  forall s, didSend s = true -> (play_step gid gi storage base s (GoBack now)).2 = [OBack].
Proof.
  intros Hr. split.
  - destruct Hr as [[p ->]| ->]; unfold play_run, play_step, send_play;
      destruct (gameId gid gi) as [id|]; [destruct (js_truthy id)| |destruct (js_truthy id)|]; simpl;
      rewrite ?app_nil_r; repeat case_match; simpl; rewrite ?elem_of_app, ?elem_of_cons; tauto.
  - intros s Hs. unfold play_step, send_play. destruct (gameId gid gi); [|done]. by rewrite Hs, andb_false_r.
Qed.

(** Closing the tab sends only the beacon, which carries no
    [Authorization] header: the route answers 401 and records nothing. *)
Lemma tab_close_records_nothing `{JwtLib} js_number gid gi storage base now0 now acc secret t db gs id body :
  posts (play_run gid gi storage base (mount gi now0) [BeforeUnload now]).2 = 0 /\
  serve_play js_number acc secret t db gs None id body = (db, Err (401, "No token provided")%string).
Proof. done. Qed.

End PlayTheorems.

(** ** Theorems of [Games.jsx] *)

Module ListTheorems.
Import GamesList.

(** The category buttons: ["All"], then each non-empty category of the
    catalogue once, in order of first appearance. *)
Lemma categories_spec gs :
  exists cs, categories gs = "All"%string :: cs /\ NoDup cs /\
  forall c, c ∈ cs <-> js_truthy c = true /\ c ∈ g_category <$> gs.
Proof.
  eexists. split; [reflexivity|]. split; [apply js_set_aux_NoDup|].
  intros c. unfold js_set. rewrite js_set_aux_spec, list_elem_of_filter.
  split; [intros [[? ?] _]; done|intros [? ?]; split_and!; [done|done|by intros ?%elem_of_nil]].
Qed.

(** The how-to steps are non-empty, trimmed pieces without a ['.']. *)
Lemma parse_steps_clean t x :
  x ∈ parse_steps t -> js_truthy x = true /\ Forall (fun c => c <> "."%char) (list_ascii_of_string x).
Proof.
  unfold parse_steps. destruct (js_truthy_opt t); [|by intros ?%elem_of_nil].
  intros [Hx (y & -> & Hy)%list_elem_of_fmap]%list_elem_of_filter. split; [done|].
  apply js_trim_Forall. apply (js_split_aux_no_sep "." (default "" t) ""); [constructor|done].
Qed.

(** With a blank search and the category ["All"], the whole catalogue
    is shown. *)
Lemma blank_search_shows_all s :
  js_trim (searchTerm s) = ""%string -> selectedCategory s = "All"%string -> filtered_games s = games s.
Proof.
  intros Ht Hc. unfold filtered_games, matches. rewrite Ht, Hc. simpl.
  apply filter_all, Forall_forall. intros g _. done.
Qed.

End ListTheorems.

(** ** Concrete inputs *)

Module GameScreensWitness.
Import Play PlayTheorems GamesWitness.

Lemma honest_play_catalogue_difficulty_witness :
  exists body,
    (play_step (Some "1") (Some (game_info w_game 0)) ∅ "" (mount (Some (game_info w_game 0)) 0) (GoBack 300000)).2
      = [OPost (play_url "1") body] /\
    play_difficulty js_number_dec [w_game] "1" body = Ok (catalogue_difficulty w_game) /\
    play_difficulty js_number_dec [w_game] "1" (mkPlayBody (pb_minutes body) JUndef (pb_title body))
      = Ok (catalogue_difficulty w_game).
Proof.
  apply (honest_play_catalogue_difficulty js_number_dec [w_game] w_game 0 0 300000 ∅ "");
    vm_compute; reflexivity.
Defined.

Lemma posted_bodies_well_typed_witness :
  body_well_typed (payload (Some "1") (Some (game_info w_game 0)) 5).
Proof.
  apply (posted_bodies_well_typed (Some "1") (Some (game_info w_game 0)) ∅ "" (mount (Some (game_info w_game 0)) 0)
           [GoBack 300000] (play_url "1")).
  vm_compute. left.
Defined.

Lemma go_back_eventually_leaves_witness :
  OBack ∈ (play_run (Some "1") (Some (game_info w_game 0)) ∅ "" (mount (Some (game_info w_game 0)) 0)
             [GoBack 300000; PlayFailed]).2.
Proof. apply (go_back_eventually_leaves (Some "1") (Some (game_info w_game 0)) ∅ "" 0 300000 PlayFailed). by right. Defined.

End GameScreensWitness.
