(* ===== verification/Profiles.v ===== *)
(** * The progress screens: [Profile.jsx], [CaretakerProfile.jsx], [CaretakerTrackprogress.jsx]

    Three screens read the points and activity logs that the server
    handlers write ([Account.v], [Games.v], [Caretaker.v]) and turn them
    into badges, levels, progress bars, today's counters and paged
    activity feeds.

    - [UserProfile] is [Profile.jsx]: [getBadge], [nextLevelPoints],
      [progress], [computeTodayCounts], the paged feed and its pagination
      controls.
    - [CareProfile] is [CaretakerProfile.jsx]: the achievement by
      [totalSessions], completed and pending sessions, today's counters,
      the initials and its own paged feed.
    - [Track] is [CaretakerTrackprogress.jsx]: the ranking by points, the
      level of each user, the level distribution and today's points.

    Points are integers ([Z]) as the server stores them; a quotient that
    the code rounds ([Math.round]) is computed exactly in [Q].  Whether
    an activity time is "today" depends on the browser's clock and time
    zone: it is the parameter [is_today] of the sections. *)

From Stdlib Require Import Ascii String ZArith QArith Qround Lqa List.
From stdpp Require Import base list sorting relations strings.
From S2P Require Import Prelude JsString Gateway Token Account Caretaker Games GameScreens.

(** [arr.slice(a, b)] for indices in range order (both non-negative). *)
Definition js_slice {A} (l : list A) (a b : nat) : list A := take (b - a) (drop a l).

(** [Number(x || 0)] of an optional number. *)
Definition points_or_zero (o : option Z) : Z := match o with Some z => z | None => 0%Z end.

(** ** [Profile.jsx] *)

Module UserProfile.

Record Badge := mkBadge { b_title : string; b_color : string; b_level : Z }.

(** [getBadge] (lines 158-166). *)
Definition get_badge (points : Z) : option Badge :=
  if (3000 <=? points)%Z then Some (mkBadge "Gold Badge" "#FFD700" 4)
  else if (2000 <=? points)%Z then Some (mkBadge "Silver Badge" "#C0C0C0" 3)
  else if (1000 <=? points)%Z then Some (mkBadge "Bronze Badge" "#CD7F32" 2)
  else None.

(** [Level {badge ? badge.level : 1}] (line 236). *)
Definition level (points : Z) : Z := match get_badge points with Some b => b_level b | None => 1%Z end.

(** [nextLevelPoints] (lines 170-176). *)
Definition next_level_points (b : option Badge) : Z :=
  match b with
  | Some b => if (b_level b =? 2)%Z then 2000 else 3000
  | None => 1000
  end.

(** [progress] (lines 178-185); [%] is [Z.rem] (the sign of the
    dividend), the quotient is exact and [Math.round] is [js_round]. *)
Definition progress (points : Z) : Z :=
  let b := get_badge points in
  let next := next_level_points b in
  match b with
  | Some bd =>
      if (b_level bd =? 4)%Z then 100
      else Z.min (js_round (inject_Z (Z.rem points next) / inject_Z next * 100)) 100
  | None => Z.min (js_round (inject_Z points / 1000 * 100)) 100
  end%Z.

Record TodayCounts := mkToday { t_logins : nat; t_games : nat; t_chats : nat; t_points : Z }.

Section Today.
Variable is_today : nat -> bool.

(** [computeTodayCounts] (lines 115-131). *)
Definition today_step (c : TodayCounts) (a : Activity) : TodayCounts :=
  if is_today (act_time a) then
    mkToday (t_logins c + if String.eqb (act_type a) "login" then 1 else 0)
            (t_games c + if String.eqb (act_type a) "game" then 1 else 0)
            (t_chats c + if String.eqb (act_type a) "chat" then 1 else 0)
            (t_points c + points_or_zero (act_points a))
  else c.

Definition compute_today_counts (acts : list Activity) : TodayCounts :=
  fold_left today_step acts (mkToday 0 0 0 0).

(** [todayActivities] (line 134). *)
Definition today_activities (acts : list Activity) : list Activity :=
  filter (fun a => is_today (act_time a) = true) acts.

End Today.

Definition PAGE_SIZE : nat := 10.

(** [totalPages] (line 136). *)
Definition total_pages (n : nat) : nat := Nat.max 1 ((n + PAGE_SIZE - 1) / PAGE_SIZE).

(** [pagedOverall] (lines 141-144): newest first. *)
Definition paged (acts : list Activity) (page : nat) : list Activity :=
  js_slice (rev acts) ((page - 1) * PAGE_SIZE) (page * PAGE_SIZE).

(** The page buttons (lines 371-375). *)
Definition page_window (page total : nat) : list nat :=
  js_slice (seq 1 total) (page - 3) (Nat.min total (page + 2)).

(** The pagination handlers (lines 368-378) and the reset effect
    (lines 137-139). *)
Definition first_page (page total : nat) : nat := 1.
Definition prev_page (page total : nat) : nat := Nat.max 1 (page - 1).
Definition next_page (page total : nat) : nat := Nat.min total (page + 1).
Definition last_page (page total : nat) : nat := total.
Definition reset_page (page total : nat) : nat := if Nat.ltb total page then 1 else page.

(** The profile fetch (lines 87-98): [{ ...prev, ...res.data }]; every
    field of the answer replaces the one shown. *)
Definition on_profile (r : result unit UProfile) (prev : UProfile) : UProfile :=
  match r with Ok p => p | Err _ => prev end.

End UserProfile.

(** ** [CaretakerProfile.jsx] *)

Module CareProfile.

Record Achievement := mkAchievement { ach_title : string; ach_color : string }.

(** [achievement] (lines 153-168). *)
Definition achievement (totalSessions : Z) : option Achievement :=
  if (100 <=? totalSessions)%Z then Some (mkAchievement "Session Pro Badge" "#FFD700")
  else if (20 <=? totalSessions)%Z then Some (mkAchievement "Active Therapist Badge" "#C0C0C0")
  else None.

(** [completedCount] and [pendingCount] (lines 129-131): patients the
    caretaker chatted with today. *)
Definition completed_count (patients chattedToday : list string) : nat :=
  length (filter (fun p => p ∈ chattedToday) patients).

Definition pending_count (patients chattedToday : list string) : Z :=
  (Z.of_nat (length patients) - Z.of_nat (completed_count patients chattedToday))%Z.

Record CtToday := mkCtToday { ct_sessions : nat; ct_points : Z; ct_chats : nat }.

Section Today.
Variable is_today : nat -> bool.

(** The today effect (lines 110-126): a chat counts as a chat, any other
    activity as a session. *)
Definition ct_today_step (c : CtToday) (a : Activity) : CtToday :=
  if is_today (act_time a) then
    if String.eqb (act_type a) "chat" then mkCtToday (ct_sessions c) (ct_points c) (S (ct_chats c))
    else mkCtToday (S (ct_sessions c)) (ct_points c + points_or_zero (act_points a)) (ct_chats c)
  else c.

Definition ct_today_counts (acts : list Activity) : CtToday := fold_left ct_today_step acts (mkCtToday 0 0 0).

End Today.

(** The activities shown (lines 86-89): the profile's then the
    document's own. *)
Definition stats_activities (profile_acts doc_acts : list Activity) : list Activity := profile_acts ++ doc_acts.

Definition CT_PAGE_SIZE : nat := 5.

Definition ct_total_pages (n : nat) : nat := Nat.max 1 ((n + CT_PAGE_SIZE - 1) / CT_PAGE_SIZE).

(** [pagedOverall] (lines 148-151): sorted newest first by a stable
    sort, then sliced. *)
Definition by_time_desc (a b : Activity) : Prop := act_time b <= act_time a.

#[export] Instance by_time_desc_dec : RelDecision by_time_desc.
Proof. intros a b. unfold by_time_desc. apply _. Defined.

Definition ct_paged (acts : list Activity) (page : nat) : list Activity :=
  js_slice (merge_sort by_time_desc acts) ((page - 1) * CT_PAGE_SIZE) (page * CT_PAGE_SIZE).

(** The page buttons (lines 459-463). *)
Definition ct_page_window (page total : nat) : list nat :=
  filter (fun p => Z.of_nat page - 2 <= Z.of_nat p <= Z.of_nat page + 2)%Z (seq 1 total).

(** [displayInitials] (lines 170-172, 224): the first letters of the
    words of the name, two of them upper-cased; [n[0]] of an empty word
    is [undefined], which [join] writes as nothing. *)
Definition first_char (w : string) : string :=
  match w with String c _ => String c EmptyString | EmptyString => "" end.

Definition display_initials (initials : string) (name : option string) : string :=
  let profileName := match name with Some n => if js_truthy n then n else "Unnamed Caretaker" | None => "Unnamed Caretaker" end in
  let d := if js_truthy initials then initials
           else fold_right String.append "" (first_char <$> js_split " " profileName) in
  let shown := js_to_upper (String.substring 0 2 d) in
  if js_truthy shown then shown else "?".

End CareProfile.

(** ** [CaretakerTrackprogress.jsx] *)

Module Track.

Record UserRow := mkRow { row_name : string; row_profile : option UProfile }.

Definition row_points (u : UserRow) : Z :=
  match row_profile u with Some p => pr_points p | None => 0%Z end.

(** The ranking (lines 60-63): a stable sort by points, highest first. *)
Definition by_points_desc (a b : UserRow) : Prop := (row_points b <= row_points a)%Z.

#[export] Instance by_points_desc_dec : RelDecision by_points_desc.
Proof. intros a b. unfold by_points_desc. apply _. Defined.

Definition ranking (us : list UserRow) : list UserRow := merge_sort by_points_desc us.

(** The level column (lines 157-162). *)
Definition level_name (pts : Z) : string :=
  if (3000 <=? pts)%Z then "Gold" else if (2000 <=? pts)%Z then "Silver"
  else if (1000 <=? pts)%Z then "Bronze" else "Newbie".

(** The pie chart (lines 104-113). *)
Definition in_level (lvl : string) (pts : Z) : bool :=
  if String.eqb lvl "Gold" then (3000 <=? pts)%Z
  else if String.eqb lvl "Silver" then (2000 <=? pts)%Z && (pts <? 3000)%Z
  else if String.eqb lvl "Bronze" then (1000 <=? pts)%Z && (pts <? 2000)%Z
  else (pts <? 1000)%Z.

Definition level_data (us : list UserRow) : list (string * nat) :=
  (fun lvl => (lvl, length (filter (fun u => in_level lvl (row_points u) = true) us))) <$>
  ["Gold"; "Silver"; "Bronze"; "Newbie"]%string.

(** The search box (lines 99-101). *)
Definition filtered_users (search : string) (us : list UserRow) : list UserRow :=
  filter (fun u => js_includes (js_to_lower (row_name u)) (js_to_lower search) = true) us.

(** The table shows the first ten (line 156). *)
Definition table_rows (search : string) (us : list UserRow) : list UserRow :=
  take 10 (filtered_users search (ranking us)).

Section Today.
Variable is_today : nat -> bool.

(** Today's points of a user (lines 67-80). *)
Definition today_points (u : UserRow) : Z :=
  let acts := match row_profile u with Some p => pr_activities p | None => [] end in
  fold_left (fun sum a => sum + points_or_zero (act_points a))%Z
    (filter (fun a => is_today (act_time a) = true) acts) 0%Z.

End Today.

End Track.

(** ** Lemmas *)

Section Ratio.
Local Open Scope Q_scope.

(** A ratio [a / b] of integers with [0 <= a <= b] times 100 lies in
    [0, 100]. *)
Lemma percent_bounds (a b : Z) :
  (0 <= a <= b)%Z -> (0 < b)%Z -> 0 <= inject_Z a / inject_Z b * 100 <= inject_Z 100.
Proof.
  intros Ha Hb.
  assert (Hb' : 0 < inject_Z b) by (change 0 with (inject_Z 0); rewrite <- Zlt_Qlt; lia).
  assert (H0 : 0 <= inject_Z a / inject_Z b).
  { apply Qle_shift_div_l; [done|]. rewrite Qmult_0_l. change 0 with (inject_Z 0). rewrite <- Zle_Qle. lia. }
  assert (H1 : inject_Z a / inject_Z b <= 1).
  { apply Qle_shift_div_r; [done|]. rewrite Qmult_1_l. rewrite <- Zle_Qle. lia. }
  change (inject_Z 100) with 100. lra.
Qed.

End Ratio.

Lemma js_round_percent (a b : Z) :
  (0 <= a <= b)%Z -> (0 < b)%Z -> (0 <= js_round (inject_Z a / inject_Z b * 100) <= 100)%Z.
Proof. intros Ha Hb. destruct (percent_bounds a b Ha Hb). by apply js_round_bounds. Qed.

Module ProfileLemmas.
Import UserProfile.

Lemma level_mono p q : (p <= q)%Z -> (level p <= level q)%Z.
Proof.
  intros Hpq. unfold level, get_badge.
  destruct (3000 <=? p)%Z eqn:E1, (3000 <=? q)%Z eqn:E2, (2000 <=? p)%Z eqn:E3, (2000 <=? q)%Z eqn:E4,
    (1000 <=? p)%Z eqn:E5, (1000 <=? q)%Z eqn:E6; simpl; rewrite ?Z.leb_le, ?Z.leb_gt in *; lia.
Qed.

Lemma js_slice_chunks {A} (l : list A) k m :
  mjoin ((fun i => js_slice l ((i - 1) * k) (i * k)) <$> seq 1 m) = take (m * k) l.
Proof.
  induction m as [|m IH]; [done|].
  rewrite seq_S, fmap_app, join_app, IH. simpl. rewrite app_nil_r. unfold js_slice.
  replace (S m * k - m * k) with k by lia. rewrite Nat.sub_0_r, take_take_drop. f_equal. lia.
Qed.

Lemma total_pages_cover n : n <= total_pages n * PAGE_SIZE.
Proof.
  unfold total_pages, PAGE_SIZE. pose proof (Nat.div_mod (n + 10 - 1) 10 ltac:(lia)) as H.
  pose proof (Nat.mod_upper_bound (n + 10 - 1) 10 ltac:(lia)). lia.
Qed.

(** [lo <= p <= hi] on an interval of [seq]. *)
Lemma filter_seq_interval lo hi s n :
  filter (fun p => lo <= p <= hi) (seq s n) = seq (Nat.max s lo) (Nat.min (s + n) (S hi) - Nat.max s lo).
Proof.
  revert s. induction n as [|n IH]; intros s; simpl.
  - replace (Nat.min (s + 0) (S hi) - Nat.max s lo) with 0 by lia. done.
  - rewrite filter_cons, IH. case_decide as Hs.
    + replace (Nat.min (s + S n) (S hi) - Nat.max s lo) with (S (Nat.min (S s + n) (S hi) - Nat.max (S s) lo)) by lia.
      replace (Nat.max s lo) with s by lia. replace (Nat.max (S s) lo) with (S s) by lia. done.
    + destruct (decide (s < lo)).
      * replace (Nat.max (S s) lo) with (Nat.max s lo) by lia. f_equal. lia.
      * replace (Nat.min (S s + n) (S hi) - Nat.max (S s) lo) with 0 by lia.
        replace (Nat.min (s + S n) (S hi) - Nat.max s lo) with 0 by lia. done.
Qed.

End ProfileLemmas.

(** ** Theorems of [Profile.jsx] *)

Module ProfileTheorems.
Import UserProfile ProfileLemmas.

(** For a non-negative total the progress bar lies between 0 and
    100 at every level. *)
Theorem progress_bounds pts : (0 <= pts)%Z -> (0 <= progress pts <= 100)%Z.
Proof.
  intros Hp. unfold progress, get_badge.
  destruct (3000 <=? pts)%Z eqn:E1; [simpl; lia|].
  destruct (2000 <=? pts)%Z eqn:E2; [|destruct (1000 <=? pts)%Z eqn:E3]; cbn [next_level_points b_level Z.eqb Pos.eqb];
    apply Z.leb_gt in E1; rewrite ?Z.leb_le, ?Z.leb_gt in *.
  - pose proof (Z.rem_bound_pos pts 3000 ltac:(lia) ltac:(lia)).
    pose proof (js_round_percent (Z.rem pts 3000) 3000 ltac:(lia) ltac:(lia)). lia.
  - pose proof (Z.rem_bound_pos pts 2000 ltac:(lia) ltac:(lia)).
    pose proof (js_round_percent (Z.rem pts 2000) 2000 ltac:(lia) ltac:(lia)). lia.
  - change (1000 : Q) with (inject_Z 1000).
    pose proof (js_round_percent pts 1000 ltac:(lia) ltac:(lia)). lia.
Qed.

(** A negative total, which [PUT /api/auth/profile] lets a client store,
    gives a negative progress bar. *)
Lemma progress_negative : progress (-500) = (-50)%Z.
Proof. vm_compute. reflexivity. Qed.

Lemma minutes_of_nonneg js_number v : (0 <= minutes_of js_number v)%Z.
Proof. unfold minutes_of. destruct (number_of js_number v); lia. Qed.

(** A recorded play adds its (non-negative) award to the player's
    points, so the level the profile screen shows never drops after a
    play. *)
Theorem play_never_lowers_level js_number db gs u gid body db' p pts v :
  find_user u (users db) = Some v ->
  play_game js_number db gs (Some u) gid body = (db', Ok (p, pts)) ->
  (0 <= pts)%Z /\ pr_points p = (pr_points (u_profile v) + pts)%Z /\
  (level (pr_points (u_profile v)) <= level (pr_points p))%Z.
Proof.
  intros Hv (d & v' & act & Hv' & -> & ->)%play_game_Ok. rewrite Hv in Hv'. injection Hv' as <-.
  pose proof (computed_points_range d _ (minutes_of_nonneg js_number (pb_minutes body))) as [H0 _].
  cbn [pr_points bump_profile]. split_and!; [done|done|]. apply level_mono. lia.
Qed.

(** The pages of the activity feed, in order, are the whole log
    newest first, each activity exactly once, at most ten per page. *)
Theorem pages_partition acts :
  mjoin (paged acts <$> seq 1 (total_pages (length acts))) = rev acts /\
  forall i, length (paged acts i) <= PAGE_SIZE.
Proof.
  split.
  - etransitivity; [apply (js_slice_chunks (rev acts) PAGE_SIZE)|].
    apply take_ge. rewrite length_rev. apply total_pages_cover.
  - intros i. unfold paged, js_slice, PAGE_SIZE. rewrite length_take. lia.
Qed.

(** The two profile screens compute their page buttons
    differently ([slice] of the page numbers in [Profile.jsx], a
    [filter] in [CaretakerProfile.jsx]) but show the same buttons: the
    pages within two of the current one. *)
Theorem page_window_equiv page total :
  page_window page total = CareProfile.ct_page_window page total.
Proof.
  unfold page_window, CareProfile.ct_page_window, js_slice.
  rewrite drop_seq, take_seq.
  rewrite (list_filter_iff _ (fun p => page - 2 <= p <= page + 2)) by (intros; lia).
  rewrite filter_seq_interval. f_equal; lia.
Qed.

End ProfileTheorems.

(** ** Theorems of [CaretakerTrackprogress.jsx] *)

Module TrackTheorems.
Import Track.

(** The rank a level name stands for, as [Profile.jsx] numbers them. *)
Definition level_rank (n : string) : Z :=
  if String.eqb n "Gold" then 4 else if String.eqb n "Silver" then 3
  else if String.eqb n "Bronze" then 2 else 1.

Lemma level_data_cons u us :
  foldr Nat.add 0 ((level_data (u :: us)).*2) = S (foldr Nat.add 0 ((level_data us).*2)).
Proof.
  unfold level_data. cbn [fmap list_fmap foldr fst snd]. rewrite !filter_cons. unfold in_level. cbn [String.eqb].
  destruct (3000 <=? row_points u)%Z eqn:E1, (2000 <=? row_points u)%Z eqn:E2, (row_points u <? 3000)%Z eqn:E3,
    (1000 <=? row_points u)%Z eqn:E4, (row_points u <? 2000)%Z eqn:E5, (row_points u <? 1000)%Z eqn:E6;
    rewrite ?Z.leb_le, ?Z.leb_gt, ?Z.ltb_lt, ?Z.ltb_ge in *; try lia; simpl; lia.
Qed.

(** The tracking screen classifies points consistently: the four
    slices of the level chart count every user exactly once, each user's
    level column names the slice they fall in, and that level is the one
    the user's own profile screen shows. *)
Theorem track_levels_consistent us :
  foldr Nat.add 0 ((level_data us).*2) = length us /\
  forall pts, in_level (level_name pts) pts = true /\ level_rank (level_name pts) = UserProfile.level pts.
Proof.
  split.
  - induction us as [|u us IH]; [done|]. rewrite level_data_cons, IH. done.
  - intros pts. unfold in_level, level_name, level_rank, UserProfile.level, UserProfile.get_badge.
    destruct (3000 <=? pts)%Z eqn:E1; [done|]. destruct (2000 <=? pts)%Z eqn:E2.
    + cbn. apply Z.leb_gt in E1. by rewrite (proj2 (Z.ltb_lt pts 3000) E1).
    + destruct (1000 <=? pts)%Z eqn:E3; cbn; apply Z.leb_gt in E2; [by rewrite (proj2 (Z.ltb_lt pts 2000) E2)|].
      apply Z.leb_gt in E3. by rewrite (proj2 (Z.ltb_lt pts 1000) E3).
Qed.

#[export] Instance by_points_desc_total : Total by_points_desc.
Proof. intros a b. unfold by_points_desc. lia. Qed.

(** The ranking lists the same users, highest points first. *)
Lemma ranking_sorted us : Sorted by_points_desc (ranking us) /\ ranking us ≡ₚ us.
Proof. split; [apply Sorted_merge_sort; apply _|apply merge_sort_Permutation]. Qed.

End TrackTheorems.

(** ** Theorems of [CaretakerProfile.jsx] *)

Module CareProfileTheorems.
Import CareProfile.

Definition sessions (c : CaretakerRec) : Z := cp_totalSessions (cr_profile c).

Lemma update_caretaker_sessions id f cs c' :
  (forall d, sessions (f d) = sessions d) ->
  c' ∈ update_caretaker id f cs -> exists c, c ∈ cs /\ sessions c' = sessions c.
Proof.
  intros Hf (d & Hd & ->)%elem_of_update_caretaker. exists d. split; [done|].
  by destruct (String.eqb _ _).
Qed.

Section Steps.
Context `{Bcrypt} `{JwtSigner}.
Variable secret : option string.

(** No routed handler writes [totalSessions]. *)
Lemma ct_step_sessions cs cs' c' :
  ct_step secret cs cs' -> c' ∈ cs' -> exists c, c ∈ cs /\ sessions c' = sessions c.
Proof.
  destruct 1 as [cs ci pi|cs now e p|cs u b|cs now u]; simpl.
  - unfold assign_patient. repeat case_match; simpl; try (intros; by exists c');
      apply update_caretaker_sessions; done.
  - unfold caretaker_login. repeat case_match; simpl; try (intros; by exists c');
      apply update_caretaker_sessions; done.
  - unfold put_caretaker_settings. repeat case_match; simpl; try (intros; by exists c');
      apply update_caretaker_sessions; done.
  - apply update_caretaker_sessions. done.
Qed.

(** C37: [totalSessions] is never written by the caretaker routes, so
    from a collection where every caretaker has fewer than 20 sessions
    (the default is 0) the achievement of [CaretakerProfile.jsx] is
    never awarded, whatever logins, assignments, settings changes and
    chat messages happen. *)
Theorem caretaker_achievement_unreachable cs cs' :
  rtc (ct_step secret) cs cs' -> Forall (fun c => (sessions c < 20)%Z) cs ->
  forall c, c ∈ cs' -> achievement (sessions c) = None.
Proof.
  intros Hrtc Hcs. assert (Hinv : Forall (fun c => (sessions c < 20)%Z) cs').
  { induction Hrtc as [cs|cs cs1 cs2 Hstep _ IH]; [done|]. apply IH.
    apply Forall_forall. intros c1 Hc1. destruct (ct_step_sessions _ _ _ Hstep Hc1) as (c & Hc & ->).
    by eapply Forall_forall in Hcs. }
  intros c Hc. eapply Forall_forall in Hinv; [|done]. unfold achievement.
  destruct (100 <=? sessions c)%Z eqn:E1; [apply Z.leb_le in E1; lia|].
  destruct (20 <=? sessions c)%Z eqn:E2; [apply Z.leb_le in E2; lia|done].
Qed.

End Steps.

End CareProfileTheorems.

(** ** Concrete inputs *)

Module ProfilesWitness.
Import Codec AccountWitness GamesWitness CaretakerWitness UserProfile ProfileTheorems CareProfileTheorems.

#[local] Instance bcrypt_2b' : Bcrypt := demo_bcrypt "$2b$".

Lemma progress_bounds_witness : (0 <= progress 2500 <= 100)%Z.
Proof. apply progress_bounds. lia. Defined.

Definition w_play_body : PlayBody := mkPlayBody (JNum (inject_Z 30)) JUndef None.

Lemma play_never_lowers_level_witness :
  match play_game js_number_dec w_db1 [w_game] (Some (oid_of 0)) "1" w_play_body with
  | (_, Ok (p, pts)) => (0 <= pts)%Z /\ pr_points p = (pr_points (u_profile w_alice) + pts)%Z /\
                        (level (pr_points (u_profile w_alice)) <= level (pr_points p))%Z
  | _ => False
  end.
Proof.
  generalize (play_never_lowers_level js_number_dec w_db1 [w_game] (oid_of 0) "1" w_play_body).
  destruct (play_game js_number_dec w_db1 [w_game] (Some (oid_of 0)) "1" w_play_body) as [db' [[p pts]|e]] eqn:E.
  - intros H. apply (H db' p pts w_alice); [vm_compute; reflexivity|reflexivity].
  - vm_compute in E. discriminate.
Defined.

Lemma caretaker_achievement_unreachable_witness :
  CareProfile.achievement (sessions (hd w_carl (ct_update_profile [w_carl] 5 (cr_id w_carl)).1)) = None.
Proof.
  refine (caretaker_achievement_unreachable (Some w_key) [w_carl] (ct_update_profile [w_carl] 5 (cr_id w_carl)).1
            _ _ _ _).
  - apply rtc_once. constructor.
  - constructor; [vm_compute; reflexivity|constructor].
  - apply list_elem_of_In. vm_compute. left. reflexivity.
Defined.

End ProfilesWitness.
