(* ===== verification/Client.v ===== *)
(** * Client Relay Adapter: the user chat screen [Pages/Chat.jsx]

    The React component [Chat] keeps its state in [useState] hooks
    ([users], [caretakers], [activeUser], [messages], [aiMessages],
    [isLoadingMessages], [socket], [newMessage]) and reacts to three kinds
    of input: socket events ([receive_message]), user actions (typing,
    submitting, clicking a contact) and HTTP responses.  Two effects run
    after a render when their dependencies change:

    - the socket effect (deps [[currentUserId, caretakers]], lines
      112-185): disconnect the previous socket, open a new one with the
      stored token and register the [receive_message] handler;
    - the history effect (deps [[activeUser]], lines 219-242): cancel the
      previous load, clear the list and fetch the conversation.

    The model ([Client]) is that state, with the generation numbers that
    identify the current socket and the current history load (the
    [cancelled] flag of the effect's closure), and the component's
    outputs ([Output]: socket emits, HTTP requests, connections opened and
    closed).  Each handler is a function [Client -> Client * list Output];
    a state update that React would see as a change of [caretakers]
    (a new array: [bump] found the contact) runs the socket effect, and
    every [setActiveUser] runs the history effect. *)

From Stdlib Require Import Ascii String.
From stdpp Require Import base list strings.
From S2P Require Import Prelude JsString Store Gateway Relay.

(** ** State *)

(** An entry of the contact lists: the API's user or caretaker document
    with the [type] tag the screen adds and the fields it maintains. *)
Record Contact := mkContact {
  ct_id : string;
  ct_name : string;
  ct_type : string;              (** ["user"], ["caretaker"] or ["ai"] *)
  ct_hasNewMsg : bool;
  ct_last : option nat;          (** [lastMessageTime] *)
}.

(** An entry of [messages]: a document from the server, or the optimistic
    copy of a message being sent ([_id: `local-${Date.now()}`]). *)
Inductive UiMsg :=
| UiChat (c : Chat)
| UiLocal (at_ : nat) (snd : option string) (rcv : string) (text : string).

Record AiMsg := mkAiMsg { ai_role : string; ai_text : string; ai_at : nat }.

Record Client := mkClient {
  ui_me : option string;           (** [currentUserId] from localStorage *)
  ui_token : option string;        (** [localStorage.getItem("token")] *)
  ui_users : list Contact;
  ui_caretakers : list Contact;
  ui_active : option Contact;
  ui_messages : list UiMsg;
  ui_ai : list AiMsg;
  ui_loading : bool;
  ui_socket : option nat;          (** the live socket, by generation *)
  ui_socket_gen : nat;             (** sockets opened so far *)
  ui_load_gen : nat;               (** runs of the history effect *)
  ui_draft : string;               (** [newMessage] *)
}.

Inductive Output :=
| OConnect (gen : nat) (token : string)
| ODisconnect (gen : nat)
| OEmitSend (gen : nat) (p : Payload)
| OPostUpdateProfile (receiverId : string) (text : string)
| OGetMessages (gen : nat) (id : string) (ty : string)
| OAiPost (history : list (string * string)).

#[export] Instance Contact_eq_dec : EqDecision Contact.
Proof. solve_decision. Defined.

(** ** Setters (one [useState] setter each) *)

Definition set_users u st := mkClient (ui_me st) (ui_token st) u (ui_caretakers st) (ui_active st)
  (ui_messages st) (ui_ai st) (ui_loading st) (ui_socket st) (ui_socket_gen st) (ui_load_gen st) (ui_draft st).
Definition set_caretakers c st := mkClient (ui_me st) (ui_token st) (ui_users st) c (ui_active st)
  (ui_messages st) (ui_ai st) (ui_loading st) (ui_socket st) (ui_socket_gen st) (ui_load_gen st) (ui_draft st).
Definition set_active a st := mkClient (ui_me st) (ui_token st) (ui_users st) (ui_caretakers st) a
  (ui_messages st) (ui_ai st) (ui_loading st) (ui_socket st) (ui_socket_gen st) (ui_load_gen st) (ui_draft st).
Definition set_messages m st := mkClient (ui_me st) (ui_token st) (ui_users st) (ui_caretakers st) (ui_active st)
  m (ui_ai st) (ui_loading st) (ui_socket st) (ui_socket_gen st) (ui_load_gen st) (ui_draft st).
Definition set_ai a st := mkClient (ui_me st) (ui_token st) (ui_users st) (ui_caretakers st) (ui_active st)
  (ui_messages st) a (ui_loading st) (ui_socket st) (ui_socket_gen st) (ui_load_gen st) (ui_draft st).
Definition set_loading b st := mkClient (ui_me st) (ui_token st) (ui_users st) (ui_caretakers st) (ui_active st)
  (ui_messages st) (ui_ai st) b (ui_socket st) (ui_socket_gen st) (ui_load_gen st) (ui_draft st).
Definition set_socket s g st := mkClient (ui_me st) (ui_token st) (ui_users st) (ui_caretakers st) (ui_active st)
  (ui_messages st) (ui_ai st) (ui_loading st) s g (ui_load_gen st) (ui_draft st).
Definition set_load_gen g st := mkClient (ui_me st) (ui_token st) (ui_users st) (ui_caretakers st) (ui_active st)
  (ui_messages st) (ui_ai st) (ui_loading st) (ui_socket st) (ui_socket_gen st) g (ui_draft st).
Definition set_draft d st := mkClient (ui_me st) (ui_token st) (ui_users st) (ui_caretakers st) (ui_active st)
  (ui_messages st) (ui_ai st) (ui_loading st) (ui_socket st) (ui_socket_gen st) (ui_load_gen st) d.

(** ** The two effects *)

(** The socket effect: the cleanup of the previous run ([s.disconnect()],
    [setSocket(null)]), then [if (!token) return], else a new connection
    [io(socketUrl, { auth: { token } })]. *)
Definition socket_effect (st : Client) : Client * list Output :=
  let cleanup := match ui_socket st with Some g => [ODisconnect g] | None => [] end in
  match ui_token st with
  | Some t =>
      if js_truthy t then
        let g := S (ui_socket_gen st) in
        (set_socket (Some g) g st, cleanup ++ [OConnect g t])
      else (set_socket None (ui_socket_gen st) st, cleanup)
  | None => (set_socket None (ui_socket_gen st) st, cleanup)
  end.

(** The history effect: the cleanup of the previous run sets its
    [cancelled]; then [if (!activeUser) return; if (type === "ai") return;]
    [setIsLoadingMessages(true); setMessages([])] and the request. *)
Definition history_effect (st : Client) : Client * list Output :=
  let st := set_load_gen (S (ui_load_gen st)) st in
  match ui_active st with
  | None => (st, [])
  | Some a =>
      if String.eqb (ct_type a) "ai" then (st, [])
      else
        let ty := if String.eqb (ct_type a) "caretaker" then "caretaker" else "user" in
        (set_messages [] (set_loading true st), [OGetMessages (ui_load_gen st) (ct_id a) ty])
  end.

(** Run the socket effect when [caretakers] changed. *)
Definition after_caretakers (changed : bool) (r : Client * list Output) : Client * list Output :=
  if changed then let '(st', o) := socket_effect r.1 in (st', r.2 ++ o) else r.

(** Run the history effect after a [setActiveUser]. *)
Definition after_active (r : Client * list Output) : Client * list Output :=
  let '(st', o) := history_effect r.1 in (st', r.2 ++ o).

(** ** Handlers *)

Definition same_id (id : string) (c : Contact) : bool := String.eqb (ct_id c) id.

(** [findIndex] found the contact: [setX(prev => ...)] returns a new array. *)
Definition bump_changes (id : string) (l : list Contact) : bool :=
  match find_index (same_id id) l with Some _ => true | None => false end.

Definition mark_unread (at_ : nat) (c : Contact) : Contact :=
  mkContact (ct_id c) (ct_name c) (ct_type c) true (Some at_).

Definition clear_unread (c : Contact) : Contact :=
  mkContact (ct_id c) (ct_name c) (ct_type c) false (ct_last c).

(** [s.on("receive_message", (chat) => {...})] (lines 127-175), for the
    socket of generation [g]: a socket that was disconnected has no
    handler any more. *)
Definition on_receive (st : Client) (g : nat) (c : Chat) : Client * list Output :=
  if negb (bool_decide (ui_socket st = Some g)) then (st, [])
  else
    let senderId := sender c in
    if negb (js_truthy senderId) then (st, [])
    else if String.eqb senderId (js_String (ui_me st)) then (st, [])
    else
      let isCaretaker := existsb (same_id senderId) (ui_caretakers st) in
      let st1 := set_messages (ui_messages st ++ [UiChat c]) st in
      let st2 := set_users (bump (same_id senderId) (mark_unread (createdAt c)) (ui_users st1)) st1 in
      if isCaretaker then
        after_caretakers (bump_changes senderId (ui_caretakers st2))
          (set_caretakers (bump (same_id senderId) (mark_unread (createdAt c)) (ui_caretakers st2)) st2, [])
      else (st2, []).

(** [handleSendToSocket(text)] (lines 248-294), at time [now]. *)
Definition send_to_socket (st : Client) (text : string) (now : nat) : Client * list Output :=
  match ui_socket st, ui_active st with
  | Some g, Some a =>
      let payload := mkPayload (Some (ct_id a)) (Some (js_to_lower (ct_type a))) (Some text) in
      let st1 := set_messages (ui_messages st ++ [UiLocal now (ui_me st) (ct_id a) text]) st in
      let upd c := mkContact (ct_id c) (ct_name c) (ct_type c) false (Some now) in
      let st2 := set_users (bump (same_id (ct_id a)) upd (ui_users st1)) st1 in
      (st2, [OEmitSend g payload; OPostUpdateProfile (ct_id a) text])
  | _, _ => (st, [])
  end.

(** [handleAiSend(text)] (lines 296-303): the user's line, then the
    request with the whole conversation. *)
Definition ai_send (st : Client) (text : string) (now : nat) : Client * list Output :=
  let hist := (fun m => (ai_role m, ai_text m)) <$> ui_ai st in
  (set_ai (ui_ai st ++ [mkAiMsg "user" text now]) st, [OAiPost (hist ++ [("user", text)])]).

(** The answer of the assistant (lines 304-335): [None] is a failed
    request, [Some r] the [message.content] (or [reply]) of the response. *)
Definition on_ai_reply (st : Client) (r : option (option string)) (now : nat) : Client * list Output :=
  let text := match r with
              | None => "AI is unavailable right now."
              | Some (Some s) => if js_truthy s then s else "Sorry, I couldn't process that."
              | Some None => "Sorry, I couldn't process that."
              end in
  (set_ai (ui_ai st ++ [mkAiMsg "assistant" text now]) st, []).

(** [handleSend] (lines 337-347). *)
Definition handle_send (st : Client) (now : nat) : Client * list Output :=
  let text := js_trim (ui_draft st) in
  match ui_active st with
  | Some a =>
      if negb (js_truthy text) then (st, [])
      else
        let '(st', o) := if String.eqb (ct_type a) "ai" then ai_send st text now
                         else send_to_socket st text now in
        (set_draft "" st', o)
  | None => (st, [])
  end.

(** A click on a user of the sidebar (lines 436-452). *)
Definition select_user (st : Client) (u : Contact) : Client * list Output :=
  let a := mkContact (ct_id u) (ct_name u) "user" (ct_hasNewMsg u) (ct_last u) in
  after_active (set_users (bump (same_id (ct_id u)) clear_unread (ui_users st)) (set_active (Some a) st), []).

(** A click on a caretaker of the sidebar (lines 510-545). *)
Definition select_caretaker (st : Client) (c : Contact) : Client * list Output :=
  let a := mkContact (ct_id c) (ct_name c) "caretaker" (ct_hasNewMsg c) (ct_last c) in
  let st1 := set_active (Some a) st in
  let st2 := set_caretakers (bump (same_id (ct_id c)) clear_unread (ui_caretakers st1)) st1 in
  let st3 := set_users (bump (same_id (ct_id c)) clear_unread (ui_users st2)) st2 in
  after_active (after_caretakers (bump_changes (ct_id c) (ui_caretakers st)) (st3, [])).

(** A click on the assistant (lines 610-616). *)
Definition ai_contact : Contact := mkContact "ai" "MindMate AI" "ai" false None.

Definition select_ai (st : Client) : Client * list Output :=
  after_active (set_active (Some ai_contact) st, []).

(** The response of a history load (lines 228-236): only the load of the
    current run of the effect is applied ([if (!cancelled)]); it replaces
    the list; a failed request leaves it empty. *)
Definition on_history (st : Client) (gen : nat) (res : option (list Chat)) : Client * list Output :=
  if Nat.eqb gen (ui_load_gen st) then
    let st1 := match res with Some docs => set_messages (UiChat <$> docs) st | None => st end in
    (set_loading false st1, [])
  else (st, []).

(** The lists loaded on mount (lines 188-215): users then caretakers in
    one list, caretakers alone in the other, and the caretaker passed in
    the location state opened. *)
Definition on_lists (st : Client) (us cs : list Contact) (pre : option string) : Client * list Output :=
  let tag t c := mkContact (ct_id c) (ct_name c) t (ct_hasNewMsg c) (ct_last c) in
  let mu := tag "user" <$> us in
  let mc := tag "caretaker" <$> cs in
  let st1 := set_caretakers mc (set_users (mu ++ mc) st) in
  let r := after_caretakers true (st1, []) in
  match pre with
  | Some pid =>
      match list_find (fun c => ct_id c = pid) mc with
      | Some (_, found) => after_active (set_active (Some (tag "caretaker" found)) r.1, r.2)
      | None => r
      end
  | None => r
  end.

(** What the conversation pane shows (lines 777-801). *)
Definition visible_messages (st : Client) : option (list UiMsg) :=
  match ui_active st with
  | None => None
  | Some a =>
      if String.eqb (ct_type a) "ai" then None
      else if ui_loading st then Some []
      else Some (ui_messages st)
  end.

(** ** Events of the screen *)

Inductive UiEvent :=
| UReceive (gen : nat) (c : Chat)
| UType (s : string)
| USubmit (now : nat)
| USelectUser (u : Contact)
| USelectCaretaker (c : Contact)
| USelectAi
| UHistory (gen : nat) (res : option (list Chat))
| ULists (us cs : list Contact) (pre : option string)
| UAiReply (r : option (option string)) (now : nat).

Definition client_step (st : Client) (ev : UiEvent) : Client * list Output :=
  match ev with
  | UReceive g c => on_receive st g c
  | UType s => (set_draft s st, [])
  | USubmit now => handle_send st now
  | USelectUser u => select_user st u
  | USelectCaretaker c => select_caretaker st c
  | USelectAi => select_ai st
  | UHistory g res => on_history st g res
  | ULists us cs pre => on_lists st us cs pre
  | UAiReply r now => on_ai_reply st r now
  end.

(** Mounting the screen: the socket effect runs once. *)
Definition client_mount (me token : option string) : Client * list Output :=
  socket_effect (mkClient me token [] [] None [] [] false None 0 0 "").

(** ** Lemmas *)

Lemma socket_effect_fields st :
  let st' := (socket_effect st).1 in
  ui_users st' = ui_users st /\ ui_caretakers st' = ui_caretakers st /\
  ui_active st' = ui_active st /\ ui_messages st' = ui_messages st /\
  ui_loading st' = ui_loading st /\ ui_draft st' = ui_draft st /\ ui_load_gen st' = ui_load_gen st.
Proof.
  unfold socket_effect. destruct (ui_token st) as [t|]; [destruct (js_truthy t)|]; done.
Qed.

Lemma history_effect_fields st :
  let st' := (history_effect st).1 in
  ui_users st' = ui_users st /\ ui_caretakers st' = ui_caretakers st /\
  ui_active st' = ui_active st /\ ui_draft st' = ui_draft st /\ ui_socket st' = ui_socket st.
Proof.
  unfold history_effect. simpl.
  destruct (ui_active st) as [a|] eqn:Ha; [destruct (String.eqb (ct_type a) "ai")|];
    simpl; rewrite ?Ha; auto.
Qed.

Lemma after_caretakers_fields b r :
  let st' := (after_caretakers b r).1 in
  ui_users st' = ui_users r.1 /\ ui_caretakers st' = ui_caretakers r.1 /\
  ui_active st' = ui_active r.1 /\ ui_messages st' = ui_messages r.1 /\
  ui_loading st' = ui_loading r.1 /\ ui_draft st' = ui_draft r.1 /\ ui_load_gen st' = ui_load_gen r.1.
Proof.
  unfold after_caretakers. destruct b; [|done].
  destruct (socket_effect r.1) as [st' o] eqn:E. simpl.
  pose proof (socket_effect_fields r.1) as H. rewrite E in H. exact H.
Qed.

Lemma after_active_fields r :
  let st' := (after_active r).1 in
  ui_users st' = ui_users r.1 /\ ui_caretakers st' = ui_caretakers r.1 /\
  ui_active st' = ui_active r.1 /\ ui_draft st' = ui_draft r.1 /\ ui_socket st' = ui_socket r.1.
Proof.
  unfold after_active. destruct (history_effect r.1) as [st' o] eqn:E. simpl.
  pose proof (history_effect_fields r.1) as H. rewrite E in H. exact H.
Qed.

(** The guards of the [receive_message] handler passed. *)
Definition receive_accepted (st : Client) (g : nat) (c : Chat) : Prop :=
  ui_socket st = Some g /\ js_truthy (sender c) = true /\ sender c <> js_String (ui_me st).

Lemma on_receive_accepted st g c :
  receive_accepted st g c ->
  on_receive st g c =
    let st1 := set_messages (ui_messages st ++ [UiChat c]) st in
    let st2 := set_users (bump (same_id (sender c)) (mark_unread (createdAt c)) (ui_users st1)) st1 in
    if existsb (same_id (sender c)) (ui_caretakers st) then
      after_caretakers (bump_changes (sender c) (ui_caretakers st2))
        (set_caretakers (bump (same_id (sender c)) (mark_unread (createdAt c)) (ui_caretakers st2)) st2, [])
    else (st2, []).
Proof.
  intros (Hs & Ht & Hne). unfold on_receive. rewrite Hs, bool_decide_eq_true_2 by done. simpl.
  rewrite Ht. simpl. destruct (String.eqb_spec (sender c) (js_String (ui_me st))); [done|].
  reflexivity.
Qed.

Lemma same_id_true id c : same_id id c = true <-> ct_id c = id.
Proof. unfold same_id. apply String.eqb_eq. Qed.

Lemma existsb_same_id id l : existsb (same_id id) l = true <-> exists x, x ∈ l /\ ct_id x = id.
Proof.
  rewrite existsb_exists. split.
  - intros (x & Hx & Hs). exists x. rewrite list_elem_of_In, <- same_id_true. done.
  - intros (x & Hx & Hs). exists x. rewrite <- list_elem_of_In, same_id_true. done.
Qed.

Lemma bump_changes_true id l : (exists x, x ∈ l /\ ct_id x = id) -> bump_changes id l = true.
Proof.
  intros (x & Hx & Hid). unfold bump_changes.
  destruct (find_index _ _) eqn:E; [done|]. apply find_index_None in E.
  rewrite Forall_forall in E. specialize (E x Hx). apply not_true_iff_false in E.
  exfalso. apply E, same_id_true, Hid.
Qed.

#[export] Hint Resolve socket_effect_fields history_effect_fields : mm.

(** The ids of both contact lists, up to order. *)
Definition same_contacts (st st' : Client) : Prop :=
  ct_id <$> ui_users st' ≡ₚ ct_id <$> ui_users st /\
  ct_id <$> ui_caretakers st' ≡ₚ ct_id <$> ui_caretakers st.

Lemma same_contacts_refl st : same_contacts st st.
Proof. split; done. Qed.

Lemma same_contacts_trans a b c : same_contacts a b -> same_contacts b c -> same_contacts a c.
Proof. intros [H1 H2] [H3 H4]. split; etrans; eauto. Qed.

Lemma bump_ids id f l : (forall c, ct_id (f c) = ct_id c) ->
  ct_id <$> bump (same_id id) f l ≡ₚ ct_id <$> l.
Proof. intros Hf. rewrite !list_fmap_alt. by apply bump_keys. Qed.

Lemma same_contacts_after_caretakers b r :
  same_contacts r.1 (after_caretakers b r).1.
Proof.
  unfold same_contacts. destruct (after_caretakers_fields b r) as (-> & -> & _). done.
Qed.

Lemma same_contacts_after_active r : same_contacts r.1 (after_active r).1.
Proof. unfold same_contacts. destruct (after_active_fields r) as (-> & -> & _). done. Qed.

#[local] Hint Resolve same_contacts_refl same_contacts_after_caretakers
  same_contacts_after_active : mm.

(** ** Theorems *)

(** The client drops its own echo.  The relay emits every persisted
    message to the sender's room too; the screen ignores an event whose
    sender is the current user, leaving its state untouched.  So the
    optimistic copy is never followed by the server's copy, and another
    open tab of the sender does not show the message either. *)
Theorem own_echo_ignored st g c :
  sender c = js_String (ui_me st) -> on_receive st g c = (st, []).
Proof.
  intros Hs. unfold on_receive. destruct (bool_decide _); simpl; [|done].
  destruct (js_truthy (sender c)); simpl; [|done]. by rewrite Hs, String.eqb_refl.
Qed.

(** C39: a message from someone else is appended to the open
    conversation's list whoever the open conversation is with, and the
    pane shows it: the handler never compares the sender with
    [activeUser]. *)
Theorem received_message_shown_in_open_conversation st g c a :
  receive_accepted st g c ->
  ui_active st = Some a -> ct_type a <> "ai"%string -> ui_loading st = false ->
  ui_messages (on_receive st g c).1 = ui_messages st ++ [UiChat c] /\
  visible_messages (on_receive st g c).1 = Some (ui_messages st ++ [UiChat c]).
Proof.
  intros Hacc Ha Hty Hl. rewrite on_receive_accepted by done. cbv zeta. unfold visible_messages.
  destruct (existsb _ _).
  - match goal with |- context [after_caretakers ?b ?r] =>
      destruct (after_caretakers_fields b r) as (_ & _ & -> & -> & -> & _) end.
    simpl. rewrite Ha, Hl. destruct (String.eqb_spec (ct_type a) "ai"); done.
  - simpl. rewrite Ha, Hl. destruct (String.eqb_spec (ct_type a) "ai"); done.
Qed.

(** A message from a listed contact marks that contact as having
    unread messages, with the message's time, and moves it to the front of
    the combined list; the others keep their order. *)
Theorem received_message_bumps_sender st g c x :
  receive_accepted st g c -> x ∈ ui_users st -> ct_id x = sender c ->
  exists pre y post,
    ui_users st = pre ++ y :: post /\ ct_id y = sender c /\
    Forall (fun z => ct_id z <> sender c) pre /\
    ui_users (on_receive st g c).1 = mark_unread (createdAt c) y :: pre ++ post.
Proof.
  intros Hacc Hx Hid. rewrite on_receive_accepted by done.
  destruct (bump_found (same_id (sender c)) (mark_unread (createdAt c)) (ui_users st) x)
    as (pre & y & post & Hsplit & Hpre & Hy & Hb); [done|by apply same_id_true|].
  exists pre, y, post. split_and!; [done|by apply same_id_true| |].
  - eapply Forall_impl; [done|]. intros z Hz Heq. apply same_id_true in Heq. congruence.
  - cbv zeta. destruct (existsb _ _).
    + match goal with |- context [after_caretakers ?b ?r] =>
        destruct (after_caretakers_fields b r) as (-> & _) end. simpl. done.
    + simpl. done.
Qed.

(** C40: every message from a caretaker of the list tears the connection
    down and opens a new one: [setCaretakers] returns a new array, which
    is a dependency of the socket effect, whose cleanup disconnects the
    socket before the body connects again.  Events emitted to the user's
    room in between reach no socket of this screen. *)
Theorem caretaker_message_reconnects st g c x t :
  receive_accepted st g c -> x ∈ ui_caretakers st -> ct_id x = sender c ->
  ui_token st = Some t -> js_truthy t = true ->
  (on_receive st g c).2 = [ODisconnect g; OConnect (S (ui_socket_gen st)) t] /\
  ui_socket (on_receive st g c).1 = Some (S (ui_socket_gen st)).
Proof.
  intros Hacc Hx Hid Ht Htr. rewrite on_receive_accepted by done.
  rewrite (proj2 (existsb_same_id _ _)) by eauto. simpl.
  rewrite bump_changes_true by eauto.
  unfold after_caretakers, socket_effect. simpl. destruct Hacc as (-> & _). rewrite Ht, Htr. done.
Qed.

(** Submitting a non-blank draft in a conversation with a user or a
    caretaker, while the socket is up: the trimmed text is shown at once
    as an optimistic message, the contact moves to the front, the draft is
    cleared, and exactly one ["send_message"] is emitted on the live socket
    — with the contact's id as [receiver] and its lower-cased type — then
    the profile counter is posted. *)
Theorem submit_sends_once st now a g :
  ui_active st = Some a -> ct_type a <> "ai"%string -> ui_socket st = Some g ->
  js_trim (ui_draft st) <> ""%string ->
  let text := js_trim (ui_draft st) in
  handle_send st now =
    (set_draft ""
       (set_users (bump (same_id (ct_id a))
                     (fun c => mkContact (ct_id c) (ct_name c) (ct_type c) false (Some now))
                     (ui_users st))
          (set_messages (ui_messages st ++ [UiLocal now (ui_me st) (ct_id a) text]) st)),
     [OEmitSend g (mkPayload (Some (ct_id a)) (Some (js_to_lower (ct_type a))) (Some text));
      OPostUpdateProfile (ct_id a) text]).
Proof.
  intros Ha Hty Hs Ht text. unfold handle_send. rewrite Ha.
  replace (js_truthy (js_trim (ui_draft st))) with true by (subst text; by destruct (js_trim _)).
  simpl. destruct (String.eqb_spec (ct_type a) "ai"); [done|].
  unfold send_to_socket. by rewrite Hs, Ha.
Qed.

(** A blank draft (empty or white space only) does nothing: no
    message, no emit, and the draft stays as typed. *)
Theorem submit_blank_noop st now :
  Forall (fun ch => is_js_space ch = true) (list_ascii_of_string (ui_draft st)) ->
  handle_send st now = (st, []).
Proof.
  intros Hb. apply js_trim_empty_iff in Hb. unfold handle_send. rewrite Hb.
  by destruct (ui_active st).
Qed.

(** A message submitted while the screen has no socket (no token,
    or between a disconnect and the next connection) is lost: the draft
    is cleared, but nothing is shown, emitted or stored, and no error is
    reported. *)
Theorem submit_without_socket_lost st now a :
  ui_active st = Some a -> ct_type a <> "ai"%string -> ui_socket st = None ->
  js_trim (ui_draft st) <> ""%string ->
  handle_send st now = (set_draft "" st, []).
Proof.
  intros Ha Hty Hs Ht. unfold handle_send. rewrite Ha.
  replace (js_truthy (js_trim (ui_draft st))) with true by (by destruct (js_trim _)).
  simpl. destruct (String.eqb_spec (ct_type a) "ai"); [done|].
  unfold send_to_socket. by rewrite Hs.
Qed.

(** Opening a conversation with a listed user clears its unread mark
    and moves it to the front, empties the message list, shows the
    spinner, and requests that conversation's history under a new load
    number (which makes any earlier pending load stale). *)
Theorem select_user_fetches_history st u x :
  x ∈ ui_users st -> ct_id x = ct_id u ->
  exists pre y post,
    ui_users st = pre ++ y :: post /\ ct_id y = ct_id u /\
    let r := select_user st u in
    ui_users r.1 = clear_unread y :: pre ++ post /\
    ui_messages r.1 = [] /\ ui_loading r.1 = true /\ ui_load_gen r.1 = S (ui_load_gen st) /\
    r.2 = [OGetMessages (S (ui_load_gen st)) (ct_id u) "user"].
Proof.
  intros Hx Hid.
  destruct (bump_found (same_id (ct_id u)) clear_unread (ui_users st) x)
    as (pre & y & post & Hsplit & _ & Hy & Hb); [done|by apply same_id_true|].
  exists pre, y, post. split_and!; [done|by apply same_id_true|]. simpl.
  unfold select_user, after_active, history_effect. simpl. rewrite Hb. done.
Qed.

(** A history response is applied only if it answers the current
    load: a stale one (the user switched conversations since) is
    ignored; the current one replaces the list — it is not merged with
    messages received meanwhile — and stops the spinner. *)
Theorem history_response_replaces st gen res :
  (gen <> ui_load_gen st -> on_history st gen res = (st, [])) /\
  (gen = ui_load_gen st -> forall docs, res = Some docs ->
     ui_messages (on_history st gen res).1 = UiChat <$> docs /\
     ui_loading (on_history st gen res).1 = false).
Proof.
  split.
  - intros Hne. unfold on_history. by rewrite (proj2 (Nat.eqb_neq _ _) Hne).
  - intros -> docs ->. unfold on_history. by rewrite Nat.eqb_refl.
Qed.

(** The screen never loses or invents a contact: apart from the
    lists' load, every event — messages received, sends, selections,
    history responses, replies of the assistant — leaves the ids of the
    user list and of the caretaker list the same up to order ([bump]
    only moves the entry it updates to the front). *)
Theorem client_step_keeps_contacts st ev :
  (forall us cs pre, ev <> ULists us cs pre) ->
  same_contacts st (client_step st ev).1.
Proof.
  intros Hev. assert (Hm : forall t c, ct_id (mark_unread t c) = ct_id c) by done.
  assert (Hc : forall c, ct_id (clear_unread c) = ct_id c) by done.
  destruct ev as [g c|s|now|u|c| |g res|us cs pre|r now]; unfold client_step.
  - unfold on_receive. repeat case_match; simpl; auto with mm.
    + eapply same_contacts_trans; [|apply same_contacts_after_caretakers].
      split; simpl; by apply bump_ids.
    + split; simpl; [by apply bump_ids|done].
  - split; done.
  - unfold handle_send, send_to_socket, ai_send. repeat case_match; simplify_eq/=;
      auto with mm; split; simpl; try done; by apply bump_ids.
  - unfold select_user, select_caretaker. eapply same_contacts_trans; [|apply same_contacts_after_active].
    split; simpl; [by apply bump_ids|done].
  - unfold select_user, select_caretaker. eapply same_contacts_trans; [|apply same_contacts_after_active].
    eapply same_contacts_trans; [|apply same_contacts_after_caretakers].
    split; simpl; by apply bump_ids.
  - apply same_contacts_after_active.
  - unfold on_history. repeat case_match; split; done.
  - by destruct (Hev us cs pre).
  - split; done.
Qed.

(** ** A session of the screen

    [uA] is logged in with [tokA]; the lists hold the user Bob and the
    caretaker Carl; Bob's conversation is open and loaded. *)
Module ClientWitness.
Import Demo.

Definition w_bob : Contact := mkContact uB "Bob" "user" false None.
Definition w_carl : Contact := mkContact uC "Carl" "caretaker" false None.

Definition w_listed (tok : option string) : Client :=
  (on_lists (client_mount (Some uA) tok).1 [w_bob] [w_carl] None).1.

Definition w_session (tok : option string) : Client :=
  let s3 := (select_user (w_listed tok) w_bob).1 in
  (on_history s3 (ui_load_gen s3) (Some [])).1.

Definition w_ready : Client := w_session (Some "tokA").
Definition w_from_carl : Chat := mkChat 7 uC uA "user" "hi" 3.
Definition w_echo : Chat := mkChat 8 uA uB "user" "mine" 4.

Lemma own_echo_ignored_witness : on_receive w_ready 2 w_echo = (w_ready, []).
Proof. apply own_echo_ignored. concrete. Defined.

Lemma received_message_shown_in_open_conversation_witness :
  ui_messages (on_receive w_ready 2 w_from_carl).1 = ui_messages w_ready ++ [UiChat w_from_carl] /\
  visible_messages (on_receive w_ready 2 w_from_carl).1 = Some (ui_messages w_ready ++ [UiChat w_from_carl]).
Proof.
  refine (received_message_shown_in_open_conversation w_ready 2 w_from_carl w_bob _ _ _ _);
    unfold receive_accepted; try split_and!; concrete.
Defined.

Lemma received_message_bumps_sender_witness :
  exists pre y post,
    ui_users w_ready = pre ++ y :: post /\ ct_id y = sender w_from_carl /\
    Forall (fun z => ct_id z <> sender w_from_carl) pre /\
    ui_users (on_receive w_ready 2 w_from_carl).1 = mark_unread (createdAt w_from_carl) y :: pre ++ post.
Proof.
  refine (received_message_bumps_sender w_ready 2 w_from_carl w_carl _ _ _);
    unfold receive_accepted; try split_and!; concrete.
Defined.

Lemma caretaker_message_reconnects_witness :
  (on_receive w_ready 2 w_from_carl).2 = [ODisconnect 2; OConnect (S (ui_socket_gen w_ready)) "tokA"] /\
  ui_socket (on_receive w_ready 2 w_from_carl).1 = Some (S (ui_socket_gen w_ready)).
Proof.
  refine (caretaker_message_reconnects w_ready 2 w_from_carl w_carl "tokA" _ _ _ _ _);
    unfold receive_accepted; try split_and!; concrete.
Defined.

Definition w_typed : Client := set_draft "  hi bob " w_ready.

Lemma submit_sends_once_witness :
  handle_send w_typed 9 =
    (set_draft ""
       (set_users (bump (same_id uB)
                     (fun c => mkContact (ct_id c) (ct_name c) (ct_type c) false (Some 9))
                     (ui_users w_typed))
          (set_messages (ui_messages w_typed ++ [UiLocal 9 (Some uA) uB "hi bob"]) w_typed)),
     [OEmitSend 2 (mkPayload (Some uB) (Some "user") (Some "hi bob"));
      OPostUpdateProfile uB "hi bob"]).
Proof. refine (submit_sends_once w_typed 9 w_bob 2 _ _ _ _); concrete. Defined.

Lemma submit_blank_noop_witness : handle_send (set_draft " " w_ready) 9 = (set_draft " " w_ready, []).
Proof. apply submit_blank_noop. concrete. Defined.

Lemma submit_without_socket_lost_witness :
  handle_send (set_draft "hi" (w_session None)) 9 = (set_draft "" (set_draft "hi" (w_session None)), []).
Proof. refine (submit_without_socket_lost _ 9 w_bob _ _ _ _); concrete. Defined.

Lemma select_user_fetches_history_witness :
  exists pre y post,
    ui_users (w_listed (Some "tokA")) = pre ++ y :: post /\ ct_id y = ct_id w_bob /\
    let r := select_user (w_listed (Some "tokA")) w_bob in
    ui_users r.1 = clear_unread y :: pre ++ post /\
    ui_messages r.1 = [] /\ ui_loading r.1 = true /\
    ui_load_gen r.1 = S (ui_load_gen (w_listed (Some "tokA"))) /\
    r.2 = [OGetMessages (S (ui_load_gen (w_listed (Some "tokA")))) (ct_id w_bob) "user"].
Proof. refine (select_user_fetches_history _ w_bob w_bob _ _); concrete. Defined.

Lemma history_response_replaces_witness :
  on_history w_ready 0 None = (w_ready, []) /\
  ui_messages (on_history w_ready (ui_load_gen w_ready) (Some [w_from_carl])).1 = [UiChat w_from_carl].
Proof.
  split.
  - apply (proj1 (history_response_replaces w_ready 0 None)). concrete.
  - exact (proj1 (proj2 (history_response_replaces w_ready (ui_load_gen w_ready) (Some [w_from_carl]))
                  eq_refl _ eq_refl)).
Defined.

Lemma client_step_keeps_contacts_witness :
  same_contacts w_ready (client_step w_ready (UReceive 2 w_from_carl)).1.
Proof. apply client_step_keeps_contacts. intros ? ? ? H. discriminate H. Defined.

End ClientWitness.
