(* ===== verification/CaretakerChat.v ===== *)
(** * The caretaker chat screen [Adminpages/CaretakerChat.jsx]

    The caretaker's side of the relay.  It has the same state hooks as
    the user screen of [Client.v] without the caretaker list, plus the
    sidebar controls of the mobile layout ([searchTerm], [showSidebar]).
    Its effects differ:

    - the socket effect (deps [[]], lines 111-161) runs once: it opens
      one connection with the stored token and closes it on unmount;
    - the users effect (lines 164-178) loads [GET /chat] once;
    - the history effect (deps [[activeUser]], lines 181-204) is the
      user screen's.

    A message sent to a user is emitted on the socket and followed by
    [POST /caretaker/updateProfile], which counts it in the caretaker's
    profile ([Caretaker.ct_update_profile]).  [CtClient] is the state,
    [CtOutput] the emits and requests, [cc_step] the event handler;
    [Contact], [UiMsg], [AiMsg], [bump] and the contact updaters are the
    ones of [Client.v], which the two screens share in the source. *)

From Stdlib Require Import Ascii String.
From stdpp Require Import base list strings.
From S2P Require Import Prelude JsString Store Gateway Relay Client Caretaker GameScreens.

(** ** State *)

Record CtClient := mkCtClient {
  cc_me : option string;           (** [currentCaretakerId] (lines 89-96) *)
  cc_token : option string;
  cc_users : list Contact;
  cc_active : option Contact;
  cc_messages : list UiMsg;
  cc_ai : list AiMsg;
  cc_loading : bool;
  cc_socket : option nat;
  cc_socket_gen : nat;
  cc_load_gen : nat;
  cc_draft : string;
  cc_search : string;
  cc_showSidebar : bool;
}.

Inductive CtOutput :=
| CConnect (gen : nat) (token : string)
| CDisconnect (gen : nat)
| CEmitSend (gen : nat) (p : Payload)
| CPostUpdateProfile                          (** [POST /caretaker/updateProfile] *)
| CGetMessages (gen : nat) (id : string) (ty : string)
| CGetUsers
| CAiPost (history : list (string * string)).

(** ** Setters *)

Definition cc_set_users u st := mkCtClient (cc_me st) (cc_token st) u (cc_active st) (cc_messages st) (cc_ai st)
  (cc_loading st) (cc_socket st) (cc_socket_gen st) (cc_load_gen st) (cc_draft st) (cc_search st) (cc_showSidebar st).
Definition cc_set_active a st := mkCtClient (cc_me st) (cc_token st) (cc_users st) a (cc_messages st) (cc_ai st)
  (cc_loading st) (cc_socket st) (cc_socket_gen st) (cc_load_gen st) (cc_draft st) (cc_search st) (cc_showSidebar st).
Definition cc_set_messages m st := mkCtClient (cc_me st) (cc_token st) (cc_users st) (cc_active st) m (cc_ai st)
  (cc_loading st) (cc_socket st) (cc_socket_gen st) (cc_load_gen st) (cc_draft st) (cc_search st) (cc_showSidebar st).
Definition cc_set_ai a st := mkCtClient (cc_me st) (cc_token st) (cc_users st) (cc_active st) (cc_messages st) a
  (cc_loading st) (cc_socket st) (cc_socket_gen st) (cc_load_gen st) (cc_draft st) (cc_search st) (cc_showSidebar st).
Definition cc_set_loading b st := mkCtClient (cc_me st) (cc_token st) (cc_users st) (cc_active st) (cc_messages st) (cc_ai st)
  b (cc_socket st) (cc_socket_gen st) (cc_load_gen st) (cc_draft st) (cc_search st) (cc_showSidebar st).
Definition cc_set_socket s g st := mkCtClient (cc_me st) (cc_token st) (cc_users st) (cc_active st) (cc_messages st) (cc_ai st)
  (cc_loading st) s g (cc_load_gen st) (cc_draft st) (cc_search st) (cc_showSidebar st).
Definition cc_set_load_gen g st := mkCtClient (cc_me st) (cc_token st) (cc_users st) (cc_active st) (cc_messages st) (cc_ai st)
  (cc_loading st) (cc_socket st) (cc_socket_gen st) g (cc_draft st) (cc_search st) (cc_showSidebar st).
Definition cc_set_draft d st := mkCtClient (cc_me st) (cc_token st) (cc_users st) (cc_active st) (cc_messages st) (cc_ai st)
  (cc_loading st) (cc_socket st) (cc_socket_gen st) (cc_load_gen st) d (cc_search st) (cc_showSidebar st).
Definition cc_set_search t st := mkCtClient (cc_me st) (cc_token st) (cc_users st) (cc_active st) (cc_messages st) (cc_ai st)
  (cc_loading st) (cc_socket st) (cc_socket_gen st) (cc_load_gen st) (cc_draft st) t (cc_showSidebar st).
Definition cc_set_sidebar b st := mkCtClient (cc_me st) (cc_token st) (cc_users st) (cc_active st) (cc_messages st) (cc_ai st)
  (cc_loading st) (cc_socket st) (cc_socket_gen st) (cc_load_gen st) (cc_draft st) (cc_search st) b.

Section Screen.
(** [isMobile] (line 108): the window is narrower than 768 pixels. *)
Variable is_mobile : bool.

(** ** Effects *)

(** Mounting (lines 98-178): the state hooks, the socket effect
    ([if (!token) return]) and the users request. *)
Definition cc_mount (me token : option string) : CtClient * list CtOutput :=
  let st := mkCtClient me token [] None [] [] false None 0 0 "" "" true in
  match token with
  | Some t => if js_truthy t then (cc_set_socket (Some 1) 1 st, [CConnect 1 t; CGetUsers]) else (st, [CGetUsers])
  | None => (st, [CGetUsers])
  end.

(** The cleanup of the socket effect (lines 157-160). *)
Definition cc_unmount (st : CtClient) : CtClient * list CtOutput :=
  match cc_socket st with
  | Some g => (cc_set_socket None (cc_socket_gen st) st, [CDisconnect g])
  | None => (st, [])
  end.

(** The history effect (lines 181-204). *)
Definition cc_history_effect (st : CtClient) : CtClient * list CtOutput :=
  let st := cc_set_load_gen (S (cc_load_gen st)) st in
  match cc_active st with
  | None => (st, [])
  | Some a =>
      if String.eqb (ct_type a) "ai" then (st, [])
      else
        let ty := if String.eqb (ct_type a) "user" then "user" else "caretaker" in
        (cc_set_messages [] (cc_set_loading true st), [CGetMessages (cc_load_gen st) (ct_id a) ty])
  end.

Definition cc_after_active (r : CtClient * list CtOutput) : CtClient * list CtOutput :=
  let '(st', o) := cc_history_effect r.1 in (st', r.2 ++ o).

(** ** Handlers *)

(** [s.on("receive_message")] (lines 126-151) on the socket of
    generation [g]. *)
Definition cc_on_receive (st : CtClient) (g : nat) (c : Chat) : CtClient * list CtOutput :=
  if negb (bool_decide (cc_socket st = Some g)) then (st, [])
  else
    let senderId := sender c in
    if negb (js_truthy senderId) then (st, [])
    else if String.eqb senderId (js_String (cc_me st)) then (st, [])
    else
      let st1 := cc_set_messages (cc_messages st ++ [UiChat c]) st in
      (cc_set_users (bump (same_id senderId) (mark_unread (createdAt c)) (cc_users st1)) st1, []).

(** [handleSendToSocket(text)] (lines 212-255). *)
Definition cc_send_to_socket (st : CtClient) (text : string) (now : nat) : CtClient * list CtOutput :=
  match cc_socket st, cc_active st with
  | Some g, Some a =>
      let payload := mkPayload (Some (ct_id a)) (Some (ct_type a)) (Some text) in
      let st1 := cc_set_messages (cc_messages st ++ [UiLocal now (cc_me st) (ct_id a) text]) st in
      let upd c := mkContact (ct_id c) (ct_name c) (ct_type c) false (Some now) in
      (cc_set_users (bump (same_id (ct_id a)) upd (cc_users st1)) st1, [CEmitSend g payload; CPostUpdateProfile])
  | _, _ => (st, [])
  end.

(** [handleAiSend(text)] (lines 258-298): the line, then the request
    with the conversation so far; the answer is [cc_on_ai_reply]. *)
Definition cc_ai_send (st : CtClient) (text : string) (now : nat) : CtClient * list CtOutput :=
  let hist := (fun m => (ai_role m, ai_text m)) <$> cc_ai st in
  (cc_set_ai (cc_ai st ++ [mkAiMsg "user" text now]) st, [CAiPost (hist ++ [("user", text)])]).

Definition cc_on_ai_reply (st : CtClient) (r : option (option string)) (now : nat) : CtClient * list CtOutput :=
  let text := match r with
              | None => "AI is unavailable right now."
              | Some (Some s) => if js_truthy s then s else "Sorry, I couldn't process that."
              | Some None => "Sorry, I couldn't process that."
              end in
  (cc_set_ai (cc_ai st ++ [mkAiMsg "assistant" text now]) st, []).

(** [handleSend] (lines 301-308). *)
Definition cc_handle_send (st : CtClient) (now : nat) : CtClient * list CtOutput :=
  let text := js_trim (cc_draft st) in
  match cc_active st with
  | Some a =>
      if negb (js_truthy text) then (st, [])
      else
        let '(st', o) := if String.eqb (ct_type a) "ai" then cc_ai_send st text now
                         else cc_send_to_socket st text now in
        (cc_set_draft "" st', o)
  | None => (st, [])
  end.

(** A click on a user (lines 386-400). *)
Definition cc_select_user (st : CtClient) (u : Contact) : CtClient * list CtOutput :=
  let a := mkContact (ct_id u) (ct_name u) "user" (ct_hasNewMsg u) (ct_last u) in
  let st1 := cc_set_users (bump (same_id (ct_id u)) clear_unread (cc_users st)) (cc_set_active (Some a) st) in
  cc_after_active (if is_mobile then cc_set_sidebar false st1 else st1, []).

(** A click on the assistant (lines 452-459). *)
Definition cc_select_ai (st : CtClient) : CtClient * list CtOutput :=
  let st1 := cc_set_active (Some ai_contact) st in
  cc_after_active (if is_mobile then cc_set_sidebar false st1 else st1, []).

(** The history answer (lines 189-198): applied to the current load only. *)
Definition cc_on_history (st : CtClient) (gen : nat) (res : option (list Chat)) : CtClient * list CtOutput :=
  if Nat.eqb gen (cc_load_gen st) then
    let st1 := match res with Some docs => cc_set_messages (UiChat <$> docs) st | None => st end in
    (cc_set_loading false st1, [])
  else (st, []).

(** The users answer (lines 167-172): every entry tagged ["user"]. *)
Definition cc_on_users (st : CtClient) (us : list Contact) : CtClient * list CtOutput :=
  (cc_set_users ((fun c => mkContact (ct_id c) (ct_name c) "user" (ct_hasNewMsg c) (ct_last c)) <$> us) st, []).

(** The sidebar list (lines 318-320 and 380-382). *)
Definition cc_filtered_users (st : CtClient) : list Contact :=
  filter (fun u => js_includes (js_to_lower (ct_name u)) (js_to_lower (cc_search st)) = true /\ ct_type u = "user"%string)
    (cc_users st).

(** A message bubble (lines 31-70): its text and whether it is on the
    caretaker's side. *)
Definition bubble (me : option string) (m : UiMsg) : string * bool :=
  match m with
  | UiChat c => (message c, String.eqb (sender c) (js_String me))
  | UiLocal _ snd _ text => (text, String.eqb (js_String snd) (js_String me))
  end.

Definition ai_bubble (m : AiMsg) : string * bool := (ai_text m, String.eqb (ai_role m) "user").

(** The sidebar column is hidden on a phone once closed (line 347), and
    its back button shows on a phone with a conversation open (line 354). *)
Definition cc_sidebar_shown (st : CtClient) : bool := negb (is_mobile && negb (cc_showSidebar st)).

Definition cc_back_shown (st : CtClient) : bool :=
  is_mobile && match cc_active st with Some _ => true | None => false end.

Inductive Pane := PWelcome | PSpinner | PBubbles (bs : list (string * bool)).

(** The chat area (lines 509-611). *)
Definition cc_pane (st : CtClient) : Pane :=
  match cc_active st with
  | None => PWelcome
  | Some a =>
      if String.eqb (ct_type a) "ai" then PBubbles (ai_bubble <$> cc_ai st)
      else if cc_loading st then PSpinner
      else PBubbles (bubble (cc_me st) <$> cc_messages st)
  end.

(** ** Events *)

Inductive CtEvent :=
| CcReceive (gen : nat) (c : Chat)
| CcType (s : string)
| CcSubmit (now : nat)
| CcSelectUser (u : Contact)
| CcSelectAi
| CcHistory (gen : nat) (res : option (list Chat))
| CcUsers (us : list Contact)
| CcAiReply (r : option (option string)) (now : nat)
| CcSearch (s : string)
| CcSidebar (b : bool)          (** the two back buttons (lines 358 and 552) *)
| CcUnmount.

Definition cc_step (st : CtClient) (ev : CtEvent) : CtClient * list CtOutput :=
  match ev with
  | CcReceive g c => cc_on_receive st g c
  | CcType s => (cc_set_draft s st, [])
  | CcSubmit now => cc_handle_send st now
  | CcSelectUser u => cc_select_user st u
  | CcSelectAi => cc_select_ai st
  | CcHistory g res => cc_on_history st g res
  | CcUsers us => cc_on_users st us
  | CcAiReply r now => cc_on_ai_reply st r now
  | CcSearch s => (cc_set_search s st, [])
  | CcSidebar b => (cc_set_sidebar b st, [])
  | CcUnmount => cc_unmount st
  end.

Fixpoint cc_run (st : CtClient) (es : list CtEvent) : CtClient * list CtOutput :=
  match es with
  | [] => (st, [])
  | e :: es' => let '(s1, o1) := cc_step st e in let '(s2, o2) := cc_run s1 es' in (s2, o1 ++ o2)
  end.

End Screen.

Definition is_connect (o : CtOutput) : bool := match o with CConnect _ _ => true | _ => false end.

(** ** Lemmas *)

Module CaretakerChatLemmas.

Lemma cc_history_effect_socket st :
  cc_socket (cc_history_effect st).1 = cc_socket st /\ Forall (fun o => is_connect o = false) (cc_history_effect st).2.
Proof.
  unfold cc_history_effect; simpl. destruct (cc_active st) as [a|]; [|done].
  by destruct (String.eqb _ _); [|destruct (String.eqb _ _)]; simpl; repeat constructor.
Qed.

Lemma cc_after_active_socket r :
  Forall (fun o => is_connect o = false) r.2 ->
  cc_socket (cc_after_active r).1 = cc_socket r.1 /\ Forall (fun o => is_connect o = false) (cc_after_active r).2.
Proof.
  destruct r as [st o]; unfold cc_after_active; simpl.
  destruct (cc_history_effect_socket st) as [Hs Ho]. destruct (cc_history_effect st); simpl in *.
  split; [done|by apply Forall_app].
Qed.

(** No handler opens a socket, and none replaces the open one: it stays,
    or the unmount closes it. *)
Lemma cc_step_socket m st e :
  (cc_socket (cc_step m st e).1 = cc_socket st \/ cc_socket (cc_step m st e).1 = None) /\
  Forall (fun o => is_connect o = false) (cc_step m st e).2.
Proof.
  destruct e; simpl.
  - unfold cc_on_receive. repeat case_match; simpl; auto.
  - auto.
  - unfold cc_handle_send, cc_ai_send, cc_send_to_socket.
    repeat case_match; simplify_eq/=; auto; split; auto; repeat constructor.
  - unfold cc_select_user. edestruct cc_after_active_socket as [-> ?]; [done|]. by destruct m; auto.
  - unfold cc_select_ai. edestruct cc_after_active_socket as [-> ?]; [done|]. by destruct m; auto.
  - unfold cc_on_history. repeat case_match; simpl; auto.
  - auto.
  - auto.
  - auto.
  - auto.
  - unfold cc_unmount. case_match; simpl; auto.
Qed.

Lemma cc_run_socket m es : forall st,
  (cc_socket (cc_run m st es).1 = cc_socket st \/ cc_socket (cc_run m st es).1 = None) /\
  Forall (fun o => is_connect o = false) (cc_run m st es).2.
Proof.
  induction es as [|e es IH]; intros st; simpl; [auto|].
  destruct (cc_step_socket m st e) as [Hs Ho].
  destruct (cc_step m st e) as [s1 o1] eqn:E1; simpl in *.
  destruct (IH s1) as [Hs' Ho']. destruct (cc_run m s1 es) as [s2 o2]; simpl in *.
  split; [|by apply Forall_app]. destruct Hs as [<-|Hn]; [done|]. rewrite Hn in Hs'. intuition.
Qed.

Lemma filter_connect_nil l : Forall (fun o => is_connect o = false) l -> filter (fun o => is_connect o = true) l = [].
Proof. intros H. apply filter_none. eapply Forall_impl; [exact H|]. simpl. congruence. Qed.

Lemma cc_mount_connects me tok :
  length (filter (fun o => is_connect o = true) (cc_mount me tok).2) <= 1.
Proof. unfold cc_mount. repeat case_match; simpl; lia. Qed.

Lemma cc_pane_messages st a :
  cc_active st = Some a -> ct_type a <> "ai"%string -> cc_loading st = false ->
  cc_pane st = PBubbles (bubble (cc_me st) <$> cc_messages st).
Proof. intros Ha Ht Hl. unfold cc_pane. rewrite Ha, Hl. by destruct (String.eqb_spec (ct_type a) "ai"). Qed.

End CaretakerChatLemmas.

(** ** Theorems *)

Module CaretakerChatTheorems.
Import CaretakerChatLemmas.

(** C14: The caretaker screen opens at most one socket in its lifetime:
    over any sequence of events after mounting, no handler connects
    again, and the socket is the one opened at mount until the unmount
    closes it.  (The user screen, by contrast, reconnects on every
    message from a caretaker: see [Client.v].) *)
Theorem caretaker_screen_single_socket m me tok es :
  let r := cc_mount me tok in
  length (filter (fun o => is_connect o = true) (r.2 ++ (cc_run m r.1 es).2)) <= 1 /\
  (cc_socket (cc_run m r.1 es).1 = cc_socket r.1 \/ cc_socket (cc_run m r.1 es).1 = None).
Proof.
  cbv zeta. destruct (cc_run_socket m es (cc_mount me tok).1) as [Hs Ho].
  split; [|done]. rewrite filter_app, length_app, (filter_connect_nil _ Ho). simpl.
  pose proof (cc_mount_connects me tok). lia.
Qed.

(** A message the caretaker sends to a user shows at once at the
    end of the open conversation, on the caretaker's side. *)
Theorem caretaker_send_shown_as_mine st now a g :
  cc_socket st = Some g -> cc_active st = Some a -> ct_type a <> "ai"%string ->
  cc_loading st = false -> js_trim (cc_draft st) <> ""%string ->
  cc_pane (cc_handle_send st now).1 =
    PBubbles ((bubble (cc_me st) <$> cc_messages st) ++ [(js_trim (cc_draft st), true)]).
Proof.
  intros Hs Ha Ht Hl Htr. unfold cc_handle_send, cc_send_to_socket. rewrite Ha, Hs.
  destruct (js_truthy (js_trim (cc_draft st))) eqn:E; [|by destruct (js_trim (cc_draft st))]. simpl.
  destruct (String.eqb_spec (ct_type a) "ai"); [done|]. simpl.
  rewrite (cc_pane_messages _ a) by done. simpl. rewrite fmap_app. simpl.
  by rewrite String.eqb_refl.
Qed.

(** Every message the socket accepts from another sender is appended
    to the conversation on screen, whichever user that conversation is
    with: the handler never compares the sender with [activeUser]. *)
Theorem caretaker_receive_shown_in_any_conversation st g c a :
  cc_socket st = Some g -> js_truthy (sender c) = true -> sender c <> js_String (cc_me st) ->
  cc_active st = Some a -> ct_type a <> "ai"%string -> cc_loading st = false ->
  cc_pane (cc_on_receive st g c).1 = PBubbles (bubble (cc_me st) <$> cc_messages st ++ [UiChat c]).
Proof.
  intros Hs Hsd Hme Ha Ht Hl. unfold cc_on_receive. rewrite Hs, bool_decide_true, Hsd by done. simpl.
  destruct (String.eqb_spec (sender c) (js_String (cc_me st))); [done|].
  by rewrite (cc_pane_messages _ a).
Qed.

Section Server.
Context `{JwtLib}.

(** C10: A caretaker's message, end to end: submitting a non-blank draft
    in a conversation with a user emits one [send_message] with the
    user's id, the type ["user"] and the trimmed text, then posts
    [/caretaker/updateProfile]; the relay, on the caretaker's
    authenticated socket, stores that message with the caretaker as
    sender, and the profile update adds one to the caretaker's
    [chatMessages]. *)
Theorem caretaker_send_persisted_and_counted st now a g (srv : Server MemStore) sid sock cid cs c :
  cc_socket st = Some g -> cc_active st = Some a -> ct_type a = "user"%string ->
  object_id_valid (ct_id a) = true -> js_trim (cc_draft st) <> ""%string ->
  sockets srv !! sid = Some sock -> sock_user sock = Some cid -> object_id_valid cid = true ->
  up (store srv) = true -> find_caretaker cid cs = Some c ->
  let text := js_trim (cc_draft st) in
  let p := mkPayload (Some (ct_id a)) (Some "user") (Some text) in
  (cc_handle_send st now).2 = [CEmitSend g p; CPostUpdateProfile] /\
  (send_message_atomic srv sid p).2 =
    Ok (Ok (mkChat (next_id (store srv)) (js_to_lower cid) (js_to_lower (ct_id a)) "user" text (clock (store srv)))) /\
  (fun d => cp_chatMessages (cr_profile d)) <$> find_caretaker cid (ct_update_profile cs now cid).1 =
    Some (cp_chatMessages (cr_profile c) + 1)%Z.
Proof.
  intros Hs Ha Ht Hv Htr Hsock Hu Hvu Hup Hc text p. split_and!.
  - unfold cc_handle_send, cc_send_to_socket. rewrite Ha, Ht, Hs.
    subst text p. destruct (js_trim (cc_draft st)); [done|]. reflexivity.
  - apply (send_message_valid_result srv sid sock p cid (ct_id a) "user" text); try done.
    + by intros ?%js_trim_trim_empty.
    + cbv. left.
  - unfold ct_update_profile; simpl. rewrite find_caretaker_update by done. by rewrite Hc.
Qed.

End Server.

End CaretakerChatTheorems.

Module CaretakerChatWitness.
Import Demo CaretakerChatTheorems.

Definition w_bob : Contact := mkContact uB "Bob" "user" false None.
Definition w_ann : Contact := mkContact "64b7f0c2a1b2c3d4e5f6071b" "Ann" "user" false None.

(** Carl's screen, connected on socket 1, with Bob's conversation open. *)
Definition w_cc : CtClient :=
  mkCtClient (Some uA) (Some "tokA") [w_ann; w_bob] (Some w_bob) [] [] false (Some 1) 1 1 "  hi bob " "" true.

Definition w_carl : CaretakerRec :=
  mkCaretaker uA "Carl" "carl@example.org" "h" [uB] (mkCtProfile 0 1 0 4 []) default_settings.

(** Ann writes while Bob's conversation is open. *)
Definition w_from_ann : Chat := mkChat 7 "64b7f0c2a1b2c3d4e5f6071b" (js_to_lower uA) "caretaker" "hello?" 12.

Lemma caretaker_send_persisted_and_counted_witness :
  let text := js_trim (cc_draft w_cc) in
  let p := mkPayload (Some (ct_id w_bob)) (Some "user") (Some text) in
  (cc_handle_send w_cc 9).2 = [CEmitSend 1 p; CPostUpdateProfile] /\
  (send_message_atomic RelayWitness.w_srv 0 p).2 =
    Ok (Ok (mkChat (next_id (store RelayWitness.w_srv)) (js_to_lower uA) (js_to_lower (ct_id w_bob)) "user" text
              (clock (store RelayWitness.w_srv)))) /\
  (fun d => cp_chatMessages (cr_profile d)) <$> find_caretaker uA (ct_update_profile [w_carl] 9 uA).1 =
    Some (cp_chatMessages (cr_profile w_carl) + 1)%Z.
Proof.
  refine (caretaker_send_persisted_and_counted w_cc 9 w_bob 1 RelayWitness.w_srv 0 RelayWitness.w_sockA uA
            [w_carl] w_carl _ _ _ _ _ _ _ _ _ _); concrete.
Defined.

Lemma caretaker_send_shown_as_mine_witness :
  cc_pane (cc_handle_send w_cc 9).1 = PBubbles ((bubble (cc_me w_cc) <$> cc_messages w_cc) ++ [("hi bob"%string, true)]).
Proof. refine (caretaker_send_shown_as_mine w_cc 9 w_bob 1 _ _ _ _ _); concrete. Defined.

Lemma caretaker_receive_shown_in_any_conversation_witness :
  cc_pane (cc_on_receive w_cc 1 w_from_ann).1 = PBubbles (bubble (cc_me w_cc) <$> cc_messages w_cc ++ [UiChat w_from_ann]) /\
  ct_id w_bob <> sender w_from_ann.
Proof.
  split; [|concrete].
  refine (caretaker_receive_shown_in_any_conversation w_cc 1 w_from_ann w_bob _ _ _ _ _ _); concrete.
Defined.

End CaretakerChatWitness.
