(* ===== verification/CaretakerSettings.v ===== *)
(** * The caretaker settings screen [Adminpages/CaretakerSettings.jsx]
      and the theme provider [Context/ThemeContext.jsx]

    The page edits the signed-in account through the [/auth] routes:
    its name and photo ([PUT /auth/update-basic], falling back to
    [PUT /auth/profile]), its appearance ([PUT /auth/settings]), its
    password and its e-mail (the OTP flows of [Otp.v]).  It keeps a copy
    of the account in [localStorage["user"]] and logs out by removing
    the token and that copy.

    - [ThemeCtx] and [theme_effect] are the provider's state and the
      effect that stores it and sets the body classes.
    - [SettingsPage] is the page's state hooks; [SpOutput] its requests,
      alerts and navigations; [sp_step] the handler of each event, the
      answer of a request being an event of its own ([SpBasicDone],
      [SpResetDone], ...) so that the flows are sequences of steps.
    - [localStorage["user"]] is a JSON text: [JsonCodec] is
      [JSON.parse]/[JSON.stringify] for objects with string fields, an
      interface whose one law the theorems assume.
    - [update_basic_profile] is the server side of [/auth/update-basic]
      ([auth.controller.js] lines 120-146). *)

From Stdlib Require Import Ascii String ZArith NArith List.
From stdpp Require Import base list gmap strings.
From S2P Require Import Prelude JsString Gateway Token Account Otp Routing.

(** ** [JSON] for the stored account *)

Class JsonCodec := {
  json_stringify : gmap string string -> string;
  json_parse : string -> option (gmap string string);   (** [None]: a [SyntaxError] *)
}.

Class JsonCodecLaws `{JsonCodec} := {
  json_parse_stringify o : json_parse (json_stringify o) = Some o;
  json_stringify_truthy o : js_truthy (json_stringify o) = true;   (** at least ["{}"] *)
}.

(** ** [updateBasicProfile] (server) *)

(** [User.findByIdAndUpdate(req.user.id, { $set: { name, photo } },
    { new: true }).select("-password")] for the string fields the pages
    send: [Ok None] is the [user: null] of an id that is no user's. *)
Definition update_basic_profile (db : AccDb) (uid name photo : string) : AccDb * HttpResult (option UserRec) :=
  let f u := mkUser (u_id u) name (u_email u) (u_password u) (Some photo) (u_profile u) in
  let hide u := mkUser (u_id u) (u_name u) (u_email u) None (u_photo u) (u_profile u) in
  (set_users (update_user uid f (users db)) db, Ok (hide <$> (f <$> find_user uid (users db)))).

(** ** [ThemeContext.jsx] *)

Record ThemeCtx := mkThemeCtx {
  tc_theme : string;
  tc_color : string;
  tc_font : string;
  tc_highContrast : bool;       (** [accessibility.highContrast], [undefined] as [false] *)
  tc_largeText : bool;
}.

(** The provider's effect (lines 19-47): the classes on [document.body]
    and the four keys it writes. *)
Definition body_classes (c : ThemeCtx) : list string :=
  [tc_theme c; "color-" ++ tc_color c; "font-" ++ tc_font c]%string ++
  (if tc_highContrast c then ["high-contrast"%string] else []) ++
  (if tc_largeText c then ["large-text"%string] else []).

(** [JSON.stringify(accessibility)] of the two flags. *)
Definition dq : string := String (ascii_of_nat 34) EmptyString.

Definition access_json (c : ThemeCtx) : string :=
  ("{" ++ dq ++ "highContrast" ++ dq ++ ":" ++ (if tc_highContrast c then "true" else "false") ++
   "," ++ dq ++ "largeText" ++ dq ++ ":" ++ (if tc_largeText c then "true" else "false") ++ "}")%string.

Definition theme_effect (c : ThemeCtx) (s : Storage) : Storage :=
  set_item "accessibility" (access_json c)
    (set_item "font" (tc_font c) (set_item "color" (tc_color c) (set_item "theme" (tc_theme c) s))).

(** ** The page's state (lines 30-68) *)

Record SpProfile := mkSpProfile { p_name : string; p_email : string; p_photo : string }.

(** [settings]: the appearance, [accessibility.largeText] and the three
    notification switches ([email], [sms], [push]). *)
Record SettingsVal := mkSettingsVal {
  sv_theme : string; sv_color : string; sv_font : string;
  sv_largeText : bool; sv_notif : bool * bool * bool;
}.

Definition default_settings_val : SettingsVal := mkSettingsVal "light" "blue" "default" false (true, false, false).

(** ** [getSettings] and [updateSettings] (server, [auth.controller.js]
    lines 149-167)

    The [settings] subdocument of each user, by id; a user without an
    entry has the schema's defaults.  The caller's [req.user._id] is set
    by a [verifyToken] middleware that is not under [src/]: it is an
    input here, [None] when absent.  A caller who is no user makes
    [findById] answer [null], and reading [.settings] of it throws. *)
Definition UserSettings := gmap string SettingsVal.

Definition get_settings (db : AccDb) (us : UserSettings) (uid : option string) : HttpResult SettingsVal :=
  match uid with
  | Some i => match find_user i (users db) with
              | Some _ => Ok (default default_settings_val (us !! i))
              | None => Err (500, "Error fetching settings")
              end
  | None => Err (500, "Error fetching settings")
  end.

Definition update_settings (db : AccDb) (us : UserSettings) (uid : option string) (body : SettingsVal)
    : UserSettings * HttpResult SettingsVal :=
  match uid with
  | Some i => match find_user i (users db) with
              | Some _ => (<[i := body]> us, Ok body)
              | None => (us, Err (500, "Error updating settings"))
              end
  | None => (us, Err (500, "Error updating settings"))
  end.

(** The password-by-OTP form. *)
Record PwdForm := mkPwdForm {
  pw_sent : bool; pw_status : string; pw_sending : bool; pw_saving : bool;
  pw_otp : string; pw_new : string; pw_confirm : string;
}.

(** The e-mail change form. *)
Record EmailForm := mkEmailForm {
  em_sent : bool; em_status : string; em_sending : bool; em_confirming : bool;
  em_new : string; em_otp : string;
}.

Record SettingsScreen := mkSettingsScreen {
  sp_store : Storage;
  sp_ctx : ThemeCtx;
  sp_tab : string;                        (** [activeKey] *)
  sp_mobile : bool;
  sp_sidebar : bool;                      (** [showSidebarMobile] *)
  sp_loading : bool;
  sp_profile : SpProfile;
  sp_settings : SettingsVal;
  sp_name : string;                       (** [nameValue] *)
  sp_photo : string;                      (** [photoValue] *)
  sp_pwd : PwdForm;
  sp_email : EmailForm;
  sp_view : option string;                (** [privacyView] *)
  sp_saving : option (string * string);   (** the [payload] of a pending [handleSaveProfile] *)
}.

(** What a request answers: [Ok (message, email)] of the response body,
    or [Err] with the [message] of an error response ([None] for a
    network error or a body without one). *)
Definition Resp := result (option string) (option string * option string).

Inductive SpOutput :=
| SGetSettings
| SPutUpdateBasic (name photo : string)
| SPutProfile (name photo : string)
| SPutSettings (profile : SpProfile) (ctx : ThemeCtx) (notif : bool * bool * bool)
| SPostRequestOtp
| SPostReset (otp newPassword : string)
| SPostRequestEmail (newEmail : string)
| SPostConfirmEmail (otp : string)
| SAlert (msg : string)
| SNavigate (path : string)              (** [navigate(path)] *)
| SHref (path : string).                 (** [window.location.href = path] *)

Section Page.
Context `{JsonCodec}.

Definition sp_with_store s st := mkSettingsScreen s (sp_ctx st) (sp_tab st) (sp_mobile st) (sp_sidebar st) (sp_loading st)
  (sp_profile st) (sp_settings st) (sp_name st) (sp_photo st) (sp_pwd st) (sp_email st) (sp_view st) (sp_saving st).
Definition sp_with_ctx c st := mkSettingsScreen (sp_store st) c (sp_tab st) (sp_mobile st) (sp_sidebar st) (sp_loading st)
  (sp_profile st) (sp_settings st) (sp_name st) (sp_photo st) (sp_pwd st) (sp_email st) (sp_view st) (sp_saving st).
Definition sp_with_tab k st := mkSettingsScreen (sp_store st) (sp_ctx st) k (sp_mobile st) (sp_sidebar st) (sp_loading st)
  (sp_profile st) (sp_settings st) (sp_name st) (sp_photo st) (sp_pwd st) (sp_email st) (sp_view st) (sp_saving st).
Definition sp_with_sidebar b st := mkSettingsScreen (sp_store st) (sp_ctx st) (sp_tab st) (sp_mobile st) b (sp_loading st)
  (sp_profile st) (sp_settings st) (sp_name st) (sp_photo st) (sp_pwd st) (sp_email st) (sp_view st) (sp_saving st).
Definition sp_with_loading b st := mkSettingsScreen (sp_store st) (sp_ctx st) (sp_tab st) (sp_mobile st) (sp_sidebar st) b
  (sp_profile st) (sp_settings st) (sp_name st) (sp_photo st) (sp_pwd st) (sp_email st) (sp_view st) (sp_saving st).
Definition sp_with_profile p st := mkSettingsScreen (sp_store st) (sp_ctx st) (sp_tab st) (sp_mobile st) (sp_sidebar st) (sp_loading st)
  p (sp_settings st) (sp_name st) (sp_photo st) (sp_pwd st) (sp_email st) (sp_view st) (sp_saving st).
Definition sp_with_settings v st := mkSettingsScreen (sp_store st) (sp_ctx st) (sp_tab st) (sp_mobile st) (sp_sidebar st) (sp_loading st)
  (sp_profile st) v (sp_name st) (sp_photo st) (sp_pwd st) (sp_email st) (sp_view st) (sp_saving st).
Definition sp_with_values n ph st := mkSettingsScreen (sp_store st) (sp_ctx st) (sp_tab st) (sp_mobile st) (sp_sidebar st) (sp_loading st)
  (sp_profile st) (sp_settings st) n ph (sp_pwd st) (sp_email st) (sp_view st) (sp_saving st).
Definition sp_with_pwd f st := mkSettingsScreen (sp_store st) (sp_ctx st) (sp_tab st) (sp_mobile st) (sp_sidebar st) (sp_loading st)
  (sp_profile st) (sp_settings st) (sp_name st) (sp_photo st) f (sp_email st) (sp_view st) (sp_saving st).
Definition sp_with_email f st := mkSettingsScreen (sp_store st) (sp_ctx st) (sp_tab st) (sp_mobile st) (sp_sidebar st) (sp_loading st)
  (sp_profile st) (sp_settings st) (sp_name st) (sp_photo st) (sp_pwd st) f (sp_view st) (sp_saving st).
Definition sp_with_view v st := mkSettingsScreen (sp_store st) (sp_ctx st) (sp_tab st) (sp_mobile st) (sp_sidebar st) (sp_loading st)
  (sp_profile st) (sp_settings st) (sp_name st) (sp_photo st) (sp_pwd st) (sp_email st) v (sp_saving st).
Definition sp_with_saving v st := mkSettingsScreen (sp_store st) (sp_ctx st) (sp_tab st) (sp_mobile st) (sp_sidebar st) (sp_loading st)
  (sp_profile st) (sp_settings st) (sp_name st) (sp_photo st) (sp_pwd st) (sp_email st) (sp_view st) v.

(** [JSON.parse(localStorage.getItem("user") || "{}")]. *)
Definition read_user (s : Storage) : option (gmap string string) :=
  match get_item "user" s with
  | Some t => if js_truthy t then json_parse t else Some ∅
  | None => Some ∅
  end.

Definition write_user (o : gmap string string) (s : Storage) : Storage := set_item "user" (json_stringify o) s.

(** [u.f || ""]. *)
Definition field (o : gmap string string) (k : string) : string := default "" (o !! k).

(** [x || y] on two strings. *)
Definition str_or (x y : string) : string := if js_truthy x then x else y.

(** [checkTokenExpiry] (lines 84-102), at [now] milliseconds, with
    [jwtDecode] the [JwtLib]'s decoder: the storage after it, the
    navigation it starts, and its answer. *)
Definition check_token_expiry `{JwtLib} (now : nat) (s : Storage) : Storage * list SpOutput * bool :=
  match get_item "token" s with
  | Some t =>
      if negb (js_truthy t) then (s, [], false)
      else match jwt_decode t with
           | None => (remove_item "token" s, [SHref "/login"], false)
           | Some (cl, _) =>
               match cl_exp cl with
               | Some e => if Nat.ltb (e * 1000) now
                           then (remove_item "user" (remove_item "token" s), [SHref "/login"], false)
                           else (s, [], true)
               | None => (s, [], true)         (** [undefined * 1000 < now] is [false] *)
               end
           end
  | None => (s, [], false)
  end.

(** The provider's effect after a change of the context. *)
Definition sp_commit (st : SettingsScreen) : SettingsScreen :=
  sp_with_store (theme_effect (sp_ctx st) (sp_store st)) st.

(** Mounting: the hooks' initial values, the device and token effect
    (lines 107-116), then the [load] of lines 121-157 up to its request. *)
Definition sp_mount `{JwtLib} (now : nat) (mobile : bool) (ctx : ThemeCtx) (s : Storage) : SettingsScreen * list SpOutput :=
  let '(s1, o1, _) := check_token_expiry now s in
  let st := mkSettingsScreen s1 ctx "profile" mobile false true (mkSpProfile "" "" "") default_settings_val "" ""
              (mkPwdForm false "" false false "" "" "") (mkEmailForm false "" false false "" "") None None in
  match get_item "user" s1 with
  | Some local =>
      if negb (js_truthy local) then (st, o1 ++ [SGetSettings])
      else match json_parse local with
           | Some u =>
               let n := field u "name" in let ph := field u "photo" in
               (sp_with_values n ph (sp_with_profile (mkSpProfile n (field u "email") ph) st), o1 ++ [SGetSettings])
           | None => (sp_with_loading false st, o1)     (** the outer [catch], then [finally] *)
           end
  | None => (st, o1 ++ [SGetSettings])
  end.

(** The answer of [GET /auth/settings] (lines 134-151). *)
Definition sp_on_settings (st : SettingsScreen) (r : option SettingsVal) : SettingsScreen * list SpOutput :=
  match r with
  | Some v =>
      let c := sp_ctx st in
      let c' := mkThemeCtx (str_or (sv_theme v) (tc_theme c)) (str_or (sv_color v) (tc_color c))
                           (str_or (sv_font v) (tc_font c)) false (sv_largeText v) in
      (sp_with_loading false (sp_commit (sp_with_ctx c' (sp_with_settings v st))), [])
  | None => (sp_with_loading false st, [])
  end.

(** [reader.onloadend] of [handlePhotoSelect] (lines 167-176): the
    preview is set before the stored copy is parsed, which may throw. *)
Definition sp_on_photo (st : SettingsScreen) (data : string) : SettingsScreen * list SpOutput :=
  let p := sp_profile st in
  let st1 := sp_with_profile (mkSpProfile (p_name p) (p_email p) data) (sp_with_values (sp_name st) data st) in
  match read_user (sp_store st) with
  | Some o => (sp_with_store (write_user (<["photo" := data]> o) (sp_store st)) st1, [])
  | None => (st1, [])
  end.

(** The stored copy and the profile after a successful save (lines
    198-201 and 210-213); [None] when the stored copy does not parse. *)
Definition sp_saved (st : SettingsScreen) (n ph : string) : option SettingsScreen :=
  match read_user (sp_store st) with
  | Some o =>
      let p := sp_profile st in
      Some (sp_with_profile (mkSpProfile n (p_email p) ph)
              (sp_with_store (write_user (<["photo" := ph]> (<["name" := n]> o)) (sp_store st)) st))
  | None => None
  end.

Definition sp_end_save (st : SettingsScreen) : SettingsScreen := sp_with_saving None (sp_with_loading false st).

(** [handleSaveProfile] (lines 186-222), split at its [await]s. *)
Definition sp_save_profile (st : SettingsScreen) : SettingsScreen * list SpOutput :=
  (sp_with_saving (Some (sp_name st, sp_photo st)) (sp_with_loading true st), [SPutUpdateBasic (sp_name st) (sp_photo st)]).

Definition sp_on_basic (st : SettingsScreen) (ok : bool) : SettingsScreen * list SpOutput :=
  match sp_saving st with
  | Some (n, ph) =>
      match (if ok then sp_saved st n ph else None) with
      | Some st' => (sp_end_save st', [SAlert "Profile updated successfully"])
      | None => (st, [SPutProfile n ph])                  (** the [catch]: the fallback *)
      end
  | None => (st, [])
  end.

Definition sp_on_fallback (st : SettingsScreen) (ok : bool) : SettingsScreen * list SpOutput :=
  match sp_saving st with
  | Some (n, ph) =>
      match (if ok then sp_saved st n ph else None) with
      | Some st' => (sp_end_save st', [SAlert "Profile updated (via fallback endpoint)."])
      | None => (sp_end_save st,
                 [SAlert "Failed to update profile. Make sure backend route /auth/update-basic or /auth/profile exists."])
      end
  | None => (st, [])
  end.

(** [handleSaveSettings] (lines 225-241). *)
Definition sp_save_settings (st : SettingsScreen) : SettingsScreen * list SpOutput :=
  (st, [SPutSettings (sp_profile st) (sp_ctx st) (sv_notif (sp_settings st))]).

Definition sp_on_settings_saved (st : SettingsScreen) (ok : bool) : SettingsScreen * list SpOutput :=
  (st, [SAlert (if ok then "Settings saved!" else "Failed to save settings")]).

(** What [PUT /auth/settings] stores of the page's payload: the schema
    keeps [theme], [color], [font], [accessibility.largeText] and
    [notifications], and drops [profile] and [highContrast]. *)
Definition settings_body (c : ThemeCtx) (notif : bool * bool * bool) : SettingsVal :=
  mkSettingsVal (tc_theme c) (tc_color c) (tc_font c) (tc_largeText c) notif.

Definition msg_or (m : option string) (d : string) : string :=
  match m with Some s => str_or s d | None => d end.

(** [handleRequestOtp] (lines 244-257). *)
Definition sp_request_otp (st : SettingsScreen) : SettingsScreen * list SpOutput :=
  let f := sp_pwd st in
  (sp_with_pwd (mkPwdForm (pw_sent f) "" true (pw_saving f) (pw_otp f) (pw_new f) (pw_confirm f)) st, [SPostRequestOtp]).

Definition sp_on_request_otp (st : SettingsScreen) (r : Resp) : SettingsScreen * list SpOutput :=
  let f := sp_pwd st in
  match r with
  | Ok _ => (sp_with_pwd (mkPwdForm true "OTP sent to your email." false (pw_saving f) (pw_otp f) (pw_new f) (pw_confirm f)) st, [])
  | Err m => (sp_with_pwd (mkPwdForm (pw_sent f) (msg_or m "Failed to send OTP. Try again.") false (pw_saving f)
                             (pw_otp f) (pw_new f) (pw_confirm f)) st, [])
  end.

Definition pwd_status (s : string) (f : PwdForm) : PwdForm :=
  mkPwdForm (pw_sent f) s (pw_sending f) (pw_saving f) (pw_otp f) (pw_new f) (pw_confirm f).

(** [handleResetWithOtp] (lines 259-282): the three checks, in order,
    then the request. *)
Definition sp_submit_reset (st : SettingsScreen) : SettingsScreen * list SpOutput :=
  let f := sp_pwd st in
  if negb (js_truthy (pw_otp f)) then (sp_with_pwd (pwd_status "Please enter the OTP." f) st, [])
  else if negb (js_truthy (pw_new f)) || Nat.ltb (String.length (pw_new f)) 6 then
    (sp_with_pwd (pwd_status "Password must be at least 6 characters." f) st, [])
  else if negb (String.eqb (pw_new f) (pw_confirm f)) then
    (sp_with_pwd (pwd_status "Passwords do not match." f) st, [])
  else (sp_with_pwd (mkPwdForm (pw_sent f) "" (pw_sending f) true (pw_otp f) (pw_new f) (pw_confirm f)) st,
        [SPostReset (pw_otp f) (pw_new f)]).

Definition sp_close_sidebar (st : SettingsScreen) : SettingsScreen :=
  if sp_mobile st then sp_with_sidebar false st else st.

Definition sp_on_reset (st : SettingsScreen) (r : Resp) : SettingsScreen * list SpOutput :=
  let f := sp_pwd st in
  match r with
  | Ok (m, _) =>
      (sp_close_sidebar (sp_with_view None
         (sp_with_pwd (mkPwdForm false (msg_or m "Password changed successfully.") (pw_sending f) false "" "" "") st)), [])
  | Err m =>
      (sp_with_pwd (mkPwdForm (pw_sent f) (msg_or m "Failed to reset password. Try again.") (pw_sending f) false
                      (pw_otp f) (pw_new f) (pw_confirm f)) st, [])
  end.

Definition email_status (s : string) (f : EmailForm) : EmailForm :=
  mkEmailForm (em_sent f) s (em_sending f) (em_confirming f) (em_new f) (em_otp f).

(** [handleRequestEmailChange] (lines 284-301): the same test as the
    server's ([Otp.email_regex]). *)
Definition sp_submit_email (st : SettingsScreen) : SettingsScreen * list SpOutput :=
  let f := sp_email st in
  if negb (js_truthy (em_new f) && email_regex (em_new f)) then
    (sp_with_email (email_status "Enter a valid new email address." f) st, [])
  else (sp_with_email (mkEmailForm (em_sent f) "" true (em_confirming f) (em_new f) (em_otp f)) st,
        [SPostRequestEmail (em_new f)]).

Definition sp_on_request_email (st : SettingsScreen) (r : Resp) : SettingsScreen * list SpOutput :=
  let f := sp_email st in
  match r with
  | Ok (m, _) => (sp_with_email (mkEmailForm true (msg_or m "OTP sent to your current email.") false
                                   (em_confirming f) (em_new f) (em_otp f)) st, [])
  | Err m => (sp_with_email (mkEmailForm (em_sent f) (msg_or m "Failed to send OTP. Try again.") false
                               (em_confirming f) (em_new f) (em_otp f)) st, [])
  end.

(** [handleConfirmEmailChange] (lines 303-326). *)
Definition sp_confirm_email (st : SettingsScreen) : SettingsScreen * list SpOutput :=
  let f := sp_email st in
  if negb (js_truthy (em_otp f)) then (sp_with_email (email_status "Please enter the OTP sent to your email." f) st, [])
  else (sp_with_email (mkEmailForm (em_sent f) (em_status f) (em_sending f) true (em_new f) (em_otp f)) st,
        [SPostConfirmEmail (em_otp f)]).

Definition sp_on_confirm (st : SettingsScreen) (r : Resp) : SettingsScreen * list SpOutput :=
  let f := sp_email st in
  match r with
  | Ok (m, e) =>
      let updated := msg_or e (em_new f) in
      let p := sp_profile st in
      let st1 := sp_with_profile (mkSpProfile (p_name p) updated (p_photo p))
                   (sp_with_email (email_status (msg_or m "Email changed successfully.") f) st) in
      match read_user (sp_store st) with
      | Some o =>
          (sp_close_sidebar (sp_with_view None
             (sp_with_email (mkEmailForm false (em_status (sp_email st1)) (em_sending f) false "" "")
                (sp_with_store (write_user (<["email" := updated]> o) (sp_store st)) st1))), [])
      | None =>      (** [JSON.parse] threw: the [catch] *)
          (sp_with_email (mkEmailForm (em_sent f) "Failed to confirm email change" (em_sending f) false (em_new f) (em_otp f)) st1, [])
      end
  | Err m =>
      (sp_with_email (mkEmailForm (em_sent f) (msg_or m "Failed to confirm email change") (em_sending f) false
                        (em_new f) (em_otp f)) st, [])
  end.

(** [handleLogout] (lines 329-333). *)
Definition sp_logout (st : SettingsScreen) : SettingsScreen * list SpOutput :=
  (sp_with_store (remove_item "user" (remove_item "token" (sp_store st))) st, [SNavigate "/login"]).

(** The Revert button (lines 494-500); a stored copy that does not
    parse throws out of the handler. *)
Definition sp_revert (st : SettingsScreen) : SettingsScreen * list SpOutput :=
  match read_user (sp_store st) with
  | Some o =>
      let p := sp_profile st in
      (sp_with_values (str_or (field o "name") (p_name p)) (str_or (field o "photo") (p_photo p))
         (sp_with_profile (mkSpProfile (str_or (field o "name") (p_name p)) (p_email p) (str_or (field o "photo") (p_photo p))) st), [])
  | None => (st, [])
  end.

(** [privacyView] buttons (lines 618-650). *)
Definition sp_toggle_view (st : SettingsScreen) (v : string) : SettingsScreen * list SpOutput :=
  let st1 := sp_with_view (if bool_decide (sp_view st = Some v) then None else Some v) st in
  (sp_with_email (email_status "" (sp_email st1)) (sp_with_pwd (pwd_status "" (sp_pwd st1)) st1), []).

(** The Notifications, Accessibility and Appearance controls (lines
    517-598), each writing [settings] and, but the first, the context. *)
Definition sp_set_notif_email (st : SettingsScreen) (b : bool) : SettingsScreen :=
  let v := sp_settings st in
  let '(_, sms, push) := sv_notif v in
  sp_with_settings (mkSettingsVal (sv_theme v) (sv_color v) (sv_font v) (sv_largeText v) (b, sms, push)) st.

Definition sp_set_large_text (st : SettingsScreen) (b : bool) : SettingsScreen :=
  let v := sp_settings st in let c := sp_ctx st in
  sp_commit (sp_with_ctx (mkThemeCtx (tc_theme c) (tc_color c) (tc_font c) false b)
    (sp_with_settings (mkSettingsVal (sv_theme v) (sv_color v) (sv_font v) b (sv_notif v)) st)).

Definition sp_set_theme (st : SettingsScreen) (x : string) : SettingsScreen :=
  let v := sp_settings st in let c := sp_ctx st in
  sp_commit (sp_with_ctx (mkThemeCtx x (tc_color c) (tc_font c) (tc_highContrast c) (tc_largeText c))
    (sp_with_settings (mkSettingsVal x (sv_color v) (sv_font v) (sv_largeText v) (sv_notif v)) st)).

Definition sp_set_color (st : SettingsScreen) (x : string) : SettingsScreen :=
  let v := sp_settings st in let c := sp_ctx st in
  sp_commit (sp_with_ctx (mkThemeCtx (tc_theme c) x (tc_font c) (tc_highContrast c) (tc_largeText c))
    (sp_with_settings (mkSettingsVal (sv_theme v) x (sv_font v) (sv_largeText v) (sv_notif v)) st)).

Definition sp_set_font (st : SettingsScreen) (x : string) : SettingsScreen :=
  let v := sp_settings st in let c := sp_ctx st in
  sp_commit (sp_with_ctx (mkThemeCtx (tc_theme c) (tc_color c) x (tc_highContrast c) (tc_largeText c))
    (sp_with_settings (mkSettingsVal (sv_theme v) (sv_color v) x (sv_largeText v) (sv_notif v)) st)).

(** ** Events *)

Inductive SpEvent :=
| SpSettingsLoaded (r : option SettingsVal)
| SpFileLoaded (data : string)
| SpTypeName (s : string)
| SpSaveProfile
| SpBasicDone (ok : bool)
| SpFallbackDone (ok : bool)
| SpRevert
| SpSaveSettings
| SpSettingsSaved (ok : bool)
| SpRequestOtp
| SpRequestOtpDone (r : Resp)
| SpTypeOtp (s : string)
| SpTypeNew (s : string)
| SpTypeConfirm (s : string)
| SpSubmitReset
| SpResetDone (r : Resp)
| SpCancelReset
| SpTypeNewEmail (s : string)
| SpSubmitEmail
| SpRequestEmailDone (r : Resp)
| SpTypeEmailOtp (s : string)
| SpConfirmEmail
| SpConfirmDone (r : Resp)
| SpCancelEmail
| SpClearEmail
| SpTogglePrivacy (v : string)
| SpSelectTab (k : option string)     (** [onSelect] of [Tab.Container] *)
| SpMobileTab (k : string)            (** an entry of the offcanvas menu *)
| SpOpenSidebar
| SpHideSidebar
| SpMobileProfile                     (** the Profile button of the mobile bar *)
| SpTheme (x : string)
| SpColor (x : string)
| SpFont (x : string)
| SpLargeText (b : bool)
| SpNotifEmail (b : bool)
| SpLogout.

Definition sp_step (st : SettingsScreen) (ev : SpEvent) : SettingsScreen * list SpOutput :=
  let f := sp_pwd st in let g := sp_email st in
  match ev with
  | SpSettingsLoaded r => sp_on_settings st r
  | SpFileLoaded d => sp_on_photo st d
  | SpTypeName x => (sp_with_values x (sp_photo st) st, [])
  | SpSaveProfile => sp_save_profile st
  | SpBasicDone ok => sp_on_basic st ok
  | SpFallbackDone ok => sp_on_fallback st ok
  | SpRevert => sp_revert st
  | SpSaveSettings => sp_save_settings st
  | SpSettingsSaved ok => sp_on_settings_saved st ok
  | SpRequestOtp => sp_request_otp st
  | SpRequestOtpDone r => sp_on_request_otp st r
  | SpTypeOtp x => (sp_with_pwd (mkPwdForm (pw_sent f) (pw_status f) (pw_sending f) (pw_saving f) x (pw_new f) (pw_confirm f)) st, [])
  | SpTypeNew x => (sp_with_pwd (mkPwdForm (pw_sent f) (pw_status f) (pw_sending f) (pw_saving f) (pw_otp f) x (pw_confirm f)) st, [])
  | SpTypeConfirm x => (sp_with_pwd (mkPwdForm (pw_sent f) (pw_status f) (pw_sending f) (pw_saving f) (pw_otp f) (pw_new f) x) st, [])
  | SpSubmitReset => sp_submit_reset st
  | SpResetDone r => sp_on_reset st r
  | SpCancelReset => (sp_with_view None (sp_with_pwd (mkPwdForm false (pw_status f) (pw_sending f) (pw_saving f) "" "" "") st), [])
  | SpTypeNewEmail x => (sp_with_email (mkEmailForm (em_sent g) (em_status g) (em_sending g) (em_confirming g) x (em_otp g)) st, [])
  | SpSubmitEmail => sp_submit_email st
  | SpRequestEmailDone r => sp_on_request_email st r
  | SpTypeEmailOtp x => (sp_with_email (mkEmailForm (em_sent g) (em_status g) (em_sending g) (em_confirming g) (em_new g) x) st, [])
  | SpConfirmEmail => sp_confirm_email st
  | SpConfirmDone r => sp_on_confirm st r
  | SpCancelEmail => (sp_with_view None (sp_with_email (mkEmailForm false (em_status g) (em_sending g) (em_confirming g) "" "") st), [])
  | SpClearEmail => (sp_with_email (mkEmailForm (em_sent g) (em_status g) (em_sending g) (em_confirming g) "" (em_otp g)) st, [])
  | SpTogglePrivacy v => sp_toggle_view st v
  | SpSelectTab k => (sp_with_tab (default "profile" k) st, [])
  | SpMobileTab k => (sp_with_sidebar false (sp_with_tab k st), [])
  | SpOpenSidebar => (sp_with_sidebar true st, [])
  | SpHideSidebar => (sp_with_sidebar false st, [])
  | SpMobileProfile => (sp_with_tab "profile" st, [])
  | SpTheme x => (sp_set_theme st x, [])
  | SpColor x => (sp_set_color st x, [])
  | SpFont x => (sp_set_font st x, [])
  | SpLargeText b => (sp_set_large_text st b, [])
  | SpNotifEmail b => (sp_set_notif_email st b, [])
  | SpLogout => sp_logout st
  end.

Fixpoint sp_run (st : SettingsScreen) (es : list SpEvent) : SettingsScreen * list SpOutput :=
  match es with
  | [] => (st, [])
  | e :: es' => let '(s1, o1) := sp_step st e in let '(s2, o2) := sp_run s1 es' in (s2, o1 ++ o2)
  end.

(** What the privacy tab's alert shows ([otpStatus || emailStatus]). *)
Definition privacy_alert (st : SettingsScreen) : option string :=
  let m := str_or (pw_status (sp_pwd st)) (em_status (sp_email st)) in
  if js_truthy m then Some m else None.

End Page.

(** The answers of the privacy routes as the page reads them
    ([auth.controller.js] lines 207-309): the [message] of each reply,
    and the [email] of a confirmed change. *)
Definition http_resp (r : HttpResult string) : Resp :=
  match r with Ok m => Ok (Some m, None) | Err (_, m) => Err (Some m) end.

Definition confirm_resp (r : HttpResult string) : Resp :=
  match r with Ok ne => Ok (Some "Email changed successfully."%string, Some ne) | Err (_, m) => Err (Some m) end.

(** ** Lemmas *)

Module SettingsLemmas.

Lemma read_write_user `{JsonCodecLaws} o s : read_user (write_user o s) = Some o.
Proof.
  unfold read_user, write_user. rewrite get_set_same, json_stringify_truthy.
  apply json_parse_stringify.
Qed.

Lemma set_users_same db : set_users (users db) db = db.
Proof. by destruct db. Qed.

(** [/auth/update-basic] for an id that is no user's changes nothing and
    answers [user: null]. *)
Lemma update_basic_absent db uid n ph :
  uid ∉ u_id <$> users db -> update_basic_profile db uid n ph = (db, Ok None).
Proof.
  intros Hn. unfold update_basic_profile.
  by rewrite update_user_absent, find_user_absent, set_users_same.
Qed.

Lemma confirm_email_change_Err db u c db' e :
  confirm_email_change db (Some u) (Some c) = (db', Err e) -> db' = db.
Proof. unfold confirm_email_change. by repeat case_match; intros; simplify_eq. Qed.

Lemma confirm_email_change_Ok db u c db' ne :
  confirm_email_change db (Some u) (Some c) = (db', Ok ne) ->
  js_truthy ne = true /\ users db' = update_user (caller_id u) (set_email ne) (users db).
Proof.
  unfold confirm_email_change. repeat case_match; intros; simplify_eq/=; try done.
  by destruct ne.
Qed.

Lemma str_or_truthy x y : js_truthy x = true -> str_or x y = x.
Proof. unfold str_or. by intros ->. Qed.

(** The four keys the theme provider keeps in [localStorage]. *)
Definition theme_keys : list string := ["theme"; "color"; "font"; "accessibility"]%string.

Definition theme_stored (st : SettingsScreen) : Prop :=
  forall k, k ∈ theme_keys -> get_item k (sp_store st) = get_item k (theme_effect (sp_ctx st) ∅).

Lemma theme_effect_keys c s k : k ∈ theme_keys -> get_item k (theme_effect c s) = get_item k (theme_effect c ∅).
Proof.
  unfold theme_keys, theme_effect. intros Hk.
  repeat (apply elem_of_cons in Hk as [->|Hk]; [by storage_simpl|]). by apply elem_of_nil in Hk.
Qed.

Lemma theme_key_not_session k : k ∈ theme_keys -> k <> "user"%string /\ k <> "token"%string.
Proof.
  unfold theme_keys. intros Hk.
  repeat (apply elem_of_cons in Hk as [->|Hk]; [done|]). by apply elem_of_nil in Hk.
Qed.

(** Every handler either runs the provider's effect on a new context, or
    keeps the context and touches only ["user"] and ["token"]. *)
Lemma sp_step_store `{JsonCodec} st e :
  let r := (sp_step st e).1 in
  (exists s0, sp_store r = theme_effect (sp_ctx r) s0) \/
  (sp_ctx r = sp_ctx st /\ forall k, k <> "user"%string -> k <> "token"%string -> get_item k (sp_store r) = get_item k (sp_store st)).
Proof.
  destruct e; simpl;
    unfold sp_on_settings, sp_on_photo, sp_save_profile, sp_on_basic, sp_on_fallback, sp_saved, sp_end_save,
      sp_revert, sp_request_otp, sp_on_request_otp, sp_submit_reset, sp_on_reset, sp_submit_email,
      sp_on_request_email, sp_confirm_email, sp_on_confirm, sp_toggle_view, sp_set_theme, sp_set_color,
      sp_set_font, sp_set_large_text, sp_set_notif_email, sp_logout, sp_close_sidebar, sp_save_settings,
      sp_on_settings_saved, sp_commit;
    repeat case_match; simplify_eq/=; try (left; eexists; reflexivity);
    right; (split; [reflexivity|intros key Hu Ht; unfold write_user; by rewrite ?get_set_other, ?get_remove_other by done]).
Qed.

End SettingsLemmas.

(** ** Theorems *)

Module SettingsTheorems.
Import SettingsLemmas.

(** C11: Saving the profile from a caretaker session reports success
    without storing anything: [/auth/update-basic] looks the caller up
    among the users only, so for a caretaker it changes no document and
    answers 200 with [user: null]; the page then alerts "Profile updated
    successfully" and writes the new name and photo into its stored
    copy of the account. *)
Theorem caretaker_profile_save_not_persisted `{JsonCodecLaws} db cid st o :
  cid ∉ u_id <$> users db -> read_user (sp_store st) = Some o ->
  let st1 := (sp_save_profile st).1 in
  (sp_save_profile st).2 = [SPutUpdateBasic (sp_name st) (sp_photo st)] /\
  update_basic_profile db cid (sp_name st) (sp_photo st) = (db, Ok None) /\
  (sp_on_basic st1 true).2 = [SAlert "Profile updated successfully"] /\
  p_name (sp_profile (sp_on_basic st1 true).1) = sp_name st /\
  read_user (sp_store (sp_on_basic st1 true).1) = Some (<["photo" := sp_photo st]> (<["name" := sp_name st]> o)).
Proof.
  intros Hn Ho st1. split_and!; [done|by apply update_basic_absent|..];
    unfold sp_on_basic, sp_saved; simpl; rewrite Ho; simpl; [done|done|].
  apply read_write_user.
Qed.

(** C12: Logging out of the caretaker settings page removes the token
    and the stored account but leaves [userType] at ["caretaker"]: the
    login page then renders, and an account that next signs up with
    Google on the Register page (which writes no [userType]) is routed
    as a caretaker, to the caretaker home and the caretaker pages. *)
Theorem logout_keeps_caretaker_type st tok user :
  get_item "userType" (sp_store st) = Some "caretaker"%string -> js_truthy tok = true ->
  let s1 := sp_store (sp_logout st).1 in
  (sp_logout st).2 = [SNavigate "/login"] /\
  navigate 1 s1 "/login" = Some LoginPage /\
  get_item "userType" s1 = Some "caretaker"%string /\
  navigate 2 (register_page_google tok user s1) "/home" = Some CarehomePage /\
  navigate 1 (register_page_google tok user s1) "/caretaker/settings" = Some CaresettingsPage.
Proof.
  intros Ht Htok s1.
  assert (Hs1 : get_item "userType" s1 = Some "caretaker"%string) by (subst s1; simpl; by storage_simpl).
  assert (Hk : get_item "token" s1 = None) by (subst s1; simpl; by storage_simpl).
  assert (Hg : get_item "userType" (register_page_google tok user s1) = Some "caretaker"%string /\
               get_item "token" (register_page_google tok user s1) = Some tok)
    by (unfold register_page_google; storage_simpl; by rewrite ?Hs1).
  destruct Hg as [Hgu Hgt].
  split_and!; [done| |done| |].
  - simpl. unfold resolve. route_compute. simpl. unfold public_route. by rewrite Hk.
  - simpl. unfold resolve. route_compute. simpl. unfold protected_route.
    rewrite Hgu, Hgt. simpl. rewrite Htok. simpl. unfold protected_route. rewrite Hgu, Hgt. simpl. by rewrite Htok.
  - simpl. unfold resolve. route_compute. simpl. unfold protected_route.
    rewrite Hgu, Hgt. simpl. by rewrite Htok.
Qed.

(** A caretaker's e-mail change is reported as done and stored in
    the browser, but no account changes: [confirmEmailChange] updates
    [User.findByIdAndUpdate(req.user._id)], which for a caretaker's id
    matches no user; whatever it answers, the users are unchanged, and
    when it answers success the page shows "Email changed successfully."
    and records the new address in its profile and in the stored copy. *)
Theorem caretaker_email_change_not_persisted `{JsonCodecLaws} db u c st o :
  caller_id u ∉ u_id <$> users db -> read_user (sp_store st) = Some o ->
  let res := confirm_email_change db (Some u) (Some c) in
  let st' := (sp_on_confirm st (confirm_resp res.2)).1 in
  users res.1 = users db /\
  (forall ne, res.2 = Ok ne ->
     em_status (sp_email st') = "Email changed successfully."%string /\ p_email (sp_profile st') = ne /\
     read_user (sp_store st') = Some (<["email" := ne]> o)).
Proof.
  intros Hn Ho res st'. subst res st'.
  destruct (confirm_email_change db (Some u) (Some c)) as [db' [ne|e]] eqn:E; simpl.
  - apply confirm_email_change_Ok in E as [Hne ->]. split; [by apply update_user_absent|].
    intros ? [= <-]. unfold sp_on_confirm. simpl. rewrite Ho. simpl.
    rewrite (str_or_truthy ne) by done. unfold sp_close_sidebar. simpl.
    destruct (sp_mobile st); (split_and!; [done|done|apply read_write_user]).
  - apply confirm_email_change_Err in E as ->. split; [done|discriminate].
Qed.

(** C30: The privacy forms check their input as the server does: a
    password reset is requested only with an OTP and a new password of
    at least six characters, which the server's own checks accept, and an
    e-mail change only for an address the server's pattern accepts. *)
Theorem privacy_requests_pass_server_checks `{Bcrypt} st db u (salt : nat) (r : N) (ok : bool) :
  (forall c p : string, SPostReset c p ∈ (sp_submit_reset st).2 ->
     p = pw_confirm (sp_pwd st) /\
     reset_begin db (Some u) (Some c) (Some p) salt <> Err (400, "OTP and newPassword required") /\
     reset_begin db (Some u) (Some c) (Some p) salt <> Err (400, "Password must be at least 6 characters")) /\
  (forall e : string, SPostRequestEmail e ∈ (sp_submit_email st).2 ->
     (request_email_change db (Some u) (Some e) r ok).2 <> Err (400, "Enter a valid new email address.")).
Proof.
  split.
  - intros c p. unfold sp_submit_reset.
    destruct (js_truthy (pw_otp (sp_pwd st))) eqn:Ho; [|simpl; set_solver].
    destruct (js_truthy (pw_new (sp_pwd st))) eqn:Hp; [|simpl; set_solver].
    destruct (Nat.ltb _ 6) eqn:Hl; [simpl; set_solver|].
    destruct (String.eqb_spec (pw_new (sp_pwd st)) (pw_confirm (sp_pwd st))) as [Heq|]; [|simpl; set_solver].
    simpl. intros [= -> ->]%list_elem_of_singleton. split; [done|].
    unfold reset_begin. rewrite Ho, Hp, Hl. simpl. by repeat case_match.
  - intros e. unfold sp_submit_email.
    destruct (js_truthy (em_new (sp_email st)) && email_regex (em_new (sp_email st))) eqn:He; [|simpl; set_solver].
    simpl. intros [= ->]%list_elem_of_singleton. unfold request_email_change, send_mail. rewrite He. simpl.
    repeat case_match; simpl; congruence.
Qed.

(** C13: The caretaker settings page saves its appearance through
    [PUT /auth/settings], whose handler updates the users collection:
    for a caller who is no user (a caretaker, or no id at all) it answers
    500 and stores nothing, and the page alerts "Failed to save
    settings"; the load at mount fails the same way, and the page keeps
    its defaults. *)
Theorem caretaker_settings_not_saved `{JsonCodec} db us uid st :
  (forall i, uid = Some i -> i ∉ u_id <$> users db) ->
  let n := sv_notif (sp_settings st) in
  (sp_save_settings st).2 = [SPutSettings (sp_profile st) (sp_ctx st) n] /\
  update_settings db us uid (settings_body (sp_ctx st) n) = (us, Err (500, "Error updating settings"%string)) /\
  (sp_on_settings_saved st false).2 = [SAlert "Failed to save settings"] /\
  get_settings db us uid = Err (500, "Error fetching settings"%string) /\
  sp_settings (sp_on_settings st None).1 = sp_settings st /\ sp_ctx (sp_on_settings st None).1 = sp_ctx st.
Proof.
  intros Hn n. unfold update_settings, get_settings.
  destruct uid as [i|]; [|done]. rewrite find_user_absent by (by apply Hn). done.
Qed.

(** For a user, the settings the page saves are the ones the next
    load of the page shows: [updateSettings] stores the payload's
    appearance and notifications, [getSettings] returns them, and the
    page takes them as its [settings] and its large-text mode. *)
Theorem settings_saved_then_loaded `{JsonCodec} db us i st st' :
  i ∈ u_id <$> users db ->
  let body := settings_body (sp_ctx st) (sv_notif (sp_settings st)) in
  let us' := (update_settings db us (Some i) body).1 in
  get_settings db us' (Some i) = Ok body /\
  sp_settings (sp_on_settings st' (Some body)).1 = body /\
  tc_largeText (sp_ctx (sp_on_settings st' (Some body)).1) = tc_largeText (sp_ctx st).
Proof.
  intros Hi body us'. apply list_elem_of_fmap in Hi as (u & -> & Hu).
  assert (Hf : exists v, find_user (u_id u) (users db) = Some v) by
    (destruct (find_user (u_id u) (users db)) eqn:E; [by eexists|];
     apply find_None_Forall, Forall_forall with (x := u) in E; [|done]; by rewrite String.eqb_refl in E).
  destruct Hf as [v Hv]. subst us'. unfold get_settings, update_settings. rewrite Hv. simpl.
  split_and!; [|done|done]. unfold UserSettings in *. by simplify_map_eq.
Qed.

Section Invariant.
Context `{JsonCodec}.

(** The theme provider keeps the appearance in [localStorage]: if
    the stored theme, colour, font and accessibility agree with the
    context when the page opens, they agree after any sequence of events
    on the page (loading the server's settings, the appearance and
    accessibility controls, the profile and privacy flows, logout). *)
Theorem theme_preferences_stored st es : theme_stored st -> theme_stored (sp_run st es).1.
Proof.
  revert st. induction es as [|e es IH]; intros st Hst; simpl; [done|].
  assert (Hs1 : theme_stored (sp_step st e).1).
  { destruct (sp_step_store st e) as [[s0 Hs0]|[Hc Hk]]; intros k Hin.
    - rewrite Hs0. by apply theme_effect_keys.
    - destruct (theme_key_not_session k Hin). rewrite Hk, Hc by done. by apply Hst. }
  destruct (sp_step st e) as [s1 o1]. specialize (IH s1 Hs1). by destruct (sp_run s1 es).
Qed.

End Invariant.

End SettingsTheorems.

(** ** A concrete codec, for the examples

    Each character of a key or value is written after an ["x"], each
    string ends with a ["y"], the object with a ["z"]. *)

Module DemoJson.

Definition enc_str (s : string) : list ascii :=
  List.flat_map (fun c => ["x"%char; c]) (list_ascii_of_string s) ++ ["y"%char].

Definition enc_pairs (l : list (string * string)) : list ascii :=
  List.flat_map (fun kv => enc_str kv.1 ++ enc_str kv.2) l ++ ["z"%char].

Fixpoint dec (l : list ascii) (cur : list ascii) (k : option string) (acc : list (string * string))
    : option (list (string * string)) :=
  match l with
  | "x"%char :: c :: l' => dec l' (cur ++ [c]) k acc
  | "y"%char :: l' =>
      match k with
      | None => dec l' [] (Some (string_of_list_ascii cur)) acc
      | Some key => dec l' [] None (acc ++ [(key, string_of_list_ascii cur)])
      end
  | ["z"%char] => match cur, k with [], None => Some acc | _, _ => None end
  | _ => None
  end.

#[export] Instance demo_json : JsonCodec := {|
  json_stringify o := string_of_list_ascii (enc_pairs (map_to_list o));
  json_parse s := (fun l => list_to_map l) <$> dec (list_ascii_of_string s) [] None [];
|}.

Lemma dec_str s rest cur k acc :
  dec (List.flat_map (fun c => ["x"%char; c]) (list_ascii_of_string s) ++ "y"%char :: rest) cur k acc =
  dec ("y"%char :: rest) (cur ++ list_ascii_of_string s) k acc.
Proof.
  revert cur. induction s as [|c s IH]; intros cur; simpl; [by rewrite app_nil_r|].
  rewrite IH. by rewrite <- app_assoc.
Qed.

Lemma dec_pairs l acc : dec (enc_pairs l) [] None acc = Some (acc ++ l).
Proof.
  revert acc. induction l as [|[k v] l IH]; intros acc; [by rewrite app_nil_r|].
  unfold enc_pairs in *. cbn [List.flat_map]. unfold enc_str. rewrite <- !app_assoc. cbn [app].
  rewrite dec_str. cbn [dec app]. rewrite string_of_list_ascii_of_string, dec_str. cbn [dec app].
  rewrite string_of_list_ascii_of_string, IH. by rewrite <- app_assoc.
Qed.

#[export] Instance demo_json_laws : JsonCodecLaws.
Proof.
  split.
  - intros o. simpl. rewrite list_ascii_of_string_of_list_ascii, dec_pairs. simpl.
    by rewrite list_to_map_to_list.
  - intros o. simpl. unfold enc_pairs. by destruct (List.flat_map _ _).
Qed.

End DemoJson.

Module SettingsWitness.
Import Codec AccountWitness OtpWitness DemoJson SettingsLemmas SettingsTheorems.

#[local] Instance bcrypt_2a'' : Bcrypt := demo_bcrypt "$2a$".

Definition w_ctx : ThemeCtx := mkThemeCtx "light" "blue" "default" false false.
Definition w_user_obj : gmap string string := <["email" := "carl@example.org"]> (<["name" := "Carl"]> ∅).

(** Carl's session: a caretaker token, the stored account, the theme keys. *)
Definition w_store : Storage :=
  write_user w_user_obj (set_item "userType" "caretaker" (set_item "token" "tokC" (theme_effect w_ctx ∅))).

Definition w_sp : SettingsScreen :=
  mkSettingsScreen w_store w_ctx "privacy" false false false (mkSpProfile "Carl" "carl@example.org" "")
    default_settings_val "Carl B." "pic" (mkPwdForm true "" false false "123456" "newpass1" "newpass1")
    (mkEmailForm false "" false false "new@example.org" "") None None.

Lemma caretaker_profile_save_not_persisted_witness :
  let st1 := (sp_save_profile w_sp).1 in
  (sp_save_profile w_sp).2 = [SPutUpdateBasic (sp_name w_sp) (sp_photo w_sp)] /\
  update_basic_profile w_db1 (caller_id w_carer) (sp_name w_sp) (sp_photo w_sp) = (w_db1, Ok None) /\
  (sp_on_basic st1 true).2 = [SAlert "Profile updated successfully"] /\
  p_name (sp_profile (sp_on_basic st1 true).1) = sp_name w_sp /\
  read_user (sp_store (sp_on_basic st1 true).1) =
    Some (<["photo" := sp_photo w_sp]> (<["name" := sp_name w_sp]> w_user_obj)).
Proof. refine (caretaker_profile_save_not_persisted w_db1 (caller_id w_carer) w_sp w_user_obj _ _); concrete. Defined.

Lemma logout_keeps_caretaker_type_witness :
  let s1 := sp_store (sp_logout w_sp).1 in
  (sp_logout w_sp).2 = [SNavigate "/login"] /\
  navigate 1 s1 "/login" = Some LoginPage /\
  get_item "userType" s1 = Some "caretaker"%string /\
  navigate 2 (register_page_google "tokU" "{}" s1) "/home" = Some CarehomePage /\
  navigate 1 (register_page_google "tokU" "{}" s1) "/caretaker/settings" = Some CaresettingsPage.
Proof. refine (logout_keeps_caretaker_type w_sp "tokU" "{}" _ _); concrete. Defined.

(** Carl asks for an e-mail change, then confirms it with the code mailed to him. *)
Definition w_email_db : AccDb := (request_email_change w_db1 (Some w_carer) (Some "new@example.org") 7 true).1.

Lemma caretaker_email_change_not_persisted_witness :
  (confirm_email_change w_email_db (Some w_carer) (Some (generate_otp 7))).2 = Ok "new@example.org"%string /\
  let res := confirm_email_change w_email_db (Some w_carer) (Some (generate_otp 7)) in
  let st' := (sp_on_confirm w_sp (confirm_resp res.2)).1 in
  users res.1 = users w_email_db /\
  (forall ne, res.2 = Ok ne ->
     em_status (sp_email st') = "Email changed successfully."%string /\ p_email (sp_profile st') = ne /\
     read_user (sp_store st') = Some (<["email" := ne]> w_user_obj)).
Proof.
  split; [concrete|].
  refine (caretaker_email_change_not_persisted w_email_db w_carer (generate_otp 7) w_sp w_user_obj _ _); concrete.
Defined.

Lemma privacy_requests_pass_server_checks_witness :
  (sp_submit_reset w_sp).2 = [SPostReset "123456" "newpass1"] /\
  (sp_submit_email w_sp).2 = [SPostRequestEmail "new@example.org"] /\
  (forall c p : string, SPostReset c p ∈ (sp_submit_reset w_sp).2 ->
     p = pw_confirm (sp_pwd w_sp) /\
     reset_begin w_db1 (Some w_carer) (Some c) (Some p) 3 <> Err (400, "OTP and newPassword required") /\
     reset_begin w_db1 (Some w_carer) (Some c) (Some p) 3 <> Err (400, "Password must be at least 6 characters")) /\
  (forall e : string, SPostRequestEmail e ∈ (sp_submit_email w_sp).2 ->
     (request_email_change w_db1 (Some w_carer) (Some e) 7 true).2 <> Err (400, "Enter a valid new email address.")).
Proof.
  split; [concrete|]. split; [concrete|].
  exact (privacy_requests_pass_server_checks w_sp w_db1 w_carer 3 7 true).
Defined.

Lemma theme_preferences_stored_witness :
  theme_stored (sp_run w_sp [SpTheme "dark"; SpSaveProfile; SpBasicDone true; SpLogout]).1.
Proof.
  apply theme_preferences_stored. intros k Hk.
  repeat (apply elem_of_cons in Hk as [->|Hk]; [concrete|]). by apply elem_of_nil in Hk.
Defined.

Lemma caretaker_settings_not_saved_witness :
  let n := sv_notif (sp_settings w_sp) in
  (sp_save_settings w_sp).2 = [SPutSettings (sp_profile w_sp) (sp_ctx w_sp) n] /\
  update_settings w_db1 ∅ (Some (caller_id w_carer)) (settings_body (sp_ctx w_sp) n) =
    (∅, Err (500, "Error updating settings"%string)) /\
  (sp_on_settings_saved w_sp false).2 = [SAlert "Failed to save settings"] /\
  get_settings w_db1 ∅ (Some (caller_id w_carer)) = Err (500, "Error fetching settings"%string) /\
  sp_settings (sp_on_settings w_sp None).1 = sp_settings w_sp /\ sp_ctx (sp_on_settings w_sp None).1 = sp_ctx w_sp.
Proof.
  apply (caretaker_settings_not_saved w_db1 ∅ (Some (caller_id w_carer)) w_sp).
  intros i [= <-]. concrete.
Defined.

Lemma settings_saved_then_loaded_witness :
  let body := settings_body (sp_ctx w_sp) (sv_notif (sp_settings w_sp)) in
  let us' := (update_settings w_db1 ∅ (Some (oid_of 0)) body).1 in
  get_settings w_db1 us' (Some (oid_of 0)) = Ok body /\
  sp_settings (sp_on_settings w_sp (Some body)).1 = body /\
  tc_largeText (sp_ctx (sp_on_settings w_sp (Some body)).1) = tc_largeText (sp_ctx w_sp).
Proof. apply (settings_saved_then_loaded w_db1 ∅ (oid_of 0) w_sp w_sp). concrete. Defined.

End SettingsWitness.
