(* ===== verification/LoginPages.v ===== *)
(** * The sign-in pages: [Pages/Login.jsx], [Pages/Register.jsx], [Adminpages/CaretakerLogin.jsx]

    Each page is a form of controlled inputs ([name], [email],
    [password]), a password visibility toggle and an [isLoading] flag that
    replaces the form by a spinner while its request is pending.  Its
    submit handler posts the form ([/auth/login], [/auth/register],
    [/caretaker/login]); the answer is an event of its own, so that a page
    is a step function from events to its state, its storage and its
    outputs (requests, toasts, navigations).  The Google button of the
    user pages decodes the credential and posts [/auth/googleRegister].

    What the pages write to [localStorage] on success is the session
    writers of [Routing.v] ([login_page_success], [register_page_google],
    [caretaker_login_success]); the answers are the results of the server
    handlers of [Account.v] and [Caretaker.v], which the theorems compose
    with the pages.

    Three things of the browser are parameters of the section [Pages]:
    the [type="email"] validity test that blocks the submit of a
    [required] e-mail input ([email_valid]), the [jwtDecode] of a Google
    credential read at [.email] ([google_email]: [None] when it throws),
    and [JSON.stringify] of the account the server returns. *)

From Stdlib Require Import Ascii String ZArith List.
From stdpp Require Import base list gmap strings.
From S2P Require Import Prelude JsString Gateway Token Account Otp Caretaker Routing.

(** ** The form *)

Record Form := mkForm {
  f_name : string;
  f_email : string;
  f_password : string;
  f_loading : bool;       (** [isLoading] *)
  f_show : bool;          (** [showPassword] *)
}.

Definition form0 : Form := mkForm "" "" "" false false.

Definition set_name s f := mkForm s (f_email f) (f_password f) (f_loading f) (f_show f).
Definition set_email s f := mkForm (f_name f) s (f_password f) (f_loading f) (f_show f).
Definition set_password s f := mkForm (f_name f) (f_email f) s (f_loading f) (f_show f).
Definition set_loading b f := mkForm (f_name f) (f_email f) (f_password f) b (f_show f).
Definition toggle_show f := mkForm (f_name f) (f_email f) (f_password f) (f_loading f) (negb (f_show f)).

Record SignPage := mkSignPage { sg_form : Form; sg_store : Storage }.

Definition sg_with_form f p := mkSignPage f (sg_store p).
Definition sg_with_store s p := mkSignPage (sg_form p) s.

Inductive SignOut :=
| OLoginPost (name email password : string)
| ORegisterPost (name email password : string)
| OCaretakerPost (email password : string)
| OGooglePost (email : option string)
| OToastError (msg : string)
| OToastSuccess (msg : string)
| ONavigate (path : string)
| OHref (path : string).

Inductive SignEvent :=
| EName (s : string)
| EEmail (s : string)
| EPassword (s : string)
| EToggle
| ESubmit
| ELoginAnswer (r : HttpResult (string * UserRec))
| ERegisterAnswer (r : HttpResult (nat * string))
| ECaretakerAnswer (r : HttpResult (string * CaretakerRec))
| EGoogleSuccess (credential : string)
| EGoogleAnswer (r : HttpResult (string * UserRec))
| EGoogleError
| ELink                        (** the page's link to the other sign-in page *)
| ESignUp.                     (** the "Sign Up" link of the login page *)

Section Pages.
Variable email_valid : string -> bool.
Variable google_email : string -> option (option string).
Variable user_json : UserRec -> string.
Variable caretaker_json : CaretakerRec -> string.

(** The inputs' [onChange] handlers and the eye button. *)
Definition input_step (p : SignPage) (ev : SignEvent) : option SignPage :=
  match ev with
  | EName s => Some (sg_with_form (set_name s (sg_form p)) p)
  | EEmail s => Some (sg_with_form (set_email s (sg_form p)) p)
  | EPassword s => Some (sg_with_form (set_password s (sg_form p)) p)
  | EToggle => Some (sg_with_form (toggle_show (sg_form p)) p)
  | _ => None
  end.

(** The browser submits the form only when it is rendered (not
    [isLoading]) and its [required] inputs are filled, the e-mail one
    with a valid address. *)
Definition submittable (with_name : bool) (f : Form) : bool :=
  negb (f_loading f) && (negb with_name || js_truthy (f_name f)) &&
  js_truthy (f_email f) && email_valid (f_email f) && js_truthy (f_password f).

Definition start (p : SignPage) : SignPage := sg_with_form (set_loading true (sg_form p)) p.
Definition stop (p : SignPage) : SignPage := sg_with_form (set_loading false (sg_form p)) p.

(** [Login.jsx]: [handleLogin] (lines 31-47), the Google button (lines
    168-186), the "Sign Up" link (line 194) and the caretaker button
    (lines 206-211). *)
Definition login_step (p : SignPage) (ev : SignEvent) : SignPage * list SignOut :=
  match input_step p ev with
  | Some p' => (p', [])
  | None =>
      let f := sg_form p in
      match ev with
      | ESubmit =>
          if submittable true f then (start p, [OLoginPost (f_name f) (f_email f) (f_password f)]) else (p, [])
      | ELoginAnswer (Ok (tok, u)) =>
          if js_truthy tok then
            (stop (sg_with_store (login_page_success tok (user_json u) (sg_store p)) p), [ONavigate "/home"])
          else (stop p, [])
      | ELoginAnswer (Err _) => (stop p, [OToastError "Invalid credentials. Please try again!"])
      | EGoogleSuccess cred =>
          match google_email cred with
          | Some e => (p, [OGooglePost e])
          | None => (p, [OToastError "Google Login failed"])
          end
      | EGoogleAnswer (Ok (tok, u)) =>
          (sg_with_store (login_page_success tok (user_json u) (sg_store p)) p, [ONavigate "/home"])
      | EGoogleAnswer (Err _) => (p, [OToastError "Google Login failed"])
      | EGoogleError => (p, [OToastError "Google Login Failed"])
      | ELink =>
          (sg_with_store (remove_item "caretaker" (remove_item "caretakerToken" (sg_store p))) p,
           [ONavigate "/caretaker-login"])
      | ESignUp => (p, [ONavigate "/register"])
      | _ => (p, [])
      end
  end.

(** [Register.jsx]: [handleRegister] (lines 26-40), the Google button
    (lines 147-163: the credential is decoded before the [try], so a
    decoding error escapes the handler) and the Login link (line 168). *)
Definition register_step (p : SignPage) (ev : SignEvent) : SignPage * list SignOut :=
  match input_step p ev with
  | Some p' => (p', [])
  | None =>
      let f := sg_form p in
      match ev with
      | ESubmit =>
          if submittable true f then (start p, [ORegisterPost (f_name f) (f_email f) (f_password f)]) else (p, [])
      | ERegisterAnswer (Ok (status, _)) =>
          if Nat.eqb status 201 then (stop p, [OToastSuccess "Registered successfully! Please login."; ONavigate "/login"])
          else (stop p, [])
      | ERegisterAnswer (Err _) => (stop p, [OToastError "Registration failed. Try again!"])
      | EGoogleSuccess cred =>
          match google_email cred with
          | Some e => (p, [OGooglePost e])
          | None => (p, [])
          end
      | EGoogleAnswer (Ok (tok, u)) =>
          (sg_with_store (register_page_google tok (user_json u) (sg_store p)) p, [ONavigate "/home"])
      | EGoogleAnswer (Err _) => (p, [OToastError "Google Login failed"])
      | EGoogleError => (p, [OToastError "Google Login Failed"])
      | ELink => (p, [OHref "/login"])
      | _ => (p, [])
      end
  end.

(** [CaretakerLogin.jsx]: [handleLogin] (lines 27-54) and the link to
    the user login (lines 157-162). *)
Definition caretaker_step (p : SignPage) (ev : SignEvent) : SignPage * list SignOut :=
  match input_step p ev with
  | Some p' => (p', [])
  | None =>
      let f := sg_form p in
      match ev with
      | ESubmit =>
          if submittable false f then (start p, [OCaretakerPost (f_email f) (f_password f)]) else (p, [])
      | ECaretakerAnswer (Ok (tok, c)) =>
          if js_truthy tok then
            (stop (sg_with_store (caretaker_login_success tok (caretaker_json c) (sg_store p)) p),
             [OToastSuccess "Caretaker login successful!"; ONavigate "/caretaker/home"])
          else (stop p, [OToastError "Invalid caretaker credentials!"])
      | ECaretakerAnswer (Err _) => (stop p, [OToastError "Invalid caretaker credentials. Please try again!"])
      | ELink => (p, [ONavigate "/login"])
      | _ => (p, [])
      end
  end.

(** The view: the spinner while loading (lines 50-58, 42-52, 56-64), else
    the form with the password shown as text or masked. *)
Inductive SignView := VSpinner | VForm (password_type : string).

Definition sign_view (p : SignPage) : SignView :=
  if f_loading (sg_form p) then VSpinner
  else VForm (if f_show (sg_form p) then "text" else "password").

Fixpoint sign_run (step : SignPage -> SignEvent -> SignPage * list SignOut) (p : SignPage) (es : list SignEvent)
    : SignPage * list SignOut :=
  match es with
  | [] => (p, [])
  | e :: es' => let '(p1, o1) := step p e in let '(p2, o2) := sign_run step p1 es' in (p2, o1 ++ o2)
  end.

End Pages.

(** A page whose three inputs were typed, on a given storage. *)
Definition typed (n e pw : string) (s : Storage) : SignPage := mkSignPage (mkForm n e pw false false) s.

(** ** Lemmas *)

Module SignLemmas.

Section Tokens.
Context `{Bcrypt} `{JwtSigner}.
Variable secret : option string.

Lemma login_Ok_token db e pw db' tok u :
  login secret db e pw = (db', Ok (tok, u)) -> js_truthy tok = true.
Proof. unfold login. repeat case_match; intros; simplify_eq. apply jwt_sign_truthy. Qed.

Lemma login_Ok_email db e pw db' tok u :
  login secret db (Some e) pw = (db', Ok (tok, u)) -> u_email u = e.
Proof.
  unfold login. repeat case_match; intros; simplify_eq/=.
  match goal with H : find_by_email _ _ = Some _ |- _ =>
    apply find_Some_elem in H as [_ ?%String.eqb_eq] end. done.
Qed.

Lemma caretaker_login_Ok_token cs now e pw cs' tok c :
  caretaker_login secret cs now e pw = (cs', Ok (tok, c)) -> js_truthy tok = true.
Proof. unfold caretaker_login. repeat case_match; intros; simplify_eq. apply jwt_sign_truthy. Qed.

Lemma register_fresh db n e pw salt :
  js_truthy n = true -> js_truthy e = true -> js_truthy pw = true -> find_by_email e (users db) = None ->
  (register db (Some n) (Some e) (Some pw) salt).2 = Ok (201, "Registered successfully"%string).
Proof. intros Hn He Hp Hf. unfold register. rewrite Hn, He, Hp, Hf. done. Qed.

End Tokens.

Lemma truthy_neq s : js_truthy s = true -> s <> ""%string.
Proof. by intros H ->. Qed.

Lemma caretaker_session_home tok cj s :
  js_truthy tok = true -> navigate 1 (caretaker_login_success tok cj s) "/caretaker/home" = Some CarehomePage.
Proof.
  intros Ht. simpl. unfold resolve. route_compute. simpl. unfold protected_route, caretaker_login_success.
  storage_simpl. destruct tok; [discriminate|done].
Qed.

End SignLemmas.

(** ** Theorems *)

Module SignTheorems.
Import SignLemmas.

Section Theorems.
Context `{Bcrypt} `{JwtSigner}.
Variable secret : option string.
Variable email_valid : string -> bool.
Variable google_email : string -> option (option string).
Variable user_json : UserRec -> string.
Variable caretaker_json : CaretakerRec -> string.

Local Abbreviation lstep := (login_step email_valid google_email user_json).
Local Abbreviation rstep := (register_step email_valid google_email user_json).
Local Abbreviation cstep := (caretaker_step email_valid caretaker_json).

(** C15: Sign-up then sign-in, through the pages and the server: a
    Register form with a new e-mail posts [/auth/register], which creates
    the account and answers 201, on which the page says so and goes to
    [/login]; the Login form with the same e-mail and password posts
    [/auth/login], which answers a token for that account, on which the
    page stores the session and goes to [/home], which renders the home
    page. *)
Theorem sign_up_then_sign_in db s n e pw salt :
  js_truthy n = true -> js_truthy e = true -> js_truthy pw = true -> email_valid e = true ->
  find_by_email e (users db) = None ->
  let db1 := (register db (Some n) (Some e) (Some pw) salt).1 in
  (rstep (typed n e pw s) ESubmit).2 = [ORegisterPost n e pw] /\
  (register db (Some n) (Some e) (Some pw) salt).2 = Ok (201, "Registered successfully"%string) /\
  (rstep (rstep (typed n e pw s) ESubmit).1 (ERegisterAnswer (Ok (201, "Registered successfully"%string)))).2 =
    [OToastSuccess "Registered successfully! Please login."; ONavigate "/login"] /\
  (lstep (typed n e pw s) ESubmit).2 = [OLoginPost n e pw] /\
  exists db2 tok u, login secret db1 (Some e) (Some pw) = (db2, Ok (tok, u)) /\ u_email u = e /\
    (lstep (lstep (typed n e pw s) ESubmit).1 (ELoginAnswer (Ok (tok, u)))).2 = [ONavigate "/home"] /\
    navigate 1 (sg_store (lstep (lstep (typed n e pw s) ESubmit).1 (ELoginAnswer (Ok (tok, u)))).1) "/home"
      = Some HomePage.
Proof.
  intros Hn He Hp Hv Hf db1.
  assert (Hsub : submittable email_valid true (mkForm n e pw false false) = true)
    by (unfold submittable; simpl; by rewrite Hn, He, Hv, Hp).
  pose proof (register_fresh db n e pw salt Hn He Hp Hf) as Hreg.
  split_and!; [by cbn; rewrite Hsub|done|done|by cbn; rewrite Hsub|].
  destruct (register db (Some n) (Some e) (Some pw) salt) as [d1 r] eqn:E. simpl in Hreg. subst r.
  destruct (register_login_ok secret db n e pw salt d1 _ E) as (db2 & tok & u & Hl & _).
  exists db2, tok, u. split_and!; [done|by eapply login_Ok_email| |].
  - cbn. rewrite Hsub. cbn. by rewrite (login_Ok_token _ _ _ _ _ _ _ Hl).
  - cbn. rewrite Hsub. cbn. rewrite (login_Ok_token _ _ _ _ _ _ _ Hl). cbn.
    apply (proj1 (login_session_works _ tok _ (truthy_neq _ (login_Ok_token _ _ _ _ _ _ _ Hl)))).
Qed.


(** The Google button of the two user pages on a credential that does
    not decode: the login page reports it, the register page shows
    nothing, its handler failing before its [try]. *)
Theorem google_bad_credential p cred :
  google_email cred = None ->
  lstep p (EGoogleSuccess cred) = (p, [OToastError "Google Login failed"]) /\
  rstep p (EGoogleSuccess cred) = (p, []).
Proof. intros Hg. cbn. by rewrite Hg. Qed.

End Theorems.

End SignTheorems.

Module SignWitness.
Import Codec AccountWitness SignTheorems.

#[local] Instance bcrypt_2a_sign : Bcrypt := demo_bcrypt "$2a$".

(** The browser's e-mail test is taken to be the server's pattern;
    accounts are stored as their e-mail. *)
Definition w_valid : string -> bool := email_regex.
Definition w_google : string -> option (option string) := fun _ => None.
Definition w_store0 : Storage := ∅.

Lemma sign_up_then_sign_in_witness :
  let db1 := (register w_db0 (Some "Bob") (Some "bob@example.org") (Some "s3cretpw") 4).1 in
  (register_step w_valid w_google u_email (typed "Bob" "bob@example.org" "s3cretpw" w_store0) ESubmit).2 =
    [ORegisterPost "Bob" "bob@example.org" "s3cretpw"] /\
  (register w_db0 (Some "Bob") (Some "bob@example.org") (Some "s3cretpw") 4).2 = Ok (201, "Registered successfully"%string) /\
  (register_step w_valid w_google u_email
     (register_step w_valid w_google u_email (typed "Bob" "bob@example.org" "s3cretpw" w_store0) ESubmit).1
     (ERegisterAnswer (Ok (201, "Registered successfully"%string)))).2 =
    [OToastSuccess "Registered successfully! Please login."; ONavigate "/login"] /\
  (login_step w_valid w_google u_email (typed "Bob" "bob@example.org" "s3cretpw" w_store0) ESubmit).2 =
    [OLoginPost "Bob" "bob@example.org" "s3cretpw"] /\
  exists db2 tok u, login (Some w_key) db1 (Some "bob@example.org") (Some "s3cretpw") = (db2, Ok (tok, u)) /\
    u_email u = "bob@example.org"%string /\
    (login_step w_valid w_google u_email
       (login_step w_valid w_google u_email (typed "Bob" "bob@example.org" "s3cretpw" w_store0) ESubmit).1
       (ELoginAnswer (Ok (tok, u)))).2 = [ONavigate "/home"] /\
    navigate 1 (sg_store (login_step w_valid w_google u_email
       (login_step w_valid w_google u_email (typed "Bob" "bob@example.org" "s3cretpw" w_store0) ESubmit).1
       (ELoginAnswer (Ok (tok, u)))).1) "/home" = Some HomePage.
Proof. refine (sign_up_then_sign_in (Some w_key) _ _ _ _ _ _ _ _ _ _ _ _ _ _); concrete. Defined.

Definition w_carer_rec : CaretakerRec :=
  mkCaretaker "64b7f0c2a1b2c3d4e5f6071a" "Carl" "carl@example.org" "carlpass" [] (mkCtProfile 0 0 0 0 []) default_settings.


End SignWitness.
