(* ===== verification/Routes.v ===== *)
(** * The server's request routing: [server.js] and [routes/*.js]

    Express dispatches a request through the application's layers in the
    order [server.js] registers them (lines 59-64 and 145): the banner at
    [/], the five routers under their mount paths, and the contact route.
    A router mounted under a prefix sees the rest of the path and tries
    its routes in order; when none matches it passes the request on to
    the next layer, after the middleware of its mount ([auth] for
    [/api/chat]) has run.  A route's own middleware runs before its
    handler.

    [dispatch] gives the guards that run, in order, and the handler
    reached ([None]: Express's 404).  Paths are matched segment by
    segment, case-insensitively for literal segments (Express's default),
    a parameter matching any segment; empty segments (a trailing slash)
    are ignored, as non-strict routing does. *)

From Stdlib Require Import Ascii String List.
From stdpp Require Import base list strings.
From S2P Require Import Prelude JsString.

Inductive Method := MGet | MPost | MPut.

#[export] Instance Method_eq_dec : EqDecision Method.
Proof. solve_decision. Defined.

(** The middleware before a handler: [auth] ([middleware/auth.js]) or
    [verifyToken] (the settings routes; not under [src/]). *)
Inductive Guard := AuthMw | VerifyToken.

#[export] Instance Guard_eq_dec : EqDecision Guard.
Proof. solve_decision. Defined.

(** The handlers the routes name. *)
Inductive Handler :=
| HRootBanner | HContact
| HRegister | HLogin | HGoogleRegister | HChangeUserName | HChangePassword
| HGetSettings | HUpdateSettings | HGetProfile | HUpdateProfile
| HRequestPasswordOtp | HResetPasswordWithOtp | HRequestEmailChangeOtp | HConfirmEmailChange
| HUpdateBasicProfile
| HChatGetUsers | HChatGetMessages | HChatSendMessage | HChatUpdateProfile | HChatInteractions
| HCtInteractions | HCtMessagesCount | HCtInteractionsToday | HCtInteractionsTodayUsers
| HGetCaretakers | HGetPatients | HAssignPatient | HCaretakerLogin | HGetCaretakerProfile
| HGetCaretakerSettings | HPutCaretakerSettings | HCtUpdateProfile
| HGetAllGames | HGetGameById | HPlayGame
| HAiChat.

#[export] Instance Handler_eq_dec : EqDecision Handler.
Proof. solve_decision. Defined.

(** The handlers whose code reads [req.user] (auth.controller.js lines
    101-284, caretaker.controller.js 94-164, chat.controller.js 8-60,
    games.controller.js 46 and the inline handlers of chat.route.js and
    caretaker.chatRoutes.js). *)
Definition reads_caller (h : Handler) : bool :=
  match h with
  | HRootBanner | HContact | HRegister | HLogin | HGoogleRegister
  | HGetCaretakers | HGetPatients | HAssignPatient | HCaretakerLogin
  | HGetAllGames | HGetGameById | HAiChat => false
  | _ => true
  end.

Inductive Seg := Lit (s : string) | Param.

Record Route := mkRoute { r_method : Method; r_path : list Seg; r_guards : list Guard; r_handler : Handler }.

Inductive Layer :=
| LRoute (r : Route)
| LMount (prefix : list string) (guards : list Guard) (routes : list Route).

(** ** The route tables *)

(** [routes/games.route.js] lines 6-9. *)
Definition games_routes : list Route := [
  mkRoute MGet [Lit "all"] [] HGetAllGames;
  mkRoute MGet [Param] [] HGetGameById;
  mkRoute MPost [Param; Lit "play"] [AuthMw] HPlayGame].

(** [routes/auth.route.js] lines 9-31. *)
Definition auth_routes : list Route := [
  mkRoute MPost [Lit "register"] [] HRegister;
  mkRoute MPost [Lit "login"] [] HLogin;
  mkRoute MPost [Lit "googleRegister"] [] HGoogleRegister;
  mkRoute MPost [Lit "changeUserName"] [AuthMw] HChangeUserName;
  mkRoute MPost [Lit "changePassword"] [AuthMw] HChangePassword;
  mkRoute MGet [Lit "settings"] [VerifyToken] HGetSettings;
  mkRoute MPut [Lit "settings"] [VerifyToken] HUpdateSettings;
  mkRoute MGet [Lit "profile"] [AuthMw] HGetProfile;
  mkRoute MPut [Lit "profile"] [AuthMw] HUpdateProfile;
  mkRoute MPost [Lit "privacy"; Lit "request-otp"] [AuthMw] HRequestPasswordOtp;
  mkRoute MPost [Lit "privacy"; Lit "reset"] [AuthMw] HResetPasswordWithOtp;
  mkRoute MPost [Lit "privacy"; Lit "request-email-change"] [AuthMw] HRequestEmailChangeOtp;
  mkRoute MPost [Lit "privacy"; Lit "confirm-email"] [AuthMw] HConfirmEmailChange;
  mkRoute MPut [Lit "update-basic"] [AuthMw] HUpdateBasicProfile].

(** [routes/chat.route.js] lines 10-19. *)
Definition chat_routes : list Route := [
  mkRoute MGet [] [AuthMw] HChatGetUsers;
  mkRoute MGet [Lit "messages"; Param] [AuthMw] HChatGetMessages;
  mkRoute MPost [Lit "send"] [AuthMw] HChatSendMessage;
  mkRoute MPost [Lit "updateProfile"] [AuthMw] HChatUpdateProfile;
  mkRoute MGet [Lit "interactions"] [AuthMw] HChatInteractions].

(** [routes/caretaker.route.js] lines 7-16. *)
Definition caretaker_routes : list Route := [
  mkRoute MGet [] [AuthMw] HGetCaretakers;
  mkRoute MGet [Param; Lit "patients"] [AuthMw] HGetPatients;
  mkRoute MPost [Lit "assign"] [AuthMw] HAssignPatient;
  mkRoute MPost [Lit "login"] [] HCaretakerLogin;
  mkRoute MGet [Lit "profile"] [AuthMw] HGetCaretakerProfile;
  mkRoute MGet [Lit "settings"] [AuthMw] HGetCaretakerSettings;
  mkRoute MPut [Lit "settings"] [AuthMw] HPutCaretakerSettings;
  mkRoute MPost [Lit "updateProfile"] [AuthMw] HCtUpdateProfile;
  mkRoute MGet [Lit "get-settings"] [AuthMw] HGetCaretakerSettings;
  mkRoute MPut [Lit "update-settings"] [AuthMw] HPutCaretakerSettings].

(** [routes/caretaker.chatRoutes.js] lines 12, 51, 66 and 103. *)
Definition caretaker_chat_routes : list Route := [
  mkRoute MGet [Lit "interactions"] [AuthMw] HCtInteractions;
  mkRoute MGet [Lit "messages"; Lit "count"] [AuthMw] HCtMessagesCount;
  mkRoute MGet [Lit "interactions"; Lit "today"] [AuthMw] HCtInteractionsToday;
  mkRoute MGet [Lit "interactions"; Lit "today"; Lit "users"] [AuthMw] HCtInteractionsTodayUsers].

(** [server.js] lines 59-64, 145 and 243. *)
Definition app_layers : list Layer := [
  LRoute (mkRoute MGet [] [] HRootBanner);
  LMount ["api"; "games"] [] games_routes;
  LMount ["api"; "auth"] [] auth_routes;
  LMount ["api"; "chat"] [AuthMw] chat_routes;
  LMount ["api"; "caretaker"] [] caretaker_routes;
  LMount ["api"; "caretaker"; "chat"] [] caretaker_chat_routes;
  LRoute (mkRoute MPost [Lit "api"; Lit "contact"] [] HContact);
  LRoute (mkRoute MPost [Lit "api"; Lit "chat"] [] HAiChat)].

(** ** Matching and dispatch *)

(** The path of a URL: what precedes its query string. *)
Definition url_path (url : string) : string := default "" (head (js_split "?" url)).

(** A path ending in [/] matches as the path without it (non-strict
    routing); one trailing [/] only. *)
Definition drop_trailing_empty (l : list string) : list string :=
  match last l with Some EmptyString => removelast l | _ => l end.

(** The segments of a path as Express's matcher sees them: the leading
    [/] and one trailing [/] make no segment, while an empty segment
    inside the path ([//]) stays, and no literal nor parameter matches
    it. *)
Definition url_segments (url : string) : list string :=
  drop_trailing_empty match js_split "/" (url_path url) with
                      | EmptyString :: segs => segs
                      | segs => segs
                      end.

Definition seg_eqb (lit x : string) : bool := String.eqb (js_to_lower lit) (js_to_lower x).

Fixpoint seg_match (pat : list Seg) (p : list string) : bool :=
  match pat, p with
  | [], [] => true
  | Lit s :: pat', x :: p' => seg_eqb s x && seg_match pat' p'
  | Param :: pat', x :: p' => js_truthy x && seg_match pat' p'
  | _, _ => false
  end.

Fixpoint strip_prefix (pre p : list string) : option (list string) :=
  match pre, p with
  | [], _ => Some p
  | s :: pre', x :: p' => if seg_eqb s x then strip_prefix pre' p' else None
  | _ :: _, [] => None
  end.

Definition route_match (m : Method) (p : list string) (r : Route) : bool :=
  bool_decide (m = r_method r) && seg_match (r_path r) p.

Fixpoint dispatch_layers (ls : list Layer) (m : Method) (p : list string) : list Guard * option Handler :=
  match ls with
  | [] => ([], None)
  | LRoute r :: ls' => if route_match m p r then (r_guards r, Some (r_handler r)) else dispatch_layers ls' m p
  | LMount pre gs rs :: ls' =>
      match strip_prefix pre p with
      | Some rest =>
          match List.find (route_match m rest) rs with
          | Some r => (gs ++ r_guards r, Some (r_handler r))
          | None => let '(gs', h) := dispatch_layers ls' m p in (gs ++ gs', h)
          end
      | None => dispatch_layers ls' m p
      end
  end.

Definition dispatch (m : Method) (url : string) : list Guard * option Handler :=
  dispatch_layers app_layers m (url_segments url).

(** [API]'s base URL is the server's [/api]. *)
Definition api_path (url : string) : string := "/api" ++ url.

(** ** The routes of a table, with every guard on the way to them *)

Definition layer_entries (ls : list Layer) : list (list Guard * Handler) :=
  List.flat_map (fun l => match l with
                          | LRoute r => [(r_guards r, r_handler r)]
                          | LMount _ gs rs => (fun r => (gs ++ r_guards r, r_handler r)) <$> rs
                          end) ls.

(** A path that reaches the route: its literal segments, ["x"] for each
    parameter. *)
Definition sample_path (pre : list string) (r : Route) : list string :=
  pre ++ ((fun s => match s with Lit l => l | Param => "x" end) <$> r_path r).

Definition layer_samples (ls : list Layer) : list (Method * list string * (list Guard * Handler)) :=
  List.flat_map (fun l => match l with
                          | LRoute r => [(r_method r, sample_path [] r, (r_guards r, r_handler r))]
                          | LMount pre gs rs =>
                              (fun r => (r_method r, sample_path pre r, (gs ++ r_guards r, r_handler r))) <$> rs
                          end) ls.

(** ** Lemmas *)

Module RouteLemmas.

(** A handler reached is a route of the table, and every guard of that
    route and of its mount ran on the way. *)
Lemma dispatch_layers_entry ls m p gs h :
  dispatch_layers ls m p = (gs, Some h) ->
  exists gs0, (gs0, h) ∈ layer_entries ls /\ gs0 ⊆ gs.
Proof.
  revert gs. induction ls as [|[r|pre gm rs] ls IH]; intros gs; simpl; [discriminate|..].
  - destruct (route_match m p r).
    + intros [= <- <-]. exists (r_guards r). split; [by left|done].
    + intros Hd. destruct (IH gs Hd) as (gs0 & Hin & Hsub). exists gs0. split; [by right|done].
  - destruct (strip_prefix pre p) as [rest|].
    + destruct (List.find (route_match m rest) rs) as [r|] eqn:Hf.
      * intros [= <- <-]. exists (gm ++ r_guards r). split; [|done].
        apply elem_of_app. left. apply list_elem_of_fmap. exists r. split; [done|].
        apply list_elem_of_In. by eapply find_some.
      * destruct (dispatch_layers ls m p) as [gs' h'] eqn:Hd. intros [= <- ->].
        destruct (IH gs' eq_refl) as (gs0 & Hin & Hsub). exists gs0.
        split; [by apply elem_of_app; right|]. intros g Hg. apply elem_of_app. right. by apply Hsub.
    + intros Hd. destruct (IH gs Hd) as (gs0 & Hin & Hsub). exists gs0.
      split; [by apply elem_of_app; right|done].
Qed.

(** The table itself puts a guard before every handler that reads the
    caller. *)
Lemma app_entries_guarded :
  Forall (fun e : list Guard * Handler => reads_caller e.2 = true -> AuthMw ∈ e.1 \/ VerifyToken ∈ e.1)
         (layer_entries app_layers).
Proof. apply (bool_decide_unpack _). vm_compute. exact I. Qed.

End RouteLemmas.

(** ** Theorems *)

Module RouteTheorems.
Import RouteLemmas.

(** C19: Every request that reaches a handler reading [req.user] has
    passed [auth] or [verifyToken] on its way, whatever its method and
    path: no route exposes the caller-dependent handlers unguarded. *)
Theorem caller_handlers_guarded m url gs h :
  dispatch m url = (gs, Some h) -> reads_caller h = true -> AuthMw ∈ gs \/ VerifyToken ∈ gs.
Proof.
  intros Hd Hr. destruct (dispatch_layers_entry _ _ _ _ _ Hd) as (gs0 & Hin & Hsub).
  pose proof (proj1 (Forall_forall _ _) app_entries_guarded _ Hin Hr) as [Hg|Hg];
    [left|right]; by apply Hsub.
Qed.

(** No route of the five routers or of [server.js] is shadowed by an
    earlier one: each is reached by a path of its own shape (a parameter
    filled with ["x"]), its mount's and its own guards being the last to
    run before it. *)
Theorem every_route_reachable :
  Forall (fun s : Method * list string * (list Guard * Handler) =>
            s.2.1 `suffix_of` (dispatch_layers app_layers s.1.1 s.1.2).1 /\
            (dispatch_layers app_layers s.1.1 s.1.2).2 = Some s.2.2)
         (layer_samples app_layers).
Proof. apply (bool_decide_unpack _). vm_compute. exact I. Qed.

(** A path no layer matches ends in a 404 after the guards of the mounts
    it passed through: the call log of the directory page runs none, an
    unknown path under [/api/chat] runs [auth] first; the [POST
    /auth/logout] that the controller's comment names is such a path.
    The assistant's [POST /api/chat], registered after the chat router's
    mount, is reached only after that mount's [auth]. *)
Theorem route_edge_cases :
  dispatch MPost (api_path "/stats/call") = ([], None) /\
  dispatch MGet (api_path "/chat/unknown") = ([AuthMw], None) /\
  dispatch MPost (api_path "/auth/logout") = ([], None) /\
  dispatch MPost (api_path "/chat") = ([AuthMw], Some HAiChat).
Proof. split_and!; vm_compute; reflexivity. Qed.

(** Slashes as Express reads them: a trailing [/] is ignored, so
    [/api/chat/] is the contact list and [/api/chat/messages/<id>/] the
    history; an empty segment matches no parameter, so
    [/api/chat/messages//] ends in a 404 after the mount's [auth]. *)
Theorem route_slashes :
  dispatch MGet (api_path "/chat/") = ([AuthMw; AuthMw], Some HChatGetUsers) /\
  dispatch MGet (api_path "/chat/messages/abc/") = ([AuthMw; AuthMw], Some HChatGetMessages) /\
  dispatch MGet (api_path "/chat/messages//") = ([AuthMw], None).
Proof. split_and!; vm_compute; reflexivity. Qed.

End RouteTheorems.

(** ** Witness *)

Module RouteWitness.
Import RouteTheorems.

Lemma caller_handlers_guarded_witness : AuthMw ∈ [AuthMw] \/ VerifyToken ∈ [AuthMw].
Proof. apply (caller_handlers_guarded MPost "/api/games/g1/play" [AuthMw] HPlayGame); vm_compute; reflexivity. Defined.

End RouteWitness.
