(* ===== verification/Assistant.v ===== *)
(** * The assistant endpoint and the requests of the user chat screen

    [server.js] lines 223-268: at start-up the Gemini model is available
    when [GEMINI_API_KEY] is set and the client library initialised; the
    route [POST /api/chat] answers 501 when it is not, and otherwise the
    generated text, or a fixed apology when the library or the request
    body fails.  The route is registered after the mount of the chat
    router under the same path, so [auth] runs first ([Routes.v]).

    The HTTP requests of [Pages/Chat.jsx] ([Client.v]'s outputs) are given
    their method and URL ([http_request]) and followed through [dispatch];
    the assistant's answer is followed back into [on_ai_reply]. *)

From Stdlib Require Import Ascii String List.
From stdpp Require Import base list strings.
From S2P Require Import Prelude JsString Client Routes.

(** ** Start-up (lines 223-238) *)

Definition gemini_available (api_key : option string) (init_ok : bool) : bool :=
  js_truthy_opt api_key && init_ok.

(** ** [POST /api/chat] (lines 243-268) *)

Inductive AiReply :=
| AiError (error : string)
| AiMessage (role content : string).

Definition ai_fallback : string :=
  "I'm currently unable to process your request. Please try again later.".

(** [messages] is [None] when the body has none ([messages.map] throws);
    [generate] is [model.generateContent] then [response.text()], [None]
    when either throws. *)
Definition ai_chat (available : bool) (generate : list (string * string) -> option string)
    (messages : option (list (string * string))) : nat * AiReply :=
  if negb available then (501, AiError "Gemini AI not available")
  else
    match messages with
    | None => (200, AiMessage "assistant" ai_fallback)
    | Some ms =>
        match generate ms with
        | Some r => (200, AiMessage "assistant" r)
        | None => (200, AiMessage "assistant" ai_fallback)
        end
    end.

(** What [handleAiSend] receives: a 2xx answer's [data.message.content]
    ([data.reply] is never sent), or a rejected request ([None]): an error
    status, or the 401 of the mount's [auth] when [authed] is false. *)
Definition ai_client_answer (authed : bool) (r : nat * AiReply) : option (option string) :=
  if negb authed then None
  else match r with
       | (200, AiMessage _ c) => Some (Some c)
       | (200, AiError _) => Some None
       | _ => None
       end.

(** ** The screen's HTTP requests (Chat.jsx lines 228-230, 283 and 305) *)

Definition http_request (o : Output) : option (Method * string) :=
  match o with
  | OGetMessages _ id ty => Some (MGet, ("/chat/messages/" ++ id ++ "?type=" ++ ty)%string)
  | OPostUpdateProfile _ _ => Some (MPost, "/chat/updateprofile")
  | OAiPost _ => Some (MPost, "/chat")
  | OConnect _ _ | ODisconnect _ | OEmitSend _ _ => None
  end.

(** A string that is one path segment: not empty, no [/] nor [?]. *)
Definition one_segment (s : string) : bool :=
  js_truthy s && forallb (fun c => negb (Ascii.eqb c "/") && negb (Ascii.eqb c "?")) (list_ascii_of_string s).

(** ** Lemmas *)

Module AssistantLemmas.

Lemma js_split_aux_app sep s rest cur :
  Forall (fun ch => ch <> sep) (list_ascii_of_string s) ->
  js_split_aux sep (s ++ rest) cur = js_split_aux sep rest (cur ++ s).
Proof.
  revert cur. induction s as [|ch s IH]; intros cur Hs; simpl.
  - by rewrite string_app_nil_r.
  - simpl in Hs. apply Forall_cons in Hs as [Hch Hs].
    destruct (Ascii.eqb_spec ch sep); [done|]. rewrite IH by done. by rewrite string_app_assoc.
Qed.

Lemma one_segment_chars s :
  one_segment s = true ->
  js_truthy s = true /\ Forall (fun ch => ch <> "/"%char) (list_ascii_of_string s) /\
  Forall (fun ch => ch <> "?"%char) (list_ascii_of_string s).
Proof.
  unfold one_segment. intros [Ht Hs]%andb_prop. split; [done|].
  rewrite forallb_forall in Hs. rewrite !Forall_forall. split; intros ch Hch Heq; subst ch;
    apply list_elem_of_In, Hs in Hch; discriminate.
Qed.

(** The history URL of a one-segment id has that id as its last segment;
    the query string is not part of the path. *)
Lemma messages_url_segments id ty :
  one_segment id = true ->
  url_segments (api_path ("/chat/messages/" ++ id ++ "?type=" ++ ty)%string) = ["api"; "chat"; "messages"; id].
Proof.
  intros (Ht & Hsl & Hq)%one_segment_chars.
  unfold url_segments, url_path, js_split, api_path. simpl.
  rewrite js_split_aux_app by done. simpl.
  rewrite js_split_aux_app by done. simpl. rewrite js_split_aux_nosep by done. simpl.
  destruct id as [|ch id']; [discriminate|]. reflexivity.
Qed.

End AssistantLemmas.

(** ** Theorems *)

Module AssistantTheorems.
Import AssistantLemmas.

(** C22: Every HTTP request of the user chat screen reaches its handler,
    after the chat mount's [auth] (and the route's own): the history load
    of a contact whose id is one path segment reaches [getMessages] (the
    query string aside), the counter update reaches [updateProfile]
    although its path is spelt ["updateprofile"] (Express matches literal
    segments case-insensitively), and the assistant request reaches the
    assistant route behind the chat router. *)
Theorem chat_requests_routed o m u :
  http_request o = Some (m, u) ->
  (forall g id ty, o = OGetMessages g id ty -> one_segment id = true) ->
  dispatch m (api_path u) =
    match o with
    | OGetMessages _ _ _ => ([AuthMw; AuthMw], Some HChatGetMessages)
    | OPostUpdateProfile _ _ => ([AuthMw; AuthMw], Some HChatUpdateProfile)
    | _ => ([AuthMw], Some HAiChat)
    end.
Proof.
  intros Hr Hid. destruct o as [| | | |g id ty|]; simpl in Hr; simplify_eq;
    [vm_compute; reflexivity| |vm_compute; reflexivity].
  pose proof (Hid _ _ _ eq_refl) as Hseg. unfold dispatch. rewrite messages_url_segments by done.
  destruct id as [|ch id']; [discriminate|reflexivity].
Qed.

(** C23: The assistant, from the screen to Gemini and back: the screen
    posts the whole conversation with the new line; the request passes
    the chat mount's [auth] and reaches the assistant route; the screen
    then shows, after the user's line, the generated text when the caller
    is authenticated and Gemini is available and answers (the screen's
    apology for an empty text), the server's apology when Gemini fails,
    and ["AI is unavailable right now."] for a 401 or a 501. *)
Theorem ai_reply_shown st text now available generate authed :
  let h := ((fun m => (ai_role m, ai_text m)) <$> ui_ai st) ++ [("user", text)] in
  (ai_send st text now).2 = [OAiPost h] /\
  dispatch MPost (api_path "/chat") = ([AuthMw], Some HAiChat) /\
  ui_ai (on_ai_reply (ai_send st text now).1
           (ai_client_answer authed (ai_chat available generate (Some h))) now).1 =
    ui_ai st ++ [mkAiMsg "user" text now;
                 mkAiMsg "assistant"
                   (if authed && available then
                      match generate h with
                      | Some c => if js_truthy c then c else "Sorry, I couldn't process that."
                      | None => ai_fallback
                      end
                    else "AI is unavailable right now.") now].
Proof.
  intros h. split; [reflexivity|]. split; [vm_compute; reflexivity|]. simpl. rewrite <- app_assoc. f_equal.
  destruct authed, available; simpl; try done. unfold ai_client_answer, ai_chat. simpl. by destruct (generate h).
Qed.

End AssistantTheorems.

(** ** Witness *)

Module AssistantWitness.
Import AssistantTheorems.

Lemma chat_requests_routed_witness :
  dispatch MGet (api_path ("/chat/messages/" ++ "64b7f0c2a1b2c3d4e5f6071a" ++ "?type=" ++ "caretaker")%string)
  = ([AuthMw; AuthMw], Some HChatGetMessages).
Proof.
  apply (chat_requests_routed (OGetMessages 1 "64b7f0c2a1b2c3d4e5f6071a" "caretaker")).
  - reflexivity.
  - intros g id ty [= _ <- _]. reflexivity.
Defined.

End AssistantWitness.
