(* ===== verification/CallCaretaker.v ===== *)
(** * The caretaker directory page: [Pages/Callcaretaker.jsx]

    The page behind the user route [/call].  On mount it loads
    [GET /caretaker] ([getCaretakers] of [caretaker.controller.js]) and
    shows one card per caretaker: an avatar, the availability read from
    whichever of [available], [isActive], [status] or [state] the
    document has, a voice-call button (enabled for an available caretaker:
    it opens the dialer and logs the call with [POST /stats/call]) and a
    message button that opens the chat screen on that caretaker.

    The cards are the JSON of the caretaker documents: the fields the
    other handlers use come from [CaretakerRec] ([Caretaker.v]); the
    directory-only fields of the schema ([status] with its default
    ["Available"], [phone], [initials]) are [DirFields], given per
    caretaker.  The chat screen's list of caretakers is the same answer,
    read by [on_lists] of [Client.v].  Where the call log goes is
    [dispatch] of [Routes.v]. *)

From Stdlib Require Import Ascii String ZArith List.
From stdpp Require Import base list strings.
From S2P Require Import Prelude JsString Gateway Token Account Caretaker Client Routes.

(** ** A card: the caretaker as the page reads it

    [typeof x === "boolean"] holds exactly for a boolean field; any other
    value falls through to the next test, as an absent field does, so the
    two boolean fields are [option bool].  [status] and [state] are
    strings when present (the schema types [status] as [String]). *)

Record Card := mkCard {
  cd__id : option string;
  cd_name : option string;
  cd_initials : option string;
  cd_available : option bool;
  cd_isActive : option bool;
  cd_status : option string;
  cd_state : option string;
  cd_phone : option string;
}.

(** The schema's fields that only the directory reads
    ([Caretaker.model.js] lines 8-12). *)
Record DirFields := mkDirFields {
  df_status : string;          (** [default: "Available"] *)
  df_phone : string;           (** [required] *)
  df_initials : option string;
}.

(** The JSON of a stored document: mongoose's strict schema keeps no
    [available], [isActive] or [state] field. *)
Definition card_of (c : CaretakerRec) (f : DirFields) : Card :=
  mkCard (Some (cr_id c)) (Some (cr_name c)) (df_initials f) None None
         (Some (df_status f)) None (Some (df_phone f)).

(** The answer of [GET /caretaker] as the page's list. *)
Definition dir_cards (d : string -> DirFields) (ans : list (CaretakerRec * list PatientView)) : list Card :=
  (fun '(c, _) => card_of c (d (cr_id c))) <$> ans.

(** The same answer as the chat screen's contacts (the documents carry no
    [hasNewMsg] nor [lastMessageTime]; [type] is set by [on_lists]). *)
Definition contact_of_doc (c : CaretakerRec) : Contact :=
  mkContact (cr_id c) (cr_name c) "caretaker" false None.

Definition dir_contacts (ans : list (CaretakerRec * list PatientView)) : list Contact :=
  (fun '(c, _) => contact_of_doc c) <$> ans.

(** ** [colorMap] and the accent (lines 20-29) *)

Definition color_map (color : string) : option string :=
  if String.eqb color "blue" then Some "#3b82f6"
  else if String.eqb color "purple" then Some "#8b5cf6"
  else if String.eqb color "green" then Some "#22c55e"
  else if String.eqb color "yellow" then Some "#eab308"
  else if String.eqb color "red" then Some "#ef4444"
  else if String.eqb color "orange" then Some "#f97316"
  else None.

Definition accent (color : string) : string := default "#3b82f6" (color_map color).

(** ** [isAvailable] (lines 31-40) *)

Definition status_available (s : string) : bool :=
  let st := js_to_lower s in
  String.eqb st "available" || String.eqb st "online" || String.eqb st "active".

Definition is_available (c : Card) : bool :=
  match cd_available c with
  | Some b => b
  | None =>
      match cd_isActive c with
      | Some b => b
      | None => status_available (js_String (js_or (cd_status c) (js_or (cd_state c) (Some ""))))
      end
  end.

(** ** The page *)

Record CallPage := mkCallPage { cp_caretakers : list Card }.

Inductive CallOut :=
| OGetCaretakers                                      (** [API.get("/caretaker")] *)
| OTel (href : string)                                (** [window.location.href = "tel:..."] *)
| OPostCall (caretakerId : option string)             (** [API.post("/stats/call", ...)] *)
| ONavChat (caretakerId : option string) (caretakerName : option string).

Inductive CallEvent :=
| CMount
| CListAnswer (r : HttpResult (option (list Card)))   (** [res.data], [None] when falsy *)
| CEmergency
| CVoice (i : nat)                                    (** the voice button of card [i] *)
| CCallAnswer (r : HttpResult unit)
| CMessage (i : nat).                                 (** the message button of card [i] *)

(** [const emergencyNumber = "9842578618" || "9787156029"] (line 82). *)
Definition emergency_number : string :=
  if js_truthy "9842578618" then "9842578618" else "9787156029".

(** [handleVoiceCall] (lines 43-56): the dialer, then the call log; the
    log's answer only reaches the console. *)
Definition handle_voice_call (c : Card) : list CallOut :=
  if negb (is_available c) then []
  else [OTel ("tel:" ++ js_String (cd_phone c)); OPostCall (cd__id c)].

Definition call_step (p : CallPage) (ev : CallEvent) : CallPage * list CallOut :=
  match ev with
  | CMount => (p, [OGetCaretakers])
  | CListAnswer (Ok data) => (mkCallPage (default [] data), [])
  | CListAnswer (Err _) => (p, [])                    (** no [catch]: the list stays *)
  | CEmergency => (p, [OTel ("tel:" ++ emergency_number)])
  | CVoice i =>
      match cp_caretakers p !! i with
      | Some c => (p, if is_available c then handle_voice_call c else [])
      | None => (p, [])
      end
  | CCallAnswer _ => (p, [])
  | CMessage i =>
      match cp_caretakers p !! i with
      | Some c => (p, [ONavChat (cd__id c) (cd_name c)])
      | None => (p, [])
      end
  end.

Fixpoint call_run (p : CallPage) (es : list CallEvent) : CallPage * list CallOut :=
  match es with
  | [] => (p, [])
  | e :: es' => let '(p1, o1) := call_step p e in let '(p2, o2) := call_run p1 es' in (p2, o1 ++ o2)
  end.

(** ** A card as drawn (lines 105-165) *)

Record CardView := mkCardView {
  cv_avatar : string;        (** [initials || name?.charAt(0)?.toUpperCase() || "?"] *)
  cv_dimmed : bool;          (** [opacity-75] *)
  cv_call_enabled : bool;    (** [disabled={!isAvailable(caretaker)}] *)
  cv_call_background : string;
}.

Definition card_view (color : string) (c : Card) : CardView :=
  let av := js_or (cd_initials c) ((fun n => js_to_upper (substring 0 1 n)) <$> cd_name c) in
  mkCardView (if js_truthy_opt av then js_String av else "?")
             (negb (is_available c)) (is_available c)
             (if is_available c then accent color else "#ccc").

(** ** Lemmas *)

Module DirectoryLemmas.

(** A stored document's [status] is what [isAvailable] tests. *)
Lemma card_of_available c f : is_available (card_of c f) = status_available (df_status f).
Proof. unfold is_available, js_or, js_truthy_opt. simpl. by destruct (df_status f). Qed.

Lemma get_caretakers_lookup us cs i c :
  cs !! i = Some c -> get_caretakers us cs !! i = Some (c, populate us (cr_patients c)).
Proof. intros H. unfold get_caretakers. by rewrite list_lookup_fmap, H. Qed.

Lemma dir_cards_lookup d us cs i c :
  cs !! i = Some c -> dir_cards d (get_caretakers us cs) !! i = Some (card_of c (d (cr_id c))).
Proof. intros H. unfold dir_cards. by rewrite list_lookup_fmap, (get_caretakers_lookup us cs i c H). Qed.

(** The button tests [isAvailable] before [handleVoiceCall], which tests
    it again: the click is [handleVoiceCall] on the card. *)
Lemma voice_step p i c :
  cp_caretakers p !! i = Some c -> call_step p (CVoice i) = (p, handle_voice_call c).
Proof. intros H. simpl. rewrite H. unfold handle_voice_call. by destruct (is_available c). Qed.

(** The chat screen's tagged list of the answer is the caretakers' contacts. *)
Lemma chat_caretakers_of_answer us cs :
  (fun x => mkContact (ct_id x) (ct_name x) "caretaker" (ct_hasNewMsg x) (ct_last x))
    <$> dir_contacts (get_caretakers us cs) = contact_of_doc <$> cs.
Proof. induction cs as [|c cs IH]; [done|]. cbn. f_equal. exact IH. Qed.

(** With unique ids, the first contact with a caretaker's id is its own. *)
Lemma list_find_contact cs i c :
  NoDup (cr_id <$> cs) -> cs !! i = Some c ->
  list_find (fun x => ct_id x = cr_id c) (contact_of_doc <$> cs) = Some (i, contact_of_doc c).
Proof.
  intros Hnd Hi. apply list_find_Some. rewrite list_lookup_fmap, Hi. split_and!; [done|done|].
  intros j y Hj Hlt Heq. rewrite list_lookup_fmap in Hj.
  destruct (cs !! j) as [c'|] eqn:Hc'; simplify_eq/=.
  assert (j = i); [|lia].
  eapply NoDup_lookup; [exact Hnd| |]; rewrite list_lookup_fmap; [rewrite Hc'|rewrite Hi]; simpl; [|done].
  by rewrite Heq.
Qed.

End DirectoryLemmas.

(** ** Theorems *)

Module DirectoryTheorems.
Import DirectoryLemmas.

(** C17: The voice call of a caretaker listed by [GET /caretaker]: the
    click changes no state; for a caretaker whose stored [status] reads
    available it opens the dialer on the stored phone number and posts the
    call log, to [/api/stats/call], a path under which [server.js] mounts
    no router (so the log always fails with a 404 that only reaches the
    console); for any other status the button is disabled and does
    nothing. *)
Theorem voice_call_cases us cs d i c :
  cs !! i = Some c ->
  let p := mkCallPage (dir_cards d (get_caretakers us cs)) in
  let f := d (cr_id c) in
  (call_step p (CVoice i)).1 = p /\
  (status_available (df_status f) = true ->
     (call_step p (CVoice i)).2 = [OTel ("tel:" ++ df_phone f); OPostCall (Some (cr_id c))] /\
     dispatch MPost (api_path "/stats/call") = ([], None)) /\
  (status_available (df_status f) = false -> (call_step p (CVoice i)).2 = []).
Proof.
  intros Hi p f. rewrite (voice_step p i _ (dir_cards_lookup d us cs i c Hi)).
  unfold handle_voice_call. rewrite card_of_available. fold f.
  split_and!; [done| |]; intros ->; done.
Qed.

(** C18: The message button of a listed caretaker navigates to [/chat]
    with the caretaker's id and name; the chat screen, loading the same
    [GET /caretaker] answer with that id in its location state, opens
    that caretaker's conversation and requests its history (ids are
    unique in the collection). *)
Theorem message_opens_conversation us cs d i c st users :
  NoDup (cr_id <$> cs) -> cs !! i = Some c ->
  let p := mkCallPage (dir_cards d (get_caretakers us cs)) in
  let r := on_lists st users (dir_contacts (get_caretakers us cs)) (Some (cr_id c)) in
  (call_step p (CMessage i)).2 = [ONavChat (Some (cr_id c)) (Some (cr_name c))] /\
  ui_active r.1 = Some (contact_of_doc c) /\
  exists g, OGetMessages g (cr_id c) "caretaker" ∈ r.2.
Proof.
  intros Hnd Hi p r. split.
  { simpl. by rewrite (dir_cards_lookup d us cs i c Hi). }
  subst r. unfold on_lists. rewrite chat_caretakers_of_answer, (list_find_contact cs i c Hnd Hi).
  destruct (after_caretakers _ _) as [st1 o1]. unfold after_active, history_effect. simpl.
  split; [done|]. eexists. apply elem_of_app. right. by left.
Qed.

(** [GET /caretaker], open to any authenticated user or caretaker,
    answers every stored caretaker document with its [password] field
    (no [select("-password")]), while [caretakerLogin] clears the
    password in its answer. *)
Theorem directory_exposes_passwords `{Bcrypt} `{JwtSigner} secret us cs now e pw c :
  c ∈ cs ->
  (exists pv, (c, pv) ∈ get_caretakers us cs) /\
  (forall cs' tok c', caretaker_login secret cs now e pw = (cs', Ok (tok, c')) -> cr_password c' = "").
Proof.
  intros Hc. split.
  - exists (populate us (cr_patients c)). unfold get_caretakers. apply list_elem_of_fmap. by exists c.
  - intros cs' tok c'. unfold caretaker_login.
    destruct (find_caretaker_by_email e cs) as [k|]; [|by intros [=]].
    destruct (compare_password (cr_password k) pw) as [[]|]; by inversion 1.
Qed.

End DirectoryTheorems.

(** ** Witnesses: a directory of two caretakers, one available *)

Module DirectoryWitness.
Import Codec AccountWitness ClientWitness CaretakerWitness DirectoryTheorems.

#[local] Instance bcrypt_2a : Bcrypt := demo_bcrypt "$2a$".

Definition w_dana : CaretakerRec :=
  mkCaretaker "64b7f0c2a1b2c3d4e5f6071b" "Dana" "dana@example.org" "danapass" []
    (mkCtProfile 0 0 0 0 []) default_settings.

Definition w_carers : list CaretakerRec := [w_carl; w_dana].

Definition w_dir (id : string) : DirFields :=
  if String.eqb id (cr_id w_carl) then mkDirFields "Available" "9000000001" (Some "CL")
  else mkDirFields "offline" "9000000002" None.

Lemma voice_call_cases_witness :
  let p := mkCallPage (dir_cards w_dir (get_caretakers [] w_carers)) in
  (call_step p (CVoice 0)).1 = p /\
  (status_available "Available" = true ->
     (call_step p (CVoice 0)).2 = [OTel ("tel:" ++ "9000000001"); OPostCall (Some (cr_id w_carl))] /\
     dispatch MPost (api_path "/stats/call") = ([], None)) /\
  (status_available "Available" = false -> (call_step p (CVoice 0)).2 = []).
Proof. apply (voice_call_cases [] w_carers w_dir 0 w_carl). reflexivity. Defined.

Lemma message_opens_conversation_witness :
  let p := mkCallPage (dir_cards w_dir (get_caretakers [] w_carers)) in
  let r := on_lists w_ready [] (dir_contacts (get_caretakers [] w_carers)) (Some (cr_id w_dana)) in
  (call_step p (CMessage 1)).2 = [ONavChat (Some (cr_id w_dana)) (Some (cr_name w_dana))] /\
  ui_active r.1 = Some (contact_of_doc w_dana) /\
  exists g, OGetMessages g (cr_id w_dana) "caretaker" ∈ r.2.
Proof. apply (message_opens_conversation [] w_carers w_dir 1 w_dana w_ready []); concrete. Defined.

Lemma directory_exposes_passwords_witness :
  (exists pv, (w_dana, pv) ∈ get_caretakers [] w_carers) /\
  (forall cs' tok c', caretaker_login (Some w_key) w_carers 10 "dana@example.org" (Some "danapass") = (cs', Ok (tok, c')) ->
     cr_password c' = "").
Proof. apply (directory_exposes_passwords (Some w_key) [] w_carers 10 _ _ w_dana). right. left. Defined.

End DirectoryWitness.
