(* ===== verification/Contact.v ===== *)
(** * Contact form and daily reminders: [server.js] and [Pages/Contact.jsx]

    The server's [POST /api/contact] (server.js lines 145-174) checks the
    three fields, then mails a notice to the support address and an
    acknowledgement to the sender through [sendBrevoEmail] (lines
    119-140); the daily job (lines 193-219) mails, and pushes, a reminder
    to every user whose notification settings ask for one.
    [sendBrevoEmail] and [sendPushNotification] catch every error of the
    external service and only log it: a delivery is the result of the
    parameter [deliver], and it never reaches the caller.

    The page [Contact.jsx] pre-fills name and e-mail from the stored
    account copy, posts the form with the stored token, and shows the
    server's message; each request is an output and its answer an event
    that names it, since the form can be sent again while a request is
    pending. *)

From Stdlib Require Import Ascii String ZArith List.
From stdpp Require Import base list gmap strings.
From S2P Require Import Prelude JsString Account Routing CaretakerSettings.

(** A line break of the HTML templates followed by their indentation. *)
Definition tpl_nl : string := String (ascii_of_nat 10) "       ".

(** ** [sendBrevoEmail] (lines 119-140)

    An attempted mail with whether Brevo accepted it; both cases resolve
    the promise. *)
Definition send_brevo_email (deliver : Mail -> bool) (to subject html : string)
    : (Mail * bool) * result string unit :=
  let m := mkMail to subject html in ((m, deliver m), Ok tt).

(** ** [POST /api/contact] (lines 145-174) *)

Definition admin_address : string := "care.mindmate@gmail.com".

Definition admin_subject (name : string) : string := "📩 New Contact Message from " ++ name.

Definition admin_html (name email message : string) : string :=
  "<p><strong>Name:</strong> " ++ name ++ "</p>" ++ tpl_nl ++
  "<p><strong>Email:</strong> " ++ email ++ "</p>" ++ tpl_nl ++
  "<p><strong>Message:</strong> " ++ message ++ "</p>".

Definition ack_subject : string := "Thanks for contacting MindMate 💜".

Definition ack_html (name : string) : string :=
  "<p>Hi " ++ name ++ ",</p>" ++ tpl_nl ++
  "<p>Thank you for reaching out to <strong>MindMate</strong>. We’ve received your message and will reply shortly.</p>" ++ tpl_nl ++
  "<p>Warm regards,<br/>MindMate Support Team</p>".

Definition admin_mail (name email message : string) : Mail :=
  mkMail admin_address (admin_subject name) (admin_html name email message).

Definition ack_mail (name email : string) : Mail := mkMail email ack_subject (ack_html name).

(** The two [await]s inside one [try]: an error of either would answer
    500. *)
Definition contact (deliver : Mail -> bool) (name email message : option string)
    : list (Mail * bool) * HttpResult string :=
  match name, email, message with
  | Some n, Some e, Some m =>
      if js_truthy n && js_truthy e && js_truthy m then
        let '(a1, r1) := send_brevo_email deliver admin_address (admin_subject n) (admin_html n e m) in
        match r1 with
        | Err _ => ([a1], Err (500, "Failed to send contact message"))
        | Ok _ =>
            let '(a2, r2) := send_brevo_email deliver e ack_subject (ack_html n) in
            match r2 with
            | Err _ => ([a1; a2], Err (500, "Failed to send contact message"))
            | Ok _ => ([a1; a2], Ok "Contact message sent successfully!")
            end
        end
      else ([], Err (400, "All fields required"))
  | _, _, _ => ([], Err (400, "All fields required"))
  end.

(** The reply as the page receives it: [res.json({ message })]. *)
Definition contact_answer (r : HttpResult string) : HttpResult (option string) :=
  match r with Ok m => Ok (Some m) | Err e => Err e end.

(** ** The daily job (lines 176-219) *)

Inductive Notice :=
| NMail (m : Mail) (delivered : bool)
| NPush (token : string) (body : string).

(** A user's [settings.notifications] as stored: the schema's defaults
    (e-mail on, SMS and push off) when the settings were never saved. *)
Definition notif_of (us : UserSettings) (u : UserRec) : bool * bool * bool :=
  sv_notif (default default_settings_val (us !! u_id u)).

Definition reminder_message (u : UserRec) : string :=
  "Hello " ++ (if js_truthy (u_name u) then u_name u else "MindMate User") ++
  "! 🌞 Don't forget to log in to MindMate today!".

Definition reminder_mail (u : UserRec) : Mail :=
  mkMail (u_email u) "MindMate Daily Login Reminder 🌞" ("<p>" ++ reminder_message u ++ "</p>").

Section Reminders.
(** [user.pushToken] as the document shows it. *)
Variable push_token : UserRec -> option string.
Variable deliver : Mail -> bool.

(** The body of the loop (lines 204-212). *)
Definition reminders_for (u : UserRec) (n : bool * bool * bool) : list Notice :=
  let '(email, _, push) := n in
  (if email then [NMail (reminder_mail u) (deliver (reminder_mail u))] else []) ++
  (if push then
     match push_token u with
     | Some t => if js_truthy t then [NPush t (reminder_message u)] else []
     | None => []
     end
   else []).

(** [User.find({ $or: [{ email: true }, { push: true }] })] and the loop;
    no iteration can throw, since both senders catch. *)
Definition daily_reminders (db : AccDb) (us : UserSettings) : list Notice :=
  List.flat_map (fun u => let '(e, s, p) := notif_of us u in
                          if e || p then reminders_for u (e, s, p) else []) (users db).

End Reminders.

(** The users schema (User.model.js lines 36-69) declares no [pushToken]:
    mongoose's strict mode never stores nor returns one. *)
Definition schema_push_token (u : UserRec) : option string := None.

(** ** The page ([Contact.jsx] lines 11-62) *)

Record ContactPage := mkContactPage {
  kp_name : string;           (** [formData.name] *)
  kp_message : string;        (** [formData.message] *)
  kp_email : string;          (** [userEmail] *)
  kp_status : string;
  kp_store : Storage;
  kp_sent : list string;      (** [formData.name] as each request's closure saw it *)
}.

Definition kp_with_form n m p := mkContactPage n m (kp_email p) (kp_status p) (kp_store p) (kp_sent p).
Definition kp_with_email e p := mkContactPage (kp_name p) (kp_message p) e (kp_status p) (kp_store p) (kp_sent p).
Definition kp_with_status s p := mkContactPage (kp_name p) (kp_message p) (kp_email p) s (kp_store p) (kp_sent p).

Definition contact_page0 (s : Storage) : ContactPage := mkContactPage "" "" "" "" s [].

Inductive ContactOut :=
| OContactPost (req : nat) (authorization : string) (name email message : string).

Inductive ContactEvent :=
| KMount
| KName (v : string)
| KMessage (v : string)
| KSubmit
| KAnswer (req : nat) (r : HttpResult (option string)).  (** [data.message], or the error's *)

(** [x || ""] on a field of the parsed account. *)
Definition field_or_empty (o : gmap string string) (k : string) : string :=
  match o !! k with Some v => if js_truthy v then v else "" | None => "" end.

(** [`Bearer ${token || ""}`]. *)
Definition bearer (s : Storage) : string :=
  "Bearer " ++ js_String (js_or (get_item "token" s) (Some "")).

Section Page.
Context `{JsonCodec}.

Definition contact_step (p : ContactPage) (ev : ContactEvent) : ContactPage * list ContactOut :=
  match ev with
  | KMount =>                                           (* lines 20-31 *)
      match get_item "user" (kp_store p) with
      | Some t =>
          if js_truthy t then
            match json_parse t with
            | Some o => (kp_with_form (field_or_empty o "name") (kp_message p)
                           (kp_with_email (field_or_empty o "email") p), [])
            | None => (p, [])
            end
          else (p, [])
      | None => (p, [])
      end
  | KName v => (kp_with_form v (kp_message p) p, [])
  | KMessage v => (kp_with_form (kp_name p) v p, [])
  | KSubmit =>                                          (* lines 40-56; [required] on both inputs *)
      if js_truthy (kp_name p) && js_truthy (kp_message p) then
        (mkContactPage (kp_name p) (kp_message p) (kp_email p) "Sending..." (kp_store p) (kp_sent p ++ [kp_name p]),
         [OContactPost (length (kp_sent p)) (bearer (kp_store p)) (kp_name p) (kp_email p) (kp_message p)])
      else (p, [])
  | KAnswer i r =>                                      (* lines 56-64 *)
      match kp_sent p !! i with
      | None => (p, [])
      | Some n =>
          match r with
          | Ok data =>
              (kp_with_status (if js_truthy_opt data then js_String data else "Message sent")
                 (kp_with_form n "" p), [])
          | Err (_, msg) =>
              (kp_with_status (if js_truthy msg then msg else "Failed to send message. Please try again later.") p, [])
          end
      end
  end.

Fixpoint contact_run (p : ContactPage) (es : list ContactEvent) : ContactPage * list ContactOut :=
  match es with
  | [] => (p, [])
  | e :: es' => let '(p1, o1) := contact_step p e in let '(p2, o2) := contact_run p1 es' in (p2, o1 ++ o2)
  end.

End Page.

(** ** Lemmas *)

Module ContactLemmas.

(** [POST /api/contact] answers 400 exactly when a field is missing or
    empty; otherwise it attempts the notice then the acknowledgement and
    answers success, whatever Brevo did with them: no error of the mail
    service reaches the handler's [catch]. *)
Lemma contact_spec deliver name email message :
  contact deliver name email message =
  match name, email, message with
  | Some n, Some e, Some m =>
      if js_truthy n && js_truthy e && js_truthy m then
        ([(admin_mail n e m, deliver (admin_mail n e m)); (ack_mail n e, deliver (ack_mail n e))],
         Ok "Contact message sent successfully!")
      else ([], Err (400, "All fields required"))
  | _, _, _ => ([], Err (400, "All fields required"))
  end.
Proof. by destruct name, email, message. Qed.

(** The job's filter is implied by the loop's own tests. *)
Lemma daily_reminders_flat pt deliver db us :
  daily_reminders pt deliver db us = List.flat_map (fun u => reminders_for pt deliver u (notif_of us u)) (users db).
Proof.
  unfold daily_reminders. induction (users db) as [|u l IH]; [done|]. cbn [List.flat_map].
  f_equal; [|exact IH]. destruct (notif_of us u) as [[e s] p]. by destruct e, p.
Qed.

(** A mounted page holds the stored account's name and e-mail. *)
Lemma contact_mount `{JsonCodecLaws} o p :
  get_item "user" (kp_store p) = Some (json_stringify o) ->
  (contact_step p KMount).1 = kp_with_form (field_or_empty o "name") (kp_message p)
                                (kp_with_email (field_or_empty o "email") p).
Proof. intros Hs. simpl. by rewrite Hs, json_stringify_truthy, json_parse_stringify. Qed.

Lemma field_or_empty_truthy o k v : o !! k = Some v -> js_truthy v = true -> field_or_empty o k = v.
Proof. intros Hk Hv. unfold field_or_empty. by rewrite Hk, Hv. Qed.

End ContactLemmas.

(** ** Theorems *)

Module ContactTheorems.
Import ContactLemmas.

(** C20: The contact form, from the page to the mail service and back: a
    page mounted on a stored account with a name and an e-mail, given a
    message and submitted, posts exactly that name, e-mail and message;
    the server attempts the notice to the support address and then the
    acknowledgement to the sender and answers success whether or not
    Brevo delivered either; on that answer the page shows the server's
    message and clears the message field. *)
Theorem contact_sent_from_page `{JsonCodecLaws} deliver o s n e m :
  get_item "user" s = Some (json_stringify o) -> o !! "name" = Some n -> o !! "email" = Some e ->
  js_truthy n = true -> js_truthy e = true -> js_truthy m = true ->
  let r := contact_run (contact_page0 s) [KMount; KMessage m; KSubmit] in
  let a := contact deliver (Some n) (Some e) (Some m) in
  r.2 = [OContactPost 0 (bearer s) n e m] /\
  a = ([(admin_mail n e m, deliver (admin_mail n e m)); (ack_mail n e, deliver (ack_mail n e))],
       Ok "Contact message sent successfully!") /\
  let p := (contact_step r.1 (KAnswer 0 (contact_answer a.2))).1 in
  kp_status p = "Contact message sent successfully!" /\ kp_name p = n /\ kp_message p = "".
Proof.
  intros Hs Hn He Htn Hte Htm r a.
  assert (Hr : r = (mkContactPage n m e "Sending..." s [n], [OContactPost 0 (bearer s) n e m])).
  { subst r. simpl. rewrite Hs, json_stringify_truthy, json_parse_stringify. simpl.
    rewrite (field_or_empty_truthy o "name" n Hn Htn), (field_or_empty_truthy o "email" e He Hte).
    by rewrite Htn, Htm. }
  assert (Ha : a = ([(admin_mail n e m, deliver (admin_mail n e m)); (ack_mail n e, deliver (ack_mail n e))],
                    Ok "Contact message sent successfully!")) by (subst a; by rewrite contact_spec, Htn, Hte, Htm).
  rewrite Hr, Ha. by split_and!.
Qed.

(** C21: The daily job sends exactly one reminder mail to each user whose
    stored settings have e-mail notifications on, in the collection's
    order, and nothing else: no push notification is ever sent, even to
    users who turned push on, because the users schema has no
    [pushToken]. *)
Theorem daily_reminders_mail_only deliver db us :
  daily_reminders schema_push_token deliver db us =
  (fun u => NMail (reminder_mail u) (deliver (reminder_mail u)))
    <$> List.filter (fun u => (notif_of us u).1.1) (users db).
Proof.
  rewrite daily_reminders_flat. induction (users db) as [|u l IH]; [done|]. cbn [List.flat_map List.filter].
  destruct (notif_of us u) as [[e s] p]. simpl. rewrite IH. by destruct e, p.
Qed.

(** Without a stored account copy the e-mail field stays empty, the
    server answers 400 and the page shows its message. *)
Theorem contact_without_account `{JsonCodec} deliver s n m :
  get_item "user" s = None -> js_truthy n = true -> js_truthy m = true ->
  let r := contact_run (contact_page0 s) [KMount; KName n; KMessage m; KSubmit] in
  r.2 = [OContactPost 0 (bearer s) n "" m] /\
  contact deliver (Some n) (Some "") (Some m) = ([], Err (400, "All fields required")) /\
  kp_status (contact_step r.1 (KAnswer 0 (contact_answer (Err (400, "All fields required"))))).1
    = "All fields required".
Proof. intros Hs Hn Hm. simpl. rewrite Hs. simpl. rewrite Hn, Hm. simpl. destruct n; [done|]. done. Qed.

(** The answer of a request resets the name field to the name the form
    had when that request was sent ([formData] of the handler's closure),
    dropping an edit made while it was pending. *)
Theorem contact_answer_restores_sent_name `{JsonCodec} p n' r :
  js_truthy (kp_name p) = true -> js_truthy (kp_message p) = true -> (forall e, r <> Err e) ->
  let p1 := (contact_step p KSubmit).1 in
  let p2 := (contact_step p1 (KName n')).1 in
  kp_name (contact_step p2 (KAnswer (length (kp_sent p)) r)).1 = kp_name p.
Proof.
  intros Hn Hm Hr. simpl. rewrite Hn, Hm. simpl.
  rewrite lookup_app_r, Nat.sub_diag by lia. simpl.
  destruct r as [d|e]; [done|by destruct (Hr e)].
Qed.

End ContactTheorems.

(** ** Witness: Ann writes while the mail service is down *)

Module ContactWitness.
Import DemoJson ContactTheorems.

Definition w_account : gmap string string := <["name" := "Ann"]> (<["email" := "ann@example.org"]> ∅).
Definition w_store : Storage := set_item "user" (json_stringify w_account) (set_item "token" "tokA" ∅).
Definition w_down : Mail -> bool := fun _ => false.

Lemma contact_sent_from_page_witness :
  let r := contact_run (contact_page0 w_store) [KMount; KMessage "Hello"; KSubmit] in
  let a := contact w_down (Some "Ann") (Some "ann@example.org") (Some "Hello") in
  r.2 = [OContactPost 0 (bearer w_store) "Ann" "ann@example.org" "Hello"] /\
  a = ([(admin_mail "Ann" "ann@example.org" "Hello", false); (ack_mail "Ann" "ann@example.org", false)],
       Ok "Contact message sent successfully!") /\
  let p := (contact_step r.1 (KAnswer 0 (contact_answer a.2))).1 in
  kp_status p = "Contact message sent successfully!" /\ kp_name p = "Ann" /\ kp_message p = "".
Proof. refine (contact_sent_from_page w_down w_account w_store "Ann" "ann@example.org" "Hello" _ _ _ _ _ _); concrete. Defined.

End ContactWitness.
