(* ===== verification/Layout.v ===== *)
(** * The user layout: [Component/Layout.jsx]

    The frame of every user page ([App.jsx] wraps the user routes in it):
    a top navbar whose brand links to [/home] and whose six links lead to
    the user pages, and a bottom bar of five links on small screens.  A
    link is a [<Link to>]: the router resolves its path with the guards of
    [Routing.v]. *)

From Stdlib Require Import Ascii String List.
From stdpp Require Import base list gmap strings.
From S2P Require Import Prelude JsString Routing.

(** The navbar: the brand (line 13) and the [Nav.Link]s (lines 30-47). *)
Definition navbar_links : list string :=
  ["/home"; "/games"; "/chat"; "/call"; "/contact"; "/settings"; "/profile"].

(** The mobile bottom bar (lines 68-93). *)
Definition bottom_links : list string := ["/home"; "/games"; "/chat"; "/call"; "/profile"].

Definition layout_links : list string := navbar_links ++ bottom_links.

(** ** Lemmas *)

Module LayoutLemmas.

(** Every link of the layout is a user page of the route table. *)
Lemma layout_links_user_pages :
  Forall (fun l => exists pg, match_route l = (GProtected "user", pg) /\ pg <> NotFoundPage) layout_links.
Proof. repeat constructor; eexists; (split; [vm_compute; reflexivity|discriminate]). Qed.

(** A user page renders at once for a user session. *)
Lemma user_page_renders st l pg :
  match_route l = (GProtected "user", pg) ->
  js_truthy_opt (get_item "token" st) = true -> get_item "userType" st = Some "user"%string ->
  navigate 1 st l = Some pg.
Proof. intros Hr Ht Hu. simpl. unfold resolve. rewrite Hr. simpl. unfold protected_route. by rewrite Ht, Hu. Qed.

(** For a caretaker session a user page sends to the caretaker home,
    which renders. *)
Lemma user_page_caretaker st l pg :
  match_route l = (GProtected "user", pg) ->
  js_truthy_opt (get_item "token" st) = true -> get_item "userType" st = Some "caretaker"%string ->
  navigate 2 st l = Some CarehomePage.
Proof.
  intros Hr Ht Hu. cbn [navigate]. unfold resolve at 1. rewrite Hr. cbn [guard_result].
  unfold protected_route at 1. rewrite Ht, Hu. cbn [negb item_is String.eqb Ascii.eqb Bool.eqb andb].
  cbn [navigate]. unfold resolve. route_compute. cbn [guard_result]. unfold protected_route. by rewrite Ht, Hu.
Qed.

End LayoutLemmas.

(** ** Theorems *)

Module LayoutTheorems.
Import LayoutLemmas.

(** Every link of the user layout leads to a page of its own, never to
    the not-found page: for a user session that page renders at once; for
    a caretaker session the guard sends it to [/caretaker/home], which
    renders. *)
Theorem layout_links_render st :
  js_truthy_opt (get_item "token" st) = true ->
  Forall (fun l => exists pg, pg <> NotFoundPage /\
            (get_item "userType" st = Some "user"%string -> navigate 1 st l = Some pg) /\
            (get_item "userType" st = Some "caretaker"%string -> navigate 2 st l = Some CarehomePage))
         layout_links.
Proof.
  intros Ht. eapply Forall_impl; [apply layout_links_user_pages|].
  intros l (pg & Hr & Hnf). exists pg. split_and!; [done|..]; intros Hu.
  - by apply user_page_renders.
  - by eapply user_page_caretaker.
Qed.

End LayoutTheorems.

(** ** Witness *)

Module LayoutWitness.
Import RoutingWitness LayoutTheorems.

Lemma layout_links_render_witness :
  Forall (fun l => exists pg, pg <> NotFoundPage /\
            (get_item "userType" w_user_session = Some "user"%string -> navigate 1 w_user_session l = Some pg) /\
            (get_item "userType" w_user_session = Some "caretaker"%string ->
               navigate 2 w_user_session l = Some CarehomePage))
         layout_links.
Proof. apply layout_links_render. reflexivity. Defined.

End LayoutWitness.
